(* ===== verification/_CoqProject ===== *)
-Q . S2P
Prelude.v
Float64.v
Session.v
Queue.v
QueueAsync.v
Alerts.v
Backend.v
Autocomplete.v
Records.v
Learning.v
SettingsForm.v
SettingsPage.v
Checklist.v
InspectionForm.v
Submission.v
Widgets.v
ReportView.v
Views.v
Clients.v
LoginScreen.v
Sharing.v
UserPage.v
Overview.v
Stats.v
OverviewView.v
PetroleumView.v
Shell.v
