(* ===== verification/Prelude.v ===== *)
(** * A verification development of Juba-app (SafetyCheck Pro)

    The program is a React/TypeScript fleet-inspection client
    ([src/src/App.tsx] and the views under [src/src/views/]) that talks
    to a Google Apps Script backend whose source ships inside the client
    as the string [BACKEND_SCRIPT_TEMPLATE] of [src/src/constants.ts]
    (lines 253-706).  The backend stores everything in spreadsheet tabs;
    the client reads a whole-workbook snapshot with GET and appends rows
    or issues control actions with POST.

    ** Parts of the program and how they interact

    - Persistent local store ([localStorage] keys
      [safetycheck_offline_queue], [sc_read_notifications],
      [sc_dismissed_notifications], ...): a field of the client state
      records, never a separate component with its own logic.
    - Offline submission queue ([handleGoogleSheetSubmit],
      [syncOfflineQueue], [handleOnline] in App.tsx): submit a payload
      directly or queue it, drain the queue head first.
    - Notification reconciliation ([fetchNotifications],
      [handleMarkNotificationRead], [handleDismissNotification],
      [handleGlobalAcknowledge], [handleClearAllNotifications]): derive
      alerts from rating columns, filter server-authored notifications
      by recipient, merge, sort, and keep read/dismissed/acknowledged ids.
    - Session and roles (LoginView.handleSubmit, the user normalisation
      of App.tsx's first effect, route protection, Sidebar): role
      normalisation and the role gates of the client.
    - Backend (the Apps Script [doPost]/[doGet] and their handlers):
      the spreadsheet as a map from tab names to rows.
    - Presentation helpers (AutocompleteInput formatting and keyboard
      navigation, form section navigation).

    ** Files (in dependency order) and what they prove

    - [Prelude] (this file): JavaScript values of sheet cells ([Cell]),
      the JS conversions the code relies on ([String(x)], [Number(x)],
      truthiness, [toLowerCase], [trim], [replace(/\s/g, '')],
      [Array.prototype.includes], [new Set]), the lemmas they share
      ([trim] is idempotent and commutes with [toLowerCase], [new Set]
      keeps every element once), the hint databases [juba] and
      [juba_rw] and the tactics of the development.
    - [Float64]: JavaScript numbers where the shown value depends on
      them: binary64 division and multiplication (Stdlib's
      [SpecFloat], at binary64's precision and range), [toFixed(0)] and
      [Math.round] on the exact value of a double, and the percentage
      [(good / total) * 100] both dashboards compute
      ([ratio_percent]).  Lemma: the two roundings agree on a product
      of counts ([toFixed0_math_round], [ratio_percent_nonneg]).
    - [Session]: the user record, [normalize_role] (LoginView.tsx), the
      role gates of App.tsx, the navigation state ([activeModule], the
      view mode of each inspection module, [currentSection]) with
      [handleNext], [handleBack], the Sidebar selection, the progress
      bar's jump to a section ([SECTIONS], [in_form]) and the route
      protection effect.  Theorems: role normalisation ignores case and
      white space and reads back every role name (used by C22); any sequence of
      navigation events keeps the form on a real section and a
      non-admin off the admin modules ([nav_run_ok]; its invariant
      [nav_run_inv] is used by C23).
    - [Queue]: the offline submission queue.  [Queue.Spec] is the
      abstract FIFO the spec describes; [Queue.Impl] follows App.tsx: the
      payload built by [handleGoogleSheetSubmit] from the form and the
      header schema of the module, the submission handler with its guards
      and its direct/queued/fallback branches, [syncOfflineQueue] with
      its per-item persistence and [isSyncing] guard, its three triggers
      and the reload on restart (with the initial script URL of
      [initial_script_url]), each handler run to completion.
      Theorems: no payload is ever lost or duplicated over any sequence of
      events (C1); a sync refines the abstract flush (C2); after any
      events, coming back online with a working network delivers
      everything accepted and empties the queue (C28).
    - [QueueAsync]: the same handlers cut at their [await]s into the
      steps of an interleaving relation [astep] over a world of in-flight
      tasks.  Theorems: when no handler starts while another is in
      flight, no payload is lost (C3); with real interleavings the code
      loses a submission made during a sync (C4) and delivers a record
      twice through the stale online listener (C5); whatever the
      interleaving, the calls in flight finish: every chain of
      continuations is finite, bounded by the work left, and stops only
      when nothing is in flight (C12, termination).
    - [Alerts]: [fetchNotifications] (alert derivation from rating
      columns, server notifications filtered by recipient, the "System
      Online" alert, the merge and the newest-first sort), and the
      handlers that mark read, dismiss, acknowledge and clear.
      [fetchNotifications] is split at its [await]: a call captures the
      dismissed and read ids of the render that created it
      ([NClosure]), and the machine [napp_step] holds the calls in
      flight and the 2.5 s timers of submissions, so completions
      interleave with the handlers in any order.  Theorems: a
      dismissal made when no pending call has the id undismissed keeps
      derived alerts with that id out of the feed for ever (C6), and one
      made while an older call is pending is undone
      ([dismissal_undone_by_stale_closure], finding); acknowledged ids
      are never derived (C7); the feed holds exactly the server
      notifications, the "System Online" alert and the alerts of the
      data rows, newest first (C11); clear-all marks everything once;
      action links respect the role; and the findings C8-C10,
      [server_read_offline_goes_local] and [blank_rating_is_critical].
    - [Backend]: the Apps Script on a spreadsheet state (a map from tab
      names to rows): [doPost] and its handlers (login, users, validation
      lists, acknowledgements, notifications, data rows) and [doGet].
      Theorems: the snapshot never contains [Users] (C15); data tabs are
      served as a bounded window ending with the last row; posted
      rows are appended in order (C17); an acknowledgement reaches the
      next snapshot and is idempotent (C18); a second registration of a
      name is refused exactly when the sheet keeps the name as typed
      (C19), and the login after a registration succeeds exactly when it
      keeps the name and the password, with any role anyone asked for
      (C20), so names and passwords of digits fail (findings); renaming
      a user skips the duplicate check
      ([update_user_duplicates_username]) and a delete removes only the
      first row of a name (C35).  The exception [getRange] raises on a
      [Validation_Data] tab without columns is an error value
      ([updateValidationSingle] returns [None]): [updateValidationData]
      catches it, the user handlers do not.
    - [Autocomplete]: AutocompleteInput.tsx, the text field with
      suggestions: the option filter, [handleChange] with the
      registration-number and title-case formatting (regular-expression
      replacements written as the left-to-right scans JavaScript makes),
      [handleSelect], [handleKeyDown], the focus handler and the rendered
      drop-down ([ac_dropdown]).  Theorems: both formattings are
      idempotent; a formatted number has only capitals, digits
      and spaces, keeps the typed letters and digits and separates
      letters from digits ([format_reg_spec]); the highlighted option stays in range
      and Enter picks an option or the typed text ([ac_run_ok]); the list
      on screen highlights at most one row and Enter selects that row, or
      the typed text, and hides the list
      ([dropdown_enter_matches_highlight]).
    - [Records]: the client code that reads the snapshot back —
      [fetchHistory] (validation lists and history), [fetchSystemSettings],
      [handleSaveSettings] and the stored settings — composed with
      [Backend].  Theorems: a submitted inspection is the newest history
      item with the form's values (C30); saved settings come back at the
      next start exactly when they were saved to the built-in backend
      the start reads (C31), and settings saved offline or with a logo
      [localStorage] cannot hold are never sent and are replaced at the
      next start (C32, finding).
    - [SettingsForm]: SettingsView.tsx's edits of the settings state and
      the resize [compressImage] gives a logo (sizes as rationals):
      the logo stays within 300 x 300 with its aspect ratio, but a
      landscape logo can be taller than the 150 the code sets as
      maximum ([landscape_logo_exceeds_max_height], finding).
    - [SettingsPage]: the whole settings page as a step function: the
      inputs, the logo upload with its toasts around the asynchronous
      compression, the Save Configuration button running App.tsx's
      [handleSaveSettings] split at its [await] with
      [isSavingSettings], the Copy Code button and its timers, and what
      the page shows.  Theorems: the saving flag is set exactly while a
      POST is awaited and "Copied!" only with a timer pending
      ([page_run_inv]); a save from the idle page computes what
      [Records.handleSaveSettings] computes and re-enables the button
      once the [fetch] settles, the backend receiving exactly that POST
      (C14, refinement); "Copied!" reverts once the timers fire
      ([copied_label_reverts]); the copy button reports success when
      the clipboard refuses the write
      ([copy_reports_success_regardless], finding); a save during the
      compression stores the old logo
      ([save_during_compression_keeps_old_logo]).
    - [Learning]: the validation learning from a stored row to the lists
      the snapshot serves: what [getValues] reads after [setValue]
      ([set_cell]), the invariant that each list name heads one column,
      and that [handleData] then [doGet] offers every identifying value
      of the row, trimmed, in its list when the sheet keeps it as text
      (C38); a value of digits is stored as a number and written again
      at every submission ([digits_value_learned_as_number], finding).
    - [Checklist]: the four checklists of constants.ts, the checklist
      steps of the form ([renderInspectionSection] and the section switch
      of App.tsx) and the status buttons.  Theorem: every item is shown
      once and its answer reaches the submitted row (C40).
    - [InspectionForm]: the form object a new inspection starts from
      ([INITIAL_DATA], [startInspectionCommon]), the inputs of the seven
      steps and the field each writes.  Theorems: whatever is entered,
      the submitted row carries the record id, the start time, the
      logged-in user as inspector and an empty AI analysis, which no
      code fills (C27, finding); the General sheet drops the job card
      the first step asks for ([general_job_card_dropped], finding).
    - [Submission]: the summary step's Submit button and the timers of
      [handleGoogleSheetSubmit]: the status it sets, the button disabled
      until the timer resets the form, the navigation and inputs that
      keep working meanwhile.  Theorem: once a record is accepted, no
      second record leaves without a new signature, and the timer brings
      back an idle desk with a fresh form (C36).
    - [Widgets]: the signature pad (SignaturePad.tsx) as a state
      machine over its canvas, wired to the form's signature field; the
      status buttons of a checklist row (StatusButton.tsx); the PDF
      download of ReportViewerModal.tsx (file name and [isGenerating]).
      Theorems: a tap without a stroke saves a blank but non-empty
      signature that passes the submission guard (C34, finding); clearing
      the pad blocks submission until a stroke ends; the pressed status
      alone is highlighted; a new General inspection presets every item
      while the other checklists start blank; the spinner is on exactly
      while a PDF is generated; file names keep only letters, digits and
      [_]; the filled status button is the highlighted one
      ([status_buttons_view]); a stroke lands under the pointer only
      when the layout draws the 400-pixel canvas exactly 400 pixels wide
      ([stroke_under_pointer], finding).
    - [ReportView]: App.tsx's report state ([selectedReportData],
      [isReportModalOpen]), [handleViewReport], [handlePrint],
      [handleQuickPrint] with its timer, the modal's title, buttons and
      content, and the print-only copy [window.print] prints.  Theorems:
      the open modal prints what it shows, also through the download's
      fallback ([modal_prints_what_it_shows]); a viewed record is shown
      and printed on the active module's template
      ([viewed_record_printed]); two quick prints within half a second
      print the second record twice ([quick_prints_share_selection],
      finding).
    - [Views]: the Sidebar menu ([Module Sidebar]).  Theorems: the menu
      offers exactly the modules route protection allows (C26,
      equivalence); the menu highlights exactly one item for each module
      it offers ([menu_highlights_active]).
    - [Clients]: LoginView's [handleSubmit], the UserManagementView
      handlers and the session's login, logout and restore at start
      ([app_restart]), each request answered by [Backend.doPost].
      Theorems: a logged-in session survives a restart unchanged (C22);
      the first-start path creates an Admin, whose login then opens an
      Admin session exactly when the sheet keeps the name and password
      (C33); a delete removes the user from the list when names are
      unique ([delete_removes_user]), but not after a rename made a
      duplicate ([renamed_duplicate_survives_delete]); on any workbook
      whose [Validation_Data] tab has no column a registration creates
      the account but reports an error (C39, finding).
    - [LoginScreen]: the whole login screen as a state machine (its
      inputs, the registration and configuration controls, submissions
      through [Clients.lv_handleSubmit]) with the initial script URL of
      App.tsx.  Theorem: the built-in URL wins over the stored one, and
      no use of the login screen can change it or open the configuration
      panel, so an unreachable built-in backend locks everyone out (C24,
      finding).
    - [Sharing]: the UserManagementView page: its administrator gate,
      the table with the action buttons on every row but the signed-in
      user's, and the WhatsApp and e-mail share links
      ([handleShareWhatsApp], [handleShareEmail]) with
      [encodeURIComponent] written out on UTF-8 bytes.  Theorem: any
      request naming [get_users] receives every stored password, and
      the share links of the administrator's table carry it (C29,
      finding).
    - [UserPage]: the user management page as a state machine of the
      administrator's inputs, clicks and submissions (mount, Refresh, Add
      User, Edit, Delete, the form's inputs and role select, Back and
      Cancel, submit), each handler as [Clients] models it, with the
      texts of the form and the cells of the table.  Theorem: a form
      that edits sends [update_user] for a listed user other than the
      administrator, a form that creates sends [register_user], and a
      non-administrator changes nothing ([form_submits_listed_user]).
    - [Overview]: [fetchAllData] of OverviewDashboard.tsx on a parsed
      snapshot (its pass rate through [Float64]), the breakdown bars and
      the quick actions.  Theorems: its
      figures are consistent ([overview_stats_consistent]); the breakdown bars fill the width
      together ([breakdown_bars_fill]); the quick actions open the
      dashboards, not a new inspection ([quick_actions_open_dashboards]);
      every reader
      of a record (alerts, validation learning, history, dashboard) finds
      its columns where the submission writes them (C37).
    - [Stats]: the [stats] memo of App.tsx that the module dashboards
      show ("Total", "Compliance"), its percentage printed by
      [toFixed(0)].  Theorems: after any fetch the figures are the
      list's length and a percentage within half a point of the exact
      share (C16); for every ratio a fetch can produce, the module
      dashboards and the overview show the same figure, the exact
      percentage rounded half up except at eight exact halves, such as
      23 of 40, where the binary64 product falls just below the half and
      both show one point less (C13, finding; [compliance_half_down] on
      a concrete workbook).

    - [OverviewView]: the overview page around [fetchAllData]: its
      [stats] and [isLoading] state with the fetches of the mount effect
      and the refresh button in flight, completing in any order, and
      what it renders (the loading line, the KPI cards, the recent
      activity rows).  Theorems: once it has figures no run blanks them
      again ([figures_never_blank]); the rating colours of the table
      agree with the passed and critical counts
      ([activity_tones_counted]); a fetch started earlier and answered
      later replaces newer figures and the loading flag clears while a
      fetch is still awaited ([stale_fetch_wins], finding).
    - [PetroleumView]: the Petroleum dashboard ([Module Petroleum]):
      its search, its share links' result line and its render (cards fed
      by [Stats.stats], the Last 10 badge, the list's states and
      footer).  Theorems: a search throws on a record whose truck the
      sheet stores as a number (C21, finding); the result line of a
      record's share links agrees with the alert its rating raises,
      except that an unreadable rating is shared as a critical fail
      without any alert ([share_status_matches_alerts]); without a real
      search the list is the ten newest records, but a box holding only
      spaces labels them "Showing matching results"
      ([blank_search_labels], finding).
    - [Shell]: the App component's layout (App.tsx 1148-1390): the
      header title, the offline sync indicator that runs
      [syncOfflineQueue] by hand, the current section's badge, the
      progress bar, the page of the main area and the footer.
      Theorems: the indicator is inert while a sync runs, shows the
      number queued, and a click with a working network drains the queue
      in order and hides it (C25); after any navigation the main area
      shows exactly one page, never an admin page to a non-admin, the
      section badge never fails, and the bar marks the current step
      active and the earlier ones completed (C23).

    ** Bounds and fuel

    Every definition is structural: loops over queues, rows and
    characters recurse on the list or string they walk, so no fuel is
    needed and every handler is total.  The only bound of the program is
    the 200-row window of [doGet], which bounds a fetched history to 201
    items; the module dashboards' pass rate is checked by evaluation for
    every ratio up to that bound (C13, C16).  Row and column indices are
    [nat]: the sheets the code reads have no negative index and no width
    limit the code depends on.

    ** What is not modelled

    - Rendering (the JSX of App.tsx and of every view, beyond which
      inputs each form step shows and which page, rows and buttons the
      user table shows), toasts, the camera, the pixels of the
      signature pad (its canvas is a list of painted layers, [toDataURL] a
      parameter), the PDF and CSV contents of the reports (only the
      download's file name and spinner are modelled), the JPEG encoding
      of the logo in SettingsView, the Gemini
      analysis service (imported by App.tsx, never called): pure
      presentation or I/O without state the theorems could depend on.
    - The share links of the PetroleumDashboard (text for WhatsApp and
      mailto, beyond their result line) and the Sidebar's icons: they
      only compute what is displayed.
      The share links of the user table are modelled ([Sharing]): they
      carry a password.
    - The refresh after a sync ([fetchHistory] in the [finally] of
      [syncOfflineQueue]): a read that changes no stored data.
    - The lock of [doPost] ([tryLock]): requests are applied one at a
      time, which is what the lock would ensure; its result is ignored
      by the code, so a timed-out lock does not serialise (not modelled).
    - Spreadsheet formatting calls ([setFrozenRows], [setFontWeight]).

    ** Modelling choices

    - JS values read from sheets are [Cell]s: [undefined], [null],
      booleans, integers, strings.  Non-integer numbers are not modelled
      (the forms only write integer ratings); [Number(s)] on a string is
      modelled for optional sign and decimal digits, surrounding white
      space and the empty string; other spellings that JavaScript would
      read as a number (hex, exponent, fractions) are mapped to NaN.
    - Floating-point arithmetic appears where the displayed value
      depends on it: the module dashboards' pass rate is binary64
      division and multiplication ([SpecFloat]'s executable IEEE
      operations, round to nearest even), [toFixed(0)] and [Math.round]
      ([Float64]); the widths of the overview's bars, which are only
      drawn, are exact rationals.
    - Case conversion is the ASCII part of [toLowerCase]/[toUpperCase];
      [trim] and [\s] are the ASCII white-space characters.
    - [new Date(x).getTime()] is a parameter of the sections that use it
      (date parsing is not modelled); [None] stands for NaN.
    - The spreadsheet is a map from tab names to rows of cells;
      [getValues] pads every row to the widest one.  How Sheets converts
      a written value (a numeric string becomes a number, ...) is the
      parameter [store] of the backend.  Theorems assume of it only that
      the texts they are about are stored as written (the list names,
      the value learned, the settings), or state exactly when the code
      works in terms of [store] (C19, C20, C33); their witnesses run on
      [Backend.sheets_digits_store], which stores a text of digits as its
      number, as Sheets does.
    - Whether [localStorage.setItem] has room for the settings is a
      parameter of [handleSaveSettings] ([fits]), like the network.
    - The network is an oracle: each remote call takes its outcome from
      the environment, so every theorem holds for every network
      behaviour.
    - Async code is modelled twice: a sequential model where each
      handler runs to completion, and a step relation whose steps are the
      code between two [await]s, so interleavings are explicit.
*)

From stdpp Require Export base list strings pretty gmap relations.
From Stdlib Require Export Ascii ZArith Lia.
From Stdlib Require String.

Declare Scope juba_scope.
Delimit Scope juba_scope with juba.

Create HintDb juba.
Create Rewrite HintDb juba_rw.

(** ** JavaScript values of spreadsheet cells *)

Inductive Cell :=
| CUndef
| CNull
| CBool (b : bool)
| CNum (z : Z)
| CStr (s : string).

#[export] Instance Cell_eq_dec : EqDecision Cell.
Proof. solve_decision. Defined.

(** [row[i]] on a JavaScript array: [undefined] out of range. *)
Definition cell_at (row : list Cell) (i : nat) : Cell := default CUndef (row !! i).

(** [String(x)] *)
Definition js_string (c : Cell) : string :=
  match c with
  | CUndef => "undefined"
  | CNull => "null"
  | CBool true => "true"
  | CBool false => "false"
  | CNum z => pretty z
  | CStr s => s
  end.

(** JavaScript truthiness, as used by [x || d] and [if (x)]. *)
Definition js_truthy (c : Cell) : bool :=
  match c with
  | CUndef | CNull => false
  | CBool b => b
  | CNum z => negb (Z.eqb z 0)
  | CStr s => negb (String.eqb s "")
  end.

(** ** ASCII case conversion and white space *)

Definition ascii_lower (a : ascii) : ascii :=
  let n := nat_of_ascii a in
  if (65 <=? n)%nat && (n <=? 90)%nat then ascii_of_nat (n + 32) else a.

Definition ascii_upper (a : ascii) : ascii :=
  let n := nat_of_ascii a in
  if (97 <=? n)%nat && (n <=? 122)%nat then ascii_of_nat (n - 32) else a.

Fixpoint str_map (f : ascii -> ascii) (s : string) : string :=
  match s with
  | EmptyString => EmptyString
  | String a s' => String (f a) (str_map f s')
  end.

(** [s.toLowerCase()] and [s.toUpperCase()] *)
Definition to_lower : string -> string := str_map ascii_lower.
Definition to_upper : string -> string := str_map ascii_upper.

Fixpoint str_filter (p : ascii -> bool) (s : string) : string :=
  match s with
  | EmptyString => EmptyString
  | String a s' => if p a then String a (str_filter p s') else str_filter p s'
  end.

(** [s.replace(/\s/g, '')] *)
Definition strip_ws : string -> string := str_filter (fun a => negb (Ascii.is_space a)).

Fixpoint trim_start (s : string) : string :=
  match s with
  | EmptyString => EmptyString
  | String a s' => if Ascii.is_space a then trim_start s' else s
  end.

(** [s.trim()] *)
Definition trim (s : string) : string :=
  String.rev (trim_start (String.rev (trim_start s))).

(** [hay.includes(needle)] on strings. *)
Fixpoint str_prefix (p s : string) : bool :=
  match p, s with
  | EmptyString, _ => true
  | String a p', String b s' => Ascii.eqb a b && str_prefix p' s'
  | _, _ => false
  end.

Fixpoint str_contains (needle hay : string) : bool :=
  str_prefix needle hay ||
  match hay with EmptyString => false | String _ hay' => str_contains needle hay' end.

(** ** [Number(x)] on integers; [None] is NaN *)

Fixpoint digits_val (s : string) (acc : Z) : option Z :=
  match s with
  | EmptyString => Some acc
  | String a s' =>
      match Ascii.is_nat a with
      | Some d => digits_val s' (10 * acc + Z.of_nat d)%Z
      | None => None
      end
  end.

Definition parse_unsigned (s : string) : option Z :=
  match s with EmptyString => None | _ => digits_val s 0%Z end.

Definition parse_number (s : string) : option Z :=
  match trim s with
  | EmptyString => Some 0%Z
  | String "-" r => Z.opp <$> parse_unsigned r
  | String "+" r => parse_unsigned r
  | r => parse_unsigned r
  end.

Definition js_number (c : Cell) : option Z :=
  match c with
  | CUndef => None
  | CNull => Some 0%Z
  | CBool b => Some (if b then 1 else 0)%Z
  | CNum z => Some z
  | CStr s => parse_number s
  end.

(** ** Arrays of strings: [includes] and [new Set] *)

(** [l.includes(x)] *)
Definition includes (x : string) (l : list string) : bool := bool_decide (x ∈ l).

Notation "x '∈?' l" := (includes x l) (at level 40) : juba_scope.
Open Scope juba_scope.

(** [[...new Set(l)]]: first occurrences, in order. *)
Fixpoint set_insert_all (acc l : list string) : list string :=
  match l with
  | [] => acc
  | x :: l' => set_insert_all (if x ∈? acc then acc else acc ++ [x]) l'
  end.

Definition js_set (l : list string) : list string := set_insert_all [] l.

(** ** Tactics *)

(** Turn [includes] tests into membership and split on them. *)
Ltac unfold_includes := unfold includes in *.
Ltac case_includes := unfold_includes; repeat case_bool_decide.

(** ** Lemmas shared by the components *)

Lemma includes_true x l : x ∈? l = true <-> x ∈ l.
Proof. unfold includes. apply bool_decide_eq_true. Qed.

Lemma includes_false x l : x ∈? l = false <-> x ∉ l.
Proof. unfold includes. apply bool_decide_eq_false. Qed.

Lemma includes_app x l1 l2 : x ∈? (l1 ++ l2) = (x ∈? l1) || (x ∈? l2).
Proof.
  unfold includes. rewrite <- bool_decide_or.
  apply bool_decide_ext, elem_of_app.
Qed.

Lemma ascii_lower_idem a : ascii_lower (ascii_lower a) = ascii_lower a.
Proof. destruct a as [[] [] [] [] [] [] [] []]; reflexivity. Qed.

Lemma ascii_upper_idem a : ascii_upper (ascii_upper a) = ascii_upper a.
Proof. destruct a as [[] [] [] [] [] [] [] []]; reflexivity. Qed.

Lemma str_map_compose f g s : str_map f (str_map g s) = str_map (fun a => f (g a)) s.
Proof. induction s; simpl; congruence. Qed.

Lemma str_map_ext f g s : (forall a, f a = g a) -> str_map f s = str_map g s.
Proof. intros H. induction s; simpl; congruence. Qed.

Lemma to_lower_idem s : to_lower (to_lower s) = to_lower s.
Proof.
  unfold to_lower. rewrite str_map_compose. apply str_map_ext, ascii_lower_idem.
Qed.

Lemma to_upper_idem s : to_upper (to_upper s) = to_upper s.
Proof.
  unfold to_upper. rewrite str_map_compose. apply str_map_ext, ascii_upper_idem.
Qed.

#[export] Hint Rewrite to_lower_idem to_upper_idem : juba_rw.

(** *** [trim] *)

(** A string whose first character is not white space. *)
Definition starts_ok (s : string) : bool :=
  match s with EmptyString => true | String a _ => negb (Ascii.is_space a) end.

(** A string whose last character is not white space. *)
Definition ends_ok (s : string) : bool := starts_ok (String.rev s).

Lemma rev_rev_app s t : String.rev_app (String.rev_app s t) EmptyString = String.rev_app t s.
Proof. induction s as [|a s IH] in t |- *; [done|]. apply IH. Qed.

Lemma str_rev_involutive s : String.rev (String.rev s) = s.
Proof. apply rev_rev_app. Qed.

Lemma starts_rev_app s t u :
  s <> EmptyString -> starts_ok (String.rev_app s t) = starts_ok (String.rev_app s u).
Proof.
  induction s as [|a s IH] in t, u |- *; intros Hs; [done|]. simpl.
  destruct s as [|b s]; [done|]. by apply IH.
Qed.

Lemma trim_start_starts s : starts_ok (trim_start s) = true.
Proof.
  induction s as [|a s IH]; [done|]. simpl.
  by destruct (Ascii.is_space a) eqn:E; [|simpl; rewrite E].
Qed.

Lemma trim_start_ok s : starts_ok s = true -> trim_start s = s.
Proof. destruct s as [|a s]; [done|]. simpl. by destruct (Ascii.is_space a). Qed.

Lemma trim_start_ends s : ends_ok s = true -> ends_ok (trim_start s) = true.
Proof.
  unfold ends_ok, String.rev. induction s as [|a s IH]; [done|]. simpl.
  destruct (Ascii.is_space a) eqn:E; [|done]. intros H. apply IH.
  destruct s as [|b s]; [by simpl in H; rewrite E in H|].
  by rewrite (starts_rev_app _ _ (String a EmptyString)).
Qed.

(** [s.trim().trim() === s.trim()] *)
Lemma trim_idem s : trim (trim s) = trim s.
Proof.
  unfold trim. set (u := trim_start (String.rev (trim_start s))).
  assert (Hs : starts_ok u = true) by apply trim_start_starts.
  assert (He : ends_ok u = true).
  { apply trim_start_ends. unfold ends_ok. rewrite str_rev_involutive. apply trim_start_starts. }
  rewrite (trim_start_ok (String.rev u)) by done.
  rewrite str_rev_involutive. by rewrite trim_start_ok.
Qed.

Lemma str_map_rev_app f s t :
  str_map f (String.rev_app s t) = String.rev_app (str_map f s) (str_map f t).
Proof. induction s as [|a s IH] in t |- *; [done|]. simpl. by rewrite IH. Qed.

Lemma str_map_trim_start f s :
  (forall a, Ascii.is_space (f a) = Ascii.is_space a) ->
  str_map f (trim_start s) = trim_start (str_map f s).
Proof.
  intros Hf. induction s as [|a s IH]; [done|]. simpl. rewrite Hf.
  by destruct (Ascii.is_space a).
Qed.

Lemma is_space_lower a : Ascii.is_space (ascii_lower a) = Ascii.is_space a.
Proof. destruct a as [[] [] [] [] [] [] [] []]; reflexivity. Qed.

(** [toLowerCase] keeps white space, so it commutes with [trim]. *)
Lemma trim_to_lower s : trim (to_lower s) = to_lower (trim s).
Proof.
  unfold trim, to_lower, String.rev.
  repeat first [rewrite str_map_rev_app
               |rewrite str_map_trim_start by apply is_space_lower].
  reflexivity.
Qed.

#[export] Hint Rewrite trim_idem trim_to_lower : juba_rw.

#[export] Hint Resolve includes_true includes_false : juba.

(** A list split around one element is a singleton only when both sides
    are empty. *)
Lemma app_cons_singleton {A} (l1 l2 : list A) (x y : A) :
  l1 ++ x :: l2 = [y] -> l1 = [] /\ l2 = [] /\ x = y.
Proof. destruct l1 as [|a [|b l1]]; simpl; intros H; simplify_eq; done. Qed.

Lemma set_insert_all_elem acc l x : x ∈ set_insert_all acc l <-> x ∈ acc \/ x ∈ l.
Proof.
  revert acc. induction l as [|y l IH]; intros acc; simpl.
  - rewrite elem_of_nil. tauto.
  - rewrite IH, elem_of_cons. destruct (y ∈? acc) eqn:Hy.
    + apply includes_true in Hy. split; [tauto|]. intros [?|[->|?]]; auto.
    + rewrite elem_of_app, list_elem_of_singleton. tauto.
Qed.

Lemma set_insert_all_nodup acc l : NoDup acc -> NoDup (set_insert_all acc l).
Proof.
  revert acc. induction l as [|y l IH]; intros acc Hacc; simpl; [done|].
  apply IH. destruct (y ∈? acc) eqn:Hy; [done|].
  apply includes_false in Hy. apply NoDup_app. split; [done|]. split.
  - intros z Hz ->%list_elem_of_singleton. done.
  - apply NoDup_singleton.
Qed.

(** [[...new Set(l)]] has the members of [l], each once. *)
Lemma js_set_spec l : (forall x, x ∈ js_set l <-> x ∈ l) /\ NoDup (js_set l).
Proof.
  split.
  - intros x. unfold js_set. rewrite set_insert_all_elem, elem_of_nil. tauto.
  - apply set_insert_all_nodup, NoDup_nil_2.
Qed.

Lemma last_drop {A} (l : list A) n : (n < length l)%nat -> last (drop n l) = last l.
Proof.
  revert n. induction l as [|x l IH]; intros n Hn; simpl in *; [lia|].
  destruct n as [|n]; simpl; [done|].
  rewrite IH by lia. destruct l as [|y l]; simpl in *; [lia|done].
Qed.

