(* ===== verification/Float64.v ===== *)
(** * JavaScript numbers: binary64 division, multiplication and rounding

    The two dashboards compute a percentage as
    [(passed / total) * 100] on JavaScript numbers, IEEE-754 binary64
    values with round-to-nearest-even arithmetic, and show it through
    [Math.round] (OverviewDashboard.tsx 74) or [toFixed(0)] (App.tsx 636).
    The arithmetic is Stdlib's [SpecFloat] at binary64's precision and
    exponent range: an executable, axiom-free definition of the IEEE
    operations.  The two roundings are written from their ECMAScript
    definitions on the exact value of the double. *)

From Stdlib Require Import SpecFloat.
From S2P Require Import Prelude.

Module Binary64.

Definition prec : Z := 53.
Definition emax : Z := 1024.

(** The JavaScript number of an integer (exact below [2^53]). *)
Definition of_Z (n : Z) : spec_float := binary_normalize prec emax n 0 false.

Definition div (x y : spec_float) : spec_float := SFdiv prec emax x y.
Definition mul (x y : spec_float) : spec_float := SFmul prec emax x y.

(** The integer nearest to [m * 2^e], the larger one on a tie
    ([up = true]) or the smaller one ([up = false]). *)
Definition round_mag (up : bool) (m : positive) (e : Z) : Z :=
  match e with
  | Zneg d =>
      let half := Z.shiftl 1 (Zpos d - 1) in
      let q := ((Zpos m + half) / Z.shiftl 1 (Zpos d))%Z in
      if up then q
      else if Z.eqb (Z.modulo (Zpos m + half) (Z.shiftl 1 (Zpos d))) 0 then (q - 1)%Z else q
  | _ => Z.shiftl (Zpos m) e
  end.

(** [x.toFixed(0)] as the integer it prints: [-] and the rounding of
    [-x] for a negative [x], the integer nearest to [x], the larger on a
    tie, otherwise; [None] for NaN and the infinities, printed as words. *)
Definition toFixed0 (x : spec_float) : option Z :=
  match x with
  | S754_zero _ => Some 0%Z
  | S754_finite s m e => Some (if s then (- round_mag true m e)%Z else round_mag true m e)
  | _ => None
  end.

(** [Math.round(x)]: the integer nearest to [x], the one closer to
    [+Infinity] on a tie; [None] for NaN and the infinities. *)
Definition math_round (x : spec_float) : option Z :=
  match x with
  | S754_zero _ => Some 0%Z
  | S754_finite s m e => Some (if s then (- round_mag false m e)%Z else round_mag true m e)
  | _ => None
  end.

(** The sign bit is clear (or the value is NaN). *)
Definition nonneg (x : spec_float) : bool :=
  match x with
  | S754_nan => true
  | S754_zero s | S754_finite s _ _ | S754_infinity s => negb s
  end.

End Binary64.

(** [(good / total) * 100] *)
Definition ratio_percent (good total : nat) : spec_float :=
  Binary64.mul (Binary64.div (Binary64.of_Z (Z.of_nat good)) (Binary64.of_Z (Z.of_nat total)))
               (Binary64.of_Z 100).

(** The exact percentage [100 * good / total] rounded half up: what the
    two dashboards mean to show. *)
Definition exact_percent (good total : nat) : Z :=
  ((200 * Z.of_nat good + Z.of_nat total) / (2 * Z.of_nat total))%Z.

(** ** Lemmas *)

Lemma round_aux_nonneg mx ex lx :
  Binary64.nonneg (binary_round_aux Binary64.prec Binary64.emax false mx ex lx) = true.
Proof.
  unfold binary_round_aux.
  destruct (shr_fexp _ _ _ _ _) as [r1 e1].
  destruct (shr_fexp _ _ _ _ _) as [r2 e2].
  destruct (shr_m r2); try reflexivity. by case_match.
Qed.

Lemma of_Z_nonneg n : (0 <= n)%Z -> Binary64.nonneg (Binary64.of_Z n) = true.
Proof.
  intros Hn. unfold Binary64.of_Z, binary_normalize. destruct n; [done| |lia].
  unfold binary_round. destruct (shl_align _ _ _). apply round_aux_nonneg.
Qed.

Lemma div_nonneg x y :
  Binary64.nonneg x = true -> Binary64.nonneg y = true -> Binary64.nonneg (Binary64.div x y) = true.
Proof.
  unfold Binary64.div, SFdiv. destruct x as [[]|[]| |[] mx ex]; destruct y as [[]|[]| |[] my ey];
    simpl; intros Hx Hy; try done.
  all: repeat case_match; apply round_aux_nonneg.
Qed.

Lemma mul_nonneg x y :
  Binary64.nonneg x = true -> Binary64.nonneg y = true -> Binary64.nonneg (Binary64.mul x y) = true.
Proof.
  unfold Binary64.mul, SFmul. destruct x as [[]|[]| |[] mx ex]; destruct y as [[]|[]| |[] my ey];
    simpl; intros Hx Hy; try done.
  all: apply round_aux_nonneg.
Qed.

(** On a number that is not negative the two roundings agree. *)
Lemma toFixed0_math_round x : Binary64.nonneg x = true -> Binary64.toFixed0 x = Binary64.math_round x.
Proof. destruct x as [s|s| |s m e]; simpl; try done. by destruct s. Qed.

Lemma ratio_percent_nonneg good total : Binary64.nonneg (ratio_percent good total) = true.
Proof. apply mul_nonneg; [apply div_nonneg|]; apply of_Z_nonneg; lia. Qed.
