(* ===== verification/Session.v ===== *)
(** * Session, roles and navigation

    Models the user record and its role normalisation (LoginView.tsx
    [handleSubmit], lines 63-79, and the same normalisation of a cached
    user in App.tsx lines 171-185), the role gates of App.tsx (submit,
    acknowledge, admin-only modules), the route protection effect
    (App.tsx 263-271) and the navigation state: active module, the
    dashboard/form mode of each inspection module and the form section
    ([handleNext], [handleBack], App.tsx 644-659). *)

From S2P Require Import Prelude.

(** ** Roles *)

Inductive Role := Admin | Inspector | Operations | Maintenance | Other.

#[export] Instance Role_eq_dec : EqDecision Role.
Proof. solve_decision. Defined.

(** The string stored in the session object for each role. *)
Definition role_name (r : Role) : string :=
  match r with
  | Admin => "Admin"
  | Inspector => "Inspector"
  | Operations => "Operations"
  | Maintenance => "Maintenance"
  | Other => "Other"
  end.

(** [rawUser.role ? String(rawUser.role).trim().toLowerCase() : ''] followed
    by the if/else chain of LoginView.tsx 69-73. *)
Definition normalize_role (raw : Cell) : Role :=
  let r := if js_truthy raw then to_lower (trim (js_string raw)) else "" in
  if String.eqb r "admin" then Admin
  else if String.eqb r "operations" then Operations
  else if String.eqb r "maintenance" then Maintenance
  else if String.eqb r "other" then Other
  else Inspector.

Record User := mkUser {
  username : string;
  name : string;
  role : Role;
  position : string
}.

(** [currentUser.role.toLowerCase() === 'admin'] (App.tsx 265, Sidebar 21,
    UserManagementView 162). *)
Definition is_admin (u : User) : bool :=
  String.eqb (to_lower (role_name (role u))) "admin".

(** [['Admin', 'Inspector'].includes(currentUser.role)] (App.tsx 681). *)
Definition can_submit (u : User) : bool :=
  role_name (role u) ∈? ["Admin"; "Inspector"].

(** [canAcknowledge], App.tsx 1071. *)
Definition can_acknowledge (u : User) : bool :=
  String.eqb (role_name (role u)) "Admin" || String.eqb (role_name (role u)) "Maintenance"
  || String.eqb (role_name (role u)) "Inspector".

(** ** Navigation *)

Inductive ModuleId :=
| MOverview | MGeneral | MPetroleum | MPetroleumV2 | MAcid | MSettings | MUsers.

#[export] Instance ModuleId_eq_dec : EqDecision ModuleId.
Proof. solve_decision. Defined.

Inductive ViewMode := Dashboard | Form.

#[export] Instance ViewMode_eq_dec : EqDecision ViewMode.
Proof. solve_decision. Defined.

(** The navigation part of the App component's state. *)
Record Nav := mkNav {
  active_module : ModuleId;
  general_mode : ViewMode;
  petroleum_mode : ViewMode;
  petroleum_v2_mode : ViewMode;
  acid_mode : ViewMode;
  current_section : nat
}.

(** A step of the inspection form: [{ id, title, label }]. *)
Record FormSection := mkFormSection { sec_id : string; sec_title : string; sec_label : string }.

(** [SECTIONS], App.tsx 43-51. *)
Definition SECTIONS : list FormSection :=
  [mkFormSection "details" "Details" "General Info"; mkFormSection "photos" "Photos" "Exterior Photos";
   mkFormSection "checklist_1" "Checks I" "Part I"; mkFormSection "checklist_2" "Checks II" "Part II";
   mkFormSection "checklist_3" "Checks III" "Part III"; mkFormSection "sign" "Finish" "Signatures";
   mkFormSection "summary" "Report" "Summary"].

(** [SECTIONS.length] *)
Definition sections_length : nat := length SECTIONS.

Definition set_module (m : ModuleId) (n : Nav) : Nav :=
  mkNav m (general_mode n) (petroleum_mode n) (petroleum_v2_mode n) (acid_mode n)
        (current_section n).

Definition set_section (k : nat) (n : Nav) : Nav :=
  mkNav (active_module n) (general_mode n) (petroleum_mode n) (petroleum_v2_mode n)
        (acid_mode n) k.

(** The four [if (activeModule === ...) setXViewMode(v)] lines that follow
    every module change (App.tsx 552-555, 651-654, 1137-1140). *)
Definition set_mode_of_active (v : ViewMode) (n : Nav) : Nav :=
  match active_module n with
  | MGeneral => mkNav MGeneral v (petroleum_mode n) (petroleum_v2_mode n) (acid_mode n) (current_section n)
  | MPetroleum => mkNav MPetroleum (general_mode n) v (petroleum_v2_mode n) (acid_mode n) (current_section n)
  | MPetroleumV2 => mkNav MPetroleumV2 (general_mode n) (petroleum_mode n) v (acid_mode n) (current_section n)
  | MAcid => mkNav MAcid (general_mode n) (petroleum_mode n) (petroleum_v2_mode n) v (current_section n)
  | _ => n
  end.

(** Sidebar [onSelectModule] (App.tsx 1135-1141). *)
Definition select_module (m : ModuleId) (n : Nav) : Nav :=
  set_mode_of_active Dashboard (set_module m n).

(** [handleNext]: [Math.min(prev + 1, SECTIONS.length - 1)]. *)
Definition handle_next (n : Nav) : Nav :=
  set_section (Nat.min (S (current_section n)) (sections_length - 1)) n.

(** [handleBack]: back to the dashboard from section 0, else one section back. *)
Definition handle_back (n : Nav) : Nav :=
  if Nat.eqb (current_section n) 0 then set_mode_of_active Dashboard n
  else set_section (Nat.max (current_section n - 1) 0) n.

(** [resetForm] (App.tsx 545-557), its navigation part: the first
    section and the dashboard of the active module.  (The form data it
    also resets is not part of the navigation state.) *)
Definition resetForm (n : Nav) : Nav := set_mode_of_active Dashboard (set_section 0 n).

(** [startInspectionCommon(modeSetter)] (App.tsx 559-573) for the module
    whose setter [startNewInspection], [startNewPetroleumInspection],
    [startNewPetroleumV2Inspection] or [startNewAcidInspection] passes:
    the first section and that module's form view. *)
Definition start_inspection (m : ModuleId) (n : Nav) : Nav :=
  let k := 0%nat in
  match m with
  | MGeneral => mkNav (active_module n) Form (petroleum_mode n) (petroleum_v2_mode n) (acid_mode n) k
  | MPetroleum => mkNav (active_module n) (general_mode n) Form (petroleum_v2_mode n) (acid_mode n) k
  | MPetroleumV2 => mkNav (active_module n) (general_mode n) (petroleum_mode n) Form (acid_mode n) k
  | MAcid => mkNav (active_module n) (general_mode n) (petroleum_mode n) (petroleum_v2_mode n) Form k
  | _ => set_section k n
  end.

(** The condition under which App.tsx renders the form (1197, 1218,
    1327-1330, 1384-1387): the active module is an inspection module in
    its form view. *)
Definition in_form (n : Nav) : bool :=
  match active_module n with
  | MGeneral => bool_decide (general_mode n = Form)
  | MPetroleum => bool_decide (petroleum_mode n = Form)
  | MPetroleumV2 => bool_decide (petroleum_v2_mode n = Form)
  | MAcid => bool_decide (acid_mode n = Form)
  | _ => false
  end.

(** A click on step [idx] of the progress bar (App.tsx 1225-1228):
    [setCurrentSection(idx)].  The bar exists only while the form is
    shown and has one step per section. *)
Definition jump_to_section (idx : nat) (n : Nav) : Nav :=
  if in_form n && Nat.ltb idx sections_length then set_section idx n else n.

(** The route protection effect: a non-admin on [settings] or [users] is
    sent back to [overview]. *)
Definition route_protect (u : User) (n : Nav) : Nav :=
  if negb (is_admin u) && (bool_decide (active_module n = MSettings)
                          || bool_decide (active_module n = MUsers))
  then set_module MOverview n else n.

(** The navigation events of the App component: a sidebar selection, the
    form's Next and Back buttons, a "new inspection" button of a
    dashboard, the form reset after a submission and a click on a step
    of the progress bar.  The route protection effect runs after
    each of them, since it depends on [activeModule]. *)
Inductive NavEvent :=
  NSelect (m : ModuleId) | NNext | NBack | NStart (m : ModuleId) | NReset | NJump (idx : nat).

Definition nav_event (e : NavEvent) (n : Nav) : Nav :=
  match e with
  | NSelect m => select_module m n
  | NNext => handle_next n
  | NBack => handle_back n
  | NStart m => start_inspection m n
  | NReset => resetForm n
  | NJump idx => jump_to_section idx n
  end.

Definition nav_step (u : User) (n : Nav) (e : NavEvent) : Nav := route_protect u (nav_event e n).

Definition nav_run (u : User) (es : list NavEvent) (n : Nav) : Nav := fold_left (nav_step u) es n.

(** What the rendered navigation may show: an existing form section, and
    no admin-only module for a non-admin. *)
Definition nav_ok (u : User) (n : Nav) : Prop :=
  (current_section n < sections_length)%nat /\
  (is_admin u = false -> active_module n <> MSettings /\ active_module n <> MUsers).

(** The key [normalize_role] compares: [trim().toLowerCase()] of the
    string, or [''] for a falsy value. *)
Definition role_key (raw : Cell) : string :=
  if js_truthy raw then to_lower (trim (js_string raw)) else "".

(** ** Properties *)

Lemma normalize_role_key raw :
  normalize_role raw =
    let r := role_key raw in
    if String.eqb r "admin" then Admin
    else if String.eqb r "operations" then Operations
    else if String.eqb r "maintenance" then Maintenance
    else if String.eqb r "other" then Other
    else Inspector.
Proof. reflexivity. Qed.

Lemma role_key_str s : role_key (CStr s) = to_lower (trim s).
Proof.
  unfold role_key. cbn [js_truthy js_string].
  destruct (String.eqb_spec s "") as [->|]; reflexivity.
Qed.

(** Role normalisation ignores case and surrounding white space, and
    reads back the name of every role it produces: [normalize_role] of a
    stored role name is that role. *)
Theorem normalize_role_canonical s r :
  normalize_role (CStr (to_lower (trim s))) = normalize_role (CStr s) /\
  normalize_role (CStr (role_name r)) = r.
Proof.
  split; [|by destruct r].
  rewrite !normalize_role_key, !role_key_str. autorewrite with juba_rw. reflexivity.
Qed.

Lemma set_mode_of_active_nav v n :
  active_module (set_mode_of_active v n) = active_module n /\
  current_section (set_mode_of_active v n) = current_section n.
Proof. unfold set_mode_of_active. case_match; split; simpl; congruence. Qed.

Lemma route_protect_ok u n :
  is_admin u = false -> active_module (route_protect u n) <> MSettings /\
                        active_module (route_protect u n) <> MUsers.
Proof.
  intros Ha. unfold route_protect. rewrite Ha. simpl.
  destruct (active_module n) eqn:E; simpl; rewrite ?E; done.
Qed.

Lemma route_protect_section u n : current_section (route_protect u n) = current_section n.
Proof. unfold route_protect. by case_match. Qed.

Lemma nav_event_section e n :
  (current_section n < sections_length)%nat -> (current_section (nav_event e n) < sections_length)%nat.
Proof.
  destruct e; simpl; intros H.
  - unfold select_module. by rewrite (proj2 (set_mode_of_active_nav _ _)).
  - unfold handle_next, sections_length in *. simpl in *. lia.
  - unfold handle_back. case_match; [by rewrite (proj2 (set_mode_of_active_nav _ _))|].
    simpl. unfold sections_length in *. simpl in *. lia.
  - unfold sections_length. destruct m; simpl; lia.
  - unfold resetForm. rewrite (proj2 (set_mode_of_active_nav _ _)). simpl. unfold sections_length. simpl. lia.
  - unfold jump_to_section. destruct (in_form n && Nat.ltb idx sections_length) eqn:E; [|done].
    apply andb_prop in E as [_ E%Nat.ltb_lt]. done.
Qed.

Lemma nav_run_inv u es n : nav_ok u n -> nav_ok u (nav_run u es n).
Proof.
  unfold nav_run. revert n. induction es as [|e es IH]; intros n Hok; [done|]. simpl. apply IH.
  split.
  - unfold nav_step. rewrite route_protect_section. apply nav_event_section, Hok.
  - apply route_protect_ok.
Qed.

(** Every sequence of sidebar selections, Next/Back presses,
    new-inspection buttons, form resets and progress-bar clicks, each
    followed by the route
    protection effect, keeps the form on one of the
    seven sections and a non-admin off the Settings and Users modules. *)
Theorem nav_run_ok u es n : nav_ok u n -> nav_ok u (nav_run u es n).
Proof. apply nav_run_inv. Qed.

(** ** Instances *)

Definition inspector_user : User := mkUser "jdoe" "J. Doe" Inspector "Inspector".

Definition nav_start : Nav := mkNav MOverview Dashboard Dashboard Dashboard Dashboard 0.

Lemma nav_run_ok_witness :
  nav_ok inspector_user nav_start /\
  nav_ok inspector_user (nav_run inspector_user
                           [NSelect MGeneral; NNext; NNext; NSelect MUsers; NBack; NSelect MSettings]
                           nav_start).
Proof.
  split; [split; [unfold sections_length; simpl; lia|intros _; split; discriminate]|].
  apply nav_run_ok. split; [unfold sections_length; simpl; lia|intros _; split; discriminate].
Defined.
