(* ===== verification/Queue.v ===== *)
(** * The offline submission queue

    App.tsx: the column schemas (lines 53-96), payload construction and
    the submission handler [handleGoogleSheetSubmit] (680-777), the queue
    drain [syncOfflineQueue] (209-260), its triggers [handleOnline]
    (204-207), the module-load effect (274-289) and the header button
    (1169-1188), and the queue reload of the first effect (193-197).

    [Spec] states the contract of the spec (a FIFO of pending payloads, a
    log of delivered ones, a flush that delivers the longest prefix the
    network accepts).  [Impl] models the code with each handler run to
    completion; its theorems show it refines [Spec] and loses nothing
    over any sequence of submissions, syncs, connectivity changes and
    restarts.  The interleavings of the async handlers are in
    [QueueAsync]. *)

From S2P Require Import Prelude Session.

(** ** Column schemas *)

Definition numbered (prefix : string) (ns : list nat) : list string :=
  map (fun i => prefix +:+ pretty i) ns.

Definition DETAIL_HEADERS : list string :=
  ["id"; "timestamp"; "truckNo"; "trailerNo"; "jobCard"; "location"; "odometer";
   "inspectedBy"; "driverName"; "rate"; "remarks"; "aiAnalysis"].

Definition MEDIA_HEADERS : list string :=
  ["photoFront"; "photoLS"; "photoRS"; "photoBack"; "photoDamage";
   "inspectorSignature"; "driverSignature"].

Definition SHEET_HEADERS : list string :=
  ["id"; "timestamp"; "truckNo"; "trailerNo"; "inspectedBy"; "driverName"; "location";
   "odometer"; "rate"; "remarks"; "aiAnalysis";
   "reflectiveWorkSuit"; "safetyGear"; "dustMask"; "roadFitness"; "validDriverDocs";
   "driverManual"; "routeRisk";
   "windscreen"; "mirrors"; "chevrons"; "generalCondition"; "seatBelt";
   "headLamps"; "indicators"; "parkingLights"; "reverseAlarm"; "hornIgnition";
   "brakes"; "tyres"; "wheelNuts"; "fluidLeaks"; "fireExtinguisher"; "warningTriangles";
   "firstAid"; "trailerCondition"; "fifthWheel"; "landingLegs"; "tarpaulins"]
  ++ MEDIA_HEADERS.

Definition PETROLEUM_HEADERS : list string :=
  DETAIL_HEADERS ++ numbered "petro_" (seq 1 54) ++ MEDIA_HEADERS.

Definition PETROLEUM_V2_HEADERS : list string :=
  DETAIL_HEADERS ++ numbered "petro2_" (seq 1 53) ++ MEDIA_HEADERS.

(** The acid schema has no [acid_24]. *)
Definition ACID_HEADERS : list string :=
  DETAIL_HEADERS ++ numbered "acid_" (seq 1 23 ++ seq 25 10) ++ MEDIA_HEADERS.

(** ** Payloads *)

Record Payload := mkPayload {
  p_sheet : string;
  p_action : string;
  p_row : list Cell;
  p_headers : list string;
  p_id : string
}.

#[export] Instance Payload_eq_dec : EqDecision Payload.
Proof. solve_decision. Defined.

(** The form object: [formData[header]], [undefined] when absent. *)
Abbreviation FormData := (gmap string Cell).

Definition form_get (fd : FormData) (h : string) : Cell := default CUndef (fd !! h).

(** [targetSheet]/[targetHeaders] by [activeModule] (App.tsx 701-713). *)
Definition target_of (m : ModuleId) : string * list string :=
  match m with
  | MPetroleum => ("Petroleum", PETROLEUM_HEADERS)
  | MPetroleumV2 => ("Petroleum_V2", PETROLEUM_V2_HEADERS)
  | MAcid => ("Acid", ACID_HEADERS)
  | _ => ("General", SHEET_HEADERS)
  end.

(** [rowData] (App.tsx 715-719). *)
Definition row_value (fd : FormData) (recordId h : string) : Cell :=
  if String.eqb h "id" then CStr recordId
  else match form_get fd h with
       | CUndef | CNull => CStr ""
       | v => v
       end.

Definition build_payload (fd : FormData) (m : ModuleId) (recordId : string) : Payload :=
  let '(sheet, headers) := target_of m in
  mkPayload sheet "create" (map (row_value fd recordId) headers) headers recordId.

(** ** Abstract contract *)

Module Spec.

Record State := mkState { pending : list Payload; delivered : list Payload }.

(** Index of the first refused attempt among the first [n], or [n]. *)
Fixpoint first_failure (net : nat -> bool) (k n : nat) : nat :=
  match n with
  | 0 => k
  | S n' => if net k then first_failure net (S k) n' else k
  end.

Definition submit (sent : bool) (p : Payload) (s : State) : State :=
  if sent then mkState (pending s) (delivered s ++ [p])
  else mkState (pending s ++ [p]) (delivered s).

(** Deliver the longest prefix the network accepts, keep the rest. *)
Definition flush (net : nat -> bool) (s : State) : nat * State :=
  let k := first_failure net 0 (length (pending s)) in
  (k, mkState (drop k (pending s)) (delivered s ++ take k (pending s))).

End Spec.

(** ** The client, each handler run to completion *)

(** ** The script URL *)

(** [PRE_CONFIGURED_SCRIPT_URL] (App.tsx 41) *)
Definition PRE_CONFIGURED_SCRIPT_URL : string :=
  "https://script.google.com/macros/s/AKfycbxoy5k_pnm_TussdnJqijOY5i3aqO4Pz9t10sAU7gH3hOEOsBLX54eE2jWJuTq8upRnGg/exec".

(** The [useState] initialiser of [appScriptUrl]; [stored] is
    [localStorage.getItem('safetyCheck_scriptUrl')]. *)
Definition initial_script_url (stored : option string) : string :=
  if negb (String.eqb PRE_CONFIGURED_SCRIPT_URL "") then PRE_CONFIGURED_SCRIPT_URL
  else default "" stored.

Module Impl.

Record Client := mkClient {
  ls_queue : list Payload;   (* localStorage 'safetycheck_offline_queue' *)
  mem_queue : list Payload;  (* React state offlineQueue *)
  is_syncing : bool;         (* React state isSyncing *)
  online : bool;             (* navigator.onLine *)
  script_url : string;       (* appScriptUrl *)
  remote : list Payload      (* POST bodies received by the backend, in order *)
}.

Definition set_queues (q : list Payload) (c : Client) : Client :=
  mkClient q q (is_syncing c) (online c) (script_url c) (remote c).

Definition set_syncing (b : bool) (c : Client) : Client :=
  mkClient (ls_queue c) (mem_queue c) b (online c) (script_url c) (remote c).

Definition set_online (b : bool) (c : Client) : Client :=
  mkClient (ls_queue c) (mem_queue c) (is_syncing c) b (script_url c) (remote c).

Definition post (p : Payload) (c : Client) : Client :=
  mkClient (ls_queue c) (mem_queue c) (is_syncing c) (online c) (script_url c)
           (remote c ++ [p]).

(** A transport attempt succeeds only when the device is online and the
    network accepts it. *)
Definition transport (c : Client) (net : nat -> bool) (k : nat) : bool :=
  online c && net k.

(** [newQueue = [...offlineQueue, payload]], set in memory and storage. *)
Definition enqueue (p : Payload) (c : Client) : Client :=
  set_queues (mem_queue c ++ [p]) c.

Inductive SubmitOutcome :=
| Denied
| NeedSignature
| NotConnected
| Queued (p : Payload)
| Delivered (p : Payload).

(** [handleGoogleSheetSubmit]: the three guards, then the offline branch,
    the direct send, and the fallback to the queue.  The third component
    is the navigation change of the "not connected" branch. *)
Definition handleGoogleSheetSubmit (u : User) (nav : Nav) (fd : FormData)
    (recordId : string) (net_ok : bool) (c : Client) : SubmitOutcome * Client * Nav :=
  if negb (can_submit u) then (Denied, c, nav)
  else if negb (js_truthy (form_get fd "inspectorSignature")) then (NeedSignature, c, nav)
  else if String.eqb (script_url c) "" then (NotConnected, c, set_module MSettings nav)
  else
    let p := build_payload fd (active_module nav) recordId in
    if negb (online c) then (Queued p, enqueue p c, resetForm nav)
    else if net_ok then (Delivered p, post p c, resetForm nav)
    else (Queued p, enqueue p c, resetForm nav).

(** The [while] loop of [syncOfflineQueue]: send the head; on success
    shift it, publish the rest to memory and storage, continue; on a
    transport error stop.  Returns [successCount]. *)
Fixpoint sync_loop (net : nat -> bool) (k : nat) (cur : list Payload) (c : Client)
    : nat * Client :=
  match cur with
  | [] => (k, c)
  | item :: rest =>
      if transport c net k then sync_loop net (S k) rest (set_queues rest (post item c))
      else (k, c)
  end.

(** [syncOfflineQueue]; [seen] is the value of [isSyncing] in the closure
    that runs it.  [None] is an early return; [Some n] reports
    [successCount] (a history refresh follows when [n > 0]). *)
Definition syncOfflineQueue (seen : bool) (net : nat -> bool) (c : Client)
    : option nat * Client :=
  if seen then (None, c)
  else match ls_queue c with
       | [] => (None, c)
       | queue =>
           let '(n, c') := sync_loop net 0 queue (set_syncing true c) in
           (Some n, set_syncing false c')
       end.

(** Who runs the sync: the [online] listener, the module-load effect or
    the header button. *)
Inductive Trigger := OnlineEvent | ModuleLoad | ManualButton.

(** The value of [isSyncing] the trigger's closure sees.  The listener
    was registered by the mount effect (deps [[]]), so its closure holds
    the first render's [isSyncing], [false]. *)
Definition seen_flag (t : Trigger) (c : Client) : bool :=
  match t with
  | OnlineEvent => false
  | ModuleLoad | ManualButton => is_syncing c
  end.

(** The module-load effect only syncs when online and the in-memory
    queue is non-empty. *)
Definition trigger_sync (t : Trigger) (net : nat -> bool) (c : Client) : option nat * Client :=
  match t with
  | ModuleLoad =>
      if online c && negb (bool_decide (mem_queue c = [])) then
        syncOfflineQueue (seen_flag t c) net c
      else (None, c)
  | _ => syncOfflineQueue (seen_flag t c) net c
  end.

(** A process restart: React state is rebuilt from storage; the URL is
    the initial one, the stored URL being the last one used. *)
Definition restart (c : Client) : Client :=
  mkClient (ls_queue c) (ls_queue c) false (online c) (initial_script_url (Some (script_url c)))
           (remote c).

Inductive Event :=
| ESubmit (fd : FormData) (recordId : string) (net_ok : bool)
| ESync (t : Trigger) (net : nat -> bool)
| EOnline (net : nat -> bool)   (* offline -> online: handleOnline *)
| EOffline
| ERestart.

(** The outcome a handler reports to the user. *)
Inductive Output := OSubmit (o : SubmitOutcome) | OSync (r : option nat) | ONone.

Definition step (u : User) (nav : Nav) (e : Event) (c : Client) : Output * Client :=
  match e with
  | ESubmit fd rid ok =>
      let '(o, c', _) := handleGoogleSheetSubmit u nav fd rid ok c in (OSubmit o, c')
  | ESync t net => let '(r, c') := trigger_sync t net c in (OSync r, c')
  | EOnline net =>
      let '(r, c') := trigger_sync OnlineEvent net (set_online true c) in (OSync r, c')
  | EOffline => (ONone, set_online false c)
  | ERestart => (ONone, restart c)
  end.

Fixpoint run (u : User) (nav : Nav) (es : list Event) (c : Client) : list Output * Client :=
  match es with
  | [] => ([], c)
  | e :: es' =>
      let '(o, c1) := step u nav e c in
      let '(os, c2) := run u nav es' c1 in (o :: os, c2)
  end.

(** Payloads a trace of outputs reports as accepted. *)
Definition accepted (o : Output) : list Payload :=
  match o with
  | OSubmit (Queued p) | OSubmit (Delivered p) => [p]
  | _ => []
  end.

(** The state the abstract contract sees. *)
Definition absr (c : Client) : Spec.State := Spec.mkState (ls_queue c) (remote c).

(** Between two handlers memory and storage agree and no sync runs. *)
Definition quiescent (c : Client) : Prop := mem_queue c = ls_queue c /\ is_syncing c = false.

End Impl.

(** ** Properties of the contract *)

Section SpecFacts.
Context (net : nat -> bool).

Lemma first_failure_ge k n : (k <= Spec.first_failure net k n)%nat.
Proof.
  revert k. induction n as [|n IH]; intros k; simpl; [lia|].
  destruct (net k); [specialize (IH (S k)); lia | lia].
Qed.

Lemma first_failure_le k n : (Spec.first_failure net k n <= k + n)%nat.
Proof.
  revert k. induction n as [|n IH]; intros k; simpl; [lia|].
  destruct (net k); [specialize (IH (S k)); lia | lia].
Qed.

(** Every attempt before the first failure succeeded, and the attempt at
    the first failure (when there is one) was refused. *)
Lemma first_failure_spec k n :
  let j := Spec.first_failure net k n in
  (forall i, k <= i < j -> net i = true)%nat /\ ((j < k + n)%nat -> net j = false).
Proof.
  revert k. induction n as [|n IH]; intros k; simpl.
  - split; [lia | lia].
  - destruct (net k) eqn:Hk.
    + destruct (IH (S k)) as [H1 H2]. split.
      * intros i Hi. destruct (decide (i = k)) as [->|]; [done | apply H1; lia].
      * intros Hj. apply H2. lia.
    + split; [lia | done].
Qed.
End SpecFacts.

#[export] Hint Resolve first_failure_ge first_failure_le : juba.

(** ** The implementation against the contract *)

Section ImplFacts.
Import Impl.

Lemma transport_set_queues c q net : transport (set_queues q c) net = transport c net.
Proof. reflexivity. Qed.

Lemma transport_post c p net : transport (post p c) net = transport c net.
Proof. reflexivity. Qed.

(** The loop computes the contract's flush: it stops at the first
    refused attempt, the queues hold the suffix from there on, the
    backend received the prefix before it. *)
Lemma sync_loop_correct net k cur c :
  mem_queue c = cur -> ls_queue c = cur ->
  let j := Spec.first_failure (transport c net) k (length cur) in
  let d := (j - k)%nat in
  sync_loop net k cur c =
    (j, mkClient (drop d cur) (drop d cur) (is_syncing c) (online c) (script_url c)
                 (remote c ++ take d cur)).
Proof.
  revert k c. induction cur as [|item rest IH]; intros k c Hm Hl; simpl.
  - rewrite Nat.sub_diag. destruct c; simpl in *; subst; by rewrite app_nil_r.
  - destruct (transport c net k) eqn:Ht.
    + rewrite (IH (S k) (set_queues rest (post item c))) by done.
      pose proof (first_failure_ge (transport c net) (S k) (length rest)).
      replace (Spec.first_failure (transport c net) (S k) (length rest) - k)%nat
        with (S (Spec.first_failure (transport c net) (S k) (length rest) - S k)) by lia.
      simpl. by rewrite <- app_assoc.
    + rewrite Nat.sub_diag. destruct c; simpl in *; subst; by rewrite app_nil_r.
Qed.

(** C2: a sync started from a quiescent client implements the contract's
    flush: it reports the number delivered, leaves the suffix after the
    first refused item in memory and storage, and the backend has
    received the prefix, in order. *)
Theorem syncOfflineQueue_refines c net :
  quiescent c ->
  let '(r, c') := syncOfflineQueue false net c in
  quiescent c' /\ absr c' = snd (Spec.flush (transport c net) (absr c)) /\
  r = (if bool_decide (ls_queue c = []) then None
       else Some (fst (Spec.flush (transport c net) (absr c)))).
Proof.
  intros [Hm Hs]. unfold syncOfflineQueue, Spec.flush, absr. cbn -[sync_loop].
  destruct (ls_queue c) as [|item rest] eqn:Hl.
  - rewrite bool_decide_eq_true_2 by done. simpl. split; [split; congruence|].
    rewrite Hl. by rewrite app_nil_r.
  - rewrite bool_decide_eq_false_2 by done.
    rewrite (sync_loop_correct net 0 (item :: rest) (set_syncing true c))
      by (simpl; congruence).
    cbn. rewrite Nat.sub_0_r. repeat split.
Qed.

Lemma enqueue_quiescent p c : quiescent c -> quiescent (enqueue p c) /\
  ls_queue (enqueue p c) = ls_queue c ++ [p].
Proof. intros [Hm Hs]. unfold quiescent, enqueue, set_queues; simpl. by rewrite Hm. Qed.

Lemma sync_no_loss seen net c :
  quiescent c ->
  let '(r, c') := syncOfflineQueue seen net c in
  quiescent c' /\ remote c' ++ ls_queue c' = remote c ++ ls_queue c.
Proof.
  intros Hq. destruct seen; [done|].
  pose proof (syncOfflineQueue_refines c net Hq) as H.
  destruct (syncOfflineQueue false net c) as [r c']. destruct H as (Hq' & Ha & _).
  split; [done|]. unfold absr, Spec.flush in Ha; simpl in Ha. injection Ha as -> ->.
  by rewrite <- app_assoc, take_drop.
Qed.

Lemma trigger_no_loss t net c :
  quiescent c ->
  let '(r, c') := trigger_sync t net c in
  quiescent c' /\ remote c' ++ ls_queue c' = remote c ++ ls_queue c.
Proof.
  intros Hq. pose proof (sync_no_loss (seen_flag t c) net c Hq).
  destruct t; simpl; [done| |done].
  destruct (online c && _); [done | by split].
Qed.

Lemma submit_no_loss u nav fd rid ok c :
  quiescent c ->
  let '(o, c', _) := handleGoogleSheetSubmit u nav fd rid ok c in
  quiescent c' /\ remote c' ++ ls_queue c' ≡ₚ remote c ++ ls_queue c ++ accepted (OSubmit o).
Proof.
  intros [Hm Hs]. unfold handleGoogleSheetSubmit.
  destruct (can_submit u), (js_truthy _), (String.eqb _ _), (online c), ok; simpl;
    rewrite ?app_nil_r; try by split.
  all: unfold quiescent; simpl; rewrite ?Hm; split; [done|].
  all: rewrite <- ?app_assoc; try done.
  apply Permutation_app_head, Permutation_app_comm.
Qed.

(** One handler, run to completion, keeps memory and storage in step and
    loses or duplicates nothing: what the backend received plus what is
    queued grows by exactly the payloads reported accepted. *)
Lemma step_no_loss u nav e c :
  quiescent c ->
  let '(o, c') := step u nav e c in
  quiescent c' /\ remote c' ++ ls_queue c' ≡ₚ remote c ++ ls_queue c ++ accepted o.
Proof.
  intros Hq. destruct e as [fd rid ok|t net|net| |]; cbn -[handleGoogleSheetSubmit trigger_sync].
  - pose proof (submit_no_loss u nav fd rid ok c Hq).
    by destruct (handleGoogleSheetSubmit _ _ _ _ _ _) as [[o c'] n'].
  - pose proof (trigger_no_loss t net c Hq).
    destruct (trigger_sync t net c) as [r c']. rewrite app_nil_r.
    destruct H as [? ->]. by split.
  - assert (quiescent (set_online true c)) as Hq' by apply Hq.
    pose proof (trigger_no_loss OnlineEvent net _ Hq').
    destruct (trigger_sync _ _ _) as [r c']. rewrite app_nil_r.
    destruct H as [? ->]. by split.
  - rewrite app_nil_r. by split.
  - rewrite app_nil_r. split; [by split | done].
Qed.

(** A run keeps memory and storage in step and loses or duplicates
    nothing (the invariant of C1, by induction on the events). *)
Lemma run_inv u nav es c :
  quiescent c ->
  let '(os, c') := run u nav es c in
  quiescent c' /\
  remote c' ++ ls_queue c' ≡ₚ remote c ++ ls_queue c ++ concat (map accepted os).
Proof.
  revert c. induction es as [|e es IH]; intros c Hq; simpl.
  - by rewrite !app_nil_r.
  - pose proof (step_no_loss u nav e c Hq) as Hs.
    destruct (step u nav e c) as [o c1]. destruct Hs as [Hq1 Hp1].
    specialize (IH c1 Hq1). destruct (run u nav es c1) as [os c2].
    destruct IH as [Hq2 Hp2]. split; [done|]. simpl.
    rewrite Hp2, app_assoc, Hp1. by rewrite !app_assoc.
Qed.

(** C1: no loss and no duplication.  Over any sequence of submissions,
    syncs, connectivity changes and restarts, each handler running to
    completion, the payloads the backend received together with those
    still queued in storage are exactly the ones present at the start
    plus the ones reported accepted (queued or delivered), each once. *)
Theorem run_no_loss u nav es c :
  quiescent c ->
  let '(os, c') := run u nav es c in
  quiescent c' /\
  remote c' ++ ls_queue c' ≡ₚ remote c ++ ls_queue c ++ concat (map accepted os).
Proof. apply run_inv. Qed.

Lemma first_failure_all (net : nat -> bool) k n :
  (forall i, net i = true) -> Spec.first_failure net k n = (k + n)%nat.
Proof.
  intros Hn. revert k. induction n as [|n IH]; intros k; simpl; [lia|].
  rewrite Hn, IH. lia.
Qed.

Lemma run_snoc u nav es e c :
  run u nav (es ++ [e]) c =
    let '(os, c1) := run u nav es c in let '(o, c2) := step u nav e c1 in (os ++ [o], c2).
Proof.
  revert c. induction es as [|e' es IH]; intros c; simpl.
  - by destruct (step u nav e c).
  - destruct (step u nav e' c) as [o1 c1]. rewrite IH.
    destruct (run u nav es c1) as [os c2]. by destruct (step u nav e c2).
Qed.

(** Coming back online with a network that accepts every request empties
    the queue. *)
Lemma online_drains u nav net c :
  quiescent c -> (forall k, net k = true) ->
  ls_queue (snd (step u nav (EOnline net) c)) = [] /\ mem_queue (snd (step u nav (EOnline net) c)) = [].
Proof.
  intros [Hm _] Hn. cbn -[sync_loop]. unfold syncOfflineQueue. cbn -[sync_loop].
  destruct (ls_queue c) as [|item rest] eqn:Hl; [simpl; by rewrite Hm, Hl|].
  rewrite (sync_loop_correct net 0 (item :: rest)) by (simpl; congruence).
  rewrite first_failure_all by (intros i; unfold transport; simpl; by rewrite Hn).
  simpl. by rewrite drop_ge by (simpl; lia).
Qed.

(** C28: what is accepted is eventually delivered.  Whatever happened
    before (submissions, syncs, connectivity changes, restarts), once the
    device comes back online with a network that accepts the requests,
    the [online] handler leaves nothing queued: the backend has received
    every payload present at the start or reported accepted since, each
    once. *)
Theorem queued_eventually_delivered u nav es c net :
  quiescent c -> (forall k, net k = true) ->
  let '(os, c') := run u nav (es ++ [EOnline net]) c in
  ls_queue c' = [] /\ mem_queue c' = [] /\
  remote c' ≡ₚ remote c ++ ls_queue c ++ concat (map accepted os).
Proof.
  intros Hq Hn. rewrite run_snoc. pose proof (run_inv u nav es c Hq) as Hr.
  destruct (run u nav es c) as [os c1]. destruct Hr as [Hq1 Hp1].
  pose proof (step_no_loss u nav (EOnline net) c1 Hq1) as Hs.
  pose proof (online_drains u nav net c1 Hq1 Hn) as [Hl Hm].
  destruct (step u nav (EOnline net) c1) as [o c2]. simpl in Hl, Hm. destruct Hs as [_ Hp2].
  split_and!; [done|done|]. rewrite Hl, app_nil_r in Hp2.
  rewrite Hp2, app_assoc, Hp1, map_app, concat_app. simpl. by rewrite !app_nil_r, !app_assoc.
Qed.

End ImplFacts.

(** ** Scenarios of the spec, evaluated *)

Section Scenarios.
Import Impl.

Definition inspector0 : User := mkUser "insp" "Ina Spector" Inspector "".
Definition general_form : Nav := mkNav MGeneral Form Dashboard Dashboard Dashboard 6.
Definition form_r1 : FormData := {[ "inspectorSignature" := CStr "data:sig"; "rate" := CNum 2 ]}.
Definition offline_client : Client :=
  mkClient [] [] false false "https://script.google.com/macros/s/x/exec" [].

(** Offline submission is queued and persisted (spec scenario 7), then
    the reconnect sync delivers it (scenario 8). *)
Example offline_then_reconnect :
  let '(os, c) := run inspector0 general_form
                    [ESubmit form_r1 "r1" true; EOnline (fun _ => true)] offline_client in
  os = [OSubmit (Queued (build_payload form_r1 MGeneral "r1")); OSync (Some 1%nat)]
  /\ ls_queue c = [] /\ remote c = [build_payload form_r1 MGeneral "r1"].
Proof. vm_compute. repeat split. Qed.

Lemma run_no_loss_witness :
  quiescent offline_client /\
  let '(os, c') := run inspector0 general_form
                     [ESubmit form_r1 "r1" true; EOnline (fun _ => true)] offline_client in
  quiescent c' /\
  remote c' ++ ls_queue c' ≡ₚ
    remote offline_client ++ ls_queue offline_client ++ concat (map accepted os).
Proof.
  split; [split; reflexivity|].
  apply run_no_loss. split; reflexivity.
Defined.

Lemma queued_eventually_delivered_witness :
  quiescent offline_client /\ (forall k : nat, (fun _ : nat => true) k = true) /\
  let '(os, c') := run inspector0 general_form
                     ([ESubmit form_r1 "r1" true; EOffline; ESubmit form_r1 "r2" false] ++
                      [EOnline (fun _ => true)]) offline_client in
  ls_queue c' = [] /\ mem_queue c' = [] /\
  remote c' ≡ₚ remote offline_client ++ ls_queue offline_client ++ concat (map accepted os).
Proof.
  split; [split; reflexivity|]. split; [reflexivity|].
  apply queued_eventually_delivered; [split; reflexivity|reflexivity].
Defined.

(** A queue of three where the second send is refused (spec property 2). *)
Definition three_queued : Client :=
  let a := build_payload form_r1 MGeneral "A" in
  let b := build_payload form_r1 MGeneral "B" in
  let c := build_payload form_r1 MGeneral "C" in
  mkClient [a; b; c] [a; b; c] false true "https://script.google.com/macros/s/x/exec" [].

Lemma syncOfflineQueue_refines_witness :
  quiescent three_queued /\
  let net := fun k => negb (Nat.eqb k 1) in
  let '(r, c') := syncOfflineQueue false net three_queued in
  quiescent c' /\ absr c' = snd (Spec.flush (transport three_queued net) (absr three_queued)) /\
  r = (if bool_decide (ls_queue three_queued = []) then None
       else Some (fst (Spec.flush (transport three_queued net) (absr three_queued)))).
Proof.
  split; [split; reflexivity|].
  apply syncOfflineQueue_refines. split; reflexivity.
Defined.

End Scenarios.
