(* ===== verification/QueueAsync.v ===== *)
(** * Interleavings of the queue handlers

    The handlers of [Queue] are [async]: between two [await]s other
    handlers run.  Here each in-flight call is a [Task] and each step of
    [astep] is the code between two suspension points of App.tsx:

    - [handleGoogleSheetSubmit] offline: guards, [setOfflineQueue] and
      [localStorage.setItem] with no [await] (lines 730-743);
    - online: the [fetch] is issued (746-752); when it settles, either
      success (754) or the fallback that writes [[...offlineQueue,
      payload]] where [offlineQueue] is the value captured when the
      handler started (763-769);
    - [syncOfflineQueue]: the guard, the read of storage and
      [setIsSyncing(true)] run synchronously (211-216); each [fetch] of
      the head settles as a step (228-249); the [finally] block clears the
      flag (252-253);
    - the [online] listener runs [syncOfflineQueue] with the closure of
      the first render, so it always sees [isSyncing = false] (200, 204-207).

    The results: with at most one task in flight (what the spec asks of
    the code) no payload is lost or duplicated; the code allows a second
    sync and a submission during a sync, and both break it. *)

From S2P Require Import Prelude Session Queue.
Import Impl.

Inductive Task :=
| TSync (cur : list Payload) (count : nat)
| TSubmit (p : Payload) (snap : list Payload).

#[export] Instance Task_eq_dec : EqDecision Task.
Proof. solve_decision. Defined.

Record World := mkWorld { cl : Client; tasks : list Task }.

(** What a step is: the entry of a handler (a user action or a platform
    event that runs code), the continuation of an in-flight task after an
    [await], or an environment event that runs no code of the queue.
    Each carries the payloads it reports accepted to the user ("saved
    offline" or "success"). *)
Inductive Label := LEntry (acc : list Payload) | LCont (acc : list Payload) | LEnv.

Definition label_payloads (l : Label) : list Payload :=
  match l with LEntry a | LCont a => a | LEnv => [] end.

Definition is_entry (l : Label) : bool := match l with LEntry _ => true | _ => false end.

(** The guards of [handleGoogleSheetSubmit] pass. *)
Definition submit_allowed (u : User) (fd : FormData) (c : Client) : bool :=
  can_submit u && js_truthy (form_get fd "inspectorSignature")
  && negb (String.eqb (script_url c) "").

Section Steps.
Context (u : User) (nav : Nav).

Inductive astep : World -> Label -> World -> Prop :=
| a_submit_offline fd rid c ts :
    submit_allowed u fd c = true -> online c = false ->
    let p := build_payload fd (active_module nav) rid in
    astep (mkWorld c ts) (LEntry [p]) (mkWorld (enqueue p c) ts)
| a_submit_start fd rid c ts :
    submit_allowed u fd c = true -> online c = true ->
    let p := build_payload fd (active_module nav) rid in
    astep (mkWorld c ts) (LEntry []) (mkWorld c (ts ++ [TSubmit p (mem_queue c)]))
| a_submit_ok p snap c ts1 ts2 :
    online c = true ->
    astep (mkWorld c (ts1 ++ TSubmit p snap :: ts2)) (LCont [p])
          (mkWorld (post p c) (ts1 ++ ts2))
| a_submit_fail p snap c ts1 ts2 :
    astep (mkWorld c (ts1 ++ TSubmit p snap :: ts2)) (LCont [p])
          (mkWorld (set_queues (snap ++ [p]) c) (ts1 ++ ts2))
| a_sync_start t c ts :
    seen_flag t c = false -> ls_queue c <> [] ->
    (t = ModuleLoad -> online c = true /\ mem_queue c <> []) ->
    astep (mkWorld c ts) (LEntry [])
          (mkWorld (set_syncing true c) (ts ++ [TSync (ls_queue c) 0]))
| a_sync_ok item rest n c ts1 ts2 :
    online c = true ->
    astep (mkWorld c (ts1 ++ TSync (item :: rest) n :: ts2)) (LCont [])
          (mkWorld (set_queues rest (post item c)) (ts1 ++ TSync rest (S n) :: ts2))
| a_sync_fail item rest n c ts1 ts2 :
    astep (mkWorld c (ts1 ++ TSync (item :: rest) n :: ts2)) (LCont [])
          (mkWorld (set_syncing false c) (ts1 ++ ts2))
| a_sync_done n c ts1 ts2 :
    astep (mkWorld c (ts1 ++ TSync [] n :: ts2)) (LCont [])
          (mkWorld (set_syncing false c) (ts1 ++ ts2))
| a_go_online c ts :
    online c = false ->
    astep (mkWorld c ts) (LEntry [])
          (match ls_queue c with
           | [] => mkWorld (set_online true c) ts
           | q => mkWorld (set_syncing true (set_online true c)) (ts ++ [TSync q 0])
           end)
| a_go_offline c ts :
    astep (mkWorld c ts) LEnv (mkWorld (set_online false c) ts)
| a_restart c ts :
    astep (mkWorld c ts) LEnv (mkWorld (restart c) []).

Inductive asteps : World -> list Label -> World -> Prop :=
| asteps_refl w : asteps w [] w
| asteps_cons w l w' ls w'' : astep w l w' -> asteps w' ls w'' -> asteps w (l :: ls) w''.

(** The discipline the spec asks for: a handler is entered only when no
    task is in flight. *)
Inductive sstep : World -> Label -> World -> Prop :=
| sstep_intro w l w' : astep w l w' -> (is_entry l = true -> tasks w = []) -> sstep w l w'.

Inductive ssteps : World -> list Label -> World -> Prop :=
| ssteps_refl w : ssteps w [] w
| ssteps_cons w l w' ls w'' : sstep w l w' -> ssteps w' ls w'' -> ssteps w (l :: ls) w''.

End Steps.

(** ** The serialised discipline keeps the queue exact *)

(** At most one task in flight, and it agrees with storage: a sync task
    holds exactly the stored queue, a direct send captured it. *)
Definition SInv (w : World) : Prop :=
  mem_queue (cl w) = ls_queue (cl w) /\
  (tasks w = [] \/ (exists n, tasks w = [TSync (ls_queue (cl w)) n])
   \/ (exists p, tasks w = [TSubmit p (ls_queue (cl w))])).

Definition held (w : World) : list Payload := remote (cl w) ++ ls_queue (cl w).

(** Invert a step of the single in-flight task. *)
Ltac single_task :=
  match goal with
  | H : ?t1 ++ ?x :: ?t2 = [?y] |- _ =>
      apply app_cons_singleton in H as (-> & -> & ?); simplify_eq/=
  end.

Lemma sstep_inv u nav w l w' :
  SInv w -> sstep u nav w l w' ->
  SInv w' /\ held w' ≡ₚ held w ++ label_payloads l.
Proof.
  intros [Hm Ht] Hs. inversion Hs as [? ? ? Ha He]; subst.
  unfold held; inversion Ha; subst; simpl in *;
    try (specialize (He eq_refl); subst); rewrite ?app_nil_r.
  all: try (destruct Ht as [?|[[k ?]|[q ?]]]; [by destruct ts1|single_task|single_task];
            simpl in *).
  all: rewrite <- ?app_assoc; simpl.
  (* the queue part of the invariant *)
  all: lazymatch goal with
       | |- context [match ls_queue ?c with _ => _ end] =>
           destruct (ls_queue c) eqn:Hl; simpl; rewrite ?Hl
       | _ => idtac
       end.
  all: split.
  all: try (unfold SInv; simpl; rewrite ?Hm, ?Hl; split; [done|];
            first [by left | by right; left; eexists | by right; right; eexists]).
  all: rewrite ?Hm; try solve_Permutation.
  - match goal with H : _ :: _ = ls_queue _ |- _ => by rewrite <- H end.
  - by split.
Qed.

(** C3: under the discipline the spec asks for (no handler entered while
    a task is in flight) every run keeps the queue exact: what the backend
    received plus what storage holds is what it held before plus the
    payloads reported accepted, each once. *)
Theorem serial_no_loss u nav w labels w' :
  SInv w -> ssteps u nav w labels w' ->
  SInv w' /\ held w' ≡ₚ held w ++ concat (map label_payloads labels).
Proof.
  intros Hi Hs. revert Hi. induction Hs as [w|w l w1 ls w2 Hs1 Hs2 IH]; intros Hi; simpl.
  - by rewrite app_nil_r.
  - destruct (sstep_inv u nav w l w1 Hi Hs1) as [Hi1 Hp1].
    destruct (IH Hi1) as [Hi2 Hp2]. split; [done|].
    by rewrite Hp2, Hp1, app_assoc.
Qed.

(** ** Every call in flight finishes *)

(** What is left of a task: a sync has one [fetch] per stored item and its
    [finally] block, a direct send one [fetch]. *)
Definition task_work (t : Task) : nat :=
  match t with TSync cur _ => S (length cur) | TSubmit _ _ => 1 end.

Definition work (w : World) : nat := sum_list_with task_work (tasks w).

Definition is_cont (l : Label) : bool := match l with LCont _ => true | _ => false end.

(** [w'] follows [w] by the continuation of an in-flight call. *)
Definition cont_step (u : User) (nav : Nav) (w' w : World) : Prop :=
  exists acc, astep u nav w (LCont acc) w'.

(** Each continuation consumes work. *)
Lemma cont_work u nav w acc w' : astep u nav w (LCont acc) w' -> work w' < work w.
Proof.
  unfold work. inversion 1; subst; cbn [tasks]; rewrite ?sum_list_with_app; simpl; lia.
Qed.

Lemma cont_steps_bound u nav w ls w' :
  asteps u nav w ls w' -> Forall (fun l => is_cont l = true) ls -> length ls <= work w.
Proof.
  induction 1 as [w|w l w1 ls w2 Hs _ IH]; [simpl; lia|].
  intros [Hl Hls]%Forall_cons. destruct l as [a|a|]; try discriminate.
  specialize (IH Hls). pose proof (cont_work _ _ _ _ _ Hs). simpl. lia.
Qed.

Lemma cont_step_wf u nav : well_founded (cont_step u nav).
Proof.
  intros w. induction w as [w IH] using (well_founded_induction (well_founded_ltof _ work)).
  constructor. intros w' [acc Hs]. apply IH. exact (cont_work _ _ _ _ _ Hs).
Qed.

(** A call in flight can always go on: a [fetch] may settle with an
    error, and a sync with nothing left runs its [finally] block. *)
Lemma cont_progress u nav w :
  tasks w <> [] -> exists acc w', astep u nav w (LCont acc) w'.
Proof.
  destruct w as [c [|t ts]]; [done|]. intros _.
  destruct t as [[|item rest] n|p snap].
  - eexists _, _. exact (a_sync_done u nav n c [] ts).
  - eexists _, _. exact (a_sync_fail u nav item rest n c [] ts).
  - eexists _, _. exact (a_submit_fail u nav p snap c [] ts).
Qed.

(** C12: every call in flight finishes.  Continuations of in-flight
    calls cannot go on forever: any chain of them is finite, and one that
    runs from a state has at most as many steps as the state has work
    left (one per item a sync still has to send, one per [finally] block,
    one per direct send).  A chain stops only when no call is in flight:
    while one is, a [fetch] may settle or a [finally] block run. *)
Theorem in_flight_calls_finish u nav :
  well_founded (cont_step u nav) /\
  forall w ls w', asteps u nav w ls w' -> Forall (fun l => is_cont l = true) ls ->
    length ls <= work w /\ (tasks w' = [] \/ exists acc w'', astep u nav w' (LCont acc) w'').
Proof.
  split; [apply cont_step_wf|]. intros w ls w' Hs Hc.
  split; [exact (cont_steps_bound _ _ _ _ _ Hs Hc)|].
  destruct (decide (tasks w' = [])); [by left|right; by apply cont_progress].
Qed.

(** ** What the code allows *)

Section Counterexamples.
Definition inspector : User := mkUser "insp" "Ina Spector" Inspector "".
Definition nav0 : Nav := mkNav MGeneral Form Dashboard Dashboard Dashboard 6.
Definition signed_form : FormData := {[ "inspectorSignature" := CStr "data:sig" ]}.
Definition rec_A : Payload := build_payload signed_form MGeneral "A".
Definition rec_B : Payload := build_payload signed_form MGeneral "B".
Definition url : string := "https://script.google.com/macros/s/x/exec".
(** Online, one record queued, nothing in flight. *)
Definition w_queued : World := mkWorld (mkClient [rec_A] [rec_A] false true url []) [].
End Counterexamples.

(** Decide a membership fact about concrete payload lists by evaluation. *)
Ltac decide_concrete := apply (bool_decide_unpack _); vm_compute; exact I.

(** C4 (finding): a submission made while a sync is in flight is lost.
    A sync starts on the queue [[A]]; a direct send of [B] fails and its
    fallback stores [[A; B]] ("Network Error: Report queued for sync");
    then the sync's fetch of [A] settles and the sync stores its own
    snapshot minus [A], [[]].  Nothing is in flight any more, [B] was
    reported queued, and it is neither at the backend nor in storage nor
    in memory. *)
Theorem submission_lost_during_sync :
  exists labels w, asteps inspector nav0 w_queued labels w /\ tasks w = [] /\
    rec_B ∈ concat (map label_payloads labels) /\
    (rec_B ∉ remote (cl w)) /\ (rec_B ∉ ls_queue (cl w)) /\ (rec_B ∉ mem_queue (cl w)).
Proof.
  eexists _, _. split.
  { eapply asteps_cons.
    { apply (a_sync_start _ _ ManualButton); simpl; [done | done | discriminate]. }
    eapply asteps_cons.
    { apply (a_submit_start _ _ signed_form "B"); reflexivity. }
    eapply asteps_cons.
    { apply (a_submit_fail _ _ rec_B [rec_A] _ [TSync [rec_A] 0] []). }
    eapply asteps_cons.
    { apply (a_sync_ok _ _ rec_A [] 0 _ [] []). reflexivity. }
    eapply asteps_cons.
    { apply (a_sync_done _ _ 1 _ [] []). }
    apply asteps_refl. }
  repeat split; try reflexivity; decide_concrete.
Qed.

(** C5 (finding): one queued record is delivered twice.  The header
    button starts a sync; the device drops off and comes back; the
    [online] listener's closure sees [isSyncing = false] and starts a
    second sync on the same stored queue; both fetches succeed.  The
    record was accepted once and the backend received it twice. *)
Theorem double_delivery_on_reconnect :
  exists labels w, asteps inspector nav0 w_queued labels w /\ tasks w = [] /\
    concat (map label_payloads labels) = [] /\ remote (cl w) = [rec_A; rec_A].
Proof.
  eexists _, _. split.
  { eapply asteps_cons.
    { apply (a_sync_start _ _ ManualButton); simpl; [done | done | discriminate]. }
    eapply asteps_cons; [apply a_go_offline|].
    eapply asteps_cons; [by apply a_go_online|]. simpl.
    eapply asteps_cons.
    { apply (a_sync_ok _ _ rec_A [] 0 _ [] [TSync [rec_A] 0]). reflexivity. }
    eapply asteps_cons.
    { apply (a_sync_ok _ _ rec_A [] 0 _ [TSync [] 1] []). reflexivity. }
    eapply asteps_cons; [apply (a_sync_done _ _ 1 _ [] [TSync [] 1])|].
    eapply asteps_cons; [apply (a_sync_done _ _ 1 _ [] [])|].
    apply asteps_refl. }
  repeat split.
Qed.

Lemma serial_no_loss_witness :
  SInv w_queued /\ ssteps inspector nav0 w_queued [LEntry []; LCont []; LCont []] 
    (mkWorld (mkClient [] [] false true url [rec_A]) []) /\
  (SInv (mkWorld (mkClient [] [] false true url [rec_A]) []) /\
   held (mkWorld (mkClient [] [] false true url [rec_A]) []) ≡ₚ
     held w_queued ++ concat (map label_payloads [LEntry []; LCont []; LCont []])).
Proof.
  assert (Hi : SInv w_queued) by (split; [reflexivity | by left]).
  assert (Hs : ssteps inspector nav0 w_queued [LEntry []; LCont []; LCont []]
                 (mkWorld (mkClient [] [] false true url [rec_A]) [])).
  { eapply ssteps_cons.
    { constructor; [apply (a_sync_start _ _ ManualButton); simpl; [done|done|discriminate]|done]. }
    eapply ssteps_cons.
    { constructor; [apply (a_sync_ok _ _ rec_A [] 0 _ [] []); reflexivity|discriminate]. }
    eapply ssteps_cons.
    { constructor; [apply (a_sync_done _ _ 1 _ [] [])|discriminate]. }
    apply ssteps_refl. }
  split; [exact Hi|]. split; [exact Hs|].
  exact (serial_no_loss _ _ _ _ _ Hi Hs).
Defined.
