(* ===== verification/Alerts.v ===== *)
(** * Notification reconciliation

    App.tsx [fetchNotifications] (293-421): alerts derived from the
    rating column of each inspection tab ([processForAlerts]),
    server-authored notifications of the [SystemNotification] tab filtered
    by recipient, the synthetic "System Online" alert, their merge and
    sort; and the handlers [handleMarkNotificationRead] (423-454),
    [handleDismissNotification] (456-461), [handleGlobalAcknowledge]
    (463-489) and [handleClearAllNotifications] (491-497).

    The snapshot is the JSON object [doGet] returns ([Backend]): a data
    tab is an array of rows, [Acknowledgements] a flat array of ids,
    [Validation_Data] an object.  [new Date(t).getTime()] is the section
    parameter [date_ms] ([None] is NaN).

    [fetchNotifications] reads the dismissed and read ids of the render
    that created it ([NClosure]) after its [await]; [napp_step] keeps the
    calls awaiting a response and the timers of submissions (755-761)
    that will make one, so completions interleave with the handlers. *)

From S2P Require Import Prelude Session.
From Stdlib Require Import Sorted.

(** ** Data *)

Inductive Severity := Critical | Warning | Info | Success.

#[export] Instance Severity_eq_dec : EqDecision Severity.
Proof. solve_decision. Defined.

(** [AppNotification] (types.ts 26-40); [module] and [actionLink] are
    optional, [isServerEvent] defaults to false. *)
Record Notification := mkNotif {
  n_id : string;
  n_title : string;
  n_message : string;
  n_type : Severity;
  n_timestamp : Cell;
  n_read : bool;
  n_module : option string;
  n_action : Cell;
  n_server : bool
}.

#[export] Instance Notification_eq_dec : EqDecision Notification.
Proof. solve_decision. Defined.

(** A value of the GET snapshot, in the shapes [doGet] produces. *)
Inductive JVal :=
| JRows (rows : list (list Cell))
| JCells (cs : list Cell)
| JObj (cols : list (string * list Cell)).

Abbreviation Snapshot := (gmap string JVal).

(** ** Derived alerts *)

(** [const rateIndex = type === 'General' ? 8 : 9]. *)
Definition rate_index (type : string) : nat := if String.eqb type "General" then 8 else 9.

(** [row[truckIndex] || 'Unknown Truck'], then [.replace]: a truthy value
    that is not a string has no [replace] and throws ([None]). *)
Definition truck_label (c : Cell) : option string :=
  if js_truthy c then match c with CStr s => Some s | _ => None end
  else Some "Unknown Truck".

(** [${new Date(timestamp).getTime()}] *)
Definition time_text (t : option Z) : string :=
  match t with Some z => pretty z | None => "NaN" end.

(** [rate <= 2] gives a critical alert, [rate === 3] a warning, anything
    else (including NaN) none. *)
Definition classify (rate : option Z) : option Severity :=
  match rate with
  | Some r => if Z.leb r 2 then Some Critical else if Z.eqb r 3 then Some Warning else None
  | None => None
  end.

Definition rate_text (rate : option Z) : string := time_text rate.

Definition alert_title (sev : Severity) (truck : string) : string :=
  match sev with
  | Critical => "Critical: " +:+ truck
  | _ => "Warning: " +:+ truck
  end.

Definition alert_message (sev : Severity) (type : string) (rate : option Z) : string :=
  match sev with
  | Critical => type +:+ " Check rated " +:+ rate_text rate +:+ "/5. Urgent attention needed."
  | _ => type +:+ " Check rated " +:+ rate_text rate +:+ "/5. Maintenance review required."
  end.

(** [Array.prototype.includes] on the raw acknowledgement cells: only a
    string cell equals the string id. *)
Definition acked (id : string) (acks : list Cell) : bool := bool_decide (CStr id ∈ acks).

Section Derivation.
Context (date_ms : Cell -> option Z).

(** [`${type}_${getTime}_${truck.replace(/\s/g, '')}`] *)
Definition alert_id (type : string) (ts : Cell) (truck : string) : string :=
  type +:+ "_" +:+ time_text (date_ms ts) +:+ "_" +:+ strip_ws truck.

(** The body of the [forEach] of [processForAlerts] for one data row:
    [None] when it throws, [Some None] when it emits nothing. *)
Definition derive_row (type : string) (dismissed read : list string) (acks : list Cell)
    (row : list Cell) : option (option Notification) :=
  let rate := js_number (cell_at row (rate_index type)) in
  let ts := cell_at row 1 in
  match truck_label (cell_at row 2) with
  | None => None
  | Some truck =>
      let id := alert_id type ts truck in
      if id ∈? dismissed then Some None
      else if acked id acks then Some None
      else
        match classify rate with
        | Some sev =>
            Some (Some (mkNotif id (alert_title sev truck) (alert_message sev type rate) sev ts
                                (id ∈? read) (Some type) CUndef false))
        | None => Some None
        end
  end.

Fixpoint derive_rows (type : string) (dismissed read : list string) (acks : list Cell)
    (rows : list (list Cell)) : option (list Notification) :=
  match rows with
  | [] => Some []
  | row :: rows' =>
      match derive_row type dismissed read acks row with
      | None => None
      | Some o =>
          match derive_rows type dismissed read acks rows' with
          | None => None
          | Some ns => Some (option_list o ++ ns)
          end
      end
  end.

(** [processForAlerts(rows, type)]: nothing for a header-only table, the
    rows after the header otherwise. *)
Definition processForAlerts (rows : list (list Cell)) (type : string)
    (dismissed read : list string) (acks : list Cell) : option (list Notification) :=
  if Nat.leb (length rows) 1 then Some [] else derive_rows type dismissed read acks (tail rows).

End Derivation.

(** ** Server-authored notifications *)

(** The severity of [String(row[2]).toLowerCase()]. *)
Definition server_severity (raw : Cell) : Severity :=
  let t := to_lower (js_string raw) in
  if String.eqb t "critical" then Critical
  else if String.eqb t "warning" then Warning
  else if String.eqb t "success" then Success
  else Info.

(** The targeting test of App.tsx 361-369. *)
Definition server_visible (u : User) (row : list Cell) : bool :=
  let recipient := to_lower (trim (js_string (cell_at row 1))) in
  let is_read := String.eqb (to_upper (js_string (cell_at row 5))) "TRUE" in
  let for_user := String.eqb recipient (to_lower (username u)) in
  let for_role := String.eqb recipient (to_lower (role_name (role u))) in
  let for_all := String.eqb recipient "all" in
  negb is_read && (for_user || for_role || for_all).

Definition server_alert (row : list Cell) : Notification :=
  mkNotif (js_string (cell_at row 0)) "System Notification" (js_string (cell_at row 3))
          (server_severity (cell_at row 2)) (cell_at row 4) false None (cell_at row 6) true.

Definition server_alerts (u : User) (rows : list (list Cell)) : list Notification :=
  if Nat.ltb 1 (length rows) then map server_alert (filter (server_visible u) (tail rows))
  else [].

(** ** Merge and sort *)

Definition sys_id : string := "sys_online_v1".

Definition sys_alert (now : Cell) (read : list string) : Notification :=
  mkNotif sys_id "System Online" "Connected to SafetyCheck Database securely." Success now
          (sys_id ∈? read) (Some "System") CUndef false.

Section Sorting.
Context (date_ms : Cell -> option Z) {A : Type} (ts : A -> Cell).

(** The comparator [(a, b) => getTime(b) - getTime(a)]; NaN compares as 0. *)
Definition newer_than (x y : A) : bool :=
  match date_ms (ts x), date_ms (ts y) with
  | Some tx, Some ty => Z.ltb ty tx
  | _, _ => false
  end.

(** A stable sort by that comparator: each element goes after every
    element it does not precede. *)
Fixpoint insert_desc (x : A) (acc : list A) : list A :=
  match acc with
  | [] => [x]
  | y :: acc' => if newer_than x y then x :: acc else y :: insert_desc x acc'
  end.

Definition sort_desc (l : list A) : list A :=
  fold_left (fun acc x => insert_desc x acc) l [].

End Sorting.

(** The data tabs scanned for alerts, in the order of App.tsx 407-410. *)
Definition alert_tabs : list string := ["General"; "Petroleum"; "Petroleum_V2"; "Acid"].

Section Feed.
Context (date_ms : Cell -> option Z).

(** [if (json[tab]) allAlerts = [...allAlerts, ...processForAlerts(...)]]
    over the four tabs; a throw anywhere aborts the whole computation. *)
Fixpoint derived_alerts (json : Snapshot) (tabs : list string) (dismissed read : list string)
    (acks : list Cell) : option (list Notification) :=
  match tabs with
  | [] => Some []
  | t :: ts =>
      let here := match json !! t with
                  | Some (JRows rows) => processForAlerts date_ms rows t dismissed read acks
                  | _ => Some []
                  end in
      match here, derived_alerts json ts dismissed read acks with
      | Some a, Some b => Some (a ++ b)
      | _, _ => None
      end
  end.

(** [json['Acknowledgements'] || []] *)
Definition server_acks (json : Snapshot) : list Cell :=
  match json !! "Acknowledgements" with Some (JCells cs) => cs | _ => [] end.

(** [json['SystemNotification'] || []] as rows. *)
Definition system_rows (json : Snapshot) : list (list Cell) :=
  match json !! "SystemNotification" with Some (JRows rs) => rs | _ => [] end.

(** The feed [fetchNotifications] computes from a snapshot, or [None]
    when the computation throws. *)
Definition build_feed (u : User) (now : Cell) (json : Snapshot) (dismissed read : list string)
    : option (list Notification) :=
  let acks := server_acks json in
  let sys := if sys_id ∈? dismissed then [] else [sys_alert now read] in
  match derived_alerts json alert_tabs dismissed read acks with
  | Some derived => Some (sort_desc date_ms n_timestamp (server_alerts u (system_rows json) ++ sys ++ derived))
  | None => None
  end.

End Feed.

(** ** Notification state and handlers *)

(** Fire-and-forget control POSTs. *)
Inductive ControlPost :=
| PMarkRead (id : string)
| PAcknowledge (issue : string) (who : string) (role : string).

(** The notification part of the App state and its [localStorage]
    copies ([sc_read_notifications], [sc_dismissed_notifications]). *)
Record NState := mkNState {
  feed : list Notification;
  read_ids : list string;
  dismissed_ids : list string;
  global_acks : list Cell;
  ls_read : list string;
  ls_dismissed : list string;
  posts : list ControlPost;
  module : ModuleId
}.

Definition set_feed (f : list Notification) (s : NState) : NState :=
  mkNState f (read_ids s) (dismissed_ids s) (global_acks s) (ls_read s) (ls_dismissed s)
           (posts s) (module s).

Definition set_global_acks (a : list Cell) (s : NState) : NState :=
  mkNState (feed s) (read_ids s) (dismissed_ids s) a (ls_read s) (ls_dismissed s)
           (posts s) (module s).

(** [setReadNotificationIds(ids)] with [localStorage.setItem]. *)
Definition set_read_ids (r : list string) (s : NState) : NState :=
  mkNState (feed s) r (dismissed_ids s) (global_acks s) r (ls_dismissed s) (posts s) (module s).

Definition add_post (p : ControlPost) (s : NState) : NState :=
  mkNState (feed s) (read_ids s) (dismissed_ids s) (global_acks s) (ls_read s) (ls_dismissed s)
           (posts s ++ [p]) (module s).

Definition set_nmodule (m : ModuleId) (s : NState) : NState :=
  mkNState (feed s) (read_ids s) (dismissed_ids s) (global_acks s) (ls_read s) (ls_dismissed s)
           (posts s) m.

Definition mark_read (n : Notification) : Notification :=
  mkNotif (n_id n) (n_title n) (n_message n) (n_type n) (n_timestamp n) true (n_module n)
          (n_action n) (n_server n).

Definition has_id (id : string) (n : Notification) : bool := String.eqb (n_id n) id.

(** [notifications.find(n => n.id === id)] *)
Fixpoint find_by_id (id : string) (l : list Notification) : option Notification :=
  match l with
  | [] => None
  | n :: l' => if has_id id n then Some n else find_by_id id l'
  end.

(** The state a [fetchNotifications] closure reads after its [await]:
    the [dismissedNotificationIds] and [readNotificationIds] of the render
    that created it. *)
Record NClosure := mkNClosure { nc_dismissed : list string; nc_read : list string }.

Definition closure_of (s : NState) : NClosure := mkNClosure (dismissed_ids s) (read_ids s).

(** [fetchNotifications] after its [await]: a failed request changes
    nothing; otherwise the acknowledgement list is set first, then the
    feed built with the closure's ids, unless building it throws. *)
Definition fetch_complete (date_ms : Cell -> option Z) (u : User) (now : Cell) (c : NClosure)
    (resp : option Snapshot) (s : NState) : NState :=
  match resp with
  | None => s
  | Some json =>
      let s1 := set_global_acks (server_acks json) s in
      match build_feed date_ms u now json (nc_dismissed c) (nc_read c) with
      | Some f => set_feed f s1
      | None => s1
      end
  end.

(** [fetchNotifications] of the current render, answered before any
    other event: nothing offline or without a URL. *)
Definition fetchNotifications (date_ms : Cell -> option Z) (u : User) (online : bool)
    (url : string) (now : Cell) (resp : option Snapshot) (s : NState) : NState :=
  if String.eqb url "" || negb online then s
  else fetch_complete date_ms u now (closure_of s) resp s.

(** The module an action link opens (App.tsx 446-453); a link that is not
    a string throws at [toLowerCase] and opens nothing. *)
Definition link_target (u : User) (link : Cell) : option ModuleId :=
  match link with
  | CStr l =>
      let a := to_lower l in
      if str_contains "view:petroleum" a then Some MPetroleum
      else if str_contains "view:general" a then Some MGeneral
      else if str_contains "view:acid" a then Some MAcid
      else if str_contains "view:settings" a && String.eqb (role_name (role u)) "Admin"
      then Some MSettings
      else if str_contains "view:users" a && String.eqb (role_name (role u)) "Admin"
      then Some MUsers
      else None
  | _ => None
  end.

Definition handleMarkNotificationRead (u : User) (online : bool) (url : string) (id : string)
    (s : NState) : NState :=
  let target := find_by_id id (feed s) in
  let s1 := set_feed (map (fun n => if has_id id n then mark_read n else n) (feed s)) s in
  let s2 := match target with
            | Some n =>
                if n_server n && negb (String.eqb url "") && online then add_post (PMarkRead id) s1
                else set_read_ids (read_ids s ++ [id]) s1
            | None => set_read_ids (read_ids s ++ [id]) s1
            end in
  match target with
  | Some n => match link_target u (n_action n) with Some m => set_nmodule m s2 | None => s2 end
  | None => s2
  end.

Definition handleDismissNotification (id : string) (s : NState) : NState :=
  let d := dismissed_ids s ++ [id] in
  mkNState (filter (fun n => negb (has_id id n)) (feed s)) (read_ids s) d (global_acks s)
           (ls_read s) d (posts s) (module s).

(** [currentUser?.name || 'Unknown'] *)
Definition ack_user (u : User) : string := if String.eqb (name u) "" then "Unknown" else name u.

Definition handleGlobalAcknowledge (u : User) (online : bool) (url : string) (id : string)
    (s : NState) : NState :=
  if String.eqb url "" || negb online then s
  else mkNState (filter (fun n => negb (has_id id n)) (feed s)) (read_ids s) (dismissed_ids s)
                (global_acks s ++ [CStr id]) (ls_read s) (ls_dismissed s)
                (posts s ++ [PAcknowledge id (ack_user u) (role_name (role u))]) (module s).

Definition handleClearAllNotifications (s : NState) : NState :=
  let all_ids := map n_id (feed s) in
  set_read_ids (js_set (read_ids s ++ all_ids)) (set_feed (map mark_read (feed s)) s).

(** ** Fetches in flight *)

(** The notification state of the App, the [fetchNotifications] calls
    awaiting their response, each with its closure and the response it
    will get, and the 2.5 s timers of successful submissions (App.tsx
    755-761), each holding the [fetchNotifications] of the render that
    submitted. *)
Record NApp := mkNApp {
  na_state : NState;
  na_inflight : list (NClosure * option Snapshot);
  na_timers : list NClosure
}.

Inductive NEvent :=
| NFetch (resp : option Snapshot)           (* the fetch effect (273-279) calls the current [fetchNotifications] *)
| NDone (k : nat)                           (* the [k]-th call in flight gets its response *)
| NSubmitted                                (* an online submission succeeded: its timer is set *)
| NTimer (k : nat) (resp : option Snapshot) (* the [k]-th timer fires and calls its [fetchNotifications] *)
| NDismiss (id : string)
| NMarkRead (id : string)
| NAcknowledge (id : string)
| NClearAll.

Section NApp.
Context (date_ms : Cell -> option Z) (u : User) (online : bool) (url : string) (now : Cell).

(** [fetchNotifications] up to its [await]: nothing offline or without a
    URL. *)
Definition start_fetch (c : NClosure) (resp : option Snapshot) (a : NApp) : NApp :=
  if String.eqb url "" || negb online then a
  else mkNApp (na_state a) (na_inflight a ++ [(c, resp)]) (na_timers a).

Definition napp_step (a : NApp) (e : NEvent) : NApp :=
  let s := na_state a in
  let with_state s' := mkNApp s' (na_inflight a) (na_timers a) in
  match e with
  | NFetch resp => start_fetch (closure_of s) resp a
  | NDone k =>
      match na_inflight a !! k with
      | Some (c, resp) => mkNApp (fetch_complete date_ms u now c resp s) (delete k (na_inflight a)) (na_timers a)
      | None => a
      end
  | NSubmitted => mkNApp s (na_inflight a) (na_timers a ++ [closure_of s])
  | NTimer k resp =>
      match na_timers a !! k with
      | Some c => start_fetch c resp (mkNApp s (na_inflight a) (delete k (na_timers a)))
      | None => a
      end
  | NDismiss id => with_state (handleDismissNotification id s)
  | NMarkRead id => with_state (handleMarkNotificationRead u online url id s)
  | NAcknowledge id => with_state (handleGlobalAcknowledge u online url id s)
  | NClearAll => with_state (handleClearAllNotifications s)
  end.

Definition napp_run (a : NApp) (es : list NEvent) : NApp := fold_left napp_step es a.

End NApp.

(** The closures still to read the state: those of the calls in flight
    and of the timers. *)
Definition pending (a : NApp) : list NClosure := map fst (na_inflight a) ++ na_timers a.

(** ** What a derived alert can be *)

(** The alerts a tab can contribute: not dismissed, not acknowledged on
    the server, not server events. *)
Definition derived_ok (dismissed : list string) (acks : list Cell) (n : Notification) : Prop :=
  (n_id n ∉ dismissed) /\ acked (n_id n) acks = false /\ n_server n = false.

Section DerivedFacts.
Context (date_ms : Cell -> option Z).

Lemma derive_row_ok type dismissed read acks row n :
  derive_row date_ms type dismissed read acks row = Some (Some n) ->
  derived_ok dismissed acks n.
Proof.
  unfold derive_row. destruct (truck_label _) as [truck|]; [|done].
  destruct (alert_id date_ms _ _ _ ∈? dismissed) eqn:Hd; [done|].
  destruct (acked _ _) eqn:Ha; [done|].
  destruct (classify _); [|done]. intros [= <-].
  apply includes_false in Hd. by repeat split.
Qed.

Lemma derive_rows_ok type dismissed read acks rows ns :
  derive_rows date_ms type dismissed read acks rows = Some ns ->
  Forall (derived_ok dismissed acks) ns.
Proof.
  revert ns. induction rows as [|row rows IH]; intros ns; simpl; [by intros [= <-]|].
  destruct (derive_row _ _ _ _ _ _) as [o|] eqn:Hr; [|done].
  destruct (derive_rows _ _ _ _ _ _) as [ns'|]; [|done]. intros [= <-].
  apply Forall_app. split; [|by apply IH].
  destruct o as [n|]; simpl; [|done]. constructor; [|done].
  by eapply derive_row_ok.
Qed.

Lemma derived_alerts_ok json tabs dismissed read acks ns :
  derived_alerts date_ms json tabs dismissed read acks = Some ns ->
  Forall (derived_ok dismissed acks) ns.
Proof.
  revert ns. induction tabs as [|t tabs IH]; intros ns; simpl; [by intros [= <-]|].
  destruct (match json !! t with
            | Some (JRows rows) => processForAlerts date_ms rows t dismissed read acks
            | _ => Some [] end) as [a|] eqn:Hh; [|done].
  destruct (derived_alerts _ _ _ _ _ _) as [b|] eqn:Hb; [|done]. intros [= <-].
  apply Forall_app. split; [|by apply IH].
  destruct (json !! t) as [[rows| |]|]; try (injection Hh as <-; done).
  unfold processForAlerts in Hh. destruct (Nat.leb _ _); [by injection Hh as <-|].
  by eapply derive_rows_ok.
Qed.

End DerivedFacts.

(** ** The sort *)

Section SortFacts.
Context (date_ms : Cell -> option Z) {A : Type} (ts : A -> Cell).

Lemma insert_desc_perm x l : insert_desc date_ms ts x l ≡ₚ x :: l.
Proof.
  induction l as [|y l IH]; simpl; [done|].
  destruct (newer_than _ _ x y); [done|]. rewrite IH. apply perm_swap.
Qed.

Lemma sort_desc_perm l : sort_desc date_ms ts l ≡ₚ l.
Proof.
  unfold sort_desc. enough (forall acc, fold_left (fun acc x => insert_desc date_ms ts x acc) l acc
                                        ≡ₚ l ++ acc) as H by (rewrite H, app_nil_r; done).
  induction l as [|x l IH]; intros acc; simpl; [done|].
  rewrite IH, insert_desc_perm. solve_Permutation.
Qed.

(** The timestamp order of the feed, on alerts whose timestamp parses. *)
Definition not_older (x y : A) : Prop :=
  match date_ms (ts x), date_ms (ts y) with
  | Some tx, Some ty => (ty <= tx)%Z
  | _, _ => False
  end.

Definition dated (n : A) : Prop := is_Some (date_ms (ts n)).

Lemma insert_desc_sorted x l :
  dated x -> Forall dated l -> Sorted not_older l -> Sorted not_older (insert_desc date_ms ts x l).
Proof.
  intros [tx Hx] Hall Hs. induction Hs as [|y l Hs IH Hhd]; simpl.
  - by repeat constructor.
  - inversion Hall as [|? ? [ty Hy] Hall']; subst.
    unfold newer_than. rewrite Hx, Hy.
    destruct (Z.ltb_spec ty tx).
    + constructor; [by constructor|]. constructor. unfold not_older. rewrite Hx, Hy. lia.
    + constructor; [by apply IH|].
      destruct l as [|z l]; simpl.
      * constructor. unfold not_older. rewrite Hx, Hy. lia.
      * inversion Hhd as [|? ? Hyz]; subst. inversion Hall' as [|? ? [tz Hz] _]; subst.
        unfold newer_than. rewrite Hx, Hz.
        destruct (Z.ltb_spec tz tx); constructor; [unfold not_older; rewrite Hx, Hy; lia|done].
Qed.

(** The feed is ordered newest first when every timestamp parses. *)
Lemma sort_desc_sorted l : Forall dated l -> Sorted not_older (sort_desc date_ms ts l).
Proof.
  unfold sort_desc. intros Hall.
  enough (forall acc, Forall dated acc -> Sorted not_older acc ->
            Sorted not_older (fold_left (fun acc x => insert_desc date_ms ts x acc) l acc)) as H
    by (apply H; constructor).
  induction l as [|x l IH]; intros acc Hacc Hs; simpl; [done|].
  inversion Hall as [|? ? Hx Hl]; subst. apply IH; [done| |by apply insert_desc_sorted].
  rewrite (insert_desc_perm x acc). by constructor.
Qed.

End SortFacts.

(** ** Which rows give alerts *)

Section Members.
Context (date_ms : Cell -> option Z).

Lemma derive_rows_members type dismissed read acks rows ns n :
  derive_rows date_ms type dismissed read acks rows = Some ns ->
  n ∈ ns <-> exists row, row ∈ rows /\ derive_row date_ms type dismissed read acks row = Some (Some n).
Proof.
  induction rows as [|r rows IH] in ns |- *; simpl.
  - intros [= <-]. split; [by rewrite elem_of_nil|]. intros (row & Hr & _). by apply elem_of_nil in Hr.
  - destruct (derive_row _ _ _ _ _ r) as [o|] eqn:Hr; [|done].
    destruct (derive_rows _ _ _ _ _ rows) as [ns'|] eqn:Hrs; [|done]. intros [= <-].
    rewrite elem_of_app, (IH ns' eq_refl). setoid_rewrite elem_of_cons. split.
    + intros [Ho|(row & Hin & Hd)]; [|exists row; split; [by right|done]].
      exists r. split; [by left|]. destruct o; simpl in Ho; [|by apply elem_of_nil in Ho].
      apply list_elem_of_singleton in Ho. by subst.
    + intros (row & [->|Hin] & Hd); [left|right; by exists row].
      rewrite Hr in Hd. injection Hd as ->. by apply list_elem_of_singleton.
Qed.

Lemma processForAlerts_members rows type dismissed read acks ns n :
  processForAlerts date_ms rows type dismissed read acks = Some ns ->
  n ∈ ns <-> exists row, row ∈ tail rows /\ derive_row date_ms type dismissed read acks row = Some (Some n).
Proof.
  unfold processForAlerts. destruct (Nat.leb_spec (length rows) 1) as [Hl|Hl].
  - intros [= <-]. rewrite elem_of_nil. split; [done|]. intros (row & Hr & _).
    destruct rows as [|? [|? ?]]; simpl in *; try lia; by apply elem_of_nil in Hr.
  - apply derive_rows_members.
Qed.

(** The alert tabs give exactly the alerts of their data rows. *)
Lemma derived_alerts_members json tabs dismissed read acks ns n :
  derived_alerts date_ms json tabs dismissed read acks = Some ns ->
  n ∈ ns <-> exists t rows row, t ∈ tabs /\ json !! t = Some (JRows rows) /\ row ∈ tail rows /\
                              derive_row date_ms t dismissed read acks row = Some (Some n).
Proof.
  induction tabs as [|t tabs IH] in ns |- *; simpl.
  - intros [= <-]. rewrite elem_of_nil. split; [done|]. intros (? & ? & ? & Ht & _). by apply elem_of_nil in Ht.
  - intros Hd.
    destruct (match json !! t with
              | Some (JRows rows) => processForAlerts date_ms rows t dismissed read acks
              | _ => Some [] end) as [a|] eqn:Hh; [|done].
    destruct (derived_alerts _ _ _ _ _ _) as [b|]; [|done]. injection Hd as <-.
    rewrite elem_of_app, (IH b eq_refl). setoid_rewrite elem_of_cons.
    assert (Ha : n ∈ a <-> exists rows row, json !! t = Some (JRows rows) /\ row ∈ tail rows /\
                                            derive_row date_ms t dismissed read acks row = Some (Some n)).
    { destruct (json !! t) as [[rows| |]|];
        try (injection Hh as <-; rewrite elem_of_nil; split; [done|by intros (? & ? & ? & _)]).
      rewrite (processForAlerts_members _ _ _ _ _ _ _ Hh). split.
      - intros (row & ? & ?). by exists rows, row.
      - intros (rows' & row & [= <-] & ? & ?). by exists row. }
    rewrite Ha. split.
    + intros [(rows & row & Hr & Hin & Hd)|(t' & rows & row & Ht & Hr)].
      * exists t, rows, row. by split_and!; [left|..].
      * exists t', rows, row. by split; [right|].
    + intros (t' & rows & row & [->|Ht] & Hr & Hin & Hd).
      * left. by exists rows, row.
      * right. by exists t', rows, row.
Qed.

Lemma server_alerts_member u rows row :
  (1 < length rows)%nat -> row ∈ tail rows -> server_visible u row = true ->
  server_alert row ∈ server_alerts u rows.
Proof.
  intros Hl Hr Hv. unfold server_alerts. rewrite (proj2 (Nat.ltb_lt _ _) Hl).
  rewrite list_elem_of_fmap. exists row. split; [done|]. rewrite list_elem_of_filter. by rewrite Hv.
Qed.

End Members.

Lemma find_by_id_none id l : find_by_id id l = None <-> forall n, n ∈ l -> has_id id n = false.
Proof.
  induction l as [|m l IH]; simpl.
  - split; [intros _ n Hn; by apply elem_of_nil in Hn|done].
  - destruct (has_id id m) eqn:Hm; split; try done.
    + intros H. specialize (H m (list_elem_of_here _ _)). congruence.
    + intros Hn n Hin. apply elem_of_cons in Hin as [->|Hin]; [done|]. by apply IH.
    + intros H. apply IH. intros n Hn. apply H. by right.
Qed.

Lemma find_by_id_filtered id l : find_by_id id (filter (fun n => negb (has_id id n)) l) = None.
Proof.
  apply find_by_id_none. intros n Hn. apply list_elem_of_filter in Hn as [Hn _].
  by destruct (has_id id n).
Qed.

(** ** What a feed can contain *)

Lemma server_alerts_server u rows n : n ∈ server_alerts u rows -> n_server n = true.
Proof.
  unfold server_alerts. destruct (Nat.ltb _ _); [|by rewrite elem_of_nil].
  rewrite list_elem_of_fmap. by intros (row & -> & _).
Qed.

(** Every alert of a feed is a server notification, the "System Online"
    alert (when not dismissed), or a derived alert that is neither
    dismissed nor acknowledged on the server. *)
Lemma build_feed_members date_ms u now json dismissed read f n :
  build_feed date_ms u now json dismissed read = Some f -> n ∈ f ->
  n_server n = true \/ (n = sys_alert now read /\ sys_id ∉ dismissed)
  \/ derived_ok dismissed (server_acks json) n.
Proof.
  unfold build_feed.
  destruct (derived_alerts _ _ _ _ _ _) as [d|] eqn:Hd; [|done]. intros [= <-].
  rewrite (sort_desc_perm date_ms n_timestamp). rewrite !elem_of_app. intros [Hs|[Hy|Hr]].
  - left. by eapply server_alerts_server.
  - right; left. destruct (sys_id ∈? dismissed) eqn:Hi; [by rewrite elem_of_nil in Hy|].
    apply includes_false in Hi. apply list_elem_of_singleton in Hy. done.
  - right; right. apply derived_alerts_ok in Hd. by eapply Forall_forall in Hd.
Qed.

(** The dismissal invariant of one id: recorded as dismissed, and only
    server notifications carry it in the feed. *)
Definition dismissal_holds (id : string) (st : NState) : Prop :=
  id ∈ dismissed_ids st /\ forall n, n ∈ feed st -> n_id n = id -> n_server n = true.

(** Every alert of [s'] has the id and the origin of an alert of [s]. *)
Definition feed_from (s' s : NState) : Prop :=
  forall n, n ∈ feed s' -> exists m, m ∈ feed s /\ n_id n = n_id m /\ n_server n = n_server m.

Lemma dismissal_feed_from id s s' :
  dismissal_holds id s -> feed_from s' s -> id ∈ dismissed_ids s' -> dismissal_holds id s'.
Proof.
  intros [_ Hf] Hfr Hd. split; [done|]. intros n Hn Hid.
  destruct (Hfr n Hn) as (m & Hm & Hi & Hs). rewrite Hs. apply Hf; congruence.
Qed.

Lemma feed_from_map s' s g :
  feed s' = map g (feed s) -> (forall m, n_id (g m) = n_id m /\ n_server (g m) = n_server m) ->
  feed_from s' s.
Proof.
  intros Hf Hg n. rewrite Hf, list_elem_of_fmap. intros (m & -> & Hm). exists m. by destruct (Hg m).
Qed.

Lemma feed_from_filter s' s (p : Notification -> bool) :
  feed s' = filter p (feed s) -> feed_from s' s.
Proof. intros Hf n. rewrite Hf, list_elem_of_filter. intros [_ Hn]. by exists n. Qed.

Lemma mark_read_fields n : n_id (mark_read n) = n_id n /\ n_server (mark_read n) = n_server n.
Proof. done. Qed.

Lemma mark_read_handler_fields u online url id s :
  feed (handleMarkNotificationRead u online url id s) =
    map (fun n => if has_id id n then mark_read n else n) (feed s) /\
  dismissed_ids (handleMarkNotificationRead u online url id s) = dismissed_ids s.
Proof. unfold handleMarkNotificationRead. by repeat case_match. Qed.

Lemma handlers_keep_dismissal id e u online url s :
  dismissal_holds id s ->
  match e with
  | NDismiss i => dismissal_holds id (handleDismissNotification i s)
  | NMarkRead i => dismissal_holds id (handleMarkNotificationRead u online url i s)
  | NAcknowledge i => dismissal_holds id (handleGlobalAcknowledge u online url i s)
  | NClearAll => dismissal_holds id (handleClearAllNotifications s)
  | _ => True
  end.
Proof.
  intros H. pose proof H as [Hd _]. destruct e as [| | | |i|i|i|]; try done.
  - apply (dismissal_feed_from _ s); [done|by eapply feed_from_filter|].
    simpl. rewrite ?elem_of_app. auto.
  - destruct (mark_read_handler_fields u online url i s) as [Hf Hds].
    apply (dismissal_feed_from _ s); [done| |by rewrite Hds].
    apply (feed_from_map _ _ _ Hf). intros m. by case_match.
  - unfold handleGlobalAcknowledge. destruct (_ || _); [done|].
    by apply (dismissal_feed_from _ s); [|eapply feed_from_filter|].
  - apply (dismissal_feed_from _ s); [done| |done].
    apply (feed_from_map _ _ mark_read); [done|apply mark_read_fields].
Qed.

Lemma fetch_complete_dismissed date_ms u now c resp s :
  dismissed_ids (fetch_complete date_ms u now c resp s) = dismissed_ids s.
Proof. destruct resp as [json|]; [|done]. simpl. by destruct (build_feed _ _ _ _ _ _). Qed.

Lemma fetch_dismissed date_ms u online url now resp s :
  dismissed_ids (fetchNotifications date_ms u online url now resp s) = dismissed_ids s.
Proof. unfold fetchNotifications. destruct (_ || _); [done|]. apply fetch_complete_dismissed. Qed.

(** A call whose closure has the id dismissed cannot bring its alert
    back. *)
Lemma fetch_complete_keeps_dismissal date_ms u now c r id st :
  id ∈ nc_dismissed c -> dismissal_holds id st ->
  dismissal_holds id (fetch_complete date_ms u now c r st).
Proof.
  intros Hc [Hd Hf]. split; [by rewrite fetch_complete_dismissed|].
  intros n. destruct r as [json|]; [|apply Hf]. simpl.
  destruct (build_feed _ _ _ _ _ _) as [f|] eqn:Hb; [|apply Hf].
  simpl. intros Hn Hid. subst id.
  destruct (build_feed_members _ _ _ _ _ _ _ n Hb Hn) as [?|[[-> Hs]|(Hnd & _)]];
    [done | by simpl in Hc | done].
Qed.

Lemma fetch_keeps_dismissal date_ms u online url now r id st :
  dismissal_holds id st -> dismissal_holds id (fetchNotifications date_ms u online url now r st).
Proof.
  intros H. unfold fetchNotifications. destruct (_ || _); [done|].
  apply fetch_complete_keeps_dismissal; [apply H|done].
Qed.

(** The invariant of the App: the state holds the dismissal and every
    closure still to run has the id dismissed. *)
Definition dismissal_safe (id : string) (a : NApp) : Prop :=
  dismissal_holds id (na_state a) /\
  Forall (fun p => id ∈ nc_dismissed (fst p)) (na_inflight a) /\
  Forall (fun c => id ∈ nc_dismissed c) (na_timers a).

Lemma pending_safe id a :
  Forall (fun c => id ∈ nc_dismissed c) (pending a) <->
  Forall (fun p => id ∈ nc_dismissed (fst p)) (na_inflight a) /\
  Forall (fun c => id ∈ nc_dismissed c) (na_timers a).
Proof. unfold pending. by rewrite Forall_app, Forall_fmap. Qed.

Lemma napp_step_safe date_ms u online url now id a e :
  dismissal_safe id a -> dismissal_safe id (napp_step date_ms u online url now a e).
Proof.
  intros (Hs & Hi & Ht).
  pose proof (handlers_keep_dismissal id e u online url _ Hs) as He.
  assert (Hc : id ∈ nc_dismissed (closure_of (na_state a))) by apply Hs.
  destruct e as [resp|k| |k resp|i|i|i|]; simpl; try done.
  - unfold start_fetch. destruct (_ || _); [done|].
    split_and!; [done| |done]. apply Forall_app; split; [done|by constructor].
  - destruct (na_inflight a !! k) as [[c resp]|] eqn:Hk; [|done].
    pose proof (proj1 (Forall_lookup _ _) Hi k _ Hk) as Hck.
    split_and!; [by apply fetch_complete_keeps_dismissal|by apply Forall_delete|done].
  - split_and!; [done|done|]. apply Forall_app; split; [done|by constructor].
  - destruct (na_timers a !! k) as [c|] eqn:Hk; [|done].
    pose proof (proj1 (Forall_lookup _ _) Ht k _ Hk) as Hck.
    unfold start_fetch. destruct (_ || _); simpl; split_and!; try done; try by apply Forall_delete.
    apply Forall_app; split; [done|by constructor].
Qed.

Lemma napp_run_safe date_ms u online url now id a es :
  dismissal_safe id a -> dismissal_safe id (napp_run date_ms u online url now a es).
Proof.
  unfold napp_run. induction es as [|e es IH] in a |- *; intros H; simpl; [done|].
  by apply IH, napp_step_safe.
Qed.

(** C6: dismiss permanence for locally owned alerts.  Once
    [handleDismissNotification id] has run at a moment when every
    [fetchNotifications] still to read the state (the calls awaiting
    their response and the submission timers) already had the id
    dismissed, whatever events follow, in whatever order the calls
    complete and whatever the backend returns, no derived alert and no
    "System Online" alert with that id is in the feed again. *)
Theorem dismissed_never_derived date_ms u online url now a id es :
  Forall (fun c => id ∈ nc_dismissed c) (pending a) ->
  dismissal_holds id (na_state (napp_run date_ms u online url now
                                  (napp_step date_ms u online url now a (NDismiss id)) es)).
Proof.
  intros Hp. apply napp_run_safe. split; [|by apply pending_safe].
  split; simpl; [apply elem_of_app; right; by apply list_elem_of_singleton|].
  intros n. rewrite list_elem_of_filter. unfold has_id.
  intros [Hne _] Hid. rewrite Hid, String.eqb_refl in Hne. done.
Qed.

(** C7: an id the backend lists as acknowledged never comes back as a
    derived alert: only a server notification or the "System Online"
    alert can carry it. *)
Theorem acknowledged_never_derived date_ms u now json dismissed read f n :
  build_feed date_ms u now json dismissed read = Some f -> n ∈ f ->
  acked (n_id n) (server_acks json) = true ->
  n_server n = true \/ n = sys_alert now read.
Proof.
  intros Hb Hn Ha.
  destruct (build_feed_members _ _ _ _ _ _ _ n Hb Hn) as [?|[[? _]|(_ & Hna & _)]]; [by left|by right|].
  congruence.
Qed.

(** ** One row that throws freezes the feed *)

Section ThrowFacts.
Context (date_ms : Cell -> option Z).

Lemma derive_rows_throw type dismissed read acks rows row :
  row ∈ rows -> derive_row date_ms type dismissed read acks row = None ->
  derive_rows date_ms type dismissed read acks rows = None.
Proof.
  induction rows as [|r rows IH]; simpl; [by rewrite elem_of_nil|].
  rewrite elem_of_cons. intros [->|Hin] Hr.
  - by rewrite Hr.
  - destruct (derive_row _ _ _ _ _ r); [|done]. by rewrite IH.
Qed.

Lemma derived_alerts_throw json tabs t rows dismissed read acks :
  t ∈ tabs -> json !! t = Some (JRows rows) ->
  processForAlerts date_ms rows t dismissed read acks = None ->
  derived_alerts date_ms json tabs dismissed read acks = None.
Proof.
  induction tabs as [|t' tabs IH]; simpl; [by rewrite elem_of_nil|].
  rewrite elem_of_cons. intros [->|Hin] Hj Hp.
  - by rewrite Hj, Hp.
  - rewrite IH by done. by repeat case_match.
Qed.

End ThrowFacts.

(** C8 (finding): one inspection row whose truck cell is a truthy value
    other than a string (a registration the sheet stored as a number)
    makes [truck.replace] throw; the whole reconciliation is abandoned
    and the feed keeps its previous content: no alert of any tab and no
    server notification is refreshed. *)
Theorem bad_truck_cell_freezes_feed date_ms u url now json t rows row s :
  url <> "" -> t ∈ alert_tabs -> json !! t = Some (JRows rows) -> (1 < length rows)%nat ->
  row ∈ tail rows -> truck_label (cell_at row 2) = None ->
  feed (fetchNotifications date_ms u true url now (Some json) s) = feed s.
Proof.
  intros Hu Ht Hj Hl Hr Htr. unfold fetchNotifications, fetch_complete.
  rewrite (proj2 (String.eqb_neq _ _) Hu). simpl.
  unfold build_feed.
  rewrite (derived_alerts_throw date_ms json alert_tabs t rows _ _ _ Ht Hj); [done|].
  unfold processForAlerts. rewrite (proj2 (Nat.leb_gt _ _) Hl).
  apply (derive_rows_throw _ _ _ _ _ _ row Hr). unfold derive_row. by rewrite Htr.
Qed.

(** ** Scenarios *)

Section AlertScenarios.

(** Timestamps given as epoch milliseconds, as [Date] would parse them. *)
Definition epoch_cell (c : Cell) : option Z := match c with CNum z => Some z | _ => None end.

Definition admin0 : User := mkUser "boss" "Bo Ss" Admin "".
Definition inspector1 : User := mkUser "ina" "Ina" Inspector "".
Definition url0 : string := "https://script.google.com/macros/s/x/exec".
Definition empty_nstate : NState := mkNState [] [] [] [] [] [] [] MOverview.

Definition hdr : list Cell := [CStr "id"; CStr "timestamp"; CStr "truckNo"].

(** A General inspection of truck "AHB 1502" rated [rate]. *)
Definition general_row (id : string) (ts : Z) (truck : Cell) (rate : Cell) : list Cell :=
  [CStr id; CNum ts; truck; CStr ""; CStr ""; CStr ""; CStr ""; CStr ""; rate].

Definition snap_general : Snapshot :=
  {[ "General" := JRows [hdr; general_row "r1" 1000 (CStr "AHB 1502") (CNum 2)] ]}.

Definition notif_rows (target : string) : list (list Cell) :=
  [[CStr "ID"; CStr "RecipientID"; CStr "Type"; CStr "Message"; CStr "Date"; CStr "IsRead";
    CStr "ActionLink"];
   [CStr "n1"; CStr target; CStr "warning"; CStr "Service due"; CNum 900; CBool false;
    CStr "view:users"]].

Definition snap_n1 : Snapshot := {[ "SystemNotification" := JRows (notif_rows "all") ]}.

Definition fetch0 (u : User) (j : Snapshot) (s : NState) : NState :=
  fetchNotifications epoch_cell u true url0 (CNum 5000) (Some j) s.

(** Spec scenario 9: ratings 1 and 2 are critical, 3 a warning, 4 none. *)
Example rating_thresholds :
  map (fun r => n_type <$> mjoin (derive_row epoch_cell "General" [] [] []
                                   (general_row "x" 1 (CStr "T") (CNum r))))
      [1; 2; 3; 4]%Z = [Some Critical; Some Critical; Some Warning; None].
Proof. reflexivity. Qed.

(** Spec scenario 10: a notification for "admin" reaches an Admin and not
    an Inspector. *)
Example server_targeting :
  length (server_alerts admin0 (notif_rows "admin")) = 1%nat /\
  length (server_alerts inspector1 (notif_rows "admin")) = 0%nat.
Proof. split; reflexivity. Qed.

(** A blank rating cell counts as a rating of 0.
    [Number('')] is 0, so an inspection whose rating was left empty gives a
    critical alert, while a row with no rating cell at all ([undefined],
    [NaN]) gives none. *)
Theorem blank_rating_is_critical :
  n_type <$> mjoin (derive_row epoch_cell "General" [] [] []
                      (general_row "x" 1 (CStr "T") (CStr ""))) = Some Critical /\
  n_type <$> mjoin (derive_row epoch_cell "General" [] [] []
                      (general_row "x" 1 (CStr "T") (CStr "  "))) = Some Critical /\
  n_type <$> mjoin (derive_row epoch_cell "General" [] [] []
                      (take 8 (general_row "x" 1 (CStr "T") (CStr "")))) = None.
Proof. split_and!; reflexivity. Qed.

(** Finding: the action link ["view:petroleum_v2"] opens the
    Petroleum module, not Petroleum V2: the test for ["view:petroleum"]
    comes first and matches it as a substring. *)
Theorem petroleum_v2_link_opens_petroleum u :
  link_target u (CStr "view:petroleum_v2") = Some MPetroleum /\
  link_target u (CStr "VIEW:Petroleum_V2") = Some MPetroleum.
Proof. split; reflexivity. Qed.

Definition general_alert : Notification :=
  mkNotif "General_1000_AHB1502" "Critical: AHB 1502" "General Check rated 2/5. Urgent attention needed."
          Critical (CNum 1000) false (Some "General") CUndef false.

(** Finding: a dismissal is undone by a [fetchNotifications] that started
    before it.  The call in flight, or the one of the 2.5 s timer of a
    submission made before the dismissal, reads the dismissed ids of the
    render that created it, and the critical alert comes back. *)
Example dismissal_undone_by_stale_closure :
  let id := "General_1000_AHB1502" in
  let a := mkNApp (fetch0 admin0 snap_general empty_nstate) [] [] in
  let run := napp_run epoch_cell admin0 true url0 (CNum 5000) a in
  find_by_id id (feed (na_state (run [NFetch (Some snap_general); NDismiss id]))) = None /\
  find_by_id id (feed (na_state (run [NFetch (Some snap_general); NDismiss id; NDone 0]))) = Some general_alert /\
  find_by_id id (feed (na_state (run [NSubmitted; NDismiss id; NTimer 0 (Some snap_general); NDone 0]))) =
    Some general_alert.
Proof. split_and!; reflexivity. Qed.

End AlertScenarios.

(** C9 (finding): a dismissed server notification comes back.  For
    any server notification row addressed to the session, dismissing its
    alert records the id and removes it from the feed, but the next
    reconciliation that does not throw shows it again: server
    notifications are not filtered by the dismissed ids. *)
Theorem dismissed_server_alert_returns date_ms u url now json s row :
  url <> "" -> (1 < length (system_rows json))%nat -> row ∈ tail (system_rows json) ->
  server_visible u row = true ->
  let s1 := handleDismissNotification (n_id (server_alert row)) s in
  is_Some (derived_alerts date_ms json alert_tabs (dismissed_ids s1) (read_ids s1) (server_acks json)) ->
  n_id (server_alert row) ∈ dismissed_ids s1 /\ find_by_id (n_id (server_alert row)) (feed s1) = None /\
  server_alert row ∈ feed (fetchNotifications date_ms u true url now (Some json) s1).
Proof.
  intros Hu Hl Hr Hv s1 [d Hd]. split_and!.
  - simpl. apply elem_of_app. right. by apply list_elem_of_singleton.
  - apply find_by_id_filtered.
  - unfold fetchNotifications. rewrite (proj2 (String.eqb_neq _ _) Hu).
    cbn [orb negb fetch_complete closure_of nc_dismissed nc_read]. unfold build_feed.
    rewrite Hd. cbn [feed set_feed]. rewrite (sort_desc_perm date_ms n_timestamp), elem_of_app.
    left. by apply server_alerts_member.
Qed.

(** C10 (finding): the local mirror of global acknowledgements is never
    consulted.  [handleGlobalAcknowledge] removes the alert and records
    its id in [globalAcknowledgedIds], but a reconciliation that does not
    throw builds the same feed as without the acknowledgement (the alert
    comes back until the server lists the id) and replaces the mirror by
    the server's list. *)
Theorem local_acknowledgement_ignored date_ms u url now json id s :
  url <> "" -> is_Some (build_feed date_ms u now json (dismissed_ids s) (read_ids s)) ->
  let s' := handleGlobalAcknowledge u true url id s in
  let r := fetchNotifications date_ms u true url now (Some json) in
  CStr id ∈ global_acks s' /\ find_by_id id (feed s') = None /\
  feed (r s') = feed (r s) /\ global_acks (r s') = server_acks json.
Proof.
  intros Hu [f Hf] s' r. apply String.eqb_neq in Hu.
  unfold s', r, handleGlobalAcknowledge, fetchNotifications, fetch_complete. rewrite Hu. simpl.
  rewrite Hf. simpl. split_and!; [|apply find_by_id_filtered|done|done].
  apply elem_of_app. right. by apply list_elem_of_singleton.
Qed.

(** ** Merge and order of the feed *)

(** C11: the feed is the merge of the server notifications addressed to
    the session, the "System Online" alert unless dismissed, and the
    alerts of the data rows of the four tabs that give one; it is
    ordered newest first whenever every timestamp parses. *)
Theorem feed_is_sorted_merge date_ms u now json dismissed read f :
  build_feed date_ms u now json dismissed read = Some f ->
  (forall n, n ∈ f <->
     n ∈ server_alerts u (system_rows json) \/ (n = sys_alert now read /\ sys_id ∉ dismissed) \/
     exists t rows row, t ∈ alert_tabs /\ json !! t = Some (JRows rows) /\ row ∈ tail rows /\
       derive_row date_ms t dismissed read (server_acks json) row = Some (Some n)) /\
  (Forall (dated date_ms n_timestamp) f -> Sorted (not_older date_ms n_timestamp) f).
Proof.
  unfold build_feed. destruct (derived_alerts _ _ _ _ _ _) as [d|] eqn:Hd; [|done].
  intros [= <-]. split.
  2:{ intros Hf. apply sort_desc_sorted. by rewrite <- (sort_desc_perm date_ms n_timestamp). }
  intros n. rewrite (sort_desc_perm date_ms n_timestamp), !elem_of_app.
  rewrite <- (derived_alerts_members _ _ _ _ _ _ _ n Hd).
  destruct (sys_id ∈? dismissed) eqn:Hi.
  - apply includes_true in Hi. rewrite elem_of_nil. naive_solver.
  - apply includes_false in Hi. rewrite list_elem_of_singleton. naive_solver.
Qed.

(** ** The acknowledgement handlers *)

(** "Clear all" marks every alert of the feed read, adds every id to
    the read ids without losing one or duplicating one, and persists the
    result. *)
Theorem clear_all_marks_everything s :
  let s' := handleClearAllNotifications s in
  Forall (fun n => n_read n = true) (feed s') /\
  map n_id (feed s') = map n_id (feed s) /\
  (forall i, i ∈ read_ids s' <-> i ∈ read_ids s \/ i ∈ map n_id (feed s)) /\
  NoDup (read_ids s') /\ ls_read s' = read_ids s'.
Proof.
  simpl. destruct (js_set_spec (read_ids s ++ map n_id (feed s))) as [Hm Hn].
  split; [apply Forall_forall; intros n; rewrite list_elem_of_fmap; by intros (m & -> & _)|].
  split; [rewrite map_map; by apply map_ext|].
  split; [intros i; rewrite Hm, elem_of_app; tauto|]. by split.
Qed.

Lemma link_target_non_admin u link m :
  role u <> Admin -> link_target u link = Some m -> m = MPetroleum \/ m = MGeneral \/ m = MAcid.
Proof.
  intros Hr. unfold link_target. destruct link as [| | | |l]; try done.
  assert (String.eqb (role_name (role u)) "Admin" = false) as ->
    by (destruct (role u); done).
  rewrite !andb_false_r. repeat case_match; intros [= <-]; tauto.
Qed.

(** An action link never opens the admin-only modules for a
    session that is not an Admin: [handleMarkNotificationRead] leaves the
    active module unchanged or opens Petroleum, General or Acid. *)
Theorem mark_read_link_respects_role u online url id s :
  role u <> Admin ->
  let m := module (handleMarkNotificationRead u online url id s) in
  m = module s \/ m = MPetroleum \/ m = MGeneral \/ m = MAcid.
Proof.
  intros Hr. unfold handleMarkNotificationRead.
  destruct (find_by_id id (feed s)) as [n|]; [|by repeat case_match; left].
  destruct (link_target u (n_action n)) as [m|] eqn:Hl.
  - simpl. right. exact (link_target_non_admin u _ m Hr Hl).
  - left. by repeat case_match.
Qed.

(** Finding: a server notification marked read while offline is
    recorded in the local read ids (the [else] branch of App.tsx 438-443
    also catches server events when offline); the server's read flag is
    not updated and nothing is queued to update it later. *)
Theorem server_read_offline_goes_local :
  let s1 := fetch0 admin0 snap_n1 empty_nstate in
  let s2 := handleMarkNotificationRead admin0 false url0 "n1" s1 in
  option_map n_server (find_by_id "n1" (feed s1)) = Some true /\
  read_ids s2 = ["n1"] /\ posts s2 = [].
Proof. vm_compute. repeat split. Qed.

(** ** Witnesses *)

Section AlertWitnesses.

(** An Acid inspection whose truck cell holds a number. *)
Definition acid_bad_rows : list (list Cell) :=
  [hdr; [CStr "a1"; CNum 2000; CNum 1502; CStr ""; CStr ""; CStr ""; CStr ""; CStr "";
         CStr ""; CNum 1]].

Definition snap_mixed : Snapshot :=
  {[ "General" := JRows [hdr; general_row "r1" 1000 (CStr "AHB 1502") (CNum 2)];
     "Acid" := JRows acid_bad_rows;
     "SystemNotification" := JRows (notif_rows "all") ]}.

Lemma bad_truck_cell_freezes_feed_witness :
  feed (fetchNotifications epoch_cell admin0 true url0 (CNum 5000) (Some snap_mixed)
          empty_nstate) = feed empty_nstate.
Proof.
  apply (bad_truck_cell_freezes_feed epoch_cell admin0 url0 (CNum 5000) snap_mixed "Acid"
           acid_bad_rows (nth 1 acid_bad_rows []) empty_nstate);
    first [discriminate | reflexivity | vm_compute; lia | idtac].
  - apply (bool_decide_unpack _). vm_compute. exact I.
  - apply (bool_decide_unpack _). vm_compute. exact I.
Defined.

(** A server notification whose id is also listed as acknowledged. *)
Definition snap_acked : Snapshot :=
  {[ "Acknowledgements" := JCells [CStr "n1"];
     "SystemNotification" := JRows (notif_rows "all") ]}.

Definition n1_alert : Notification := server_alert (nth 1 (notif_rows "all") []).

Lemma acknowledged_never_derived_witness :
  build_feed epoch_cell admin0 (CNum 5000) snap_acked [] []
    = Some [sys_alert (CNum 5000) []; n1_alert] /\
  n1_alert ∈ [sys_alert (CNum 5000) []; n1_alert] /\
  acked (n_id n1_alert) (server_acks snap_acked) = true /\
  (n_server n1_alert = true \/ n1_alert = sys_alert (CNum 5000) []).
Proof.
  assert (Hb : build_feed epoch_cell admin0 (CNum 5000) snap_acked [] []
                 = Some [sys_alert (CNum 5000) []; n1_alert]) by reflexivity.
  assert (Hn : n1_alert ∈ [sys_alert (CNum 5000) []; n1_alert])
    by (apply (bool_decide_unpack _); vm_compute; exact I).
  assert (Ha : acked (n_id n1_alert) (server_acks snap_acked) = true) by reflexivity.
  split; [exact Hb|]. split; [exact Hn|]. split; [exact Ha|].
  exact (acknowledged_never_derived _ _ _ _ _ _ _ _ Hb Hn Ha).
Defined.

Lemma feed_is_sorted_merge_witness :
  build_feed epoch_cell admin0 (CNum 5000) snap_mixed [] [] = None /\
  build_feed epoch_cell admin0 (CNum 5000) snap_general [] [] =
    Some [sys_alert (CNum 5000) []; general_alert] /\
  (general_alert ∈ [sys_alert (CNum 5000) []; general_alert] <->
     general_alert ∈ server_alerts admin0 (system_rows snap_general) \/
     (general_alert = sys_alert (CNum 5000) [] /\ sys_id ∉ []) \/
     exists t rows row, t ∈ alert_tabs /\ snap_general !! t = Some (JRows rows) /\ row ∈ tail rows /\
       derive_row epoch_cell t [] [] (server_acks snap_general) row = Some (Some general_alert)).
Proof.
  assert (Hb : build_feed epoch_cell admin0 (CNum 5000) snap_general [] [] =
                 Some [sys_alert (CNum 5000) []; general_alert]) by reflexivity.
  split; [reflexivity|]. split; [exact Hb|].
  exact (proj1 (feed_is_sorted_merge _ _ _ _ _ _ _ Hb) general_alert).
Defined.

Lemma dismissed_server_alert_returns_witness :
  let s1 := handleDismissNotification "n1" (fetch0 admin0 snap_n1 empty_nstate) in
  "n1" ∈ dismissed_ids s1 /\ find_by_id "n1" (feed s1) = None /\
  server_alert (nth 1 (notif_rows "all") []) ∈ feed (fetch0 admin0 snap_n1 s1).
Proof.
  apply (dismissed_server_alert_returns epoch_cell admin0 url0 (CNum 5000) snap_n1
           (fetch0 admin0 snap_n1 empty_nstate) (nth 1 (notif_rows "all") [])).
  - discriminate.
  - vm_compute. lia.
  - apply (bool_decide_unpack _). vm_compute. exact I.
  - reflexivity.
  - vm_compute. by eexists.
Defined.

Lemma local_acknowledgement_ignored_witness :
  let id := "General_1000_AHB1502" in
  let s1 := fetch0 admin0 snap_general empty_nstate in
  let s2 := handleGlobalAcknowledge admin0 true url0 id s1 in
  (CStr id ∈ global_acks s2 /\ find_by_id id (feed s2) = None /\
   feed (fetch0 admin0 snap_general s2) = feed (fetch0 admin0 snap_general s1) /\
   global_acks (fetch0 admin0 snap_general s2) = server_acks snap_general) /\
  find_by_id id (feed (fetch0 admin0 snap_general s2)) = Some general_alert.
Proof.
  cbv zeta. split; [|reflexivity].
  apply local_acknowledgement_ignored; [discriminate|vm_compute; by eexists].
Defined.

Lemma dismissed_never_derived_witness :
  let a := mkNApp (fetch0 admin0 snap_general empty_nstate) [] [] in
  let id := "General_1000_AHB1502" in
  Forall (fun c => id ∈ nc_dismissed c) (pending a) /\
  dismissal_holds id (na_state (napp_run epoch_cell admin0 true url0 (CNum 5000)
    (napp_step epoch_cell admin0 true url0 (CNum 5000) a (NDismiss id))
    [NSubmitted; NFetch (Some snap_general); NDone 0; NTimer 0 (Some snap_general); NDone 0])).
Proof.
  cbv zeta. assert (Hp : Forall (fun c => "General_1000_AHB1502" ∈ nc_dismissed c)
                           (pending (mkNApp (fetch0 admin0 snap_general empty_nstate) [] []))) by constructor.
  split; [exact Hp|]. exact (dismissed_never_derived _ _ _ _ _ _ _ _ Hp).
Defined.

Lemma mark_read_link_respects_role_witness :
  role inspector1 <> Admin /\
  let m := module (handleMarkNotificationRead inspector1 true url0 "n1"
                     (fetch0 inspector1 snap_n1 empty_nstate)) in
  m = module (fetch0 inspector1 snap_n1 empty_nstate) \/ m = MPetroleum \/ m = MGeneral \/ m = MAcid.
Proof.
  split; [discriminate|]. apply mark_read_link_respects_role. discriminate.
Defined.

End AlertWitnesses.
