(* ===== verification/Backend.v ===== *)
(** * The Apps Script backend

    The Google Apps Script the client ships as [BACKEND_SCRIPT_TEMPLATE]
    (src/src/constants.ts 253-706).  The spreadsheet is a map from tab
    names to their rows (row 1 is the header); a row is a list of cells.
    [getDataRange().getValues()] is rectangular, so rows are padded with
    empty strings to the widest row.  Formatting calls (bold, frozen
    rows) change no value and are left out.

    Two things the script relies on are parameters of the section: the
    value the spreadsheet stores for a written value ([store]: Sheets
    turns numeric-looking strings into numbers) and the current time as
    an ISO string ([now]).  The script lock ([LockService], whose
    [tryLock] result is ignored) is not modelled: each request runs
    atomically.  The one exception of the validation updates that the
    code can meet ([getRange] with zero columns on an empty
    [Validation_Data] tab) is an error value. *)

From S2P Require Import Prelude Session Queue Alerts.

Abbreviation Sheet := (list (list Cell)).
Abbreviation Spreadsheet := (gmap string Sheet).

(** ** Spreadsheet primitives *)

Definition last_column (sh : Sheet) : nat := foldr (fun r m => Nat.max (length r) m) 0%nat sh.

Definition pad_row (n : nat) (row : list Cell) : list Cell :=
  row ++ replicate (n - length row) (CStr "").

(** [getDataRange().getValues()] *)
Definition values (sh : Sheet) : Sheet := map (pad_row (last_column sh)) sh.

(** [sheet.getRange(r, c).setValue(v)] with 0-based [r], [c]: a row past
    the end is added, a short row is padded. *)
Definition set_cell (r c : nat) (v : Cell) (sh : Sheet) : Sheet :=
  let sh' := if Nat.ltb r (length sh) then sh else sh ++ replicate (S r - length sh) [] in
  alter (fun row => <[c := v]> (pad_row (S c) row)) r sh'.

Definition delete_row (r : nat) (sh : Sheet) : Sheet := take r sh ++ drop (S r) sh.

(** ** Requests and responses *)

(** The parsed POST body; absent fields are [undefined].  [b_prefs]
    stands for [body.preferences] (an object, truthy whenever present)
    through its [JSON.stringify] text, the only form the script stores. *)
Record Body := mkBody {
  b_action : Cell;
  b_sheet : Cell;
  b_headers : option (list Cell);
  b_row : option (list Cell);
  b_username : Cell;
  b_password : Cell;
  b_name : Cell;
  b_role : Cell;
  b_position : Cell;
  b_original : Cell;
  b_prefs : Cell;
  b_issue : Cell;
  b_user : Cell;
  b_id : Cell
}.

Definition empty_body : Body :=
  mkBody CUndef CUndef None None CUndef CUndef CUndef CUndef CUndef CUndef CUndef CUndef CUndef
         CUndef.

(** The user object of a login response and of [get_users]. *)
Record UserRow := mkUserRow {
  ur_username : Cell;
  ur_password : Cell;
  ur_name : Cell;
  ur_role : string;
  ur_position : Cell;
  ur_last_login : Cell
}.

Inductive Resp :=
| ROk (msg : string)
| RLogin (u : UserRow)
| RUsers (us : list UserRow)
| RIds (ids : list string)
| RErr (code : string) (msg : string).

(** [String(x).trim().toLowerCase()] of a username. *)
Definition norm_name (c : Cell) : string := to_lower (trim (js_string c)).

(** [body.username ? String(body.username).trim().toLowerCase() : ""] *)
Definition norm_field (c : Cell) : string := if js_truthy c then norm_name c else "".

(** The duplicate test of [handleRegisterUser] (line 390) on a stored
    name: [String(data[i][0]).trim().toLowerCase() === username]. *)
Definition same_name (username : string) (c : Cell) : bool := String.eqb (norm_name c) username.

(** The index of the first row after the header satisfying [p]. *)
Fixpoint find_row_from (p : list Cell -> bool) (i : nat) (rows : Sheet) : option nat :=
  match rows with
  | [] => None
  | r :: rs => if p r then Some i else find_row_from p (S i) rs
  end.

Definition find_data_row (p : list Cell -> bool) (sh : Sheet) : option nat :=
  find_row_from p 1 (drop 1 sh).

(** What Sheets does to a written string of decimal digits: it stores
    the number the digits spell ([setValue("0123")] stores [123]).  A
    store [converts_digits] when it does at least this;
    [sheets_digits_store] is the store that does only this, the
    instance the findings below are computed with. *)
Definition converts_digits (store : Cell -> Cell) : Prop :=
  forall s z, parse_unsigned s = Some z -> store (CStr s) = CNum z.

Definition sheets_digits_store (c : Cell) : Cell :=
  match c with
  | CStr s => match parse_unsigned s with Some z => CNum z | None => c end
  | _ => c
  end.

Section Script.
Context (store : Cell -> Cell) (now : string).

(** [sheet.appendRow(values)] *)
Definition append_row (row : list Cell) (sh : Sheet) : Sheet := sh ++ [map store row].

Definition set_value (r c : nat) (v : Cell) (sh : Sheet) : Sheet := set_cell r c (store v) sh.

(** [ss.getSheetByName(n)], creating it with a header row when absent. *)
Definition ensure_sheet (n : string) (header : list Cell) (ss : Spreadsheet) : Sheet :=
  default (append_row header []) (ss !! n).

(** ** Validation lists *)

Definition VALIDATION_HEADER : list Cell :=
  map CStr ["Truck_Reg_No"; "Trailer_Reg_No"; "Driver_Name"; "Inspector_Name"; "Location";
            "Position"].

(** [headers.indexOf(headerName)]: strict equality, so only a string cell. *)
Fixpoint index_of (x : string) (l : list Cell) (i : nat) : option nat :=
  match l with
  | [] => None
  | c :: l' => if bool_decide (c = CStr x) then Some i else index_of x l' (S i)
  end.

(** The first row index from 1 on whose cell in the column is empty. *)
Fixpoint first_empty_from (i : nat) (col : list string) : option nat :=
  match col with
  | [] => None
  | v :: col' => if String.eqb v "" then Some i else first_empty_from (S i) col'
  end.

(** [updateValidationSingle(ss, headerName, value)]: add a trimmed value
    to its column of [Validation_Data] unless the column (header included)
    already has it, in the first empty slot below the header.  [None] is
    the exception [getRange(1, 1, 1, 0)] raises on a tab without any
    column, before anything is written. *)
Definition updateValidationSingle (header : string) (value : Cell) (ss : Spreadsheet)
    : option Spreadsheet :=
  let val_str := trim (js_string value) in
  if negb (js_truthy value) || String.eqb val_str "" then Some ss
  else
    let vs := ensure_sheet "Validation_Data" VALIDATION_HEADER ss in
    if Nat.eqb (last_column vs) 0 then None else
    let headers := pad_row (last_column vs) (default [] (head vs)) in
    let '(col, vs1) := match index_of header headers 0 with
                       | Some c => (c, vs)
                       | None => (length headers, set_value 0 (length headers) (CStr header) vs)
                       end in
    let full_col := map (fun r => js_string (cell_at r col)) (values vs1) in
    if val_str ∈? full_col then Some (<["Validation_Data" := vs1]> ss)
    else
      let target := default (length vs1) (first_empty_from 1 (drop 1 full_col)) in
      Some (<["Validation_Data" := set_value target col (CStr val_str) vs1]> ss).

(** The columns of a data row that feed each validation list, in the
    order [updateValidationData] updates them: the General layout, and
    the layout of the other inspection tabs. *)
Definition validation_columns (sheet_name : string) : list (string * nat) :=
  if String.eqb sheet_name "General"
  then [("Truck_Reg_No", 2); ("Trailer_Reg_No", 3); ("Driver_Name", 5); ("Inspector_Name", 4);
        ("Location", 6)]
  else [("Truck_Reg_No", 2); ("Trailer_Reg_No", 3); ("Driver_Name", 8); ("Inspector_Name", 7);
        ("Location", 5)].

(** The calls of [updateValidationData] in order; its [catch] ends the
    sequence at the first exception, keeping what was written before. *)
Fixpoint learn_columns (row : list Cell) (cols : list (string * nat)) (ss : Spreadsheet)
    : Spreadsheet :=
  match cols with
  | [] => ss
  | (h, i) :: cols' =>
      match updateValidationSingle h (cell_at row i) ss with
      | Some ss' => learn_columns row cols' ss'
      | None => ss
      end
  end.

(** [updateValidationData(ss, body)]: the identifying fields of the row by
    the tab's column layout. *)
Definition updateValidationData (sheet_name : string) (row : list Cell) (ss : Spreadsheet)
    : Spreadsheet :=
  learn_columns row (validation_columns sheet_name) ss.

(** [if (v) updateValidationSingle(ss, header, v)] in the user handlers,
    where an exception reaches the [catch] of [doPost]. *)
Definition learn_if (header : string) (v : Cell) (ss : Spreadsheet) : option Spreadsheet :=
  if js_truthy v then updateValidationSingle header v ss else Some ss.

Definition RANGE_ERROR : string :=
  "Exception: The number of columns in the range must be at least 1.".

(** ** Users *)

Definition USERS_HEADER : list Cell :=
  map CStr ["Username"; "Password"; "Name"; "Role"; "Position"; "Last_Login"; "Preferences"].

Definition user_row_of (row : list Cell) : UserRow :=
  mkUserRow (cell_at row 0) (cell_at row 1) (cell_at row 2) (trim (js_string (cell_at row 3)))
            (cell_at row 4) (cell_at row 5).

(** [handleLogin] *)
Definition handleLogin (ss : Spreadsheet) (body : Body) : Spreadsheet * Resp :=
  let username := norm_field (b_username body) in
  let password := if js_truthy (b_password body) then js_string (b_password body) else "" in
  match ss !! "Users" with
  | None => (ss, RErr "NO_USERS" "No users found in database.")
  | Some sh =>
      if Nat.leb (length sh) 1 then (ss, RErr "NO_USERS" "No users found in database.")
      else
        let data := values sh in
        let ok row := String.eqb (norm_name (cell_at row 0)) username
                      && String.eqb (js_string (cell_at row 1)) password in
        match find_data_row ok data with
        | Some i =>
            let row := default [] (data !! i) in
            let u := mkUserRow (cell_at row 0) CUndef (cell_at row 2)
                               (trim (js_string (cell_at row 3)))
                               (if js_truthy (cell_at row 4) then cell_at row 4 else CStr "")
                               CUndef in
            (<["Users" := set_value i 5 (CStr now) sh]> ss, RLogin u)
        | None => (ss, RErr "INVALID_CREDENTIALS" "Invalid username or password.")
        end
  end.

(** [handleRegisterUser]: no check of who asks, any role. *)
Definition handleRegisterUser (ss : Spreadsheet) (body : Body) : Spreadsheet * Resp :=
  let sh := ensure_sheet "Users" USERS_HEADER ss in
  let username := norm_field (b_username body) in
  match find_data_row (fun r => same_name username (cell_at r 0)) (values sh) with
  | Some _ => (<["Users" := sh]> ss, RErr "" "Username already exists.")
  | None =>
      let sh' := append_row [CStr username; b_password body; b_name body;
                             CStr (trim (js_string (b_role body)));
                             if js_truthy (b_position body) then b_position body else CStr "";
                             CStr now; CStr "{}"] sh in
      let ss1 := <["Users" := sh']> ss in
      match learn_if "Inspector_Name" (b_name body) ss1 with
      | None => (ss1, RErr "" RANGE_ERROR)
      | Some ss2 =>
          match learn_if "Position" (b_position body) ss2 with
          | None => (ss2, RErr "" RANGE_ERROR)
          | Some ss3 => (ss3, ROk "User created.")
          end
      end
  end.

(** [handleUpdateUser]: the row is found by [originalUsername] (or
    [username]); the new username is written without a duplicate check. *)
Definition handleUpdateUser (ss : Spreadsheet) (body : Body) : Spreadsheet * Resp :=
  match ss !! "Users" with
  | None => (ss, RErr "" "Database not found.")
  | Some sh =>
      let current := if js_truthy (b_original body) then norm_name (b_original body)
                     else norm_name (b_username body) in
      match find_data_row (fun r => String.eqb (norm_name (cell_at r 0)) current) (values sh) with
      | None => (ss, RErr "" "User not found.")
      | Some i =>
          let new_name := norm_name (b_username body) in
          let sh1 := if js_truthy (b_username body) && negb (String.eqb new_name current)
                     then set_value i 0 (CStr new_name) sh else sh in
          let sh2 := if js_truthy (b_name body) then set_value i 2 (b_name body) sh1 else sh1 in
          let sh3 := if js_truthy (b_role body)
                     then set_value i 3 (CStr (trim (js_string (b_role body)))) sh2 else sh2 in
          let sh4 := if bool_decide (b_position body = CUndef) then sh3
                     else set_value i 4 (b_position body) sh3 in
          let sh5 := if js_truthy (b_prefs body) then set_value i 6 (b_prefs body) sh4 else sh4 in
          let sh6 := if js_truthy (b_password body)
                        && negb (String.eqb (trim (js_string (b_password body))) "")
                     then set_value i 1 (b_password body) sh5 else sh5 in
          let ss1 := <["Users" := sh6]> ss in
          match learn_if "Inspector_Name" (b_name body) ss1 with
          | None => (ss1, RErr "" RANGE_ERROR)
          | Some ss2 =>
              match learn_if "Position" (b_position body) ss2 with
              | None => (ss2, RErr "" RANGE_ERROR)
              | Some ss3 => (ss3, ROk "User updated.")
              end
          end
      end
  end.

(** [handleGetUsers]: every row after the header with a username. *)
Definition handleGetUsers (ss : Spreadsheet) : Resp :=
  match ss !! "Users" with
  | None => RUsers []
  | Some sh => RUsers (map user_row_of (filter (fun r => js_truthy (cell_at r 0)) (drop 1 (values sh))))
  end.

(** [handleDeleteUser] *)
Definition handleDeleteUser (ss : Spreadsheet) (body : Body) : Spreadsheet * Resp :=
  match ss !! "Users" with
  | None => (ss, RErr "" "Database not found.")
  | Some sh =>
      let username := norm_field (b_username body) in
      match find_data_row (fun r => String.eqb (norm_name (cell_at r 0)) username) (values sh) with
      | Some i => (<["Users" := delete_row i sh]> ss, ROk "User deleted.")
      | None => (ss, RErr "" "User not found.")
      end
  end.

(** ** Acknowledgements and server notifications *)

Definition ACK_HEADER : list Cell := map CStr ["Issue_ID"; "Acknowledged_By"; "Role"; "Timestamp"].

(** [body.user || 'Unknown'] *)
Definition or_unknown (c : Cell) : Cell := if js_truthy c then c else CStr "Unknown".

(** [handleAcknowledgeIssue]: one row per issue id (the header row takes
    part in the duplicate test). *)
Definition handleAcknowledgeIssue (ss : Spreadsheet) (body : Body) : Spreadsheet * Resp :=
  let sh := ensure_sheet "Acknowledgements" ACK_HEADER ss in
  let issue := js_string (b_issue body) in
  let sh' := if existsb (fun r => String.eqb (js_string (cell_at r 0)) issue) (values sh) then sh
             else append_row [CStr issue; or_unknown (b_user body); or_unknown (b_role body);
                              CStr now] sh in
  (<["Acknowledgements" := sh']> ss, ROk "Issue acknowledged.").

(** [handleGetAcknowledgements] *)
Definition handleGetAcknowledgements (ss : Spreadsheet) : Resp :=
  match ss !! "Acknowledgements" with
  | None => RIds []
  | Some sh => RIds (map (fun r => js_string (cell_at r 0))
                         (filter (fun r => js_truthy (cell_at r 0)) (drop 1 (values sh))))
  end.

(** [handleMarkNotificationRead]: sets [IsRead] of the first row with the id. *)
Definition handleMarkNotificationReadServer (ss : Spreadsheet) (body : Body) : Spreadsheet * Resp :=
  match ss !! "SystemNotification" with
  | None => (ss, RErr "" "Notification sheet not found")
  | Some sh =>
      let id := js_string (b_id body) in
      match find_data_row (fun r => String.eqb (js_string (cell_at r 0)) id) (values sh) with
      | Some i => (<["SystemNotification" := set_value i 5 (CStr "TRUE") sh]> ss, ROk "Marked as read")
      | None => (ss, RErr "" "ID not found")
      end
  end.

(** ** Data rows *)

(** Tabs whose rows do not feed the validation lists. *)
Definition EXCLUDED_TABS : list string :=
  ["System_Settings"; "Validation_Data"; "Users"; "Acknowledgements"; "SystemNotification"].

(** [r === null || r === undefined ? "" : String(r)] *)
Definition safe_cell (c : Cell) : Cell :=
  match c with CUndef | CNull => CStr "" | _ => CStr (js_string c) end.

(** The data branch of [doPost]: get or create the tab (with the header
    row when [headers] is an array), append the row as strings, learn the
    validation values.  Without a [row] the [map] throws after the tab
    was created; without a string tab name nothing is written. *)
Definition handleData (ss : Spreadsheet) (body : Body) : Spreadsheet * Resp :=
  match b_sheet body with
  | CStr sheet_name =>
      let sh := match ss !! sheet_name with
                | Some sh => sh
                | None => match b_headers body with Some hs => append_row hs [] | None => [] end
                end in
      match b_row body with
      | None => (<[sheet_name := sh]> ss, RErr "" "TypeError: rowData is undefined")
      | Some row =>
          let ss1 := <[sheet_name := append_row (map safe_cell row) sh]> ss in
          let ss2 := if sheet_name ∈? EXCLUDED_TABS then ss1
                     else updateValidationData sheet_name row ss1 in
          (ss2, ROk sheet_name)
      end
  | _ => (ss, RErr "" "Invalid sheet name")
  end.

(** [body.action === a] *)
Definition is_action (c : Cell) (a : string) : bool :=
  match c with CStr s => String.eqb s a | _ => false end.

(** [doPost]: dispatch on the action, the data branch otherwise. *)
Definition doPost (ss : Spreadsheet) (body : Body) : Spreadsheet * Resp :=
  let a := b_action body in
  if is_action a "login" then handleLogin ss body
  else if is_action a "register_user" then handleRegisterUser ss body
  else if is_action a "get_users" then (ss, handleGetUsers ss)
  else if is_action a "delete_user" then handleDeleteUser ss body
  else if is_action a "update_user" then handleUpdateUser ss body
  else if is_action a "acknowledge_issue" then handleAcknowledgeIssue ss body
  else if is_action a "get_acknowledgements" then (ss, handleGetAcknowledgements ss)
  else if is_action a "mark_notification_read" then handleMarkNotificationReadServer ss body
  else handleData ss body.

End Script.

(** ** The GET snapshot *)

(** Distinct cells in first-occurrence order ([[...new Set(cs)]]). *)
Fixpoint cells_set (acc cs : list Cell) : list Cell :=
  match cs with
  | [] => acc
  | c :: cs' => cells_set (if bool_decide (c ∈ acc) then acc else acc ++ [c]) cs'
  end.

(** [Validation_Data]: each header to the distinct non-empty values of its
    column. *)
Definition validation_view (sh : Sheet) : JVal :=
  if Nat.ltb 1 (length sh) then
    let vs := values sh in
    let headers := default [] (head vs) in
    JObj (imap (fun i h => (js_string h,
                            cells_set [] (filter (fun c => bool_decide (c <> CStr ""))
                                                 (map (fun r => cell_at r i) (drop 1 vs)))))
               headers)
  else JObj [].

(** The last 200 data rows (201 when the tab has more than 201 rows),
    with the header in front. *)
Definition rows_view (sh : Sheet) : JVal :=
  let last_row := length sh in
  if Nat.ltb 0 last_row then
    let start_row := Nat.max 1 (last_row - 200) in
    let vs := values sh in
    let window := drop (start_row - 1) vs in
    JRows (if Nat.ltb 1 start_row then default [] (head vs) :: window else window)
  else JRows [].

Definition sheet_view (name : string) (sh : Sheet) : option JVal :=
  if String.eqb name "Users" then None
  else if String.eqb name "Validation_Data" then Some (validation_view sh)
  else if String.eqb name "Acknowledgements" then
    Some (JCells (if Nat.ltb 1 (length sh) then map (fun r => cell_at r 0) (drop 1 (values sh))
                  else []))
  else Some (rows_view sh).

(** [doGet]: every tab but [Users]. *)
Definition doGet (ss : Spreadsheet) : Snapshot := map_imap sheet_view ss.



(** ** Properties of the snapshot *)

(** C15: the GET snapshot never contains the [Users] tab (usernames and
    passwords), and contains every other tab. *)
Theorem doGet_hides_users ss name :
  is_Some (doGet ss !! name) <-> name <> "Users" /\ is_Some (ss !! name).
Proof.
  unfold doGet. rewrite map_lookup_imap. destruct (ss !! name) as [sh|]; simpl.
  - unfold sheet_view. destruct (String.eqb_spec name "Users") as [->|Hn].
    + split; [by intros [? ?] | by intros []].
    + split; [intros _; split; [done | by eexists]|intros _].
      repeat case_match; by eexists.
  - split; [by intros [? ?] | by intros [_ [? ?]]].
Qed.

Lemma length_values sh : length (values sh) = length sh.
Proof. unfold values. apply length_map. Qed.

(** A data tab is served as at most 202 rows: the header and the last 201. *)
Lemma rows_view_length sh rs : rows_view sh = JRows rs -> (length rs <= 202)%nat.
Proof.
  unfold rows_view. destruct (Nat.ltb_spec 0 (length sh)); intros [= <-]; [|simpl; lia].
  pose proof (length_values sh).
  destruct (Nat.ltb_spec 1 (Nat.max 1 (length sh - 200))); simpl; rewrite length_drop; lia.
Qed.

(** The served rows of a data tab end with its last row, and a tab with a
    header and a data row is served with at least two rows. *)
Lemma rows_view_last sh rs :
  rows_view sh = JRows rs ->
  last rs = last (values sh) /\ ((2 <= length sh)%nat -> (2 <= length rs)%nat).
Proof.
  unfold rows_view. destruct (Nat.ltb_spec 0 (length sh)) as [Hpos|Hz].
  - intros [= <-]. set (vs := values sh). assert (length vs = length sh) by apply length_values.
    destruct (Nat.ltb_spec 1 (Nat.max 1 (length sh - 200))).
    + simpl. rewrite length_drop. split; [|lia].
      rewrite last_cons. destruct (last (drop _ vs)) eqn:Hl.
      * rewrite <- Hl. apply last_drop. lia.
      * apply last_None in Hl. apply (f_equal length) in Hl. rewrite length_drop in Hl. simpl in Hl. lia.
    + rewrite length_drop. split; [apply last_drop|]; lia.
  - intros [= <-]. destruct sh; simpl in *; [split; [done|lia]|lia].
Qed.

(** A data tab is served as at most 202 rows (the header and the last
    200 or 201 data rows), ending with the tab's last row. *)
Theorem rows_view_window sh rs :
  rows_view sh = JRows rs ->
  (length rs <= 202)%nat /\ last rs = last (values sh).
Proof. intros Hv. split; [by eapply rows_view_length|by apply rows_view_last]. Qed.

(** ** Data appends in posting order *)

(** The body [JSON.stringify(payload)] of a queued or direct submission. *)
Definition body_of_payload (p : Payload) : Body :=
  mkBody (CStr (p_action p)) (CStr (p_sheet p)) (Some (map CStr (p_headers p)))
         (Some (p_row p)) CUndef CUndef CUndef CUndef CUndef CUndef CUndef CUndef CUndef
         (CStr (p_id p)).

(** The spreadsheet after the backend has received the POST bodies [ps],
    in order. *)
Definition apply_posts (store : Cell -> Cell) (now : string) (ps : list Payload)
    (ss : Spreadsheet) : Spreadsheet :=
  fold_left (fun ss p => fst (doPost store now ss (body_of_payload p))) ps ss.

(** ** Facts on the spreadsheet primitives *)

Lemma last_column_spec sh n :
  (last_column sh <= n)%nat <-> Forall (fun r => length r <= n)%nat sh.
Proof.
  induction sh as [|r sh IH]; simpl; [split; [constructor|lia]|].
  rewrite Forall_cons, <- IH. lia.
Qed.

Lemma last_column_lookup sh r row : sh !! r = Some row -> (length row <= last_column sh)%nat.
Proof.
  revert r. induction sh as [|x sh IH]; intros [|r] H; simplify_eq/=; [lia|].
  specialize (IH r H). lia.
Qed.

Lemma length_pad_row n row : length (pad_row n row) = Nat.max n (length row).
Proof. unfold pad_row. rewrite length_app, length_replicate. lia. Qed.

Lemma cell_at_pad_row n row c :
  cell_at (pad_row n row) c =
    if Nat.ltb c (length row) then cell_at row c
    else if Nat.ltb c n then CStr "" else CUndef.
Proof.
  unfold cell_at, pad_row. destruct (Nat.ltb_spec c (length row)).
  - by rewrite lookup_app_l.
  - rewrite lookup_app_r by lia. destruct (Nat.ltb_spec c n).
    + by rewrite lookup_replicate_2 by lia.
    + by rewrite (proj1 (lookup_replicate_None _ _ _)) by lia.
Qed.

Lemma length_set_cell r c v sh : length (set_cell r c v sh) = Nat.max (length sh) (S r).
Proof.
  unfold set_cell. rewrite length_alter.
  destruct (Nat.ltb_spec r (length sh)); rewrite ?length_app, ?length_replicate; lia.
Qed.

Lemma set_cell_lookup_eq r c v sh :
  set_cell r c v sh !! r = Some (<[c := v]> (pad_row (S c) (default [] (sh !! r)))).
Proof.
  unfold set_cell. rewrite list_lookup_alter, decide_True by done. destruct (Nat.ltb_spec r (length sh)).
  - destruct (sh !! r) eqn:E; [done|]. apply lookup_ge_None in E. lia.
  - rewrite lookup_app_r, lookup_replicate_2 by lia. by rewrite lookup_ge_None_2 by lia.
Qed.

Lemma set_cell_lookup_ne r c v sh r0 row :
  r0 <> r -> set_cell r c v sh !! r0 = Some row -> sh !! r0 = Some row \/ row = [].
Proof.
  intros Hne. unfold set_cell. rewrite list_lookup_alter_ne by congruence.
  destruct (Nat.ltb_spec r (length sh)); [auto|].
  destruct (Nat.ltb_spec r0 (length sh)); [rewrite lookup_app_l by done; auto|].
  rewrite lookup_app_r by lia. intros (-> & _)%lookup_replicate. by right.
Qed.

Lemma set_cell_lookup_old r c v sh r0 :
  r0 <> r -> (r0 < length sh)%nat -> set_cell r c v sh !! r0 = sh !! r0.
Proof.
  intros Hne Hlt. unfold set_cell. rewrite list_lookup_alter_ne by congruence.
  destruct (Nat.ltb_spec r (length sh)); [done|]. by rewrite lookup_app_l.
Qed.

Lemma last_column_set_cell r c v sh :
  (Nat.max (last_column sh) (S c) <= last_column (set_cell r c v sh))%nat.
Proof.
  pose proof (last_column_lookup _ _ _ (set_cell_lookup_eq r c v sh)) as Hr.
  rewrite length_insert, length_pad_row in Hr.
  enough (last_column sh <= last_column (set_cell r c v sh))%nat by lia.
  apply last_column_spec, Forall_lookup. intros i row Hi.
  destruct (decide (i = r)) as [->|Hne].
  - rewrite Hi in Hr. simpl in Hr. lia.
  - rewrite <- (set_cell_lookup_old r c v) in Hi by eauto using lookup_lt_Some.
    by apply last_column_lookup in Hi.
Qed.

Lemma last_column_set_cell_ne0 r c v sh : last_column (set_cell r c v sh) <> 0%nat.
Proof. pose proof (last_column_set_cell r c v sh). lia. Qed.

(** A [Validation_Data] tab with a column, on which the validation
    updates do not raise. *)
Definition validation_ok (ss : Spreadsheet) : Prop :=
  forall vd, ss !! "Validation_Data" = Some vd -> last_column vd <> 0%nat.

Section AppendFacts.
Context (store : Cell -> Cell) (now : string).

Lemma updateValidationSingle_other header v ss ss' t :
  t <> "Validation_Data" -> updateValidationSingle store header v ss = Some ss' -> ss' !! t = ss !! t.
Proof.
  intros Ht. unfold updateValidationSingle.
  repeat case_match; intros; simplify_eq; try done; by rewrite lookup_insert_ne by congruence.
Qed.

Lemma learn_if_other header v ss ss' t :
  t <> "Validation_Data" -> learn_if store header v ss = Some ss' -> ss' !! t = ss !! t.
Proof.
  unfold learn_if. destruct (js_truthy v); [apply updateValidationSingle_other|].
  by intros _ [= ->].
Qed.

Lemma updateValidationData_other name row ss t :
  t <> "Validation_Data" -> updateValidationData store name row ss !! t = ss !! t.
Proof.
  intros Ht. unfold updateValidationData.
  generalize (validation_columns name). intros cols. revert ss.
  induction cols as [|[h i] cols IH]; intros ss; [done|]. simpl.
  destruct (updateValidationSingle _ _ _ _) as [ss'|] eqn:E; [|done].
  rewrite IH. by eapply updateValidationSingle_other.
Qed.

Lemma updateValidationSingle_ok header v ss :
  validation_ok ss ->
  exists ss', updateValidationSingle store header v ss = Some ss' /\ validation_ok ss'.
Proof.
  intros Hok. unfold updateValidationSingle.
  destruct (negb _ || _); [by eexists|].
  set (vs := ensure_sheet store _ _ ss).
  assert (Hvs : last_column vs <> 0%nat).
  { unfold vs, ensure_sheet. destruct (ss !! _) eqn:E; [by apply Hok|]. simpl. lia. }
  rewrite (proj2 (Nat.eqb_neq _ _) Hvs). unfold set_value.
  destruct (index_of _ _ _); cbn zeta; case_match; eexists; (split; [done|]);
    intros vd; rewrite lookup_insert_eq; intros [= <-]; [done|..];
    apply last_column_set_cell_ne0.
Qed.

Lemma learn_if_ok header v ss :
  validation_ok ss -> exists ss', learn_if store header v ss = Some ss' /\ validation_ok ss'.
Proof.
  unfold learn_if. destruct (js_truthy v); [apply updateValidationSingle_ok|by eexists].
Qed.

Lemma doPost_create ss p :
  p_action p = "create" ->
  doPost store now ss (body_of_payload p) = handleData store ss (body_of_payload p).
Proof. intros Ha. unfold doPost. simpl. by rewrite Ha. Qed.

(** One data POST: the target tab (created with the header row when
    absent) gains the row as strings; other tabs but the validation lists
    are unchanged. *)
Lemma handleData_lookup ss p t :
  t <> "Validation_Data" ->
  fst (handleData store ss (body_of_payload p)) !! t =
    if bool_decide (p_sheet p = t)
    then Some (append_row store (map safe_cell (p_row p))
                 (default (append_row store (map CStr (p_headers p)) []) (ss !! t)))
    else ss !! t.
Proof.
  intros Ht. unfold handleData. simpl. case_bool_decide as Hs.
  - subst t. destruct (_ ∈? EXCLUDED_TABS); simpl; rewrite ?updateValidationData_other by done;
      rewrite lookup_insert_eq; by destruct (ss !! p_sheet p).
  - destruct (_ ∈? EXCLUDED_TABS); simpl; rewrite ?updateValidationData_other by done;
      by rewrite lookup_insert_ne.
Qed.

End AppendFacts.

(** C17: the backend keeps the order of submissions.  Posting create
    payloads to the backend in a given order appends, to each existing
    tab other than the validation lists, exactly the rows of the payloads
    aimed at it, in that order and as strings. *)
Theorem posts_append_in_order store now ps ss t sh :
  t <> "Validation_Data" -> ss !! t = Some sh -> Forall (fun p => p_action p = "create") ps ->
  apply_posts store now ps ss !! t =
    Some (sh ++ map (fun p => map store (map safe_cell (p_row p)))
                    (filter (fun p => p_sheet p = t) ps)).
Proof.
  intros Ht. revert ss sh. induction ps as [|p ps IH]; intros ss sh Hs Ha; simpl.
  - by rewrite app_nil_r.
  - inversion Ha as [|? ? Hp Hps]; subst.
    rewrite (IH _ (if bool_decide (p_sheet p = t)
                   then sh ++ [map store (map safe_cell (p_row p))] else sh)); [| |done].
    + rewrite filter_cons. case_decide; case_bool_decide; try contradiction; simpl;
        [by rewrite <- app_assoc|done].
    + rewrite doPost_create, handleData_lookup by done. rewrite Hs. by case_bool_decide.
Qed.

(** ** Acknowledgements reach the client's snapshot *)

Lemma cell_at_pad n row i : (i < length row)%nat -> cell_at (pad_row n row) i = cell_at row i.
Proof. intros Hi. unfold cell_at, pad_row. by rewrite lookup_app_l. Qed.

Definition first_cells (sh : Sheet) : list Cell := map (fun r => cell_at r 0) sh.

Lemma first_cells_values sh :
  Forall (fun r => (0 < length r)%nat) sh -> first_cells (values sh) = first_cells sh.
Proof.
  intros Hne. unfold first_cells, values. rewrite map_map.
  apply map_ext_in. intros r Hr%list_elem_of_In. rewrite cell_at_pad; [done|].
  by eapply Forall_forall in Hne.
Qed.

Lemma existsb_first_cell (g : Cell -> bool) sh :
  existsb (fun r => g (cell_at r 0)) sh = existsb g (first_cells sh).
Proof. induction sh; simpl; congruence. Qed.

Lemma first_cells_drop sh : first_cells (drop 1 sh) = drop 1 (first_cells sh).
Proof. unfold first_cells. by rewrite <- fmap_drop. Qed.

(** The [Acknowledgements] entry of the snapshot: the ids of the data rows. *)
Lemma ack_view sh :
  sheet_view "Acknowledgements" sh =
  Some (JCells (if Nat.ltb 1 (length sh) then drop 1 (first_cells (values sh)) else [])).
Proof. unfold sheet_view. simpl. by rewrite <- first_cells_drop. Qed.

(** The acknowledgement tab as the script writes it: a header whose id
    cell is not the issue, and string ids in the first column. *)
Definition ack_sheet_ok (issue : string) (sh : Sheet) : Prop :=
  exists hdr rows, sh = hdr :: rows /\ (0 < length hdr)%nat /\
    js_string (cell_at hdr 0) <> issue /\
    Forall (fun r => exists s, cell_at r 0 = CStr s /\ (0 < length r)%nat) rows.

Definition ack_tab_ok (issue : string) (ss : Spreadsheet) : Prop :=
  match ss !! "Acknowledgements" with
  | None => issue <> "Issue_ID"
  | Some sh => ack_sheet_ok issue sh
  end.

Lemma ack_sheet_nonempty issue sh :
  ack_sheet_ok issue sh -> Forall (fun r => (0 < length r)%nat) sh.
Proof.
  intros (hdr & rows & -> & Hh & _ & Hr). constructor; [done|].
  eapply Forall_impl; [exact Hr|]. by intros r (? & _ & ?).
Qed.

Lemma ack_string_ids issue rows :
  Forall (fun r => exists s, cell_at r 0 = CStr s /\ (0 < length r)%nat) rows ->
  existsb (fun c => String.eqb (js_string c) issue) (first_cells rows) =
  bool_decide (CStr issue ∈ first_cells rows).
Proof.
  induction 1 as [|r rows (s & Hs & _) _ IH]; [done|].
  change (first_cells (r :: rows)) with (cell_at r 0 :: first_cells rows).
  cbn [existsb]. rewrite Hs, IH. cbn [js_string].
  destruct (String.eqb_spec s issue) as [->|Hne]; simpl.
  - symmetry. apply bool_decide_eq_true. by left.
  - apply bool_decide_ext. rewrite elem_of_cons. naive_solver.
Qed.

(** On a well-formed tab, the script's duplicate test is membership of the
    issue among the data rows' ids. *)
Lemma ack_found issue hdr rows :
  ack_sheet_ok issue (hdr :: rows) ->
  existsb (fun r => String.eqb (js_string (cell_at r 0)) issue) (values (hdr :: rows)) =
  bool_decide (CStr issue ∈ first_cells rows).
Proof.
  intros Hok. pose proof (ack_sheet_nonempty _ _ Hok) as Hne.
  destruct Hok as (h & rs & [= <- <-] & _ & Hh & Hr).
  rewrite (existsb_first_cell (fun c => String.eqb (js_string c) issue)).
  rewrite first_cells_values by done.
  change (first_cells (hdr :: rows)) with (cell_at hdr 0 :: first_cells rows). cbn [existsb].
  apply String.eqb_neq in Hh. rewrite Hh. cbn [orb]. by apply ack_string_ids.
Qed.

Lemma ensure_ack_ok store ss issue :
  (forall s, store (CStr s) = CStr s) -> ack_tab_ok issue ss ->
  ack_sheet_ok issue (ensure_sheet store "Acknowledgements" ACK_HEADER ss).
Proof.
  intros Hst. unfold ack_tab_ok, ensure_sheet. destruct (ss !! _) as [sh|]; simpl; [done|].
  intros Hi. eexists _, []. split_and!; [reflexivity|simpl; lia| |constructor].
  simpl. rewrite Hst. simpl. intros Heq. by apply Hi.
Qed.

(** A tab that holds the issue's row, written back, is in the snapshot and
    stops a second acknowledgement. *)
Lemma ack_recorded store now ss sh body :
  ack_sheet_ok (js_string (b_issue body)) sh ->
  (exists hdr rows, sh = hdr :: rows /\ CStr (js_string (b_issue body)) ∈ first_cells rows) ->
  let ss' := <["Acknowledgements" := sh]> ss in
  acked (js_string (b_issue body)) (server_acks (doGet ss')) = true /\
  fst (handleAcknowledgeIssue store now ss' body) = ss'.
Proof.
  intros Hok (hdr & rows & -> & Hin) ss'. subst ss'. split.
  - destruct rows as [|r rows]; [by apply elem_of_nil in Hin|].
    assert (Hget : doGet (<["Acknowledgements" := hdr :: r :: rows]> ss) !! "Acknowledgements"
                   = Some (JCells (first_cells (r :: rows)))).
    { unfold doGet. rewrite map_lookup_imap, lookup_insert_eq. cbn [mbind option_bind].
      rewrite ack_view, first_cells_values by by eapply ack_sheet_nonempty. done. }
    unfold server_acks, acked. rewrite Hget. by apply bool_decide_eq_true.
  - unfold handleAcknowledgeIssue, ensure_sheet. rewrite lookup_insert_eq.
    cbv zeta. cbn [default fst]. unfold id.
    rewrite ack_found by done. rewrite bool_decide_eq_true_2 by done.
    by rewrite insert_insert_eq.
Qed.

(** C18: an acknowledgement recorded by [handleAcknowledgeIssue] is in the
    [Acknowledgements] list of the next GET snapshot, as the string the
    client compares alert ids with; acknowledging again changes nothing. *)
Theorem acknowledge_reaches_snapshot store now ss body :
  (forall s, store (CStr s) = CStr s) -> ack_tab_ok (js_string (b_issue body)) ss ->
  let ss' := fst (handleAcknowledgeIssue store now ss body) in
  acked (js_string (b_issue body)) (server_acks (doGet ss')) = true /\
  fst (handleAcknowledgeIssue store now ss' body) = ss'.
Proof.
  intros Hst Htab%(ensure_ack_ok store) ss'; [|done]. subst ss'.
  unfold handleAcknowledgeIssue at 2 3. simpl fst.
  pose proof Htab as (hdr & rows & Hsh & Hh & Hid & Hr).
  rewrite Hsh in Htab |- *. rewrite ack_found by done.
  case_bool_decide as Hin.
  - apply ack_recorded; [done|]. by exists hdr, rows.
  - apply ack_recorded.
    + exists hdr, (rows ++ [map store [CStr (js_string (b_issue body)); or_unknown (b_user body);
                                        or_unknown (b_role body); CStr now]]).
      split_and!; [done|done|done|]. apply Forall_app. split; [done|].
      constructor; [|constructor]. simpl. rewrite Hst. eexists. split; [done|simpl; lia].
    + exists hdr, (rows ++ [map store [CStr (js_string (b_issue body)); or_unknown (b_user body);
                                        or_unknown (b_role body); CStr now]]).
      split; [done|]. unfold first_cells. rewrite map_app. apply elem_of_app. right.
      simpl. rewrite Hst. by left.
Qed.


(** ** A created row in the next snapshot *)

Lemma sheet_view_rows name sh :
  name <> "Users" -> name <> "Validation_Data" -> name <> "Acknowledgements" ->
  sheet_view name sh = Some (rows_view sh).
Proof.
  intros H1 H2 H3. unfold sheet_view.
  apply String.eqb_neq in H1, H2, H3. by rewrite H1, H2, H3.
Qed.

Lemma rows_view_is_rows sh : exists rs, rows_view sh = JRows rs.
Proof. unfold rows_view. case_match; eauto. Qed.

(** A [create] POST to a data tab that is absent or has a row is served
    by the next GET with at least two rows, the last being the posted row
    as the sheet stores it (padded to the tab's width). *)
Lemma created_row_served store now ss p :
  p_action p = "create" ->
  p_sheet p <> "Users" -> p_sheet p <> "Validation_Data" -> p_sheet p <> "Acknowledgements" ->
  match ss !! p_sheet p with Some sh => sh <> [] | None => True end ->
  exists rs n, doGet (fst (doPost store now ss (body_of_payload p))) !! p_sheet p = Some (JRows rs) /\
    (2 <= length rs)%nat /\
    last rs = Some (pad_row n (map store (map safe_cell (p_row p)))).
Proof.
  intros Ha H1 H2 H3 Hne. rewrite doPost_create by done.
  unfold doGet. rewrite map_lookup_imap, handleData_lookup by done.
  rewrite bool_decide_eq_true_2 by done. cbn [mbind option_bind].
  rewrite sheet_view_rows by done.
  unfold mbind, option_bind.
  set (base := default (append_row store (map CStr (p_headers p)) []) (ss !! p_sheet p)).
  assert (Hb : base <> []).
  { unfold base. destruct (ss !! p_sheet p); simpl; [done|]. by destruct (p_headers p). }
  set (sh' := append_row store (map safe_cell (p_row p)) base).
  destruct (rows_view_is_rows sh') as [rs Hrs]. rewrite Hrs.
  destruct (rows_view_last sh' rs Hrs) as [Hlast Hlen].
  eexists _, _. split; [reflexivity|]. split.
  - apply Hlen. unfold sh', append_row. rewrite length_app. simpl. destruct base; [done|simpl; lia].
  - rewrite Hlast. unfold sh', values, append_row. rewrite map_app. simpl. by rewrite last_snoc.
Qed.

(** ** The user table *)

(** The normalised usernames of the [Users] data rows, as the handlers
    compare them. *)
Definition user_names (sh : Sheet) : list string :=
  map (fun r => norm_name (cell_at r 0)) (drop 1 (values sh)).

(** No two data rows of [Users] share a normalised username (and the
    tab has a column, as every tab the script creates has). *)
Definition users_unique (ss : Spreadsheet) : Prop :=
  match ss !! "Users" with
  | None => True
  | Some sh => (0 < last_column sh)%nat /\ NoDup (user_names sh)
  end.

#[export] Instance users_unique_dec ss : Decision (users_unique ss).
Proof. unfold users_unique. destruct (ss !! "Users"); apply _. Defined.

Lemma find_row_from_None p i rows :
  find_row_from p i rows = None -> Forall (fun r => p r = false) rows.
Proof.
  induction rows as [|r rows IH] in i |- *; simpl; [constructor|].
  destruct (p r) eqn:E; [done|]. intros H. constructor; eauto.
Qed.

Lemma find_row_from_last p i rows x :
  Forall (fun r => p r = false) rows -> p x = true ->
  find_row_from p i (rows ++ [x]) = Some (i + length rows)%nat.
Proof.
  intros Hr Hx. induction Hr as [|r rows Hr _ IH] in i |- *; simpl.
  - rewrite Hx. f_equal. lia.
  - rewrite Hr, IH. f_equal. lia.
Qed.

Lemma last_column_app sh row :
  last_column (sh ++ [row]) = Nat.max (last_column sh) (length row).
Proof.
  unfold last_column. rewrite foldr_app. simpl.
  induction sh as [|r sh IH]; simpl; lia.
Qed.

Lemma cell0_pad n m r :
  (0 < n)%nat -> (0 < m)%nat -> cell_at (pad_row n r) 0 = cell_at (pad_row m r) 0.
Proof.
  intros Hn Hm. unfold cell_at, pad_row.
  destruct r; [|done]. destruct n, m; simpl; [lia..|done].
Qed.

(** Appending a row to a tab with a column leaves the first cells of the
    other rows as [getValues] reads them. *)
Lemma values_app_first sh row :
  (0 < last_column sh)%nat -> (0 < length row)%nat ->
  first_cells (values (sh ++ [row])) = first_cells (values sh) ++ [cell_at row 0].
Proof.
  intros Hc Hr. unfold values, first_cells. rewrite last_column_app, !map_map, map_app.
  f_equal; [|simpl; by rewrite cell_at_pad].
  apply map_ext. intros r. apply cell0_pad; lia.
Qed.

Lemma user_names_first sh : user_names sh = map norm_name (drop 1 (first_cells (values sh))).
Proof. unfold user_names. rewrite <- first_cells_drop. unfold first_cells. by rewrite map_map. Qed.

Lemma user_names_app sh row :
  (0 < last_column sh)%nat -> (0 < length row)%nat ->
  user_names (sh ++ [row]) = user_names sh ++ [norm_name (cell_at row 0)].
Proof.
  intros Hc Hr. rewrite !user_names_first, values_app_first by done.
  rewrite drop_app_le, map_app; [done|].
  unfold first_cells, values. rewrite !length_map. destruct sh; simpl in *; lia.
Qed.

(** The username the script stores is already normalised. *)
Lemma norm_name_field c : norm_name (CStr (norm_field c)) = norm_field c.
Proof.
  unfold norm_field. destruct (js_truthy c); [|reflexivity].
  unfold norm_name. cbn [js_string]. by rewrite trim_to_lower, trim_idem, to_lower_idem.
Qed.

Lemma ensure_users_ok store ss :
  users_unique ss ->
  let sh := ensure_sheet store "Users" USERS_HEADER ss in
  (0 < last_column sh)%nat /\ NoDup (user_names sh).
Proof.
  unfold users_unique, ensure_sheet. destruct (ss !! "Users"); [done|].
  intros _. split; [simpl; lia|]. constructor.
Qed.

(** The row a successful registration appends. *)
Definition registered_row (store : Cell -> Cell) (now : string) (body : Body) : list Cell :=
  map store [CStr (norm_field (b_username body)); b_password body; b_name body;
             CStr (trim (js_string (b_role body)));
             if js_truthy (b_position body) then b_position body else CStr "";
             CStr now; CStr "{}"].

(** The [Users] tab after a registration: unchanged (or created) when the
    name is taken, the new row appended otherwise; the validation lists
    the handler also updates are another tab. *)
Lemma register_users_tab store now ss body :
  let sh := ensure_sheet store "Users" USERS_HEADER ss in
  let found := find_data_row (fun r => same_name (norm_field (b_username body)) (cell_at r 0)) (values sh) in
  fst (handleRegisterUser store now ss body) !! "Users" =
    Some (match found with Some _ => sh | None => sh ++ [registered_row store now body] end) /\
  (snd (handleRegisterUser store now ss body) = ROk "User created." -> found = None) /\
  (found = None -> validation_ok ss ->
   snd (handleRegisterUser store now ss body) = ROk "User created.").
Proof.
  cbv zeta. unfold handleRegisterUser. destruct (find_data_row _ _) eqn:Hf; simpl.
  - split_and!; [by rewrite lookup_insert_eq | done | done].
  - set (ss1 := <["Users" := _]> ss).
    assert (Hu : ss1 !! "Users" = Some (ensure_sheet store "Users" USERS_HEADER ss ++
                                          [registered_row store now body])).
    { unfold ss1. rewrite lookup_insert_eq. reflexivity. }
    assert (Hv : validation_ok ss -> validation_ok ss1).
    { intros H vd. unfold ss1. rewrite lookup_insert_ne by done. apply H. }
    destruct (learn_if _ _ _ ss1) as [ss2|] eqn:E2.
    2:{ split_and!; [exact Hu|done|]. intros _ Hok.
        destruct (learn_if_ok store "Inspector_Name" (b_name body) _ (Hv Hok)) as (? & E & _).
        congruence. }
    destruct (learn_if _ _ _ ss2) as [ss3|] eqn:E3; simpl.
    + split_and!; [|done|done]. by rewrite (learn_if_other store _ _ _ _ "Users" ltac:(done) E3),
        (learn_if_other store _ _ _ _ "Users" ltac:(done) E2).
    + split_and!; [by rewrite (learn_if_other store _ _ _ _ "Users" ltac:(done) E2)|done|]. intros _ Hok.
      destruct (learn_if_ok store "Inspector_Name" (b_name body) _ (Hv Hok)) as (? & E & Hok2).
      rewrite E2 in E. simplify_eq.
      destruct (learn_if_ok store "Position" (b_position body) _ Hok2) as (? & E & _). congruence.
Qed.

(** Registering a user keeps normalised usernames unique in the
    [Users] tab when the sheet stores the new name as it was written:
    the name is appended only when no data row already has it. *)
Lemma register_keeps_usernames_unique store now ss body :
  norm_name (store (CStr (norm_field (b_username body)))) = norm_field (b_username body) ->
  users_unique ss -> users_unique (fst (handleRegisterUser store now ss body)).
Proof.
  intros Hst Hu. destruct (ensure_users_ok store ss Hu) as [Hc Hnd].
  destruct (register_users_tab store now ss body) as [Hl _]. unfold users_unique. rewrite Hl.
  destruct (find_data_row _ _) eqn:Hf; [done|].
  apply find_row_from_None in Hf.
  rewrite last_column_app, user_names_app by (simpl; lia). split; [lia|].
  apply NoDup_app. split_and!; [done| |apply NoDup_singleton].
  intros x Hx ->%list_elem_of_singleton. unfold registered_row in Hx. cbn in Hx.
  rewrite Hst in Hx. unfold user_names in Hx.
  apply list_elem_of_fmap in Hx as (r & Hr & Hin).
  eapply Forall_forall in Hf; [|exact Hin]. unfold same_name in Hf. rewrite <- Hr, String.eqb_refl in Hf. done.
Qed.

(** After a row is appended to a tab with a column, [getValues] reads the
    earlier data rows with the same first cells, and the new row last. *)
Lemma values_app_rows sh row :
  (0 < last_column sh)%nat ->
  exists rows', drop 1 (values (sh ++ [row])) =
                rows' ++ [pad_row (last_column (sh ++ [row])) row] /\
                first_cells rows' = drop 1 (first_cells (values sh)).
Proof.
  intros Hc. exists (drop 1 (map (pad_row (last_column (sh ++ [row]))) sh)). split.
  - unfold values. rewrite map_app, drop_app_le; [done|]. rewrite length_map.
    destruct sh; simpl in *; lia.
  - rewrite first_cells_drop. f_equal. unfold first_cells, values. rewrite !map_map.
    apply map_ext. intros r. apply cell0_pad; [rewrite last_column_app|]; lia.
Qed.

Lemma Forall_first_cells (P : Cell -> Prop) l :
  Forall (fun r => P (cell_at r 0)) l <-> Forall P (first_cells l).
Proof. unfold first_cells. by rewrite Forall_fmap. Qed.

Lemma find_row_from_snoc p i rows x :
  Forall (fun r => p r = false) rows ->
  find_row_from p i (rows ++ [x]) = if p x then Some (i + length rows)%nat else None.
Proof.
  intros Hr. induction Hr as [|r rows Hr _ IH] in i |- *; simpl.
  - destruct (p x); [f_equal; lia|done].
  - rewrite Hr, IH. destruct (p x); [f_equal; lia|done].
Qed.

(** The [Users] tab after a registration that succeeded: the tab it
    searched, then the registered row; [getValues] reads its earlier data
    rows, none of which has the name, and the new row last. *)
Lemma registered_users_tab store now ss body :
  users_unique ss -> snd (handleRegisterUser store now ss body) = ROk "User created." ->
  let sh := ensure_sheet store "Users" USERS_HEADER ss in
  let row := registered_row store now body in
  exists rows',
    fst (handleRegisterUser store now ss body) !! "Users" = Some (sh ++ [row]) /\
    (0 < length sh)%nat /\
    drop 1 (values (sh ++ [row])) = rows' ++ [pad_row (last_column (sh ++ [row])) row] /\
    Forall (fun r => same_name (norm_field (b_username body)) (cell_at r 0) = false) rows'.
Proof.
  intros Hu Hok. cbv zeta. destruct (ensure_users_ok store ss Hu) as [Hc _].
  destruct (register_users_tab store now ss body) as [Hl [Hf _]].
  apply Hf in Hok as Hnone. rewrite Hnone in Hl. apply find_row_from_None in Hnone.
  set (sh := ensure_sheet store "Users" USERS_HEADER ss) in *.
  set (row := registered_row store now body) in *.
  destruct (values_app_rows sh row Hc) as (rows' & Hv & Hfc).
  clearbody sh row. exists rows'. split_and!; [exact Hl|destruct sh; simpl in *; lia|exact Hv|].
  apply (Forall_first_cells (fun c => same_name (norm_field (b_username body)) c = false)).
  rewrite Hfc, <- first_cells_drop. by apply Forall_first_cells.
Qed.

Lemma registered_cell store now body n i :
  (7 <= n)%nat -> (i < 7)%nat ->
  cell_at (pad_row n (registered_row store now body)) i = cell_at (registered_row store now body) i.
Proof. intros _ Hi. apply cell_at_pad. simpl. lia. Qed.

(** A login with the name of a registration that succeeded can only
    match the registered row: it succeeds exactly when that row's stored
    name and password read back as the login's, and then returns that
    row's user. *)
Lemma login_on_registered store now now' ss body lbody :
  users_unique ss -> snd (handleRegisterUser store now ss body) = ROk "User created." ->
  norm_field (b_username lbody) = norm_field (b_username body) ->
  let row := registered_row store now body in
  let pw := if js_truthy (b_password lbody) then js_string (b_password lbody) else "" in
  let r := snd (handleLogin store now' (fst (handleRegisterUser store now ss body)) lbody) in
  ((exists u, r = RLogin u) <->
     norm_name (cell_at row 0) = norm_field (b_username body) /\ js_string (cell_at row 1) = pw) /\
  (forall u, r = RLogin u -> ur_username u = cell_at row 0 /\ ur_role u = trim (js_string (cell_at row 3))).
Proof.
  intros Hu Hok Hn. cbv zeta.
  destruct (registered_users_tab store now ss body Hu Hok) as (rows' & Hl & Hlen & Hv & Hf).
  cbv zeta in Hl, Hv.
  assert (Hc : forall n i, (7 <= n)%nat -> (i < 7)%nat ->
    cell_at (pad_row n (registered_row store now body)) i = cell_at (registered_row store now body) i)
    by (intros; by apply registered_cell).
  set (sh := ensure_sheet store "Users" USERS_HEADER ss) in *.
  set (row := registered_row store now body) in *.
  set (pw := if js_truthy (b_password lbody) then js_string (b_password lbody) else "").
  assert (Hw : (7 <= last_column (sh ++ [row]))%nat) by (rewrite last_column_app; simpl; lia).
  assert (Hlook : values (sh ++ [row]) !! (S (length rows')) =
                  Some (pad_row (last_column (sh ++ [row])) row)).
  { change (S (length rows')) with (1 + length rows')%nat. rewrite <- lookup_drop, Hv. by apply list_lookup_middle. }
  unfold handleLogin. fold pw. rewrite Hl, length_app. simpl length.
  replace (Nat.leb _ 1) with false by (symmetry; apply Nat.leb_gt; lia).
  unfold find_data_row. rewrite Hv, find_row_from_snoc.
  2:{ eapply Forall_impl; [exact Hf|]. intros r0 Hr0. unfold same_name in Hr0. cbn beta. rewrite Hn, Hr0. done. }
  rewrite !Hc by (done || lia). rewrite Hn.
  destruct (String.eqb (norm_name (cell_at row 0)) _ && String.eqb (js_string (cell_at row 1)) pw) eqn:E;
    simpl.
  - apply andb_prop in E as [E1 E2]. apply String.eqb_eq in E1, E2.
    split; [split; [intros _; done|intros _; eexists; reflexivity]|].
    intros u [= <-]. rewrite Hlook. simpl. rewrite !Hc by (done || lia). done.
  - split; [|done]. split; [by intros [u ?]|]. intros [E1 E2].
    rewrite E1, E2, !String.eqb_refl in E. done.
Qed.



Lemma find_row_from_absent (f : list Cell -> string) n i rows :
  n ∉ map f rows -> find_row_from (fun r => String.eqb (f r) n) i rows = None.
Proof.
  induction rows as [|r rows IH] in i |- *; intros Hn; cbn [find_row_from]; [done|].
  match goal with |- context [String.eqb ?a ?b] => destruct (String.eqb a b) eqn:E end.
  - apply String.eqb_eq in E. exfalso. apply Hn. rewrite <- E. constructor.
  - apply IH. intros H. apply Hn. by constructor.
Qed.

(** A name that no data row has is not found by the duplicate check. *)
Lemma find_name_absent sh n :
  n ∉ user_names sh ->
  find_data_row (fun r => same_name n (cell_at r 0)) (values sh) = None.
Proof. intros Hn. apply (find_row_from_absent (fun r => norm_name (cell_at r 0))), Hn. Qed.

(** A registration with a full name on a workbook whose [Validation_Data]
    tab has no column appends the account, then [updateValidationSingle]
    raises on the empty range and the script answers the exception. *)
Lemma register_empty_validation store now ss body vd :
  ss !! "Validation_Data" = Some vd -> last_column vd = 0%nat ->
  js_truthy (b_name body) = true -> trim (js_string (b_name body)) <> "" ->
  norm_field (b_username body) ∉ user_names (ensure_sheet store "Users" USERS_HEADER ss) ->
  handleRegisterUser store now ss body =
    (<["Users" := ensure_sheet store "Users" USERS_HEADER ss ++ [registered_row store now body]]> ss,
     RErr "" RANGE_ERROR).
Proof.
  intros Hvd Hc Ht Hn Hfree. unfold handleRegisterUser. rewrite find_name_absent by exact Hfree.
  unfold learn_if. rewrite Ht. unfold updateValidationSingle. rewrite Ht.
  apply String.eqb_neq in Hn. rewrite Hn. simpl.
  assert (Hv : forall x, ensure_sheet store "Validation_Data" VALIDATION_HEADER (<["Users" := x]> ss) = vd).
  { intros x. unfold ensure_sheet. by rewrite lookup_insert_ne, Hvd. }
  rewrite Hv, Hc. done.
Qed.

(** ** Deleting a user *)

(** The body of a [delete_user] request for a name. *)
Definition delete_body (name : string) : Body :=
  mkBody (CStr "delete_user") CUndef None None (CStr name) CUndef CUndef CUndef CUndef CUndef
         CUndef CUndef CUndef CUndef.

(** Every row of [Users] has its username cell. *)
Definition users_rows_ok (ss : Spreadsheet) : Prop :=
  match ss !! "Users" with Some sh => Forall (fun r => (0 < length r)%nat) sh | None => True end.

Lemma find_row_from_Some p i rows j :
  find_row_from p i rows = Some j ->
  (i <= j)%nat /\ exists r, rows !! (j - i)%nat = Some r /\ p r = true.
Proof.
  induction rows as [|r rows IH] in i |- *; simpl; [done|].
  destruct (p r) eqn:E.
  - intros [= <-]. split; [lia|]. exists r. by rewrite Nat.sub_diag.
  - intros (Hij & r' & Hr' & Hp)%IH. split; [lia|]. exists r'.
    replace (j - i)%nat with (S (j - S i)) by lia. done.
Qed.

Lemma nodup_delete_notin {A} (l : list A) k x : NoDup l -> l !! k = Some x -> x ∉ delete k l.
Proof.
  intros Hnd Hk Hin. apply list_elem_of_lookup in Hin as [j Hj].
  rewrite list_lookup_delete in Hj. case_decide.
  - pose proof (NoDup_lookup l j k x Hnd Hj Hk). lia.
  - pose proof (NoDup_lookup l (S j) k x Hnd Hj Hk). lia.
Qed.

Lemma delete_row_delete i sh : delete_row i sh = delete i sh.
Proof. unfold delete_row. by rewrite delete_take_drop. Qed.

Lemma drop1_delete {A} (l : list A) i : (1 <= i)%nat -> drop 1 (delete i l) = delete (i - 1) (drop 1 l).
Proof. intros Hi. destruct l as [|x l]; [done|]. destruct i as [|i]; [lia|]. simpl. by rewrite Nat.sub_0_r. Qed.

Lemma user_names_rows sh :
  Forall (fun r => (0 < length r)%nat) sh ->
  user_names sh = map (fun r => norm_name (cell_at r 0)) (drop 1 sh).
Proof.
  intros Hne. rewrite user_names_first, first_cells_values by done.
  unfold first_cells. by rewrite <- fmap_drop, map_map.
Qed.

(** After [handleDeleteUser] has removed a user from a table whose
    usernames are unique, [get_users] lists no user of that name. *)
Lemma delete_user_gone ss body :
  users_unique ss -> users_rows_ok ss ->
  snd (handleDeleteUser ss body) = ROk "User deleted." ->
  exists us, handleGetUsers (fst (handleDeleteUser ss body)) = RUsers us /\
    forall u, u ∈ us -> norm_name (ur_username u) <> norm_field (b_username body).
Proof.
  unfold users_unique, users_rows_ok, handleDeleteUser.
  destruct (ss !! "Users") as [sh|] eqn:Hsh; [|discriminate]. intros [_ Hnd] Hrows.
  destruct (find_data_row _ _) as [n|] eqn:Hf; [|discriminate]. intros _. simpl.
  unfold handleGetUsers. rewrite lookup_insert_eq. eexists. split; [reflexivity|].
  apply find_row_from_Some in Hf as (Hn & r & Hr & Heq). apply String.eqb_eq in Heq.
  set (target := norm_field (b_username body)) in *.
  assert (Hk : user_names sh !! (n - 1)%nat = Some target).
  { unfold user_names. rewrite list_lookup_fmap, Hr. simpl. by rewrite Heq. }
  assert (Hdel : user_names (delete_row n sh) = delete (n - 1) (user_names sh)).
  { rewrite delete_row_delete, !user_names_rows by (try apply Forall_delete; done).
    by rewrite drop1_delete, list_fmap_delete by lia. }
  intros u (r' & -> & Hin)%list_elem_of_fmap. simpl. intros Hname.
  apply (nodup_delete_notin _ _ _ Hnd Hk). rewrite <- Hdel, <- Hname.
  unfold user_names. apply list_elem_of_fmap. exists r'. split; [done|].
  by apply list_elem_of_filter in Hin as [_ ?].
Qed.

Lemma find_row_from_first p i rows j :
  find_row_from p i rows = Some j ->
  forall j' r, (i <= j' < j)%nat -> rows !! (j' - i)%nat = Some r -> p r = false.
Proof.
  induction rows as [|r0 rows IH] in i |- *; simpl; [done|].
  destruct (p r0) eqn:E.
  - intros [= <-] j' r Hj'. lia.
  - intros Hf j' r Hj' Hr. destruct (Nat.eq_dec j' i) as [->|Hne].
    + rewrite Nat.sub_diag in Hr. simpl in Hr. by simplify_eq.
    + apply (IH (S i) Hf j'); [lia|]. replace (j' - i)%nat with (S (j' - S i)) in Hr by lia. done.
Qed.

(** C35 (finding): [delete_user] removes one row, the first whose
    normalised name is the one given: the names of the [Users] data rows
    afterwards are those before with that first occurrence removed.  A
    name that two rows share, as [update_user] lets a rename make
    ([update_user_duplicates_username]), is still in the table after its
    deletion ([delete_removes_first_row_witness]). *)
Theorem delete_removes_first_row ss body :
  users_rows_ok ss -> snd (handleDeleteUser ss body) = ROk "User deleted." ->
  exists sh sh' k, ss !! "Users" = Some sh /\ fst (handleDeleteUser ss body) !! "Users" = Some sh' /\
    user_names sh !! k = Some (norm_field (b_username body)) /\
    (forall j, (j < k)%nat -> user_names sh !! j <> Some (norm_field (b_username body))) /\
    user_names sh' = delete k (user_names sh).
Proof.
  unfold users_rows_ok, handleDeleteUser.
  destruct (ss !! "Users") as [sh|] eqn:Hsh; [|discriminate]. intros Hrows.
  destruct (find_data_row _ _) as [n|] eqn:Hf; [|discriminate]. intros _. simpl.
  exists sh, (delete_row n sh), (n - 1)%nat. rewrite lookup_insert_eq.
  pose proof (find_row_from_first _ _ _ _ Hf) as Hfirst.
  apply find_row_from_Some in Hf as (Hn & r & Hr & Heq). apply String.eqb_eq in Heq.
  split_and!; [done|done| | |].
  - unfold user_names. rewrite list_lookup_fmap, Hr. simpl. by rewrite Heq.
  - intros j Hj. unfold user_names. rewrite list_lookup_fmap.
    destruct (drop 1 (values sh) !! j) as [r'|] eqn:Hr'; simpl; [|done].
    intros [= He]. assert (Hp := Hfirst (S j) r' ltac:(lia)).
    replace (S j - 1)%nat with j in Hp by lia. specialize (Hp Hr'). cbv beta in Hp.
    rewrite He, String.eqb_refl in Hp. done.
  - rewrite delete_row_delete, !user_names_rows by (try apply Forall_delete; done).
    by rewrite drop1_delete, list_fmap_delete by lia.
Qed.

(** ** Concrete instances *)

Section BackendWitnesses.

Definition store_id (c : Cell) : Cell := c.

Definition insp_sheet : Sheet := [[CStr "Truck_Reg_No"; CStr "Inspector_Name"]].

Definition ss_one : Spreadsheet := {["General_Inspection" := insp_sheet]}.

Definition post_gi (id truck : string) : Payload :=
  mkPayload "General_Inspection" "create" [CStr truck; CStr "Inspector A"] [] id.

Definition post_acid : Payload :=
  mkPayload "Acid_Inspection" "create" [CStr "KBX 1"] [] "acid-1".

Definition ack_body : Body :=
  mkBody (CStr "acknowledge_issue") CUndef None None CUndef CUndef CUndef CUndef CUndef CUndef
         CUndef (CStr "rate_General_Inspection_1700000000000_KBX1") (CStr "Admin") CUndef.

Lemma rows_view_window_witness :
  rows_view (insp_sheet ++ [[CStr "KBX 1"; CStr "Inspector A"]]) =
    JRows [[CStr "Truck_Reg_No"; CStr "Inspector_Name"]; [CStr "KBX 1"; CStr "Inspector A"]] /\
  (length [[CStr "Truck_Reg_No"; CStr "Inspector_Name"]; [CStr "KBX 1"; CStr "Inspector A"]]
     <= 202)%nat /\
  last [[CStr "Truck_Reg_No"; CStr "Inspector_Name"]; [CStr "KBX 1"; CStr "Inspector A"]] =
    last (values (insp_sheet ++ [[CStr "KBX 1"; CStr "Inspector A"]])).
Proof.
  split; [vm_compute; reflexivity|]. apply rows_view_window. vm_compute. reflexivity.
Defined.

Lemma posts_append_in_order_witness :
  "General_Inspection" <> "Validation_Data" /\
  ss_one !! "General_Inspection" = Some insp_sheet /\
  Forall (fun p => p_action p = "create") [post_gi "r1" "KBX 1"; post_acid; post_gi "r2" "KBY 2"] /\
  apply_posts store_id "t" [post_gi "r1" "KBX 1"; post_acid; post_gi "r2" "KBY 2"] ss_one
    !! "General_Inspection" =
  Some (insp_sheet ++ map (fun p => map store_id (map safe_cell (p_row p)))
          (filter (fun p => p_sheet p = "General_Inspection")
                  [post_gi "r1" "KBX 1"; post_acid; post_gi "r2" "KBY 2"])).
Proof.
  split_and!; [discriminate|vm_compute; reflexivity|repeat constructor|].
  apply posts_append_in_order; [discriminate|vm_compute; reflexivity|repeat constructor].
Defined.

Lemma acknowledge_reaches_snapshot_witness :
  (forall s, store_id (CStr s) = CStr s) /\
  ack_tab_ok (js_string (b_issue ack_body)) ss_one /\
  let ss' := fst (handleAcknowledgeIssue store_id "t" ss_one ack_body) in
  acked (js_string (b_issue ack_body)) (server_acks (doGet ss')) = true /\
  fst (handleAcknowledgeIssue store_id "t" ss' ack_body) = ss'.
Proof.
  split_and!; [reflexivity|vm_compute; discriminate|].
  apply acknowledge_reaches_snapshot; [reflexivity|vm_compute; discriminate].
Defined.

Definition user_cells (u pw name role : string) : list Cell :=
  [CStr u; CStr pw; CStr name; CStr role; CStr ""; CStr ""; CStr "{}"].

Definition ss_users : Spreadsheet :=
  {["Users" := [USERS_HEADER; user_cells "alice" "pw1" "Alice" "Inspector";
                user_cells "bob" "pw2" "Bob" "Operations"]]}.

(** A request that renames [alice] to [Bob]. *)
Definition rename_body : Body :=
  mkBody (CStr "update_user") CUndef None None (CStr " Bob ") CUndef CUndef CUndef CUndef
         (CStr "alice") CUndef CUndef CUndef CUndef.

(** A request from nobody in particular that registers an administrator. *)
Definition admin_body : Body :=
  mkBody (CStr "register_user") CUndef None None (CStr "Mallory") (CStr "x") CUndef
         (CStr "Admin") CUndef CUndef CUndef CUndef CUndef CUndef.

(** [handleUpdateUser] writes a new username without the duplicate
    check [handleRegisterUser] makes: renaming [alice] to [" Bob "] on a
    table whose names are unique leaves two rows named [bob]. *)
Theorem update_user_duplicates_username :
  users_unique ss_users /\
  fst (handleUpdateUser store_id ss_users rename_body) !! "Users" =
    Some [USERS_HEADER; user_cells "bob" "pw1" "Alice" "Inspector";
          user_cells "bob" "pw2" "Bob" "Operations"] /\
  ~ users_unique (fst (handleUpdateUser store_id ss_users rename_body)).
Proof.
  split_and!; [apply (bool_decide_unpack _); vm_compute; reflexivity|vm_compute; reflexivity|].
  apply (bool_decide_unpack _). vm_compute. reflexivity.
Qed.

(** Registrations whose name, or password, Sheets stores as a number. *)
Definition digits_body : Body :=
  mkBody (CStr "register_user") CUndef None None (CStr "0123") (CStr "x") CUndef
         (CStr "Inspector") CUndef CUndef CUndef CUndef CUndef CUndef.

Definition pin_body : Body :=
  mkBody (CStr "register_user") CUndef None None (CStr "carol") (CStr "0000") CUndef
         (CStr "Admin") CUndef CUndef CUndef CUndef CUndef CUndef.



(** After the rename that duplicated [bob], deleting [bob] leaves a
    [bob] in the table. *)
Lemma delete_removes_first_row_witness :
  let ss := fst (handleUpdateUser store_id ss_users rename_body) in
  users_rows_ok ss /\ snd (handleDeleteUser ss (delete_body "bob")) = ROk "User deleted." /\
  (exists sh sh' k, ss !! "Users" = Some sh /\ fst (handleDeleteUser ss (delete_body "bob")) !! "Users" = Some sh' /\
    user_names sh !! k = Some (norm_field (b_username (delete_body "bob"))) /\
    (forall j, (j < k)%nat -> user_names sh !! j <> Some (norm_field (b_username (delete_body "bob")))) /\
    user_names sh' = delete k (user_names sh)) /\
  option_map user_names (fst (handleDeleteUser ss (delete_body "bob")) !! "Users") = Some ["bob"].
Proof.
  cbv zeta.
  assert (Hr : users_rows_ok (fst (handleUpdateUser store_id ss_users rename_body)))
    by (unfold users_rows_ok; apply (bool_decide_unpack _); vm_compute; reflexivity).
  assert (Hd : snd (handleDeleteUser (fst (handleUpdateUser store_id ss_users rename_body)) (delete_body "bob"))
               = ROk "User deleted.") by (vm_compute; reflexivity).
  split_and!; [exact Hr|exact Hd| |vm_compute; reflexivity].
  exact (delete_removes_first_row _ _ Hr Hd).
Defined.

End BackendWitnesses.
