(* ===== verification/Autocomplete.v ===== *)
(** * The autocomplete input (src/src/components/ui/AutocompleteInput.tsx)

    The text field the inspection forms use for registration numbers
    ([isRegNo]), names and places ([isTitleCase]) with a drop-down of
    the values the backend has learnt ([Validation_Data]).  Modelled: the
    option filter (line 25), [handleChange] with both formatting rules
    (lines 40-75), [handleSelect] (77-82), [handleKeyDown] (84-103) and
    the input's [onFocus] (121), on a state made of the parent's [value],
    [isOpen] and [highlightedIndex], and the drop-down it renders
    (141-171): the option rows with their highlight, or the single
    "Add New Entry" row.  The two regular-expression replacements are
    written as the left-to-right, non-overlapping scans JavaScript's
    global [replace] performs. *)

From S2P Require Import Prelude.

(** ** Characters *)

Definition in_range (lo hi : nat) (a : ascii) : bool :=
  (lo <=? nat_of_ascii a)%nat && (nat_of_ascii a <=? hi)%nat.

(** [[A-Z]] *)
Definition is_letter (a : ascii) : bool := in_range 65 90 a.

(** [\d] *)
Definition is_digit (a : ascii) : bool := in_range 48 57 a.

(** [[A-Z0-9]] *)
Definition is_upper_alnum (a : ascii) : bool := is_letter a || is_digit a.

(** [\w]: [[A-Za-z0-9_]] *)
Definition is_word (a : ascii) : bool :=
  is_upper_alnum a || in_range 97 122 a || Ascii.eqb a "_"%char.

(** ** Registration numbers *)

(** [s.replace(/(x)(y)/g, '$1 $2')] for one-character groups: a
    left-to-right scan that, where a character [a] and the next [b] match
    ([c a b]), writes [a], a space and [b] and goes on after [b]. *)
Fixpoint space_between (c : ascii -> ascii -> bool) (s : string) : string :=
  match s with
  | String a (String b r as t) =>
      if c a b then String a (String " " (String b (space_between c r)))
      else String a (space_between c t)
  | _ => s
  end.

Definition letter_digit (a b : ascii) : bool := is_letter a && is_digit b.
Definition digit_letter (a b : ascii) : bool := is_digit a && is_letter b.

(** [raw.replace(/([A-Z])(\d)/g, '$1 $2')] *)
Definition sep_letter_digit : string -> string := space_between letter_digit.

(** [raw.replace(/(\d)([A-Z])/g, '$1 $2')] *)
Definition sep_digit_letter : string -> string := space_between digit_letter.

(** The [isRegNo] branch of [handleChange] (lines 47-63). *)
Definition format_reg (s : string) : string :=
  sep_digit_letter (sep_letter_digit (str_filter is_upper_alnum (to_upper s))).

(** ** Title case *)

(** [s.replace(/\b\w/g, c => c.toUpperCase())]; [prev] tells whether the
    previous character is a word character. *)
Fixpoint title_from (prev : bool) (s : string) : string :=
  match s with
  | EmptyString => EmptyString
  | String a r =>
      String (if is_word a && negb prev then ascii_upper a else a) (title_from (is_word a) r)
  end.

Definition title_case (s : string) : string := title_from false s.

(** ** The component *)

Record AcState := mkAc {
  ac_value : string;
  ac_open : bool;
  ac_highlight : Z
}.

Record AcProps := mkAcProps {
  ac_options : list string;
  ac_reg_no : bool;
  ac_title_case : bool;
  ac_read_only : bool
}.

(** [options.filter(opt => opt && opt.toLowerCase().includes(value.toLowerCase()))] *)
Definition filtered_options (p : AcProps) (value : string) : list string :=
  filter (fun o => negb (String.eqb o "") && str_contains (to_lower value) (to_lower o))
         (ac_options p).

(** [handleChange] with the text the browser reports. *)
Definition handleChange (p : AcProps) (typed : string) (s : AcState) : AcState :=
  if ac_read_only p then s
  else
    let v := if ac_reg_no p then format_reg typed else typed in
    let v := if ac_title_case p && negb (ac_reg_no p) then title_case v else v in
    mkAc v true (-1).

(** [handleSelect] *)
Definition handleSelect (p : AcProps) (option : string) (s : AcState) : AcState :=
  if ac_read_only p then s else mkAc option false (-1).

Inductive Key := ArrowDown | ArrowUp | Enter | Escape | OtherKey.

(** [filteredOptions[i]] when it is a (truthy) option. *)
Definition option_at (l : list string) (i : Z) : option string :=
  if (0 <=? i)%Z then
    match l !! Z.to_nat i with Some o => if String.eqb o "" then None else Some o | None => None end
  else None.

(** [handleKeyDown] *)
Definition handleKeyDown (p : AcProps) (k : Key) (s : AcState) : AcState :=
  if ac_read_only p then s
  else
    let n := Z.of_nat (length (filtered_options p (ac_value s))) in
    match k with
    | ArrowDown => mkAc (ac_value s) (ac_open s) (Z.min (ac_highlight s + 1) (n - 1))
    | ArrowUp => mkAc (ac_value s) (ac_open s) (Z.max (ac_highlight s - 1) 0)
    | Enter =>
        match option_at (filtered_options p (ac_value s)) (ac_highlight s) with
        | Some o => handleSelect p o s
        | None => handleSelect p (ac_value s) s
        end
    | Escape => mkAc (ac_value s) false (ac_highlight s)
    | OtherKey => s
    end.

(** [onFocus={() => !readOnly && setIsOpen(true)}] (line 121). *)
Definition handleFocus (p : AcProps) (s : AcState) : AcState :=
  if ac_read_only p then s else mkAc (ac_value s) true (ac_highlight s).

(** The events of the component: typing, a click on an option, a key,
    focusing the input. *)
Inductive AcEvent :=
  AType (typed : string) | AClick (option : string) | AKey (k : Key) | AFocus.

Definition ac_step (p : AcProps) (s : AcState) (e : AcEvent) : AcState :=
  match e with
  | AType t => handleChange p t s
  | AClick o => handleSelect p o s
  | AKey k => handleKeyDown p k s
  | AFocus => handleFocus p s
  end.

Definition ac_run (p : AcProps) (es : list AcEvent) (s : AcState) : AcState :=
  fold_left (ac_step p) es s.

(** ** The drop-down (lines 141-170) *)

(** One [li] of the option list: the option, whether it has the
    highlighted style ([idx === highlightedIndex]), whether it carries
    the "EXISTING" badge ([isRegNo]). *)
Record Row := mkRow {
  row_opt : string;
  row_highlighted : bool;
  row_existing : bool
}.

(** [filteredOptions.map((opt, idx) => <li ...>)] from index [idx]. *)
Fixpoint option_rows (h : Z) (reg : bool) (idx : nat) (fo : list string) : list Row :=
  match fo with
  | [] => []
  | o :: fo' => mkRow o (Z.of_nat idx =? h)%Z reg :: option_rows h reg (S idx) fo'
  end.

(** No list, the option rows, or the single "Add New Entry" row whose
    [onMouseDown] selects the typed text. *)
Inductive Dropdown := DHidden | DOptions (rows : list Row) | DAddNew (v : string).

Definition ac_dropdown (p : AcProps) (s : AcState) : Dropdown :=
  let fo := filtered_options p (ac_value s) in
  if negb (ac_read_only p) && ac_open s &&
     ((0 <? String.length (ac_value s))%nat || (0 <? length fo)%nat) then
    match fo with
    | [] => DAddNew (ac_value s)
    | _ => DOptions (option_rows (ac_highlight s) (ac_reg_no p) 0 fo)
    end
  else DHidden.

(** ** Predicates on strings *)

Fixpoint str_all (p : ascii -> bool) (s : string) : bool :=
  match s with EmptyString => true | String a r => p a && str_all p r end.

(** No character satisfying [c a b] is directly followed by one [b]. *)
Fixpoint no_adj (c : ascii -> ascii -> bool) (s : string) : bool :=
  match s with
  | String a (String b _ as t) => negb (c a b) && no_adj c t
  | _ => true
  end.

Definition first_char (s : string) : option ascii :=
  match s with EmptyString => None | String a _ => Some a end.

(** What the formatting writes: capital letters, digits and spaces. *)
Definition reg_char (a : ascii) : bool := is_upper_alnum a || Ascii.eqb a " "%char.

(** ** Lemmas *)

(** Induction along the two-character steps of [space_between]. *)
Lemma string_ind2 (P : string -> Prop) :
  P EmptyString -> (forall a, P (String a EmptyString)) ->
  (forall a b r, P r -> P (String b r) -> P (String a (String b r))) ->
  forall s, P s.
Proof.
  intros H0 H1 H2 s. enough (P s /\ forall a, P (String a s)) by tauto.
  induction s as [|b r [IHr IHr']]; [split; auto|]. split; [apply IHr'|]. intros a. by apply H2.
Qed.

Section SpaceBetween.
Context (c : ascii -> ascii -> bool).

Lemma space_between_first s : first_char (space_between c s) = first_char s.
Proof. destruct s as [|a [|b r]]; simpl; [done..|]. by case_match. Qed.

Lemma space_between_filter (p : ascii -> bool) s :
  p " "%char = false -> str_filter p (space_between c s) = str_filter p s.
Proof.
  intros Hsp. induction s as [| |a b r IHr IHbr] using string_ind2; [done..|]. simpl.
  case_match; simpl.
  - rewrite Hsp. destruct (p a), (p b); simpl; by rewrite IHr.
  - simpl in IHbr. by rewrite IHbr.
Qed.

Lemma space_between_all (p : ascii -> bool) s :
  p " "%char = true -> str_all p s = true -> str_all p (space_between c s) = true.
Proof.
  intros Hsp. induction s as [| |a b r IHr IHbr] using string_ind2; [done..|]. simpl.
  intros [Ha [Hb Hr]%andb_prop]%andb_prop.
  case_match; simpl; rewrite ?Ha, ?Hsp, ?Hb; simpl.
  - by apply IHr.
  - apply IHbr. simpl. by rewrite Hb.
Qed.

Lemma no_adj_cons (d : ascii -> ascii -> bool) a s :
  no_adj d (String a s) =
  negb (match first_char s with Some b => d a b | None => false end) && no_adj d s.
Proof. by destruct s. Qed.

Lemma space_between_pair a b r :
  space_between c (String a (String b r)) =
  if c a b then String a (String " " (String b (space_between c r)))
  else String a (space_between c (String b r)).
Proof. reflexivity. Qed.

(** After the scan no matching pair is left, when a space matches
    nothing and matching pairs do not chain. *)
Lemma space_between_no_adj s :
  (forall x, c x " "%char = false) -> (forall x, c " "%char x = false) ->
  (forall x y z, c x y = true -> c y z = false) ->
  no_adj c (space_between c s) = true.
Proof.
  intros Hr Hl Hch. induction s as [| |a b r IHr IHbr] using string_ind2; [done..|].
  rewrite space_between_pair. destruct (c a b) eqn:Hab; rewrite !no_adj_cons; cbn [first_char].
  - rewrite Hr, Hl, space_between_first, IHr. cbn [negb andb].
    destruct r as [|d r]; [done|]. cbn [first_char]. by rewrite (Hch _ _ d Hab).
  - rewrite space_between_first. cbn [first_char]. rewrite Hab. exact IHbr.
Qed.

(** The scan keeps every property "no [d]-pair", since it only puts
    spaces between characters. *)
Lemma space_between_keeps (d : ascii -> ascii -> bool) s :
  (forall x, d x " "%char = false) -> (forall x, d " "%char x = false) ->
  no_adj d s = true -> no_adj d (space_between c s) = true.
Proof.
  intros Hr Hl. induction s as [| |a b r IHr IHbr] using string_ind2; [done..|].
  intros H. pose proof H as H'. rewrite !no_adj_cons in H. cbn [first_char] in H.
  apply andb_prop in H as [Hab [Hbr Hr']%andb_prop].
  rewrite space_between_pair. destruct (c a b); rewrite !no_adj_cons; cbn [first_char].
  - rewrite Hr, Hl, space_between_first, IHr by done. cbn [negb andb].
    destruct (match first_char r with Some y => d b y | None => false end); done.
  - rewrite space_between_first. cbn [first_char]. rewrite Hab. cbn [negb andb].
    apply IHbr. rewrite no_adj_cons. cbn [first_char]. by rewrite Hbr, Hr'.
Qed.

End SpaceBetween.

Lemma str_filter_all (p : ascii -> bool) s : str_all p (str_filter p s) = true.
Proof. induction s as [|a s IH]; [done|]. simpl. destruct (p a) eqn:E; simpl; [rewrite E|]; done. Qed.

Lemma str_all_impl (p q : ascii -> bool) s :
  (forall a, p a = true -> q a = true) -> str_all p s = true -> str_all q s = true.
Proof.
  intros Hpq. induction s as [|a s IH]; [done|]. simpl.
  intros [Ha Hs]%andb_prop. by rewrite Hpq, IH.
Qed.

Lemma str_filter_idem (p : ascii -> bool) s : str_filter p (str_filter p s) = str_filter p s.
Proof. induction s as [|a s IH]; [done|]. simpl. destruct (p a) eqn:E; simpl; rewrite ?E; congruence. Qed.

Lemma str_map_id_on (p : ascii -> bool) (f : ascii -> ascii) s :
  (forall a, p a = true -> f a = a) -> str_all p s = true -> str_map f s = s.
Proof.
  intros Hf. induction s as [|a s IH]; [done|]. simpl.
  intros [Ha Hs]%andb_prop. by rewrite Hf, IH.
Qed.

(** Facts on the 256 characters, checked one by one. *)
Ltac by_all_chars :=
  intros a; destruct a as [[] [] [] [] [] [] [] []];
  first [reflexivity | intros H; vm_compute in H; first [reflexivity | discriminate H]].

Lemma upper_reg_char a : reg_char a = true -> ascii_upper a = a.
Proof. revert a. by_all_chars. Qed.

Lemma digit_not_letter a : is_digit a = true -> is_letter a = false.
Proof. revert a. by_all_chars. Qed.

Lemma letter_not_digit a : is_letter a = true -> is_digit a = false.
Proof. revert a. by_all_chars. Qed.

Lemma is_word_upper a : is_word (ascii_upper a) = is_word a.
Proof. revert a. by_all_chars. Qed.

Lemma letter_digit_chain x y z : letter_digit x y = true -> letter_digit y z = false.
Proof.
  unfold letter_digit. intros [_ Hy]%andb_prop. by rewrite (digit_not_letter y Hy).
Qed.

Lemma digit_letter_chain x y z : digit_letter x y = true -> digit_letter y z = false.
Proof.
  unfold digit_letter. intros [_ Hy]%andb_prop. by rewrite (letter_not_digit y Hy).
Qed.

Lemma letter_digit_space x : letter_digit x " "%char = false /\ letter_digit " "%char x = false.
Proof. unfold letter_digit. split; [apply andb_false_r|reflexivity]. Qed.

Lemma digit_letter_space x : digit_letter x " "%char = false /\ digit_letter " "%char x = false.
Proof. unfold digit_letter. split; [apply andb_false_r|reflexivity]. Qed.

Lemma format_reg_chars s : str_all reg_char (format_reg s) = true.
Proof.
  unfold format_reg, sep_digit_letter, sep_letter_digit.
  apply space_between_all; [reflexivity|]. apply space_between_all; [reflexivity|].
  apply (str_all_impl is_upper_alnum); [|apply str_filter_all].
  intros a Ha. unfold reg_char. by rewrite Ha.
Qed.

Lemma format_reg_filter s :
  str_filter is_upper_alnum (format_reg s) = str_filter is_upper_alnum (to_upper s).
Proof.
  unfold format_reg, sep_digit_letter, sep_letter_digit.
  rewrite !space_between_filter by reflexivity. apply str_filter_idem.
Qed.

Lemma option_at_elem l i o : option_at l i = Some o -> o ∈ l.
Proof.
  unfold option_at. case_match; [|done]. destruct (l !! _) as [o'|] eqn:E; [|done].
  case_match; [done|]. intros [= <-]. by eapply list_elem_of_lookup_2.
Qed.

Lemma filtered_options_nonempty p v : Forall (fun o => o <> "") (filtered_options p v).
Proof.
  apply Forall_forall. intros o [Ho _]%list_elem_of_filter Hoe.
  subst o. by simpl in Ho.
Qed.

Lemma option_rows_after h reg idx fo :
  (h < Z.of_nat idx)%Z -> filter row_highlighted (option_rows h reg idx fo) = [].
Proof.
  induction fo as [|o fo IH] in idx |- *; intros Hh; [done|]. simpl.
  rewrite filter_cons. simpl. rewrite (proj2 (Z.eqb_neq _ _)) by lia. apply IH. lia.
Qed.

(** At most one row has the highlighted style. *)
Lemma option_rows_one_highlight h reg idx fo :
  length (filter row_highlighted (option_rows h reg idx fo)) <= 1.
Proof.
  induction fo as [|o fo IH] in idx |- *; simpl; [lia|]. rewrite filter_cons. simpl.
  destruct (Z.eqb_spec (Z.of_nat idx) h); simpl; [|apply IH].
  rewrite option_rows_after by lia. simpl. lia.
Qed.

(** The highlighted row is the option at [highlightedIndex]. *)
Lemma option_rows_find h reg idx fo :
  List.find row_highlighted (option_rows h reg idx fo) =
  if (Z.of_nat idx <=? h)%Z then (fun o => mkRow o true reg) <$> fo !! (Z.to_nat h - idx) else None.
Proof.
  induction fo as [|o fo IH] in idx |- *; simpl.
  - by case_match.
  - rewrite IH. destruct (Z.eqb_spec (Z.of_nat idx) h) as [<-|Hne]; simpl.
    + rewrite Z.leb_refl, Nat2Z.id, Nat.sub_diag. done.
    + destruct (Z.leb_spec (Z.of_nat (S idx)) h), (Z.leb_spec (Z.of_nat idx) h); try lia; [|done].
      replace (Z.to_nat h - idx) with (S (Z.to_nat h - S idx)) by lia. done.
Qed.

(** What Enter picks is the option of the highlighted row, if any. *)
Lemma option_at_rows p v h :
  option_at (filtered_options p v) h =
  row_opt <$> List.find row_highlighted (option_rows h (ac_reg_no p) 0 (filtered_options p v)).
Proof.
  rewrite option_rows_find. unfold option_at. change (Z.of_nat 0) with 0%Z. rewrite Nat.sub_0_r.
  destruct (Z.leb_spec 0 h); [|done].
  destruct (filtered_options p v !! Z.to_nat h) as [o|] eqn:E; [|done]. simpl.
  pose proof (filtered_options_nonempty p v) as Hne. eapply Forall_lookup_1 in Hne; [|exact E].
  by rewrite (proj2 (String.eqb_neq _ _) Hne).
Qed.

(** Enter selects the option of the highlighted row, else the typed text. *)
Lemma enter_selects_highlighted p s :
  ac_read_only p = false ->
  handleKeyDown p Enter s =
  handleSelect p (default (ac_value s) (row_opt <$> List.find row_highlighted
    (option_rows (ac_highlight s) (ac_reg_no p) 0 (filtered_options p (ac_value s))))) s.
Proof.
  intros Hro. unfold handleKeyDown. rewrite Hro, option_at_rows.
  by destruct (List.find _ _).
Qed.

(** The component's invariant: the highlighted index is [-1] (none) or
    at most the last option's index (0 when the list is empty). *)
Definition ac_ok (p : AcProps) (s : AcState) : Prop :=
  (-1 <= ac_highlight s <= Z.max 0 (Z.of_nat (length (filtered_options p (ac_value s))) - 1))%Z.

Lemma ac_step_ok p s e : ac_ok p s -> ac_ok p (ac_step p s e).
Proof.
  unfold ac_ok. intros Hs. destruct e as [t|o|k|]; simpl.
  - unfold handleChange. case_match; simpl; [done|lia].
  - unfold handleSelect. case_match; simpl; [done|lia].
  - unfold handleKeyDown. case_match; [done|].
    destruct k; simpl; try lia.
    unfold handleSelect. rewrite H. case_match; simpl; lia.
  - unfold handleFocus. case_match; simpl; [done|lia].
Qed.

(** ** Properties *)

(** Formatting a registration number is idempotent: re-running
    [handleChange] on the text it produced (the next keystroke's
    re-render, a paste of a formatted number) leaves it unchanged. *)
Theorem format_reg_idem s : format_reg (format_reg s) = format_reg s.
Proof.
  assert (Hu : to_upper (format_reg s) = format_reg s).
  { apply (str_map_id_on reg_char); [apply upper_reg_char|apply format_reg_chars]. }
  unfold format_reg at 1. rewrite Hu, format_reg_filter. reflexivity.
Qed.

(** What the comments of [handleChange] promise for registration
    numbers: the result has only capital letters, digits and spaces; its
    letters and digits are those of the upper-cased input, in order; and no
    letter touches a digit on either side. *)
Theorem format_reg_spec s :
  str_all reg_char (format_reg s) = true /\
  str_filter is_upper_alnum (format_reg s) = str_filter is_upper_alnum (to_upper s) /\
  no_adj letter_digit (format_reg s) = true /\ no_adj digit_letter (format_reg s) = true.
Proof.
  split_and!; [apply format_reg_chars|apply format_reg_filter| |].
  - apply space_between_keeps; try apply letter_digit_space.
    apply space_between_no_adj; [apply letter_digit_space..|apply letter_digit_chain].
  - apply space_between_no_adj; [apply digit_letter_space..|apply digit_letter_chain].
Qed.

Lemma title_from_idem prev s : title_from prev (title_from prev s) = title_from prev s.
Proof.
  induction s as [|a s IH] in prev |- *; [done|]. simpl.
  destruct (is_word a && negb prev) eqn:E.
  - rewrite !is_word_upper, E, ascii_upper_idem, IH. done.
  - rewrite E, IH. done.
Qed.

(** Title-casing is idempotent: a capitalised name or place is
    left as it is by the next keystroke's formatting. *)
Theorem title_case_idem s : title_case (title_case s) = title_case s.
Proof. apply title_from_idem. Qed.

(** Whatever the user types, clicks or presses, the highlighted
    index stays between [-1] and the last option (0 when there is none),
    and Enter always selects the highlighted option or, failing one, the
    typed text, closing the list. *)
Theorem ac_run_ok p es s :
  ac_ok p s -> ac_ok p (ac_run p es s) /\
  (ac_read_only p = false ->
   let s' := handleKeyDown p Enter s in
   ac_open s' = false /\
   (ac_value s' ∈ filtered_options p (ac_value s) \/ ac_value s' = ac_value s)).
Proof.
  intros Hs. split.
  - unfold ac_run. revert s Hs. induction es as [|e es IH]; intros s Hs; [done|].
    apply IH, ac_step_ok, Hs.
  - intros Hro. unfold handleKeyDown, handleSelect. rewrite Hro.
    destruct (option_at _ _) eqn:E; simpl; [|auto].
    split; [done|]. left. by eapply option_at_elem.
Qed.

(** Enter agrees with the drop-down on screen: while the list is shown,
    at most one row has the highlighted style and Enter selects that
    row's option, or the typed text when no row is highlighted or when
    the list is the single "Add New Entry" row; either way the list is
    hidden afterwards. *)
Theorem dropdown_enter_matches_highlight p s :
  match ac_dropdown p s with
  | DHidden => True
  | DAddNew v => handleKeyDown p Enter s = handleSelect p v s /\
      ac_dropdown p (handleKeyDown p Enter s) = DHidden
  | DOptions rows =>
      length (filter row_highlighted rows) <= 1 /\
      handleKeyDown p Enter s =
        handleSelect p (default (ac_value s) (row_opt <$> List.find row_highlighted rows)) s /\
      ac_dropdown p (handleKeyDown p Enter s) = DHidden
  end.
Proof.
  unfold ac_dropdown at 1.
  destruct (negb (ac_read_only p) && ac_open s && _) eqn:Hshow; [|done].
  apply andb_prop in Hshow as [[Hro%negb_true_iff _]%andb_prop _].
  assert (Hc : ac_dropdown p (handleKeyDown p Enter s) = DHidden).
  { unfold handleKeyDown, handleSelect, ac_dropdown. rewrite !Hro. by destruct (option_at _ _). }
  rewrite (enter_selects_highlighted p s Hro) in Hc |- *.
  destruct (filtered_options p (ac_value s)) eqn:E; cbn beta iota; [done|].
  split_and!; [apply option_rows_one_highlight|done|exact Hc].
Qed.

(** ** Instances *)

Definition truck_props : AcProps := mkAcProps ["AHB 1502"; "AHB 1600"; "KBX 22"] true false false.

Definition typed_ahb : AcState := mkAc "AHB" true (-1).

Example format_reg_examples :
  format_reg "ahb1502zm" = "AHB 1502 ZM" /\ format_reg "ahb-1502" = "AHB 1502" /\
  title_case "john doe, lusaka" = "John Doe, Lusaka".
Proof. split_and!; reflexivity. Qed.

Lemma ac_run_ok_witness :
  ac_ok truck_props typed_ahb /\
  (ac_ok truck_props (ac_run truck_props [AKey ArrowDown; AKey ArrowDown; AKey ArrowDown;
                                          AKey ArrowUp; AKey Enter] typed_ahb) /\
   (ac_read_only truck_props = false ->
    let s' := handleKeyDown truck_props Enter typed_ahb in
    ac_open s' = false /\
    (ac_value s' ∈ filtered_options truck_props (ac_value typed_ahb) \/
     ac_value s' = ac_value typed_ahb))).
Proof.
  split; [unfold ac_ok; vm_compute; split; intros H; discriminate H|].
  apply ac_run_ok. unfold ac_ok; vm_compute; split; intros H; discriminate H.
Defined.
