(* ===== verification/Records.v ===== *)
(** * Reading records back: history, validation lists and settings

    The client parts of App.tsx that read the GET snapshot of the backend
    ([Backend.doGet]) into state, and the settings screen that writes to
    it: [fetchHistory] (lines 575-630: the validation lists and the
    inspection history of the active module, newest first),
    [fetchSystemSettings] (517-543), [handleSaveSettings] (779-823) and
    the settings kept in [localStorage] (154-162).  The theorems compose
    them with the backend model: a submitted inspection comes back as the
    first history item, and saved settings come back at the next start
    when the save reached the backend the start reads (the one at
    [PRE_CONFIGURED_SCRIPT_URL]), but are overwritten by the sheet's
    older row when they were saved offline or elsewhere.  Backends are
    addressed by URL: [backend u] answers the GET at [u]. *)

From S2P Require Import Prelude Session Queue Alerts Backend.

(** ** History *)

(** An inspection record as [fetchHistory] rebuilds it: an object from
    header names to cells. *)
Abbreviation Item := (gmap string Cell).

(** [row[index] !== undefined ? row[index] : null] *)
Definition js_or_null (c : Cell) : Cell := match c with CUndef => CNull | _ => c end.

(** [targetHeaders.forEach((header, index) => item[header] = ...)] from
    [index = i] on: later headers overwrite earlier ones of the same name. *)
Fixpoint item_from (i : nat) (headers : list string) (row : list Cell) (it : Item) : Item :=
  match headers with
  | [] => it
  | h :: hs => item_from (S i) hs row (<[h := js_or_null (cell_at row i)]> it)
  end.

Definition history_item (headers : list string) (row : list Cell) : Item :=
  item_from 0 headers row ∅.

Record ValidationLists := mkLists {
  trucks : list Cell;
  trailers : list Cell;
  drivers : list Cell;
  inspectors : list Cell;
  locations : list Cell;
  positions : list Cell
}.

(** [obj[k]] on the object [doGet] builds column by column: the last
    column of that name wins. *)
Definition obj_field (kvs : list (string * list Cell)) (k : string) : option (list Cell) :=
  foldl (fun acc kv => if String.eqb kv.1 k then Some kv.2 else acc) None kvs.

(** [validationData[k] || []] *)
Definition list_field (v : JVal) (k : string) : list Cell :=
  match v with JObj kvs => default [] (obj_field kvs k) | _ => [] end.

Definition lists_of (v : JVal) : ValidationLists :=
  mkLists (list_field v "Truck_Reg_No") (list_field v "Trailer_Reg_No")
          (list_field v "Driver_Name") (list_field v "Inspector_Name")
          (list_field v "Location") (list_field v "Position").

Record HState := mkHState { history : list Item; lists : ValidationLists }.

(** The rows of the target tab to the history list: nothing when the tab
    is missing, the data rows rebuilt and reversed when there are any.
    ([doGet] serves data tabs as row arrays, so the other shapes, which
    no tab of an inspection module has, give an empty list too.) *)
Definition history_of (headers : list string) (v : option JVal) : list Item :=
  match v with
  | Some (JRows rows) =>
      if Nat.ltb 1 (length rows) then reverse (map (history_item headers) (drop 1 rows)) else []
  | _ => []
  end.

(** [fetchHistory]; [resp] is the parsed GET response, [None] when the
    request or the parse throws. *)
Definition fetchHistory (url : string) (online : bool) (m : ModuleId) (resp : option Snapshot)
    (h : HState) : HState :=
  if String.eqb url "" || negb online then h
  else match resp with
       | None => h
       | Some json =>
           let ls := match json !! "Validation_Data" with
                     | Some v => lists_of v
                     | None => lists h
                     end in
           let '(sheet, headers) := target_of m in
           mkHState (history_of headers (json !! sheet)) ls
       end.

(** ** Settings *)

Record Settings := mkSettings {
  company_name : Cell;
  manager_email : Cell;
  company_logo : Cell
}.

Definition default_settings : Settings :=
  mkSettings (CStr "My Transport Co.") (CStr "") CUndef.

(** The settings of the App component and their [localStorage] copy. *)
Record SState := mkSState { settings : Settings; ls_settings : option Settings }.

(** The initial [settings] state (lines 154-162). *)
Definition init_settings (ls : option Settings) : Settings := default default_settings ls.

(** [(latestConfig[4] && String(latestConfig[4]).length > 100) ? latestConfig[4] : undefined] *)
Definition logo_of (c : Cell) : Cell :=
  if js_truthy c && Nat.ltb 100 (String.length (js_string c)) then c else CUndef.

(** The settings [fetchSystemSettings] reads from the last row. *)
Definition settings_of_row (row : list Cell) : Settings :=
  mkSettings (if js_truthy (cell_at row 0) then cell_at row 0 else CStr "My Transport Co.")
             (if js_truthy (cell_at row 1) then cell_at row 1 else CStr "")
             (logo_of (cell_at row 4)).

(** [fetchSystemSettings]: the last row of [System_Settings] when the tab
    has a data row and that row two cells; [{...prev, ...remote}]
    replaces all three fields. *)
Definition fetchSystemSettings (online : bool) (resp : option Snapshot) (s : SState) : SState :=
  if negb online then s
  else match resp with
       | Some json =>
           match json !! "System_Settings" with
           | Some (JRows rows) =>
               if Nat.ltb 1 (length rows) then
                 match last rows with
                 | Some latest =>
                     if Nat.leb 2 (length latest)
                     then let r := settings_of_row latest in mkSState r (Some r)
                     else s
                 | None => s
                 end
               else s
           | _ => s
           end
       | None => s
       end.

Definition SETTINGS_HEADERS : list string :=
  ["Company_Name"; "Manager_Email"; "Active_Script_URL"; "Last_Updated"; "Company_Logo"].

(** The [create] payload of [handleSaveSettings]. *)
Definition settings_payload (s : Settings) (url ts id : string) : Payload :=
  mkPayload "System_Settings" "create"
            [company_name s; manager_email s; CStr url; CStr ts;
             if js_truthy (company_logo s) then company_logo s else CStr ""]
            SETTINGS_HEADERS id.

(** [handleSaveSettings]: refused unless the URL is an Apps Script URL;
    the settings go to [localStorage], and to the backend when online
    (a [no-cors] POST whose outcome the client never learns).  [fits]
    says whether [localStorage.setItem] accepts the settings' JSON; when
    it throws ([QuotaExceededError], a large logo) the [catch] warns and
    the POST after it is never made. *)
Definition handleSaveSettings (fits : Settings -> bool) (url : string) (online : bool)
    (ts id : string) (s : SState) : SState * option Payload :=
  if negb (str_contains "script.google.com" url) then (s, None)
  else if negb (fits (settings s)) then (s, None)
  else (mkSState (settings s) (Some (settings s)),
        if online then Some (settings_payload (settings s) url ts id) else None).

(** The settings [fetchSystemSettings] takes from a snapshot, if any. *)
Definition settings_row (json : Snapshot) : option Settings :=
  match json !! "System_Settings" with
  | Some (JRows rows) =>
      if Nat.ltb 1 (length rows) then
        match last rows with
        | Some latest => if Nat.leb 2 (length latest) then Some (settings_of_row latest) else None
        | None => None
        end
      else None
  | _ => None
  end.

(** The client's settings at start-up (lines 148-170): the stored copy,
    then, when the initial [appScriptUrl] is not empty, those of the
    backend at that URL.  The initial URL is [PRE_CONFIGURED_SCRIPT_URL]
    when it is set, whatever URL the last save stored ([stored_url]);
    [backend u] is the answer of the backend at [u]. *)
Definition restart_settings (stored_url : string) (online : bool) (backend : string -> option Snapshot)
    (ls : option Settings) : SState :=
  let url := initial_script_url (Some stored_url) in
  let s := mkSState (init_settings ls) ls in
  if String.eqb url "" then s else fetchSystemSettings online (backend url) s.

(** The backends after a POST to the one at [url]. *)
Definition post_to (store : Cell -> Cell) (now url : string) (body : Body) (world : string -> Spreadsheet)
    : string -> Spreadsheet :=
  fun u => if String.eqb u url then fst (doPost store now (world url) body) else world u.

(** ** Lemmas *)

Lemma item_from_notin i hs row it h :
  h ∉ hs -> item_from i hs row it !! h = it !! h.
Proof.
  induction hs as [|h' hs IH] in i, it |- *; intros Hn; [done|]. simpl.
  rewrite IH by set_solver. apply lookup_insert_ne. set_solver.
Qed.

Lemma item_from_lookup i hs row it j h :
  NoDup hs -> hs !! j = Some h -> item_from i hs row it !! h = Some (js_or_null (cell_at row (i + j))).
Proof.
  induction hs as [|h' hs IH] in i, it, j |- *; intros Hnd Hj; [done|].
  apply NoDup_cons in Hnd as [Hn Hnd]. simpl.
  destruct j as [|j]; simpl in Hj.
  - injection Hj as <-. rewrite item_from_notin by done. rewrite lookup_insert_eq. by rewrite Nat.add_0_r.
  - rewrite (IH (S i) _ j) by done. by rewrite Nat.add_succ_r.
Qed.

Lemma target_headers_nodup m : NoDup (snd (target_of m)).
Proof. destruct m; vm_compute; apply (bool_decide_unpack _); vm_compute; reflexivity. Qed.

Lemma reverse_map_snoc {A B} (f : A -> B) l x : reverse (map f (l ++ [x])) = f x :: reverse (map f l).
Proof. by rewrite map_app, reverse_app. Qed.

(** A list of at least two rows, without its first, ends with the last. *)
Lemma drop1_last {A} (rs : list A) x :
  (2 <= length rs)%nat -> last rs = Some x -> exists l, drop 1 rs = l ++ [x].
Proof.
  intros Hl Hx. apply last_Some in Hx as [l ->]. exists (drop 1 l).
  rewrite length_app in Hl. simpl in Hl. rewrite drop_app_le; [done|lia].
Qed.

Lemma cell_at_map {A} (f : A -> Cell) (l : list A) j x : l !! j = Some x -> cell_at (map f l) j = f x.
Proof. intros Hj. unfold cell_at. by rewrite list_lookup_fmap, Hj. Qed.

Lemma build_payload_fields fd m rid :
  let p := build_payload fd m rid in
  p_sheet p = fst (target_of m) /\ p_headers p = snd (target_of m) /\
  p_row p = map (row_value fd rid) (snd (target_of m)) /\ p_action p = "create".
Proof. unfold build_payload. by destruct (target_of m). Qed.

Lemma target_sheet_plain m :
  fst (target_of m) <> "Users" /\ fst (target_of m) <> "Validation_Data" /\
  fst (target_of m) <> "Acknowledgements".
Proof. destruct m; simpl; split_and!; discriminate. Qed.

(** ** Properties *)

(** C30: a submitted inspection comes back as the newest history item.
    After the backend has appended the record that
    [handleGoogleSheetSubmit] builds for module [m], the next
    [fetchHistory] in that module lists first an item whose every header
    field is the form value as the sheet stored it ([String(value)], [""]
    for a missing one, the record id for [id]). *)
Theorem submitted_record_heads_history store now ss fd m rid url h :
  url <> "" ->
  match ss !! fst (target_of m) with Some sh => sh <> [] | None => True end ->
  let p := build_payload fd m rid in
  exists item rest,
    history (fetchHistory url true m (Some (doGet (fst (doPost store now ss (body_of_payload p))))) h)
      = item :: rest /\
    forall hd, hd ∈ snd (target_of m) ->
      item !! hd = Some (js_or_null (store (safe_cell (row_value fd rid hd)))).
Proof.
  intros Hu Hne p. destruct (build_payload_fields fd m rid) as (Hs & Hh & Hr & Ha). fold p in Hs, Hh, Hr, Ha.
  destruct (target_sheet_plain m) as (H1 & H2 & H3). rewrite <- Hs in H1, H2, H3, Hne.
  destruct (created_row_served store now ss p Ha H1 H2 H3 Hne) as (rs & n & Hget & Hlen & Hlast).
  destruct (drop1_last rs _ Hlen Hlast) as [l Hdrop].
  unfold fetchHistory. apply String.eqb_neq in Hu. rewrite Hu. simpl.
  pose proof (target_headers_nodup m) as Hnd.
  destruct (target_of m) as [sheet headers]. simpl in *. subst sheet.
  rewrite Hget. simpl. replace (Nat.ltb 1 (length rs)) with true by (symmetry; apply Nat.ltb_lt; lia).
  rewrite Hdrop, reverse_map_snoc. eexists _, _. split; [reflexivity|].
  intros hd Hin. apply list_elem_of_lookup in Hin as [j Hj].
  unfold history_item. rewrite (item_from_lookup 0 headers _ _ j hd) by done. simpl.
  rewrite Hr, cell_at_pad.
  - rewrite map_map, map_map. by rewrite (cell_at_map _ _ j hd Hj).
  - rewrite !length_map. by eapply lookup_lt_Some.
Qed.

(** Logos [fetchSystemSettings] keeps: none, or a text over 100
    characters (a data URL). *)
Definition logo_ok (c : Cell) : Prop :=
  c = CUndef \/ exists l, c = CStr l /\ (100 < String.length l)%nat.

(** The sheet stores the text cells of [s] as they are: its name, its
    e-mail, its logo and the empty text that stands for no logo. *)
Definition keeps_settings (store : Cell -> Cell) (s : Settings) : Prop :=
  (forall x, company_name s = CStr x \/ manager_email s = CStr x -> store (CStr x) = CStr x) /\
  store (CStr "") = CStr "" /\ (forall l, company_logo s = CStr l -> store (CStr l) = CStr l).

(** The row [handleSaveSettings] posts, as the sheet stores and serves
    it, reads back as the settings it was made from. *)
Lemma settings_row_read store s url ts id w name email :
  keeps_settings store s ->
  company_name s = CStr name -> name <> "" -> manager_email s = CStr email ->
  logo_ok (company_logo s) ->
  settings_of_row (pad_row w (map store (map safe_cell (p_row (settings_payload s url ts id))))) = s.
Proof.
  intros (Hst & H0 & Hlg) Hn Hne He Hl. unfold settings_of_row.
  rewrite !cell_at_pad by (simpl; lia). simpl p_row. rewrite Hn, He. cbn [map].
  unfold cell_at. cbn [lookup list_lookup default]. unfold safe_cell. cbn [js_string].
  rewrite (Hst name), (Hst email) by auto. unfold Datatypes.id. cbn [js_truthy].
  apply String.eqb_neq in Hne. rewrite Hne. simpl.
  destruct s as [n0 e0 l0]; simpl in *; subst n0 e0. f_equal.
  - by destruct (String.eqb_spec email "") as [->|].
  - destruct Hl as [->|(l & -> & Hlen)]; simpl; [by rewrite H0|].
    assert (Hl' : l <> "") by (intros ->; simpl in Hlen; lia).
    apply String.eqb_neq in Hl'. rewrite Hl'. simpl. rewrite (Hlg l eq_refl). unfold logo_of. simpl.
    rewrite Hl'. simpl. by apply Nat.ltb_lt in Hlen as ->.
Qed.

Lemma fetch_settings_row json r s :
  settings_row json = Some r -> fetchSystemSettings true (Some json) s = mkSState r (Some r).
Proof. unfold settings_row, fetchSystemSettings. simpl. by repeat case_match; intros [= <-]. Qed.

(** C31: settings saved online come back exactly when they were saved to
    the built-in backend.  When [localStorage] accepts them and the POST
    of [handleSaveSettings] has reached the backend at the script URL, the
    next start of the client (whatever its stored copy) reads back the
    saved company name, e-mail and logo if that URL is
    [PRE_CONFIGURED_SCRIPT_URL], and otherwise exactly what it would have
    read without the save: the start reads the built-in backend.  This
    needs the name not empty (an empty name reads back as the default),
    the logo, if any, a data URL, and the sheet to keep these texts. *)
Theorem saved_settings_come_back store now world fits url ts id st name email :
  keeps_settings store (settings st) ->
  str_contains "script.google.com" url = true -> fits (settings st) = true ->
  company_name (settings st) = CStr name -> name <> "" ->
  manager_email (settings st) = CStr email -> logo_ok (company_logo (settings st)) ->
  match world url !! "System_Settings" with Some sh => sh <> [] | None => True end ->
  exists p, snd (handleSaveSettings fits url true ts id st) = Some p /\
    forall ls, settings (restart_settings url true (fun u => Some (doGet (post_to store now url (body_of_payload p) world u))) ls)
               = if String.eqb url PRE_CONFIGURED_SCRIPT_URL then settings st
                 else settings (restart_settings url true (fun u => Some (doGet (world u))) ls).
Proof.
  intros Hst Hurl Hfit Hn Hne He Hl Hss.
  exists (settings_payload (settings st) url ts id).
  split; [unfold handleSaveSettings; by rewrite Hurl, Hfit|]. intros ls.
  unfold restart_settings, post_to. change (initial_script_url (Some url)) with PRE_CONFIGURED_SCRIPT_URL.
  change (String.eqb PRE_CONFIGURED_SCRIPT_URL "") with false. cbv beta iota.
  destruct (String.eqb_spec url PRE_CONFIGURED_SCRIPT_URL) as [<-|Hu];
    [rewrite String.eqb_refl|by rewrite (proj2 (String.eqb_neq _ _) (not_eq_sym Hu))].
  destruct (created_row_served store now (world url) (settings_payload (settings st) url ts id))
    as (rs & w & Hget & Hlen & Hlast); [done|discriminate..|done|].
  change (p_sheet _) with "System_Settings" in Hget.
  rewrite (fetch_settings_row _ (settings st)); [done|].
  unfold settings_row. rewrite Hget.
  replace (Nat.ltb 1 (length rs)) with true by (symmetry; apply Nat.ltb_lt; lia).
  rewrite Hlast.
  set (row := pad_row w _).
  assert (Hrow : Nat.leb 2 (length row) = true).
  { apply Nat.leb_le. unfold row. rewrite length_pad_row. simpl. lia. }
  rewrite Hrow. f_equal. eapply settings_row_read; eauto.
Qed.

(** C32 (finding): settings the client does not send are lost.  Saved
    offline, or with a logo [localStorage] cannot hold, [handleSaveSettings]
    posts nothing and nothing sends them later; the next start online,
    whenever the built-in backend has a settings row, replaces the state
    and the stored copy by that row, whatever the save kept locally. *)
Theorem unsent_settings_overwritten fits url online ts id st backend json r :
  online = false \/ fits (settings st) = false ->
  backend PRE_CONFIGURED_SCRIPT_URL = Some json -> settings_row json = Some r ->
  snd (handleSaveSettings fits url online ts id st) = None /\
  restart_settings url true backend (ls_settings (fst (handleSaveSettings fits url online ts id st)))
    = mkSState r (Some r).
Proof.
  intros Hoff Hb Hr. split.
  - unfold handleSaveSettings. destruct Hoff as [->| ->]; by repeat case_match.
  - unfold restart_settings. change (initial_script_url (Some url)) with PRE_CONFIGURED_SCRIPT_URL.
    change (String.eqb PRE_CONFIGURED_SCRIPT_URL "") with false. cbv beta iota.
    rewrite Hb. by apply fetch_settings_row.
Qed.

(** ** A start after an offline save *)

Section OfflineSettings.

Definition script_url0 : string := "https://script.google.com/macros/s/x/exec".

Definition old_settings : Settings := mkSettings (CStr "Old Co") (CStr "ops@old.co") CUndef.
Definition new_settings : Settings := mkSettings (CStr "New Co") (CStr "ops@new.co") CUndef.

(** The sheet holds the settings saved last time the client was online. *)
Definition ss_settings : Spreadsheet :=
  {["System_Settings" := [map CStr SETTINGS_HEADERS;
                          [CStr "Old Co"; CStr "ops@old.co"; CStr script_url0; CStr "t0"; CStr ""]]]}.

(** A logo the storage has no room for. *)
Definition logo_settings : Settings :=
  mkSettings (CStr "New Co") (CStr "ops@new.co") (CStr "data:image/jpeg;base64,/9j/4AAQSkZJRg").

Definition small_fits (s : Settings) : bool := negb (js_truthy (company_logo s)).

(** Settings saved offline, then a start online: they stay in
    [localStorage] only, and the start replaces both the state and the
    stored copy by the older row of the sheet.  Saved online with a logo
    [localStorage] cannot hold, the save warns "Storage full!", keeps them
    in memory only and never posts them, so the next start brings back
    the sheet's older row as well. *)
Example unsent_settings_scenario :
  let backend := fun _ : string => Some (doGet ss_settings) in
  (let st1 := mkSState new_settings (Some old_settings) in
   let '(st2, post) := handleSaveSettings (fun _ => true) script_url0 false "t1" "CFG_1" st1 in
   post = None /\ ls_settings st2 = Some new_settings /\
   let st3 := restart_settings script_url0 true backend (ls_settings st2) in
   settings st3 = old_settings /\ ls_settings st3 = Some old_settings) /\
  (let st1 := mkSState logo_settings (Some old_settings) in
   let '(st2, post) := handleSaveSettings small_fits script_url0 true "t1" "CFG_1" st1 in
   post = None /\ settings st2 = logo_settings /\ ls_settings st2 = Some old_settings /\
   settings (restart_settings script_url0 true backend (ls_settings st2)) = old_settings).
Proof. vm_compute. split_and!; reflexivity. Qed.

(** Settings saved online to a backend other than the built-in one are
    written to that sheet, but the next start reads the built-in backend
    and shows its older settings. *)
Example settings_saved_elsewhere_not_read :
  let st1 := mkSState new_settings (Some old_settings) in
  exists p, snd (handleSaveSettings (fun _ => true) script_url0 true "t1" "CFG_1" st1) = Some p /\
    settings (restart_settings script_url0 true
                (fun u => Some (doGet (post_to store_id "t" script_url0 (body_of_payload p)
                                         (fun _ => ss_settings) u)))
                (ls_settings (fst (handleSaveSettings (fun _ => true) script_url0 true "t1" "CFG_1" st1))))
      = old_settings.
Proof. eexists. split; [reflexivity|]. vm_compute. reflexivity. Qed.

End OfflineSettings.

(** ** Instances *)

Section RecordWitnesses.

Definition truck_form : FormData := {[ "truckNo" := CStr "AHB 1502"; "rate" := CNum 4 ]}.

Definition h0 : HState := mkHState [] (lists_of (JObj [])).

Lemma submitted_record_heads_history_witness :
  script_url0 <> "" /\
  match (ss_settings : Spreadsheet) !! fst (target_of MGeneral) with
  | Some sh => sh <> [] | None => True end /\
  let p := build_payload truck_form MGeneral "r1" in
  exists item rest,
    history (fetchHistory script_url0 true MGeneral
               (Some (doGet (fst (doPost store_id "t" ss_settings (body_of_payload p))))) h0)
      = item :: rest /\
    forall hd, hd ∈ snd (target_of MGeneral) ->
      item !! hd = Some (js_or_null (store_id (safe_cell (row_value truck_form "r1" hd)))).
Proof.
  split_and!; [discriminate|vm_compute; exact I|].
  apply submitted_record_heads_history; [discriminate|vm_compute; exact I].
Defined.

Lemma new_settings_kept : keeps_settings sheets_digits_store new_settings.
Proof.
  split; [|split; [reflexivity|intros l Hl; discriminate]].
  intros x [Hx|Hx]; injection Hx as <-; reflexivity.
Qed.

Lemma saved_settings_come_back_witness :
  exists p, snd (handleSaveSettings (fun _ => true) PRE_CONFIGURED_SCRIPT_URL true "t1" "CFG_1"
                                    (mkSState new_settings None)) = Some p /\
    forall ls, settings (restart_settings PRE_CONFIGURED_SCRIPT_URL true
                 (fun u => Some (doGet (post_to sheets_digits_store "t" PRE_CONFIGURED_SCRIPT_URL
                                          (body_of_payload p) (fun _ => ss_settings) u))) ls)
               = if String.eqb PRE_CONFIGURED_SCRIPT_URL PRE_CONFIGURED_SCRIPT_URL then new_settings
                 else settings (restart_settings PRE_CONFIGURED_SCRIPT_URL true
                                  (fun u => Some (doGet ((fun _ => ss_settings) u))) ls).
Proof.
  apply (saved_settings_come_back sheets_digits_store "t" (fun _ => ss_settings) (fun _ => true)
           PRE_CONFIGURED_SCRIPT_URL "t1" "CFG_1" (mkSState new_settings None) "New Co" "ops@new.co");
    [exact new_settings_kept|vm_compute; reflexivity|reflexivity|reflexivity|discriminate|reflexivity
    |left; reflexivity|vm_compute; discriminate].
Defined.

Lemma unsent_settings_overwritten_witness :
  snd (handleSaveSettings (fun _ => true) script_url0 false "t1" "CFG_1" (mkSState new_settings (Some old_settings)))
    = None /\
  restart_settings script_url0 true (fun _ => Some (doGet ss_settings))
    (ls_settings (fst (handleSaveSettings (fun _ => true) script_url0 false "t1" "CFG_1"
                         (mkSState new_settings (Some old_settings)))))
    = mkSState old_settings (Some old_settings).
Proof.
  apply (unsent_settings_overwritten _ _ _ _ _ _ _ (doGet ss_settings)); [by left|reflexivity|].
  vm_compute. reflexivity.
Defined.

End RecordWitnesses.
