(* ===== verification/Learning.v ===== *)
(** * Validation learning, from a submission to the autocomplete lists

    The backend learns the identifying values of every inspection it
    stores: [handleData] ends with [updateValidationData] (constants.ts
    585-611), which calls [updateValidationSingle] (613-650) for the five
    columns of the row's layout; the [Validation_Data] tab is then served
    by [doGet] as one list per header (the object built in 653-692), from
    which [fetchHistory] takes the autocomplete lists.  This file follows a
    value along that path: the cell-level effect of [set_cell] on what
    [getValues] reads, the invariant that keeps each list's header unique,
    and the round trip from a stored row to the list the client reads. *)

From S2P Require Import Prelude Queue Backend Records.

(** ** Reading a tab as [getValues] does *)

(** The header row and a cell of [getDataRange().getValues()]. *)
Definition header_row (sh : Sheet) : list Cell := default [] (head (values sh)).

Definition vcell (sh : Sheet) (r c : nat) : Cell := cell_at (default [] (values sh !! r)) c.

(** A header name [h] names at most one column, and that column's header
    is the string [h] itself (so [indexOf] finds it). *)
Definition header_once (h : string) (hd : list Cell) : Prop :=
  forall i j x y, hd !! i = Some x -> hd !! j = Some y -> js_string x = h -> js_string y = h ->
  i = j /\ x = CStr h.

(** The [Validation_Data] tab, if any, keeps [h] unique. *)
Definition header_ok (h : string) (ss : Spreadsheet) : Prop :=
  forall vd, ss !! "Validation_Data" = Some vd -> header_once h (header_row vd).

Ltac pad_cases :=
  repeat match goal with |- context [Nat.ltb ?a ?b] => destruct (Nat.ltb_spec a b) end;
  try lia; try reflexivity.

(** ** [set_cell] as [getValues] sees it *)

Lemma cell_at_insert_ne (l : list Cell) c c' v : c <> c' -> cell_at (<[c' := v]> l) c = cell_at l c.
Proof. intros H. unfold cell_at. by rewrite list_lookup_insert_ne by congruence. Qed.

Lemma cell_at_insert_eq (l : list Cell) c v : (c < length l)%nat -> cell_at (<[c := v]> l) c = v.
Proof. intros H. unfold cell_at. by rewrite list_lookup_insert_eq. Qed.

Lemma header_row_eq sh : header_row sh = pad_row (last_column sh) (default [] (sh !! 0%nat)).
Proof. unfold header_row, values. by destruct sh. Qed.

Lemma header_row_vcell sh c : (c < length (header_row sh))%nat -> header_row sh !! c = Some (vcell sh 0 c).
Proof.
  unfold header_row, vcell. rewrite head_lookup. intros Hc. unfold cell_at.
  destruct (lookup_lt_is_Some_2 _ _ Hc) as [x Hx]. by rewrite Hx.
Qed.

Lemma length_header_row sh : sh <> [] -> length (header_row sh) = last_column sh.
Proof.
  intros Hne. rewrite header_row_eq, length_pad_row.
  destruct sh as [|row sh]; [done|]. simpl. lia.
Qed.

Lemma pad_row_lookup n row j x : pad_row n row !! j = Some x -> row !! j = Some x \/ x = CStr "".
Proof.
  unfold pad_row. intros [H|(_ & H)]%lookup_app_Some; [by left|].
  apply lookup_replicate in H as [-> _]. by right.
Qed.

(** A cell other than the one written reads the same, inside the columns
    the tab had. *)
Lemma vcell_set_cell_other r c r' c' v sh :
  (r < length sh)%nat -> (c < last_column sh)%nat -> (r, c) <> (r', c') ->
  vcell (set_cell r' c' v sh) r c = vcell sh r c.
Proof.
  intros Hr Hc Hne. unfold vcell, values. rewrite !list_lookup_fmap.
  pose proof (last_column_set_cell r' c' v sh) as Hm.
  destruct (lookup_lt_is_Some_2 sh r Hr) as [row Hrow]. rewrite Hrow.
  destruct (decide (r = r')) as [->|Hrr].
  - rewrite set_cell_lookup_eq, Hrow. simpl. assert (c <> c') by congruence.
    rewrite !cell_at_pad_row, length_insert, length_pad_row, cell_at_insert_ne, cell_at_pad_row
      by done.
    pad_cases.
  - rewrite set_cell_lookup_old, Hrow by done. simpl. rewrite !cell_at_pad_row. pad_cases.
Qed.

Lemma vcell_set_cell_eq r c v sh : vcell (set_cell r c v sh) r c = v.
Proof.
  unfold vcell, values. rewrite list_lookup_fmap, set_cell_lookup_eq. simpl.
  rewrite cell_at_pad_row, length_insert, length_pad_row.
  destruct (Nat.ltb_spec c (Nat.max (S c) (length (default [] (sh !! r))))); [|lia].
  apply cell_at_insert_eq. rewrite length_pad_row. lia.
Qed.

(** A header cell after a write is the written value, a header cell of
    before, or padding. *)
Lemma header_row_set_cell r c v sh j x :
  header_row (set_cell r c v sh) !! j = Some x ->
  (r = 0%nat /\ j = c /\ x = v) \/ header_row sh !! j = Some x \/ x = CStr "".
Proof.
  assert (Hold : forall row, sh !! 0%nat = Some row -> row !! j = Some x ->
                 header_row sh !! j = Some x).
  { intros row Hr Hj. rewrite header_row_eq, Hr. unfold pad_row.
    rewrite lookup_app_l; eauto using lookup_lt_Some. }
  rewrite header_row_eq. intros [H| ->]%pad_row_lookup; [|auto].
  destruct (decide (r = 0%nat)) as [->|Hr].
  - rewrite set_cell_lookup_eq in H. simpl in H.
    apply list_lookup_insert_Some in H as [(-> & -> & _)|(_ & [H| ->]%pad_row_lookup)]; [auto| |auto].
    destruct (sh !! 0%nat) eqn:E; [eauto|done].
  - destruct (set_cell r c v sh !! 0%nat) eqn:E; [|done]. simpl in H.
    apply set_cell_lookup_ne in E as [E| ->]; [eauto|done|done].
Qed.

Lemma header_once_set_cell h r c v sh :
  h <> "" -> (r <> 0%nat \/ js_string v <> h) ->
  header_once h (header_row sh) -> header_once h (header_row (set_cell r c v sh)).
Proof.
  intros Hh Hv Ho i j x y Hi Hj Hx Hy.
  apply header_row_set_cell in Hi as [(-> & -> & ->)|[Hi| ->]]; [naive_solver| |by subst].
  apply header_row_set_cell in Hj as [(-> & -> & ->)|[Hj| ->]]; [naive_solver| |by subst].
  eauto.
Qed.

Lemma vcell_beyond sh r c : (last_column sh <= c)%nat -> vcell sh r c = CUndef.
Proof.
  intros Hc. unfold vcell, values. rewrite list_lookup_fmap.
  destruct (sh !! r) as [row|] eqn:E; [|done]. simpl.
  pose proof (last_column_lookup _ _ _ E). rewrite cell_at_pad_row. pad_cases.
Qed.

Lemma header_row_single l : header_row [l] = l.
Proof.
  rewrite header_row_eq. simpl. unfold pad_row. by rewrite Nat.max_0_r, Nat.sub_diag, app_nil_r.
Qed.

Lemma header_once_strings h l : NoDup l -> header_once h (map CStr l).
Proof.
  intros Hnd i j x y Hi Hj Hx Hy.
  apply list_lookup_fmap_Some in Hi as (s & -> & Hi). apply list_lookup_fmap_Some in Hj as (t & -> & Hj).
  simpl in Hx, Hy. subst. split; [|done]. by eapply NoDup_lookup.
Qed.

(** ** [headers.indexOf] and the first empty slot *)

Lemma index_of_Some x l i k : index_of x l i = Some k -> (i <= k)%nat /\ l !! (k - i)%nat = Some (CStr x).
Proof.
  induction l as [|c l IH] in i |- *; simpl; [done|]. case_bool_decide.
  - intros [= <-]. subst. rewrite Nat.sub_diag. auto.
  - intros [? Hk]%IH. split; [lia|]. by replace (k - i)%nat with (S (k - S i)) by lia.
Qed.

Lemma index_of_None x l i j : index_of x l i = None -> l !! j <> Some (CStr x).
Proof.
  induction l as [|c l IH] in i, j |- *; simpl; [done|]. case_bool_decide; [done|].
  intros Hn. destruct j; simpl; [congruence|eauto].
Qed.

Lemma first_empty_from_ge i col k : first_empty_from i col = Some k -> (i <= k)%nat.
Proof.
  induction col as [|v col IH] in i |- *; simpl; [done|].
  destruct (String.eqb v ""); [intros [= <-]; lia|]. intros ?%IH. lia.
Qed.

Lemma elem_of_column x col sh :
  x ∈ map (fun r => js_string (cell_at r col)) (values sh) ->
  exists r, (r < length sh)%nat /\ js_string (vcell sh r col) = x.
Proof.
  intros (r & Hr)%list_elem_of_lookup. apply list_lookup_fmap_Some in Hr as (row & -> & Hr).
  exists r. split; [rewrite <- length_values; eauto using lookup_lt_Some|].
  unfold vcell. by rewrite Hr.
Qed.

(** ** A learned value *)

(** [x] is in the column headed [h], below the header, and [h] heads
    one column only. *)
Definition learned_sheet (h x : string) (vd : Sheet) : Prop :=
  exists c r, vcell vd 0 c = CStr h /\ (c < last_column vd)%nat /\ header_once h (header_row vd) /\
              (1 <= r < length vd)%nat /\ js_string (vcell vd r c) = x.

Definition learned (h x : string) (ss : Spreadsheet) : Prop :=
  exists vd, ss !! "Validation_Data" = Some vd /\ learned_sheet h x vd.

(** A write to another column, or to a data row, keeps a learned value. *)
Lemma learned_sheet_set_cell h x vd r' c' v :
  h <> "" -> vcell vd 0 c' <> CStr h -> (r' <> 0%nat \/ js_string v <> h) ->
  learned_sheet h x vd -> learned_sheet h x (set_cell r' c' v vd).
Proof.
  intros Hh Hc' Hv (c & r & Hc & Hlt & Ho & Hr & Hx).
  assert (c <> c') by congruence.
  pose proof (last_column_set_cell r' c' v vd). pose proof (length_set_cell r' c' v vd).
  exists c, r. split_and!; [|lia|by apply header_once_set_cell|lia|lia|].
  - rewrite vcell_set_cell_other; [done|lia|lia|congruence].
  - rewrite vcell_set_cell_other; [done|lia|done|congruence].
Qed.

Lemma header_once_new_column h vs :
  h <> "" -> index_of h (header_row vs) 0 = None -> header_once h (header_row vs) ->
  header_once h (header_row (set_cell 0 (last_column vs) (CStr h) vs)).
Proof.
  intros Hh Hi Ho.
  assert (Hcell : forall k z, header_row (set_cell 0 (last_column vs) (CStr h) vs) !! k = Some z ->
                  js_string z = h -> k = last_column vs /\ z = CStr h).
  { intros k z Hk Hz. apply header_row_set_cell in Hk as [(_ & -> & ->)|[Hk| ->]]; [done| |by subst].
    destruct (Ho k k z z Hk Hk Hz Hz) as [_ ->]. by apply (index_of_None _ _ _ k) in Hi. }
  intros i j x y Hx Hy Hxh Hyh.
  destruct (Hcell _ _ Hx Hxh) as [-> ->], (Hcell _ _ Hy Hyh) as [-> _]. done.
Qed.

(** The slot [updateValidationSingle] writes a new value to is below the
    header. *)
Lemma target_pos (vs : Sheet) col :
  (1 <= length vs)%nat -> (1 <= default (length vs) (first_empty_from 1 col))%nat.
Proof. destruct (first_empty_from 1 col) eqn:E; simpl; [apply first_empty_from_ge in E|]; lia. Qed.

(** The sheet stores the names of the validation lists as they are. *)
Definition keeps_headers (store : Cell -> Cell) : Prop :=
  forall h, CStr h ∈ VALIDATION_HEADER -> store (CStr h) = CStr h.

Section Updates.
Context (store : Cell -> Cell) (Hhead : keeps_headers store).

Lemma ensure_header_once h ss :
  header_ok h ss -> header_once h (header_row (ensure_sheet store "Validation_Data" VALIDATION_HEADER ss)).
Proof.
  intros Hok. unfold ensure_sheet. destruct (ss !! _) eqn:E; [by apply Hok|]. simpl.
  unfold append_row. rewrite (map_ext_in store id VALIDATION_HEADER), map_id.
  2:{ intros c Hc. pose proof Hc as Hc'. apply in_map_iff in Hc as (x & <- & _).
      apply Hhead. by apply list_elem_of_In. }
  unfold VALIDATION_HEADER. simpl. rewrite header_row_single.
  apply (header_once_strings _ [_; _; _; _; _; _]). apply (bool_decide_unpack _). vm_compute. reflexivity.
Qed.

(** The column [updateValidationSingle] writes to: the first headed
    [h], or a new one after the last, with [h] written in its header. *)
Lemma header_column h vs col vs1 :
  CStr h ∈ VALIDATION_HEADER -> vs <> [] ->
  match index_of h (header_row vs) 0 with
  | Some c => (c, vs)
  | None => (length (header_row vs), set_value store 0 (length (header_row vs)) (CStr h) vs)
  end = (col, vs1) ->
  vcell vs1 0 col = CStr h /\ (col < last_column vs1)%nat /\ (length vs <= length vs1)%nat /\
  (vs1 = vs \/ (col = last_column vs /\ index_of h (header_row vs) 0 = None /\
                vs1 = set_cell 0 col (CStr h) vs)).
Proof.
  intros Hhh Hne. unfold set_value. rewrite Hhead, length_header_row by done.
  destruct (index_of _ _ _) as [c|] eqn:Ei; intros [= <- <-].
  - apply index_of_Some in Ei as [_ Hc]. rewrite Nat.sub_0_r in Hc.
    pose proof (lookup_lt_Some _ _ _ Hc) as Hlt. rewrite header_row_vcell in Hc by done.
    rewrite length_header_row in Hlt by done. split_and!; [congruence|done|done|by left].
  - pose proof (last_column_set_cell 0 (last_column vs) (CStr h) vs).
    pose proof (length_set_cell 0 (last_column vs) (CStr h) vs).
    split_and!; [apply vcell_set_cell_eq|lia|lia|right; auto].
Qed.

(** Past the guards of [updateValidationSingle]: the tab and the column
    it writes to. *)
Ltac open_update vs col vs1 Hcol :=
  match goal with |- context [ensure_sheet ?st ?n ?hd ?ss] => set (vs := ensure_sheet st n hd ss) end;
  destruct (Nat.eqb_spec (last_column vs) 0) as [|Hvs]; [done|];
  assert (Hvne : vs <> []) by (intros E; rewrite E in Hvs; done);
  replace (pad_row (last_column vs) (default [] (head vs))) with (header_row vs)
    by (by rewrite header_row_eq, head_lookup);
  match goal with |- context [match index_of ?h (header_row vs) 0 with Some _ => _ | None => _ end] =>
    destruct (match index_of h (header_row vs) 0 with Some c => (c, vs)
              | None => (length (header_row vs),
                         set_value store 0 (length (header_row vs)) (CStr h) vs) end)
      as [col vs1] eqn:Hcol
  end;
  apply header_column in Hcol; [|done..].

(** The updated column learns the value: it was there already, or it is
    written below the header. *)
Lemma updateValidationSingle_learns h v ss ss' :
  CStr h ∈ VALIDATION_HEADER -> store (CStr (trim (js_string v))) = CStr (trim (js_string v)) ->
  h <> "" -> js_truthy v = true -> trim (js_string v) <> "" -> trim (js_string v) <> h ->
  header_ok h ss -> updateValidationSingle store h v ss = Some ss' ->
  learned h (trim (js_string v)) ss'.
Proof.
  intros Hhh Hst Hh Hv Hne Hxh Hok. pose proof (ensure_header_once h ss Hok) as Ho.
  unfold updateValidationSingle. rewrite Hv, (proj2 (String.eqb_neq _ _) Hne). simpl.
  open_update vs col vs1 Hcol.
  destruct Hcol as (Hc & Hlt & Hlen & Hcase).
  assert (Ho1 : header_once h (header_row vs1)).
  { destruct Hcase as [->|(-> & Hi & ->)]; [done|]. by apply header_once_new_column. }
  unfold includes. case_bool_decide as Hin; intros [= <-].
  - apply elem_of_column in Hin as (r & Hr & Hx). exists vs1. split; [by rewrite lookup_insert_eq|].
    exists col, r. split_and!; [done|done|done| |done|done].
    destruct r; [|lia]. rewrite Hc in Hx. simpl in Hx. congruence.
  - unfold set_value. rewrite Hst. set (target := default _ _).
    assert (Ht : (1 <= target)%nat) by (apply target_pos; destruct vs; simpl in *; [done|lia]).
    eexists. split; [by rewrite lookup_insert_eq|]. exists col, target.
    pose proof (last_column_set_cell target col (CStr (trim (js_string v))) vs1).
    pose proof (length_set_cell target col (CStr (trim (js_string v))) vs1).
    split_and!; [|lia|apply header_once_set_cell; auto with lia|lia|lia|].
    + rewrite vcell_set_cell_other; [done|destruct vs1; simpl in *; lia|lia|intros [=]; lia].
    + by rewrite vcell_set_cell_eq.
Qed.

(** An update of another list keeps a learned value: it writes to the
    column headed by its own name. *)
Lemma updateValidationSingle_keeps h h' x v ss ss' :
  CStr h' ∈ VALIDATION_HEADER -> h <> "" -> h' <> h -> learned h x ss -> updateValidationSingle store h' v ss = Some ss' ->
  learned h x ss'.
Proof.
  intros Hhh Hh Hh' (vd & Hvd & Hl). unfold updateValidationSingle.
  destruct (negb _ || _); [intros [= <-]; by exists vd|].
  open_update vs col vs1 Hcol.
  destruct Hcol as (Hc & _ & Hlen & Hcase).
  assert (Hvs_vd : vs = vd) by (unfold vs, ensure_sheet; by rewrite Hvd).
  assert (Hl1 : learned_sheet h x vs1).
  { rewrite <- Hvs_vd in Hl. destruct Hcase as [->|(-> & _ & ->)]; [done|].
    apply learned_sheet_set_cell; [done|rewrite vcell_beyond; [done|lia]|simpl; auto|done]. }
  unfold includes. case_bool_decide; intros [= <-]; eexists; (split; [by rewrite lookup_insert_eq|]);
    [done|]. unfold set_value.
  apply learned_sheet_set_cell; [done|congruence| |done]. left.
  assert (1 <= default (length vs1) (first_empty_from 1
            (drop 1 (map (fun r => js_string (cell_at r col)) (values vs1)))))%nat; [|lia].
  apply target_pos. destruct vs; simpl in *; [done|lia].
Qed.

(** An update of another list keeps [h] unique. *)
Lemma updateValidationSingle_header_ok h h' v ss ss' :
  CStr h' ∈ VALIDATION_HEADER -> h <> "" -> h' <> h -> header_ok h ss -> updateValidationSingle store h' v ss = Some ss' ->
  header_ok h ss'.
Proof.
  intros Hhh Hh Hh' Hok. pose proof (ensure_header_once h ss Hok) as Ho. unfold updateValidationSingle.
  destruct (negb _ || _); [by intros [= <-]|].
  open_update vs col vs1 Hcol. destruct Hcol as (Hc & _ & Hlen & Hcase).
  assert (Ho1 : header_once h (header_row vs1)).
  { destruct Hcase as [->|(_ & _ & ->)]; [done|]. apply header_once_set_cell; [done|simpl; auto|done]. }
  unfold includes. case_bool_decide; intros [= <-] vd; rewrite lookup_insert_eq; intros [= <-]; [done|].
  unfold set_value. apply header_once_set_cell; [done| |done]. left.
  assert (1 <= default (length vs1) (first_empty_from 1
            (drop 1 (map (fun r => js_string (cell_at r col)) (values vs1)))))%nat; [|lia].
  apply target_pos. destruct vs; simpl in *; [done|lia].
Qed.
End Updates.

(** ** Through [updateValidationData] *)

Section Columns.
Context (store : Cell -> Cell) (Hhead : keeps_headers store).

(** The calls after the one for [h]: each writes to its own list or
    raises, which ends the sequence. *)
Lemma learn_columns_keeps h x row cols ss :
  Forall (fun hc => CStr hc.1 ∈ VALIDATION_HEADER) cols ->
  h <> "" -> h ∉ cols.*1 -> learned h x ss -> learned h x (learn_columns store row cols ss).
Proof.
  intros Hc Hh. induction cols as [|[h' i'] cols IH] in ss, Hc |- *; intros Hn Hl; [done|].
  apply Forall_cons in Hc as [Hc1 Hc].
  rewrite fmap_cons, not_elem_of_cons in Hn. destruct Hn as [Hne Hn]. simpl in *.
  destruct (updateValidationSingle _ _ _ _) as [ss1|] eqn:E; [|done].
  apply IH; [done|done|]. by apply (updateValidationSingle_keeps store Hhead h h' x (cell_at row i') ss ss1).
Qed.

(** The value of column [i] of the row is learned in the list [h], when
    the calls before it do not raise. *)
Lemma learn_columns_learns h i row l1 l2 ss :
  let x := trim (js_string (cell_at row i)) in
  Forall (fun hc => CStr hc.1 ∈ VALIDATION_HEADER) (l1 ++ (h, i) :: l2) -> store (CStr x) = CStr x ->
  h <> "" -> h ∉ l1.*1 -> h ∉ l2.*1 -> validation_ok ss -> header_ok h ss ->
  js_truthy (cell_at row i) = true -> x <> "" -> x <> h ->
  learned h x (learn_columns store row (l1 ++ (h, i) :: l2) ss).
Proof.
  intros x Hc Hst Hh H1 H2 Hv Hok Ht Hx Hxh.
  induction l1 as [|[h' i'] l1 IH] in ss, H1, Hv, Hok, Hc |- *; simpl; simpl in Hc.
  - apply Forall_cons in Hc as [Hch Hc].
    destruct (updateValidationSingle_ok store h (cell_at row i) ss Hv) as (ss1 & E & _). rewrite E.
    apply learn_columns_keeps; [done|done|done|].
    by apply (updateValidationSingle_learns store Hhead h (cell_at row i) ss).
  - apply Forall_cons in Hc as [Hch Hc].
    rewrite fmap_cons, not_elem_of_cons in H1. destruct H1 as [Hne H1]. simpl in Hne.
    destruct (updateValidationSingle_ok store h' (cell_at row i') ss Hv) as (ss1 & E & Hv1).
    rewrite E. apply IH; [done|done|done|].
    by apply (updateValidationSingle_header_ok store Hhead h h' (cell_at row i') ss ss1).
Qed.
End Columns.

(** ** Through [doGet] *)

Lemma foldl_no_key (kvs : list (string * list Cell)) k acc :
  (forall kv, kv ∈ kvs -> kv.1 <> k) ->
  foldl (fun acc kv => if String.eqb kv.1 k then Some kv.2 else acc) acc kvs = acc.
Proof.
  induction kvs as [|kv kvs IH] in acc |- *; intros Hn; [done|]. simpl.
  rewrite (proj2 (String.eqb_neq _ _)) by (apply Hn; left). apply IH. intros ??. apply Hn. by right.
Qed.

(** [obj[k]] of an object whose key [k] is unique. *)
Lemma obj_field_unique kvs k c v :
  kvs !! c = Some (k, v) -> (forall j kv, kvs !! j = Some kv -> kv.1 = k -> j = c) ->
  obj_field kvs k = Some v.
Proof.
  unfold obj_field. generalize (@None (list Cell)) as acc.
  induction kvs as [|kv kvs IH] in c |- *; intros acc Hc Hu; [done|]. simpl.
  destruct c as [|c]; simpl in Hc.
  - simplify_eq. rewrite String.eqb_refl. apply foldl_no_key.
    intros kv' (j & Hj)%list_elem_of_lookup Hk. by specialize (Hu (S j) kv' Hj Hk).
  - rewrite (proj2 (String.eqb_neq _ _)); [|intros Hk; by specialize (Hu 0%nat kv eq_refl Hk)].
    apply (IH c); [done|]. intros j kv' Hj Hk. specialize (Hu (S j) kv' Hj Hk). congruence.
Qed.

Lemma elem_of_cells_set x acc cs : x ∈ acc \/ x ∈ cs -> x ∈ cells_set acc cs.
Proof.
  induction cs as [|c cs IH] in acc |- *; simpl; [intros [?|?%not_elem_of_nil]; done|].
  intros Hx. apply IH. case_bool_decide; rewrite ?elem_of_app, ?list_elem_of_singleton;
    rewrite elem_of_cons in Hx; naive_solver.
Qed.

(** The GET snapshot serves a learned value in the list of its header. *)
Lemma learned_served h x ss :
  x <> "" -> learned h x ss ->
  exists v c, doGet ss !! "Validation_Data" = Some v /\ c ∈ list_field v h /\ js_string c = x.
Proof.
  intros Hx (vd & Hvd & c & r & Hc & Hlt & Ho & Hr & Hrx).
  exists (validation_view vd), (vcell vd r c).
  split; [unfold doGet; by rewrite map_lookup_imap, Hvd|]. split; [|done].
  unfold validation_view. rewrite (proj2 (Nat.ltb_lt 1 (length vd))) by lia.
  change (default [] (head (values vd))) with (header_row vd). unfold list_field.
  assert (Hhc : header_row vd !! c = Some (CStr h)).
  { rewrite header_row_vcell, Hc; [done|]. rewrite length_header_row; [lia|]. by intros ->. }
  erewrite (obj_field_unique _ h c); cycle 1.
  { by rewrite list_lookup_imap, Hhc. }
  { intros j kv Hj Hk. rewrite list_lookup_imap in Hj.
    destruct (header_row vd !! j) as [y|] eqn:Hy; [|done]. injection Hj as <-. simpl in Hk.
    by destruct (Ho j c y (CStr h) Hy Hhc Hk eq_refl). }
  simpl. apply elem_of_cells_set. right. apply list_elem_of_filter. split.
  - case_bool_decide as Hb; [exact I|]. rewrite Hb in Hrx. by subst.
  - destruct (lookup_lt_is_Some_2 (values vd) r) as [row Hrow]; [rewrite length_values; lia|].
    unfold vcell. rewrite Hrow. simpl. apply list_elem_of_fmap. exists row. split; [done|].
    apply list_elem_of_lookup. exists (r - 1)%nat. rewrite lookup_drop.
    by replace (1 + (r - 1))%nat with r by lia.
Qed.

(** The five lists of [updateValidationData] have distinct, non-empty
    names in both layouts. *)
Lemma validation_columns_names sheet :
  NoDup (validation_columns sheet).*1 /\ Forall (fun hc => hc.1 <> "") (validation_columns sheet).
Proof.
  unfold validation_columns. destruct (String.eqb sheet "General");
    split; apply (bool_decide_unpack _); vm_compute; reflexivity.
Qed.

Lemma validation_columns_split sheet h i :
  (h, i) ∈ validation_columns sheet ->
  exists l1 l2, validation_columns sheet = l1 ++ (h, i) :: l2 /\ h <> "" /\ h ∉ l1.*1 /\ h ∉ l2.*1.
Proof.
  intros Hin. destruct (validation_columns_names sheet) as [Hnd Hne].
  apply list_elem_of_split in Hin as (l1 & l2 & E). exists l1, l2. rewrite E in Hnd, Hne |- *.
  split_and!; [done|by apply Forall_app, proj2, Forall_cons in Hne as [? _]| |].
  - rewrite fmap_app, fmap_cons in Hnd. apply NoDup_app in Hnd as (_ & Hdis & _).
    intros Hn. by apply (Hdis h Hn), elem_of_cons; left.
  - rewrite fmap_app, fmap_cons in Hnd. apply NoDup_app in Hnd as (_ & _ & Hnd).
    by apply NoDup_cons in Hnd as [? _].
Qed.

(** ** Properties *)

Lemma validation_columns_headers sheet :
  Forall (fun hc => CStr hc.1 ∈ VALIDATION_HEADER) (validation_columns sheet).
Proof.
  unfold validation_columns. destruct (String.eqb sheet "General");
    apply (bool_decide_unpack _); vm_compute; reflexivity.
Qed.

(** C38: what a submission brings in is offered back.  When the backend
    stores an inspection row on a data tab, each identifying value of the
    row (truck, trailer, driver, inspector and location, by the tab's
    column layout) that is truthy and not blank after trimming is, trimmed,
    in the list of its name that the next GET snapshot serves from
    [Validation_Data], which [fetchHistory] hands to the autocomplete.
    The sheet is to keep the trimmed value as text (it turns a text of
    digits into a number: [digits_value_learned_as_number]) and the
    names of the lists; the tab, when it exists, has a column, and the
    list's name heads at most one of its columns; the value is not the
    list's own name (which the header row already holds). *)
Theorem submitted_values_learned store ss body sheet row h i :
  keeps_headers store ->
  store (CStr (trim (js_string (cell_at row i)))) = CStr (trim (js_string (cell_at row i))) ->
  b_sheet body = CStr sheet -> b_row body = Some row -> sheet ∉ EXCLUDED_TABS ->
  validation_ok ss -> header_ok h ss -> (h, i) ∈ validation_columns sheet ->
  js_truthy (cell_at row i) = true -> trim (js_string (cell_at row i)) <> "" ->
  trim (js_string (cell_at row i)) <> h ->
  exists v c, doGet (fst (handleData store ss body)) !! "Validation_Data" = Some v /\
              c ∈ list_field v h /\ js_string c = trim (js_string (cell_at row i)).
Proof.
  intros Hhd Hst Hs Hr Hex Hv Hok Hin Ht Hx Hxh. apply learned_served; [done|].
  assert (Hne : sheet <> "Validation_Data").
  { intros ->. apply Hex. apply (bool_decide_unpack _). vm_compute. reflexivity. }
  unfold handleData. rewrite Hs, Hr. simpl. rewrite (proj2 (includes_false _ _) Hex).
  pose proof (validation_columns_headers sheet) as Hc.
  destruct (validation_columns_split sheet h i Hin) as (l1 & l2 & E & Hh & H1 & H2).
  unfold updateValidationData. rewrite E. rewrite E in Hc. apply learn_columns_learns; try done.
  - intros vd. rewrite lookup_insert_ne by congruence. apply Hv.
  - intros vd. rewrite lookup_insert_ne by congruence. apply Hok.
Qed.

(** ** Instances *)

Definition general_row : list Cell :=
  map CStr ["GEN-1"; "2025-01-05T08:00:00Z"; " KDA 123A "; "ZF 88"; "Insp One"; "Driver One";
            "Depot"; "1200"; "5"; ""].

Definition general_body : Body :=
  mkBody CUndef (CStr "General") None (Some general_row) CUndef CUndef CUndef CUndef CUndef CUndef
         CUndef CUndef CUndef CUndef.

Lemma sheets_keeps_headers : keeps_headers sheets_digits_store.
Proof.
  intros h Hh. unfold VALIDATION_HEADER in Hh. apply list_elem_of_fmap in Hh as (x & [= <-] & Hx).
  repeat (apply elem_of_cons in Hx as [->|Hx]; [reflexivity|]). by apply elem_of_nil in Hx.
Qed.

Lemma submitted_values_learned_witness :
  exists v c, doGet (fst (handleData sheets_digits_store ∅ general_body)) !! "Validation_Data" = Some v /\
              c ∈ list_field v "Truck_Reg_No" /\
              js_string c = trim (js_string (cell_at general_row 2)).
Proof.
  assert (Hex : "General" ∉ EXCLUDED_TABS) by (apply (bool_decide_unpack _); vm_compute; reflexivity).
  assert (Hv : validation_ok ∅) by (intros vd H; vm_compute in H; discriminate H).
  assert (Hok : header_ok "Truck_Reg_No" ∅) by (intros vd H; vm_compute in H; discriminate H).
  assert (Hin : ("Truck_Reg_No", 2%nat) ∈ validation_columns "General")
    by (apply (bool_decide_unpack _); vm_compute; reflexivity).
  assert (Hx : trim (js_string (cell_at general_row 2)) <> "") by (vm_compute; discriminate).
  assert (Hxh : trim (js_string (cell_at general_row 2)) <> "Truck_Reg_No")
    by (vm_compute; discriminate).
  exact (submitted_values_learned sheets_digits_store ∅ general_body "General" general_row "Truck_Reg_No" 2
           sheets_keeps_headers eq_refl eq_refl eq_refl Hex Hv Hok Hin eq_refl Hx Hxh).
Defined.

(** A trailer registered as the digits ["0457"]: the sheet stores the
    number 457, the snapshot serves it as 457 and never as ["0457"], and
    since the stored cell never equals the submitted text, a second
    submission writes it to the column again. *)
Definition digits_row : list Cell :=
  map CStr ["GEN-2"; "2025-01-05T09:00:00Z"; "KDA 124A"; "0457"; "Insp One"; "Driver One";
            "Depot"; "1200"; "5"; ""].

Definition digits_body : Body :=
  mkBody CUndef (CStr "General") None (Some digits_row) CUndef CUndef CUndef CUndef CUndef CUndef
         CUndef CUndef CUndef CUndef.

Example digits_value_learned_as_number :
  let ss1 := fst (handleData sheets_digits_store ∅ digits_body) in
  let ss2 := fst (handleData sheets_digits_store ss1 digits_body) in
  option_map (fun v => list_field v "Trailer_Reg_No") (doGet ss1 !! "Validation_Data") = Some [CNum 457] /\
  option_map (map (fun r => cell_at r 1)) (ss2 !! "Validation_Data") =
    Some [CStr "Trailer_Reg_No"; CNum 457; CNum 457].
Proof. split; vm_compute; reflexivity. Qed.
