(* ===== verification/SettingsForm.v ===== *)
(** * The settings form and the logo resize

    SettingsView.tsx: the form's edits of the company name, the manager's
    e-mail, the script URL and the logo (lines 64-72, 101, 112, 157) on the
    settings state of App.tsx, and the size [compressImage] (21-62) gives
    an uploaded logo before it is drawn on a canvas.  Image sizes are
    JavaScript numbers; they are modelled as rationals ([Q]), the canvas
    keeps the integer part of the size it is given.  The saved state goes
    through [Records.handleSaveSettings]. *)

From Stdlib Require Import QArith Qround Lqa.
From S2P Require Import Prelude Records.

Local Open Scope Q_scope.

(** ** The logo resize *)

Definition maxWidth : Q := 300.
Definition maxHeight : Q := 150.

(** The scaling of [img.onload] (lines 30-45): a landscape image is
    narrowed to [maxWidth], another one lowered to [maxHeight], both
    keeping the aspect ratio. *)
Definition compress_size (width height : Q) : Q * Q :=
  if Qlt_le_dec height width then
    (if Qlt_le_dec maxWidth width then (maxWidth, height * (maxWidth / width)) else (width, height))
  else
    (if Qlt_le_dec maxHeight height then (width * (maxHeight / height), maxHeight) else (width, height)).

(** [canvas.width = width; canvas.height = height] (lines 47-48): the
    canvas takes the integer part of a non-negative size. *)
Definition canvas_size (width height : Q) : Z * Z :=
  let '(w, h) := compress_size width height in (Qfloor w, Qfloor h).

(** ** The form *)

(** The form's state: App.tsx's [settings] and [appScriptUrl]. *)
Record SForm := mkSForm { form_settings : Settings; form_url : string }.

(** The inputs' [onChange] handlers: [setSettings(s => ({...s, field: v}))]
    and [setAppScriptUrl(v)]. *)
Definition setCompanyName (v : string) (f : SForm) : SForm :=
  let s := form_settings f in mkSForm (mkSettings (CStr v) (manager_email s) (company_logo s)) (form_url f).

Definition setManagerEmail (v : string) (f : SForm) : SForm :=
  let s := form_settings f in mkSForm (mkSettings (company_name s) (CStr v) (company_logo s)) (form_url f).

Definition setAppScriptUrl (v : string) (f : SForm) : SForm := mkSForm (form_settings f) v.

(** [handleLogoUpload]: when a file was chosen, the callback of
    [compressImage] stores the canvas's data URL as the logo. *)
Definition handleLogoUpload (file : option string) (f : SForm) : SForm :=
  match file with
  | Some dataUrl =>
      let s := form_settings f in
      mkSForm (mkSettings (company_name s) (manager_email s) (CStr dataUrl)) (form_url f)
  | None => f
  end.

Inductive SettingsEvent :=
| EditName (v : string)
| EditEmail (v : string)
| UploadLogo (file : option string)
| EditUrl (v : string).

Definition settings_step (e : SettingsEvent) (f : SForm) : SForm :=
  match e with
  | EditName v => setCompanyName v f
  | EditEmail v => setManagerEmail v f
  | UploadLogo file => handleLogoUpload file f
  | EditUrl v => setAppScriptUrl v f
  end.

Definition settings_run (es : list SettingsEvent) (f : SForm) : SForm :=
  fold_left (fun f e => settings_step e f) es f.

(** ** Lemmas *)

(** Scaling [a <= b] by [c / b] stays within [c]. *)
Lemma scale_le a b c : 0 < b -> 0 <= a <= b -> 0 <= c -> a * (c / b) <= c.
Proof.
  intros Hb [Ha Hab] Hc. setoid_replace (a * (c / b)) with ((a * c) / b) using relation Qeq by (field; lra).
  apply Qle_shift_div_r; [done|]. setoid_replace (c * b) with (b * c) using relation Qeq by ring.
  by apply Qmult_le_compat_r.
Qed.

Lemma scale_pos a b c : 0 < b -> 0 < a -> 0 < c -> 0 < a * (c / b).
Proof.
  intros Hb Ha Hc. apply Qmult_lt_0_compat; [done|].
  apply Qlt_shift_div_l; [done|]. lra.
Qed.

(** The resized logo is at most 300 wide and 300 high, not empty, and
    keeps the aspect ratio of the image. *)
Lemma compress_size_bounds w h :
  0 < w -> 0 < h ->
  let '(w', h') := compress_size w h in
  0 < w' <= maxWidth /\ 0 < h' <= 2 * maxHeight /\ w' * h == h' * w.
Proof.
  intros Hw Hh. unfold compress_size, maxWidth, maxHeight.
  destruct (Qlt_le_dec h w) as [Hl|Hl]; [destruct (Qlt_le_dec 300 w)|destruct (Qlt_le_dec 150 h)];
    split_and!; try lra; try (apply scale_pos; lra); try (field; lra).
  - apply Qle_trans with 300; [apply scale_le; lra|lra].
  - apply Qle_trans with 150; [apply scale_le; lra|lra].
Qed.

(** ** A landscape logo taller than [maxHeight] *)

(** The resize bounds the height by [maxHeight] only for portrait images:
    a 400 x 350 logo becomes 300 x 262, and a 200 x 180 one is not
    resized at all, both taller than the 150 the code sets as maximum. *)
Theorem landscape_logo_exceeds_max_height :
  canvas_size 400 350 = (300%Z, 262%Z) /\ canvas_size 200 180 = (200%Z, 180%Z) /\
  maxHeight < 262 # 1.
Proof. split_and!; [vm_compute; reflexivity|vm_compute; reflexivity|unfold maxHeight; lra]. Qed.
