(* ===== verification/SettingsPage.v ===== *)
(** * The settings page as the administrator uses it

    SettingsView.tsx with the state App.tsx gives it: the inputs of the
    configuration card ([SettingsForm]), the logo upload with its two
    toasts around the asynchronous [compressImage], the "Save
    Configuration" button driving App.tsx's [handleSaveSettings]
    (779-823) with [isSavingSettings] (164) set while its [fetch] is
    awaited, and the "Copy Code" button ([copyScriptToClipboard], 75-80)
    with the two-second timer that turns "Copied!" back.  The save is
    split at its [await]: [PSave] runs the handler up to the [fetch],
    [PFetchSettled] the rest.  The clipboard's [writeText] and the
    compression are asynchronous as well; their outcome is a parameter
    of the events that end them. *)

From S2P Require Import Prelude Queue Records SettingsForm.

(** ** The page *)

Inductive ToastKind := TSuccess | TError | TInfo.

#[export] Instance ToastKind_eq_dec : EqDecision ToastKind.
Proof. solve_decision. Defined.

Definition Toast : Type := string * ToastKind.

Record Page := mkPage {
  pg_state : SState;              (* [settings] and its [localStorage] copy *)
  pg_url : string;                (* [appScriptUrl] *)
  pg_stored_url : option string;  (* [localStorage] 'safetyCheck_scriptUrl' *)
  pg_saving : bool;               (* [isSavingSettings] *)
  pg_pending : option Payload;    (* the POST awaited by [handleSaveSettings] *)
  pg_copying : bool;              (* [isCopying] *)
  pg_copy_timers : nat;           (* the [setTimeout]s of the copy button not yet fired *)
  pg_compressing : nat;           (* [compressImage] calls whose callback has not run *)
  pg_clipboard : bool;            (* the clipboard holds [BACKEND_SCRIPT_TEMPLATE] *)
  pg_toasts : list Toast;         (* [showToast], oldest first *)
  pg_posts : list Payload         (* the POSTs that reached the backend *)
}.

Inductive PageEvent :=
| PName (v : string)                  (* Company Name input *)
| PEmail (v : string)                 (* Manager Email input *)
| PUrl (v : string)                   (* script URL input *)
| PUpload (chosen : bool)             (* the file input's change, with or without a file *)
| PLogoLoaded (dataUrl : string)      (* the [compressImage] callback *)
| PSave (fits : Settings -> bool) (online : bool) (ts id : string)
| PFetchSettled (delivered : bool)    (* the awaited [fetch] resolves or rejects *)
| PCopy (written : bool)              (* "Copy Code"; whether [writeText] succeeds *)
| PCopyTimer.                         (* one copy timer fires *)

(** The settings and URL as the form edits them. *)
Definition page_form (pg : Page) : SForm := mkSForm (settings (pg_state pg)) (pg_url pg).

Definition with_form (f : SForm) (pg : Page) : Page :=
  mkPage (mkSState (form_settings f) (ls_settings (pg_state pg))) (form_url f) (pg_stored_url pg)
         (pg_saving pg) (pg_pending pg) (pg_copying pg) (pg_copy_timers pg) (pg_compressing pg)
         (pg_clipboard pg) (pg_toasts pg) (pg_posts pg).

Definition toast (t : Toast) (pg : Page) : Page :=
  mkPage (pg_state pg) (pg_url pg) (pg_stored_url pg) (pg_saving pg) (pg_pending pg) (pg_copying pg)
         (pg_copy_timers pg) (pg_compressing pg) (pg_clipboard pg) (pg_toasts pg ++ [t]) (pg_posts pg).

(** [handleLogoUpload] up to [compressImage]: a toast and a compression
    in progress when a file was chosen. *)
Definition upload_start (chosen : bool) (pg : Page) : Page :=
  if chosen then
    toast ("Compressing logo...", TInfo)
      (mkPage (pg_state pg) (pg_url pg) (pg_stored_url pg) (pg_saving pg) (pg_pending pg) (pg_copying pg)
              (pg_copy_timers pg) (S (pg_compressing pg)) (pg_clipboard pg) (pg_toasts pg) (pg_posts pg))
  else pg.

(** The callback: [setSettings(s => ({ ...s, companyLogo: base64 }))]
    on the settings of the moment, and the second toast. *)
Definition logo_loaded (dataUrl : string) (pg : Page) : Page :=
  match pg_compressing pg with
  | O => pg
  | S k =>
      let pg' := with_form (handleLogoUpload (Some dataUrl) (page_form pg)) pg in
      toast ("Logo processed. Click 'Save Configuration' to persist.", TSuccess)
        (mkPage (pg_state pg') (pg_url pg') (pg_stored_url pg') (pg_saving pg') (pg_pending pg')
                (pg_copying pg') (pg_copy_timers pg') k (pg_clipboard pg') (pg_toasts pg') (pg_posts pg'))
  end.

(** [handleSaveSettings] up to its [await] (780-812): the URL check and
    its toast; [setIsSavingSettings(true)]; the URL, then the settings
    written to [localStorage], the second write throwing
    [QuotaExceededError] when they do not fit (the [catch] and
    [finally]); offline, the info toast and [finally]; online, the
    [fetch] of the payload awaited with the button disabled.  A click on
    the disabled button does nothing. *)
Definition save_start (fits : Settings -> bool) (online : bool) (ts id : string) (pg : Page) : Page :=
  if pg_saving pg then pg
  else if negb (str_contains "script.google.com" (pg_url pg)) then
    toast ("Invalid URL. Must be a Google Apps Script Web App URL.", TError) pg
  else
    let s := settings (pg_state pg) in
    let stored := Some (pg_url pg) in
    if negb (fits s) then
      toast ("Storage full! Try a smaller logo image.", TError)
        (mkPage (pg_state pg) (pg_url pg) stored false None (pg_copying pg) (pg_copy_timers pg)
                (pg_compressing pg) (pg_clipboard pg) (pg_toasts pg) (pg_posts pg))
    else if online then
      mkPage (mkSState s (Some s)) (pg_url pg) stored true
             (Some (settings_payload s (pg_url pg) ts id)) (pg_copying pg) (pg_copy_timers pg)
             (pg_compressing pg) (pg_clipboard pg) (pg_toasts pg) (pg_posts pg)
    else
      toast ("Settings saved locally. Connect to internet to sync.", TInfo)
        (mkPage (mkSState s (Some s)) (pg_url pg) stored false None (pg_copying pg) (pg_copy_timers pg)
                (pg_compressing pg) (pg_clipboard pg) (pg_toasts pg) (pg_posts pg)).

(** After the [await] (803-822): the success toast when the [no-cors]
    request went out, the [catch]'s info toast when [fetch] rejected,
    and [setIsSavingSettings(false)] in both. *)
Definition save_settled (delivered : bool) (pg : Page) : Page :=
  match pg_pending pg with
  | None => pg
  | Some p =>
      let base := mkPage (pg_state pg) (pg_url pg) (pg_stored_url pg) false None (pg_copying pg)
                         (pg_copy_timers pg) (pg_compressing pg) (pg_clipboard pg) (pg_toasts pg)
                         (if delivered then pg_posts pg ++ [p] else pg_posts pg) in
      if delivered then toast ("System Configured & Synced. Logo Saved.", TSuccess) base
      else toast ("Saved locally, but failed to sync with Sheet.", TInfo) base
  end.

(** [copyScriptToClipboard]: [writeText] is not awaited, so "Copied!",
    the success toast and a new two-second timer follow every click
    whatever the clipboard does. *)
Definition copy_click (written : bool) (pg : Page) : Page :=
  toast ("Code copied to clipboard!", TSuccess)
    (mkPage (pg_state pg) (pg_url pg) (pg_stored_url pg) (pg_saving pg) (pg_pending pg) true
            (S (pg_copy_timers pg)) (pg_compressing pg) (written || pg_clipboard pg) (pg_toasts pg)
            (pg_posts pg)).

(** [setTimeout(() => setIsCopying(false), 2000)] firing. *)
Definition copy_timer (pg : Page) : Page :=
  match pg_copy_timers pg with
  | O => pg
  | S k => mkPage (pg_state pg) (pg_url pg) (pg_stored_url pg) (pg_saving pg) (pg_pending pg) false k
                  (pg_compressing pg) (pg_clipboard pg) (pg_toasts pg) (pg_posts pg)
  end.

Definition page_step (pg : Page) (e : PageEvent) : Page :=
  match e with
  | PName v => with_form (setCompanyName v (page_form pg)) pg
  | PEmail v => with_form (setManagerEmail v (page_form pg)) pg
  | PUrl v => with_form (setAppScriptUrl v (page_form pg)) pg
  | PUpload chosen => upload_start chosen pg
  | PLogoLoaded d => logo_loaded d pg
  | PSave fits online ts id => save_start fits online ts id pg
  | PFetchSettled ok => save_settled ok pg
  | PCopy w => copy_click w pg
  | PCopyTimer => copy_timer pg
  end.

Definition page_run (pg : Page) (es : list PageEvent) : Page := fold_left page_step es pg.

(** The page as App.tsx mounts it. *)
Definition page_init (st : SState) (url : string) (stored : option string) : Page :=
  mkPage st url stored false None false 0 0 false [] [].

(** ** What the page shows *)

Inductive LogoPreview := LImg (src : Cell) | LNoLogo.

(** The logo box (122-128). *)
Definition logo_preview (pg : Page) : LogoPreview :=
  let c := company_logo (settings (pg_state pg)) in if js_truthy c then LImg c else LNoLogo.

(** The save button's text and [disabled] (163-178). *)
Definition save_button (pg : Page) : string * bool :=
  (if pg_saving pg then "Saving..." else "Save Configuration", pg_saving pg).

(** The copy button's text (196-203). *)
Definition copy_label (pg : Page) : string := if pg_copying pg then "Copied!" else "Copy Code".

(** ** Lemmas *)

(** The saving flag is set exactly while a POST is awaited, and
    "Copied!" is shown only with a timer still to fire. *)
Definition page_inv (pg : Page) : Prop :=
  (pg_saving pg = true <-> is_Some (pg_pending pg)) /\
  (pg_copying pg = true -> pg_copy_timers pg <> 0%nat).

Lemma toast_fields t pg :
  pg_state (toast t pg) = pg_state pg /\ pg_saving (toast t pg) = pg_saving pg /\
  pg_pending (toast t pg) = pg_pending pg /\ pg_copying (toast t pg) = pg_copying pg /\
  pg_copy_timers (toast t pg) = pg_copy_timers pg /\ pg_posts (toast t pg) = pg_posts pg /\
  pg_stored_url (toast t pg) = pg_stored_url pg /\ pg_toasts (toast t pg) = pg_toasts pg ++ [t].
Proof. done. Qed.

Lemma page_init_inv st url stored : page_inv (page_init st url stored).
Proof. split; [split; [done|by intros []]|done]. Qed.

Lemma page_step_inv pg e : page_inv pg -> page_inv (page_step pg e).
Proof.
  intros [Hs Hc]. destruct e; simpl;
    unfold upload_start, logo_loaded, save_start, save_settled, copy_click, copy_timer, toast, with_form;
    repeat case_match; simpl; split; try assumption; try (split; [done|by intros []]); try by intros.
  all: match goal with Heq : _ = _ |- _ => by rewrite Heq end.
Qed.

Lemma page_run_inv pg es : page_inv pg -> page_inv (page_run pg es).
Proof.
  unfold page_run. induction es as [|e es IH] in pg |- *; intros H; [done|].
  simpl. apply IH, page_step_inv, H.
Qed.

(** A click on the disabled save button changes nothing. *)
Lemma save_disabled_noop pg fits online ts id :
  pg_saving pg = true -> page_step pg (PSave fits online ts id) = pg.
Proof. simpl. unfold save_start. by intros ->. Qed.

(** [n] timers fired on a page with [n] pending turn "Copied!" back. *)
Lemma copy_timers_reset n pg :
  pg_copy_timers pg = n -> (pg_copying pg = true -> n <> 0%nat) ->
  pg_copying (page_run pg (replicate n PCopyTimer)) = false.
Proof.
  induction n as [|k IH] in pg |- *; intros Ht Hc.
  - simpl. destruct (pg_copying pg); [by exfalso; apply Hc|done].
  - simpl. apply IH; simpl; unfold copy_timer; rewrite Ht; done.
Qed.

Lemma idle_not_pending pg : page_inv pg -> pg_saving pg = false -> pg_pending pg = None.
Proof. intros [Hs _] Hf. destruct (pg_pending pg) eqn:E; [|done]. rewrite Hf in Hs. exfalso. apply diff_false_true, Hs. by eexists. Qed.

(** ** Properties *)

(** C14: the settings page runs App.tsx's [handleSaveSettings] as
    [Records.handleSaveSettings] models it.  From an idle page, a click
    on "Save Configuration" leaves the settings and their stored copy
    the handler computes, with the POST it makes in flight; whatever the
    [fetch] then does, the button is enabled again with those settings,
    and the backend has received that POST exactly when it was made and
    the network delivered it. *)
Theorem save_button_runs_handler pg fits online ts id ok :
  page_inv pg -> pg_saving pg = false ->
  let r := handleSaveSettings fits (pg_url pg) online ts id (pg_state pg) in
  let pg1 := page_step pg (PSave fits online ts id) in
  let pg2 := page_step pg1 (PFetchSettled ok) in
  pg_state pg1 = fst r /\ pg_pending pg1 = snd r /\
  pg_saving pg2 = false /\ pg_state pg2 = fst r /\
  pg_posts pg2 = pg_posts pg ++ (if ok then option_list (snd r) else []).
Proof.
  intros Hi Hf r pg1 pg2. pose proof (idle_not_pending pg Hi Hf) as Hp.
  subst r pg1 pg2. simpl. unfold save_start, save_settled, handleSaveSettings. rewrite Hf.
  destruct (negb (str_contains _ _)); simpl; [rewrite ?Hp; destruct ok; simpl; split_and!; by rewrite ?app_nil_r|].
  destruct (negb (fits _)); simpl; [rewrite ?Hp; destruct ok; simpl; split_and!; by rewrite ?app_nil_r|].
  destruct online; simpl; destruct ok; simpl; split_and!; by rewrite ?app_nil_r.
Qed.

(** "Copied!" never sticks: once the pending timers have fired the
    button reads "Copy Code" again. *)
Lemma copied_label_reverts pg :
  page_inv pg -> copy_label (page_run pg (replicate (pg_copy_timers pg) PCopyTimer)) = "Copy Code".
Proof.
  intros [_ Hc]. unfold copy_label. by rewrite (copy_timers_reset (pg_copy_timers pg) pg).
Qed.

(** A save refused for lack of room keeps the settings as they were but
    stores the new script URL: [setItem] of the URL comes first. *)
Lemma quota_failure_keeps_url pg fits online ts id :
  pg_saving pg = false -> str_contains "script.google.com" (pg_url pg) = true ->
  fits (settings (pg_state pg)) = false ->
  let pg1 := page_step pg (PSave fits online ts id) in
  pg_state pg1 = pg_state pg /\ pg_stored_url pg1 = Some (pg_url pg) /\ pg_saving pg1 = false /\
  last (pg_toasts pg1) = Some ("Storage full! Try a smaller logo image.", TError).
Proof.
  intros Hf Hu Hfit. simpl. unfold save_start. rewrite Hf, Hu, Hfit. simpl.
  split_and!; try done. by rewrite last_snoc.
Qed.

(** The compression callback updates the settings of its own moment:
    an edit made while the logo is compressed is kept. *)
Lemma logo_keeps_concurrent_edit pg v d :
  let pg' := page_run pg [PUpload true; PName v; PLogoLoaded d] in
  settings (pg_state pg') =
    mkSettings (CStr v) (manager_email (settings (pg_state pg))) (CStr d) /\
  pg_compressing pg' = pg_compressing pg.
Proof. done. Qed.

(** ** Instances *)

Definition settings_page0 : Page :=
  page_init (mkSState default_settings None) script_url0 None.

(** A click on "Copy Code" whose clipboard write is refused still shows
    "Copied!" and the success toast, and the clipboard stays without the
    script; a second click within the two seconds is cut short by the
    first click's timer. *)
Example copy_reports_success_regardless :
  let pg1 := page_step settings_page0 (PCopy false) in
  copy_label pg1 = "Copied!" /\ pg_toasts pg1 = [("Code copied to clipboard!", TSuccess)] /\
  pg_clipboard pg1 = false /\
  let pg2 := page_run settings_page0 [PCopy true; PCopy true; PCopyTimer] in
  copy_label pg2 = "Copy Code" /\ pg_copy_timers pg2 = 1%nat.
Proof. vm_compute. split_and!; reflexivity. Qed.

(** A save clicked while the new logo is being compressed stores and
    posts the old one; the toast that follows invites a save. *)
Example save_during_compression_keeps_old_logo :
  let pg := page_run settings_page0
              [PUpload true; PSave (fun _ => true) true "t1" "CFG_1"; PFetchSettled true; PLogoLoaded "data:x"] in
  ls_settings (pg_state pg) = Some default_settings /\
  option_map (fun p => last (p_row p)) (last (pg_posts pg)) = Some (Some (CStr "")) /\
  company_logo (settings (pg_state pg)) = CStr "data:x".
Proof. vm_compute. split_and!; reflexivity. Qed.

Lemma save_button_runs_handler_witness :
  page_inv settings_page0 /\ pg_saving settings_page0 = false /\
  pg_posts (page_run settings_page0 [PSave (fun _ => true) true "t1" "CFG_1"; PFetchSettled true]) =
    option_list (snd (handleSaveSettings (fun _ => true) script_url0 true "t1" "CFG_1"
                        (mkSState default_settings None))).
Proof.
  assert (Hi : page_inv settings_page0) by apply page_init_inv.
  assert (Hf : pg_saving settings_page0 = false) by reflexivity.
  split_and!; [exact Hi|exact Hf|].
  exact (proj2 (proj2 (proj2 (proj2
    (save_button_runs_handler settings_page0 (fun _ => true) true "t1" "CFG_1" true Hi Hf))))).
Defined.
