(* ===== verification/Checklist.v ===== *)
(** * The inspection checklists and the form steps that show them

    The checklist items of each module ([INSPECTION_ITEMS],
    [PETROLEUM_INSPECTION_ITEMS], [ACID_INSPECTION_ITEMS] and
    [PETROLEUM_V2_ITEMS], constants.ts 5-251), the three checklist steps of
    the form that render them by category (App.tsx [renderInspectionSection]
    908-958 and the section switch of the main render, 1338-1352) and the
    status buttons that write an answer into the form ([updateField],
    640-642, [InspectionStatus] of types.ts 3-8).  The theorem composes
    them with the payload of [Queue.build_payload]: every item is shown
    once and its answer is a column of the submitted row. *)

From S2P Require Import Prelude Session Queue Records.

(** ** Data *)

(** [InspectionStatus] *)
Inductive InspectionStatus := GOOD | BAD | ATTENTION | NIL.

Definition status_value (s : InspectionStatus) : string :=
  match s with GOOD => "Good" | BAD => "Bad" | ATTENTION => "Needs Attention" | NIL => "Nil" end.

(** [InspectionItemConfig] (types.ts 42-46) *)
Record InspectionItemConfig := mkItem { item_id : string; label : string; category : string }.

#[export] Instance InspectionItemConfig_eq_dec : EqDecision InspectionItemConfig.
Proof. solve_decision. Defined.

(** [INSPECTION_CATEGORIES] (constants.ts 5-12) *)
Module INSPECTION_CATEGORIES.
Definition PPE : string := "PPE & Safety Gear".
Definition DOCUMENTATION : string := "Documentation & Legal".
Definition VEHICLE_EXTERIOR : string := "Vehicle Exterior & Cab".
Definition LIGHTS_ELECTRICAL : string := "Lights & Electrical".
Definition MECHANICAL : string := "Mechanical & Safety Equipment".
Definition TRAILER : string := "Trailer Specifics".
End INSPECTION_CATEGORIES.

(** [INSPECTION_ITEMS] (constants.ts 14-53) *)
Definition INSPECTION_ITEMS : list InspectionItemConfig := [
  mkItem "reflectiveWorkSuit" "Reflective Work Suit" INSPECTION_CATEGORIES.PPE;
  mkItem "safetyGear" "Safety Goggles, Boots, Gloves, Hard Hat" INSPECTION_CATEGORIES.PPE;
  mkItem "dustMask" "Dust Mask (Task Application)" INSPECTION_CATEGORIES.PPE;
  mkItem "roadFitness" "Valid Road Fitness / Road Tax / Insurance" INSPECTION_CATEGORIES.DOCUMENTATION;
  mkItem "validDriverDocs" "Valid Driver’s License, DDT Certificate, Driver ID" INSPECTION_CATEGORIES.DOCUMENTATION;
  mkItem "driverManual" "Driver Manual" INSPECTION_CATEGORIES.DOCUMENTATION;
  mkItem "routeRisk" "Route Risk Assessment" INSPECTION_CATEGORIES.DOCUMENTATION;
  mkItem "windscreen" "Windscreen Condition" INSPECTION_CATEGORIES.VEHICLE_EXTERIOR;
  mkItem "mirrors" "Mirrors Condition" INSPECTION_CATEGORIES.VEHICLE_EXTERIOR;
  mkItem "chevrons" "Chevrons, Plate/Reflective Tape" INSPECTION_CATEGORIES.VEHICLE_EXTERIOR;
  mkItem "generalCondition" "General Condition (Interior Cab, Body: Signs of Tear & Wear, Dents)" INSPECTION_CATEGORIES.VEHICLE_EXTERIOR;
  mkItem "seatBelt" "Three-Point Retractable Seat Belt" INSPECTION_CATEGORIES.VEHICLE_EXTERIOR;
  mkItem "headLamps" "Head Lamps Condition" INSPECTION_CATEGORIES.LIGHTS_ELECTRICAL;
  mkItem "indicators" "Indicators Condition" INSPECTION_CATEGORIES.LIGHTS_ELECTRICAL;
  mkItem "parkingLights" "Parking Lights Condition" INSPECTION_CATEGORIES.LIGHTS_ELECTRICAL;
  mkItem "reverseAlarm" "Reverse Alarm, Reverse Lights Condition" INSPECTION_CATEGORIES.LIGHTS_ELECTRICAL;
  mkItem "hornIgnition" "Horn, Ignition & Electrical (Doors/Windows)" INSPECTION_CATEGORIES.LIGHTS_ELECTRICAL;
  mkItem "brakes" "Brakes, Brake Lights, Trailer Lights, Brake Air Pipes" INSPECTION_CATEGORIES.MECHANICAL;
  mkItem "tyres" "Tyres Condition (Not Worn Out, Pressure, Spare)" INSPECTION_CATEGORIES.MECHANICAL;
  mkItem "wheelNuts" "Wheel Nuts, Wheel Pointers" INSPECTION_CATEGORIES.MECHANICAL;
  mkItem "fluidLeaks" "No Leaks of Lubricants/Fluids (Oil, Coolant, etc.)" INSPECTION_CATEGORIES.MECHANICAL;
  mkItem "fireExtinguisher" "Recommended Fire Extinguisher (9Kg & 2.5Kg)" INSPECTION_CATEGORIES.MECHANICAL;
  mkItem "warningTriangles" "Warning Triangles, Two Approved Wheel Chocks" INSPECTION_CATEGORIES.MECHANICAL;
  mkItem "firstAid" "First Aid Kit" INSPECTION_CATEGORIES.MECHANICAL;
  mkItem "trailerCondition" "Trailer Condition" INSPECTION_CATEGORIES.TRAILER;
  mkItem "fifthWheel" "Fifth Wheel Condition" INSPECTION_CATEGORIES.TRAILER;
  mkItem "landingLegs" "Position and Condition of Landing Legs" INSPECTION_CATEGORIES.TRAILER;
  mkItem "tarpaulins" "Tarpaulins, Ropes, Belts or Straps" INSPECTION_CATEGORIES.TRAILER
].

(** [PETROLEUM_CATEGORIES] (constants.ts 56-62) *)
Module PETROLEUM_CATEGORIES.
Definition TRUCK_EQUIPMENT : string := "Truck/Tractor and Equipment".
Definition TYRES : string := "Tyres and Horses".
Definition PPE_ID : string := "Drivers Protective Gear & ID".
Definition DOCUMENTS : string := "Documents".
Definition ONBOARD : string := "On Board Equipment".
End PETROLEUM_CATEGORIES.

(** [PETROLEUM_INSPECTION_ITEMS] (constants.ts 64-128) *)
Definition PETROLEUM_INSPECTION_ITEMS : list InspectionItemConfig := [
  mkItem "petro_1" "1. OBC functionality: live" PETROLEUM_CATEGORIES.TRUCK_EQUIPMENT;
  mkItem "petro_2" "2. Large exterior mirror for all around vision (incl. parabolic on passenger side)" PETROLEUM_CATEGORIES.TRUCK_EQUIPMENT;
  mkItem "petro_3" "3. Single pane laminated windshields (no cracks)" PETROLEUM_CATEGORIES.TRUCK_EQUIPMENT;
  mkItem "petro_4" "4. Ergonomically designed seats and head restraints" PETROLEUM_CATEGORIES.TRUCK_EQUIPMENT;
  mkItem "petro_5" "5. 3 point seat belts on both seats" PETROLEUM_CATEGORIES.TRUCK_EQUIPMENT;
  mkItem "petro_6" "6. Brake Testing required" PETROLEUM_CATEGORIES.TRUCK_EQUIPMENT;
  mkItem "petro_7" "7. Functioning, master battery switch & engine cut – off switch on side of cab" PETROLEUM_CATEGORIES.TRUCK_EQUIPMENT;
  mkItem "petro_8" "8. Stop Tail, Backing and Turn lights" PETROLEUM_CATEGORIES.TRUCK_EQUIPMENT;
  mkItem "petro_9" "9. Cab mounted grab handle for ease of entry exit" PETROLEUM_CATEGORIES.TRUCK_EQUIPMENT;
  mkItem "petro_10" "10. Jack, Mats, Wheel Spanner" PETROLEUM_CATEGORIES.TRUCK_EQUIPMENT;
  mkItem "petro_11" "11. Cabin Jack" PETROLEUM_CATEGORIES.TRUCK_EQUIPMENT;
  mkItem "petro_12" "12. P. window switches" PETROLEUM_CATEGORIES.TRUCK_EQUIPMENT;
  mkItem "petro_13" "13. Condition of the fifth wheel (Lock/Lubricants)" PETROLEUM_CATEGORIES.TRUCK_EQUIPMENT;
  mkItem "petro_14" "14. Each component outlets (faucet) numbered and marked with fill capacity" PETROLEUM_CATEGORIES.TRUCK_EQUIPMENT;
  mkItem "petro_15" "15. 2 bronze grounding bolts compatible with loading rack (permissive) system" PETROLEUM_CATEGORIES.TRUCK_EQUIPMENT;
  mkItem "petro_16" "16. Anti – slip walkway along the whole length of the tank" PETROLEUM_CATEGORIES.TRUCK_EQUIPMENT;
  mkItem "petro_17" "17. Tank hatch and roll – over protection (coatings)" PETROLEUM_CATEGORIES.TRUCK_EQUIPMENT;
  mkItem "petro_18" "18. Double latching lockable man lids, installed with hinges facing forward" PETROLEUM_CATEGORIES.TRUCK_EQUIPMENT;
  mkItem "petro_19" "19. Trailer fitted with fall protection harness of handrails" PETROLEUM_CATEGORIES.TRUCK_EQUIPMENT;
  mkItem "petro_20" "20. Ullage marks in correct places & sealed, also Doom Cover" PETROLEUM_CATEGORIES.TRUCK_EQUIPMENT;
  mkItem "petro_21" "21. Presence of emergency/foot valves" PETROLEUM_CATEGORIES.TRUCK_EQUIPMENT;
  mkItem "petro_22" "22. Emergence valves for all components" PETROLEUM_CATEGORIES.TRUCK_EQUIPMENT;
  mkItem "petro_23" "23. Condition of landing legs" PETROLEUM_CATEGORIES.TRUCK_EQUIPMENT;
  mkItem "petro_24" "24. Minimum tread depth set at the center for all wheel (incl. Spare tyre)" PETROLEUM_CATEGORIES.TYRES;
  mkItem "petro_25" "25. Wheel nut indicators" PETROLEUM_CATEGORIES.TYRES;
  mkItem "petro_26" "26. Mudguards for all wheels" PETROLEUM_CATEGORIES.TYRES;
  mkItem "petro_27" "27. Choke blocks" PETROLEUM_CATEGORIES.TYRES;
  mkItem "petro_28" "28. Hoses damaged/fittings? Continuity Test done?" PETROLEUM_CATEGORIES.TYRES;
  mkItem "petro_29" "29. Delivery hose(s) for gravity drops" PETROLEUM_CATEGORIES.TYRES;
  mkItem "petro_30" "30. Truck/trailer loaded within legal limits (axle weight)?" PETROLEUM_CATEGORIES.TYRES;
  mkItem "petro_31" "31. Signs of lubrication loss on wheel" PETROLEUM_CATEGORIES.TYRES;
  mkItem "petro_32" "32. Anti-static clothes/Work suite?" PETROLEUM_CATEGORIES.PPE_ID;
  mkItem "petro_33" "33. Gloves for hydrocarbon handing Present?" PETROLEUM_CATEGORIES.PPE_ID;
  mkItem "petro_34" "34. Safety shoes - hydrocarbon proof Present?" PETROLEUM_CATEGORIES.PPE_ID;
  mkItem "petro_35" "35. Hard hat Present?" PETROLEUM_CATEGORIES.PPE_ID;
  mkItem "petro_36" "36. Driver’s ID Present?" PETROLEUM_CATEGORIES.PPE_ID;
  mkItem "petro_37" "37. Road worthiness approval by authorities" PETROLEUM_CATEGORIES.DOCUMENTS;
  mkItem "petro_38" "38. Valid driver’s DDT certificate" PETROLEUM_CATEGORIES.DOCUMENTS;
  mkItem "petro_39" "39. Valid driver’s License" PETROLEUM_CATEGORIES.DOCUMENTS;
  mkItem "petro_40" "40. Electric certificate" PETROLEUM_CATEGORIES.DOCUMENTS;
  mkItem "petro_41" "41. Drivers Manual" PETROLEUM_CATEGORIES.DOCUMENTS;
  mkItem "petro_42" "42. Route Risk Assessment" PETROLEUM_CATEGORIES.DOCUMENTS;
  mkItem "petro_43" "43. ZCSA certificate" PETROLEUM_CATEGORIES.DOCUMENTS;
  mkItem "petro_44" "44. Assize Certificate" PETROLEUM_CATEGORIES.DOCUMENTS;
  mkItem "petro_45" "45. TREM Card" PETROLEUM_CATEGORIES.DOCUMENTS;
  mkItem "petro_46" "46. Fire extinguisher (2kg dry chemical) fixed & valid X 1" PETROLEUM_CATEGORIES.ONBOARD;
  mkItem "petro_47" "47. Fire extinguisher (9kg dry chemical) within inspection X 2" PETROLEUM_CATEGORIES.ONBOARD;
  mkItem "petro_48" "48. Barricading tape" PETROLEUM_CATEGORIES.ONBOARD;
  mkItem "petro_49" "49. Charge Line" PETROLEUM_CATEGORIES.ONBOARD;
  mkItem "petro_50" "50. Torch" PETROLEUM_CATEGORIES.ONBOARD;
  mkItem "petro_51" "51. Spill Kit" PETROLEUM_CATEGORIES.ONBOARD;
  mkItem "petro_52" "52. First aid kit 4 warning triangles and 3 cones" PETROLEUM_CATEGORIES.ONBOARD;
  mkItem "petro_53" "53. On Board camera" PETROLEUM_CATEGORIES.ONBOARD;
  mkItem "petro_54" "54. Safe Loading Pass/ Safe to operate/ Tech inspection" PETROLEUM_CATEGORIES.ONBOARD
].

(** [ACID_CATEGORIES] (constants.ts 130-135) *)
Module ACID_CATEGORIES.
Definition PPE : string := "A. Personal Protective Equipment".
Definition VEHICLE : string := "B. Vehicle (Horse & Trailer)".
Definition SPILL_KIT : string := "C. Spill Kit".
Definition DOCUMENTATION : string := "D. Documentation".
End ACID_CATEGORIES.

(** [ACID_INSPECTION_ITEMS] (constants.ts 137-178) *)
Definition ACID_INSPECTION_ITEMS : list InspectionItemConfig := [
  mkItem "acid_1" "1. Reflective Work Suit (Acid Proof), Gumboots Safety Goggles" ACID_CATEGORIES.PPE;
  mkItem "acid_2" "2. Hard Hat, PVC Gloves, Respirator (Double side), Face shield" ACID_CATEGORIES.PPE;
  mkItem "acid_3" "3. Valid road fitness/road tax/Insurance/permit" ACID_CATEGORIES.VEHICLE;
  mkItem "acid_4" "4. Wind screen condition" ACID_CATEGORIES.VEHICLE;
  mkItem "acid_5" "5. Mirrors in good condition" ACID_CATEGORIES.VEHICLE;
  mkItem "acid_6" "6. Three-point retractable seat belt" ACID_CATEGORIES.VEHICLE;
  mkItem "acid_7" "7. Horn working, ignition switch, electrical (doors/windows)" ACID_CATEGORIES.VEHICLE;
  mkItem "acid_8" "8. Valid Fire extinguisher (9kg=2, 2kg=1)" ACID_CATEGORIES.VEHICLE;
  mkItem "acid_9" "9. Warning triangles, Cones, two approved wheel chokes" ACID_CATEGORIES.VEHICLE;
  mkItem "acid_10" "10. Headlamps working" ACID_CATEGORIES.VEHICLE;
  mkItem "acid_11" "11. Amber beacon" ACID_CATEGORIES.VEHICLE;
  mkItem "acid_12" "12. Brake lights, trailer lights, indicators working" ACID_CATEGORIES.VEHICLE;
  mkItem "acid_13" "13. Brakes, air pipes, air bags OK" ACID_CATEGORIES.VEHICLE;
  mkItem "acid_14" "14. Tyres not worn – out, visual Tyre Pressure, Spare wheel" ACID_CATEGORIES.VEHICLE;
  mkItem "acid_15" "15. Wheel nuts, wheel pointers, bolts, Flanges OK" ACID_CATEGORIES.VEHICLE;
  mkItem "acid_16" "16. Revers alarm, reverse lights working" ACID_CATEGORIES.VEHICLE;
  mkItem "acid_17" "17. Chevrons plate/reflective tape" ACID_CATEGORIES.VEHICLE;
  mkItem "acid_18" "18. Hazchem diamond symbols correct & display on both 2 sides" ACID_CATEGORIES.VEHICLE;
  mkItem "acid_19" "19. Anti-slip protection, Ladder, Hand rails" ACID_CATEGORIES.VEHICLE;
  mkItem "acid_20" "20. Over spill hose connected to containment container" ACID_CATEGORIES.VEHICLE;
  mkItem "acid_21" "21. Hatch, Valves, Vents" ACID_CATEGORIES.VEHICLE;
  mkItem "acid_22" "22. No leaks of chemicals/lubricants (oil, coolants, acid etc.)" ACID_CATEGORIES.VEHICLE;
  mkItem "acid_23" "23. General condition (interior cab, body: signs of Corrosion, Cracks, leaks)" ACID_CATEGORIES.VEHICLE;
  mkItem "acid_25" "25. Lime box filled with lime" ACID_CATEGORIES.SPILL_KIT;
  mkItem "acid_26" "26. First Aid Kit, Diphotrine" ACID_CATEGORIES.SPILL_KIT;
  mkItem "acid_27" "27. Pick and Shovel" ACID_CATEGORIES.SPILL_KIT;
  mkItem "acid_28" "28. Barricading tape" ACID_CATEGORIES.SPILL_KIT;
  mkItem "acid_29" "29. Water (20 liters container)" ACID_CATEGORIES.SPILL_KIT;
  mkItem "acid_30" "30. Pressure/Thickness Test Certificate" ACID_CATEGORIES.DOCUMENTATION;
  mkItem "acid_31" "31. Electric System Certificate" ACID_CATEGORIES.DOCUMENTATION;
  mkItem "acid_32" "32. Tank Cleanliness Certificate" ACID_CATEGORIES.DOCUMENTATION;
  mkItem "acid_33" "33. Driver Manual, Route Risk Assessment/Journey plan" ACID_CATEGORIES.DOCUMENTATION;
  mkItem "acid_34" "34. Valid Driver licence, DDT certificate, ID" ACID_CATEGORIES.DOCUMENTATION
].

(** [PETROLEUM_V2_CATEGORIES] (constants.ts 180-186) *)
Module PETROLEUM_V2_CATEGORIES.
Definition PRIME_MOVER : string := "Prime Mover".
Definition TRAILER_TANKS : string := "Trailer/Tanks".
Definition DRIVER : string := "Driver".
Definition SAFETY_SIGNS : string := "Safety & Warning Signs".
Definition DOCUMENTS : string := "Licence & Mandatory Documents".
End PETROLEUM_V2_CATEGORIES.

(** [PETROLEUM_V2_ITEMS] (constants.ts 188-251) *)
Definition PETROLEUM_V2_ITEMS : list InspectionItemConfig := [
  mkItem "petro2_1" "1. General: Appearance, Paint, Leaks, Charge line" PETROLEUM_V2_CATEGORIES.PRIME_MOVER;
  mkItem "petro2_2" "2. Visibility: Windscreen, Windows, Wipers, Mirrors" PETROLEUM_V2_CATEGORIES.PRIME_MOVER;
  mkItem "petro2_3" "3. Lighting: Headlights, Beacon, Turning, Stop, Reverse Lights" PETROLEUM_V2_CATEGORIES.PRIME_MOVER;
  mkItem "petro2_4" "4. Provision for Orange Diamond" PETROLEUM_V2_CATEGORIES.PRIME_MOVER;
  mkItem "petro2_5" "5. Seat Belt: 3-point Contact, Retractable" PETROLEUM_V2_CATEGORIES.PRIME_MOVER;
  mkItem "petro2_6" "6. IVMS /Speed limiting device: installed, working" PETROLEUM_V2_CATEGORIES.PRIME_MOVER;
  mkItem "petro2_7" "7. Document Holder/Box : Position, Colour, Labeled" PETROLEUM_V2_CATEGORIES.PRIME_MOVER;
  mkItem "petro2_8" "8. Tools: Jack, Wheel Spanner, Cabin, Triangles (4), Cones (3)" PETROLEUM_V2_CATEGORIES.PRIME_MOVER;
  mkItem "petro2_9" "9. Equipment: Spill Kit, First Aid Kit, Barricading Tape, Fire Extinguisher (Cabin, Trailer x2)" PETROLEUM_V2_CATEGORIES.PRIME_MOVER;
  mkItem "petro2_10" "10. Electrical: Battery Master Switch, Battery Box, Terminals, Wiring" PETROLEUM_V2_CATEGORIES.PRIME_MOVER;
  mkItem "petro2_11" "11. Tyres: No Retread, Combination, Spray Suppression, Wheels" PETROLEUM_V2_CATEGORIES.PRIME_MOVER;
  mkItem "petro2_12" "12. Brake System: ABS, Wheel Pointers, Brake Testing Required?" PETROLEUM_V2_CATEGORIES.PRIME_MOVER;
  mkItem "petro2_13" "13. Shielding of Engine, Rear Window Non-opening" PETROLEUM_V2_CATEGORIES.PRIME_MOVER;
  mkItem "petro2_14" "14. Exhaust: Discharge on Right Side, Tank outlet 100mm Clearance" PETROLEUM_V2_CATEGORIES.PRIME_MOVER;
  mkItem "petro2_15" "15. Condition of the Fifth Wheel (Lock/Lubrication)" PETROLEUM_V2_CATEGORIES.PRIME_MOVER;
  mkItem "petro2_16" "16. Compartment Capacities: labeled, < 7000L per compartment" PETROLEUM_V2_CATEGORIES.TRAILER_TANKS;
  mkItem "petro2_17" "17. Under Run Protection: Sides, Rear End" PETROLEUM_V2_CATEGORIES.TRAILER_TANKS;
  mkItem "petro2_18" "18. Overturn Damage Protection" PETROLEUM_V2_CATEGORIES.TRAILER_TANKS;
  mkItem "petro2_19" "19. Valves: Discharge, Actuator, Dust Cups, Colour Coding" PETROLEUM_V2_CATEGORIES.TRAILER_TANKS;
  mkItem "petro2_20" "20. Emergency Shut Off: Main, Side(s)/ Brake Interlock System" PETROLEUM_V2_CATEGORIES.TRAILER_TANKS;
  mkItem "petro2_21" "21. Electrical Bonding: Cable, Bronze Earthing Studs" PETROLEUM_V2_CATEGORIES.TRAILER_TANKS;
  mkItem "petro2_22" "22. Spill Tray, Hose Storage Rack, Fire Extinguisher Holders" PETROLEUM_V2_CATEGORIES.TRAILER_TANKS;
  mkItem "petro2_23" "23. Tyres: Tread Depth, Spare Tyre, Non-retread, Combination" PETROLEUM_V2_CATEGORIES.TRAILER_TANKS;
  mkItem "petro2_24" "24. Mudguards for all Wheels, Spray Suppressors" PETROLEUM_V2_CATEGORIES.TRAILER_TANKS;
  mkItem "petro2_25" "25. Landing Legs" PETROLEUM_V2_CATEGORIES.TRAILER_TANKS;
  mkItem "petro2_26" "26. Reversing Alarm" PETROLEUM_V2_CATEGORIES.TRAILER_TANKS;
  mkItem "petro2_27" "27. Delivery Hose(s): State, Continuity, Colour Coded, Dust Cups" PETROLEUM_V2_CATEGORIES.TRAILER_TANKS;
  mkItem "petro2_28" "28. Lighting: Brakes, Reverse, Warning, Emergency Lighting" PETROLEUM_V2_CATEGORIES.TRAILER_TANKS;
  mkItem "petro2_29" "29. Rear Bumper: > 300mm Beyond Tank" PETROLEUM_V2_CATEGORIES.TRAILER_TANKS;
  mkItem "petro2_30" "30. Fall Protection: Access Ladder, Anti-slip Walkway, Handrail" PETROLEUM_V2_CATEGORIES.TRAILER_TANKS;
  mkItem "petro2_31" "31. Manholes: Dia, Center, Secured, Standard (EN 13317)" PETROLEUM_V2_CATEGORIES.TRAILER_TANKS;
  mkItem "petro2_32" "32. Fittings: Ullage Marks, Overfill Protection, Pressure Release" PETROLEUM_V2_CATEGORIES.TRAILER_TANKS;
  mkItem "petro2_33" "33. Work Suit: Anti-static, Reflective" PETROLEUM_V2_CATEGORIES.DRIVER;
  mkItem "petro2_34" "34. Safety Gloves: For Hydrocarbon Handing" PETROLEUM_V2_CATEGORIES.DRIVER;
  mkItem "petro2_35" "35. Safety Boot: With Toe Cap, Oil Resistant" PETROLEUM_V2_CATEGORIES.DRIVER;
  mkItem "petro2_36" "36. Safety Helmet: 2- 4-Point Chin Strap" PETROLEUM_V2_CATEGORIES.DRIVER;
  mkItem "petro2_37" "37. Driver’s ID: Identity Card, Driver Blue Tag" PETROLEUM_V2_CATEGORIES.DRIVER;
  mkItem "petro2_38" "38. Hazchem: Both Sides, Rear" PETROLEUM_V2_CATEGORIES.SAFETY_SIGNS;
  mkItem "petro2_39" "39. No Smocking, Naked Flame, Cell Phone" PETROLEUM_V2_CATEGORIES.SAFETY_SIGNS;
  mkItem "petro2_40" "40. Orange Reflectors: Continuous" PETROLEUM_V2_CATEGORIES.SAFETY_SIGNS;
  mkItem "petro2_41" "41. Chevron, Red Reflectors at Rear" PETROLEUM_V2_CATEGORIES.SAFETY_SIGNS;
  mkItem "petro2_42" "42. Number Plate: ZABS Approved, Lighting" PETROLEUM_V2_CATEGORIES.SAFETY_SIGNS;
  mkItem "petro2_43" "43. Speed Limit Sign: 80 km/h" PETROLEUM_V2_CATEGORIES.SAFETY_SIGNS;
  mkItem "petro2_44" "44. Data Plate: Pressure Test" PETROLEUM_V2_CATEGORIES.SAFETY_SIGNS;
  mkItem "petro2_45" "45. Road Tax, Certificate of Fitness, Insurance, Identity" PETROLEUM_V2_CATEGORIES.DOCUMENTS;
  mkItem "petro2_46" "46. Defensive Driver Training (DDT): Dangerous Goods Certificate" PETROLEUM_V2_CATEGORIES.DOCUMENTS;
  mkItem "petro2_47" "47. Driver’s License: Validity of Dangerous Goods, CE" PETROLEUM_V2_CATEGORIES.DOCUMENTS;
  mkItem "petro2_48" "48. Electric Certificate" PETROLEUM_V2_CATEGORIES.DOCUMENTS;
  mkItem "petro2_49" "49. Drivers Manual" PETROLEUM_V2_CATEGORIES.DOCUMENTS;
  mkItem "petro2_50" "50. Route Risk Assessment Guide" PETROLEUM_V2_CATEGORIES.DOCUMENTS;
  mkItem "petro2_51" "51. ZCSA Certificate" PETROLEUM_V2_CATEGORIES.DOCUMENTS;
  mkItem "petro2_52" "52. Assize Certificate" PETROLEUM_V2_CATEGORIES.DOCUMENTS;
  mkItem "petro2_53" "53. TREM Card" PETROLEUM_V2_CATEGORIES.DOCUMENTS
].

(** ** The checklist steps *)

(** The items of the active module ([renderInspectionSection], 910-918). *)
Definition items_of (m : ModuleId) : list InspectionItemConfig :=
  match m with
  | MPetroleum => PETROLEUM_INSPECTION_ITEMS
  | MPetroleumV2 => PETROLEUM_V2_ITEMS
  | MAcid => ACID_INSPECTION_ITEMS
  | _ => INSPECTION_ITEMS
  end.

(** [renderInspectionSection(categoriesToShow)]: the items of the shown
    categories, grouped under each category in the order of the list. *)
Definition renderInspectionSection (m : ModuleId) (cats : list string)
    : list (string * list InspectionItemConfig) :=
  let itemsToRender := filter (fun i => category i ∈? cats) (items_of m) in
  map (fun cat => (cat, filter (fun i => String.eqb (category i) cat) itemsToRender)) cats.

(** The categories each checklist step of a module shows (1338-1352);
    the other steps and modules show none. *)
Definition checklist_categories (m : ModuleId) (section : nat) : list string :=
  match m, section with
  | MGeneral, 2 => [INSPECTION_CATEGORIES.PPE; INSPECTION_CATEGORIES.DOCUMENTATION]
  | MGeneral, 3 => [INSPECTION_CATEGORIES.VEHICLE_EXTERIOR; INSPECTION_CATEGORIES.LIGHTS_ELECTRICAL]
  | MGeneral, 4 => [INSPECTION_CATEGORIES.MECHANICAL; INSPECTION_CATEGORIES.TRAILER]
  | MPetroleum, 2 => [PETROLEUM_CATEGORIES.TRUCK_EQUIPMENT]
  | MPetroleum, 3 => [PETROLEUM_CATEGORIES.TYRES; PETROLEUM_CATEGORIES.PPE_ID]
  | MPetroleum, 4 => [PETROLEUM_CATEGORIES.DOCUMENTS; PETROLEUM_CATEGORIES.ONBOARD]
  | MPetroleumV2, 2 => [PETROLEUM_V2_CATEGORIES.PRIME_MOVER]
  | MPetroleumV2, 3 => [PETROLEUM_V2_CATEGORIES.TRAILER_TANKS]
  | MPetroleumV2, 4 => [PETROLEUM_V2_CATEGORIES.DRIVER; PETROLEUM_V2_CATEGORIES.SAFETY_SIGNS;
                        PETROLEUM_V2_CATEGORIES.DOCUMENTS]
  | MAcid, 2 => [ACID_CATEGORIES.PPE]
  | MAcid, 3 => [ACID_CATEGORIES.VEHICLE]
  | MAcid, 4 => [ACID_CATEGORIES.SPILL_KIT; ACID_CATEGORIES.DOCUMENTATION]
  | _, _ => []
  end.

(** The items a step shows, in the order they are rendered. *)
Definition section_items (m : ModuleId) (section : nat) : list InspectionItemConfig :=
  concat (map snd (renderInspectionSection m (checklist_categories m section))).

(** Every item row the form shows over its seven steps. *)
Definition form_checklist (m : ModuleId) : list InspectionItemConfig :=
  concat (map (section_items m) (seq 0 sections_length)).

(** [updateField(field, value)]: [{...prev, [field]: value}]. *)
Definition updateField (field : string) (v : Cell) (fd : FormData) : FormData := <[field := v]> fd.

(** A status button of an item row. *)
Definition status_click (item : InspectionItemConfig) (s : InspectionStatus) (fd : FormData)
    : FormData :=
  updateField (item_id item) (CStr (status_value s)) fd.

(** The modules that have an inspection form. *)
Definition form_modules : list ModuleId := [MGeneral; MPetroleum; MPetroleumV2; MAcid].

(** ** Lemmas *)

(** What the three checklist steps of each form show, checked item by
    item: each item once, under a column of the module's header list
    other than [id]. *)
Lemma checklist_layout m :
  m ∈ form_modules ->
  Forall (fun item => length (filter (fun j => j = item) (form_checklist m)) = 1%nat /\
                      item_id item ∈ snd (target_of m) /\ item_id item <> "id") (items_of m).
Proof.
  unfold form_modules. intros Hm.
  repeat (apply elem_of_cons in Hm as [->|Hm]); [..|by apply not_elem_of_nil in Hm];
    apply (bool_decide_unpack _); vm_compute; reflexivity.
Qed.

(** The row of a payload carries a written field at its column. *)
Lemma payload_carries_field fd m rid h v :
  h ∈ snd (target_of m) -> h <> "id" -> v <> CUndef -> v <> CNull ->
  exists k, p_headers (build_payload (updateField h v fd) m rid) !! k = Some h /\
            p_row (build_payload (updateField h v fd) m rid) !! k = Some v.
Proof.
  intros Hh Hid Hu Hn. destruct (build_payload_fields (updateField h v fd) m rid) as (_ & -> & -> & _).
  apply list_elem_of_lookup in Hh as (k & Hk). exists k. split; [done|].
  rewrite list_lookup_fmap, Hk. simpl. unfold row_value, form_get, updateField.
  rewrite (proj2 (String.eqb_neq _ _) Hid), lookup_insert_eq. simpl. by destruct v.
Qed.

(** ** Properties *)

(** C40: no checklist answer is lost between the form and the sheet.  In
    every module with a form, each checklist item is shown exactly once
    over the steps of the form, and whatever status button is pressed on
    it, the row the submission builds carries that status under the
    item's column. *)
Theorem checklist_answers_submitted m item st fd rid :
  m ∈ form_modules -> item ∈ items_of m ->
  length (filter (fun j => j = item) (form_checklist m)) = 1%nat /\
  exists k, p_headers (build_payload (status_click item st fd) m rid) !! k = Some (item_id item) /\
            p_row (build_payload (status_click item st fd) m rid) !! k = Some (CStr (status_value st)).
Proof.
  intros Hm Hi. pose proof (checklist_layout m Hm) as Hl. rewrite Forall_forall in Hl.
  destruct (Hl item Hi) as (Hc & Hh & Hid). split; [done|].
  by apply payload_carries_field.
Qed.

Definition acid_item_1 : InspectionItemConfig :=
  mkItem "acid_1" "1. Reflective Work Suit (Acid Proof), Gumboots Safety Goggles" ACID_CATEGORIES.PPE.

Lemma checklist_answers_submitted_witness :
  MAcid ∈ form_modules /\ acid_item_1 ∈ items_of MAcid /\
  length (filter (fun j => j = acid_item_1) (form_checklist MAcid)) = 1%nat /\
  exists k, p_headers (build_payload (status_click (acid_item_1) BAD ∅)
                                     MAcid "r1") !! k = Some "acid_1" /\
            p_row (build_payload (status_click (acid_item_1) BAD ∅)
                                 MAcid "r1") !! k = Some (CStr (status_value BAD)).
Proof.
  assert (Hm : MAcid ∈ form_modules) by (apply (bool_decide_unpack _); vm_compute; reflexivity).
  assert (Hi : acid_item_1 ∈ items_of MAcid)
    by (apply (bool_decide_unpack _); vm_compute; reflexivity).
  split; [exact Hm|]. split; [exact Hi|].
  exact (checklist_answers_submitted MAcid _ BAD ∅ "r1" Hm Hi).
Defined.
