(* ===== verification/InspectionForm.v ===== *)
(** * The inspection form's steps and what a submission carries

    App.tsx: the form object a new inspection starts from
    ([startInspectionCommon] and [resetForm], lines 545-566, over
    [INITIAL_DATA] of types.ts 125-176), the inputs of the seven steps
    ([renderDetailsSection] 826-887, [renderPhotosSection] 889-906, the
    checklist steps of [Checklist], [renderSignaturesSection] 951-996, the
    summary 998-1070, dispatched at 1335-1355) and the field each input's
    handler writes through [updateField].  The read-only "Inspected By"
    input is an [AutocompleteInput] whose handlers return at once
    (AutocompleteInput.tsx 41, 78, 85).  Composed with
    [Queue.build_payload], this says which columns of a submitted row the
    user fills in and which are fixed when the inspection starts. *)

From S2P Require Import Prelude Session Queue Records Checklist.

(** ** The form object *)

(** The statuses [INITIAL_DATA] presets for the general checklist. *)
Definition general_defaults : list (string * InspectionStatus) :=
  [("reflectiveWorkSuit", GOOD); ("safetyGear", GOOD); ("dustMask", NIL); ("roadFitness", GOOD);
   ("windscreen", GOOD); ("headLamps", GOOD); ("indicators", GOOD); ("mirrors", GOOD);
   ("seatBelt", GOOD); ("fireExtinguisher", GOOD); ("warningTriangles", GOOD);
   ("hornIgnition", GOOD); ("trailerCondition", GOOD); ("fifthWheel", GOOD);
   ("landingLegs", GOOD); ("fluidLeaks", GOOD); ("reverseAlarm", GOOD); ("tyres", GOOD);
   ("wheelNuts", GOOD); ("firstAid", GOOD); ("parkingLights", GOOD); ("brakes", GOOD);
   ("chevrons", GOOD); ("tarpaulins", GOOD); ("generalCondition", GOOD);
   ("driverManual", GOOD); ("validDriverDocs", GOOD); ("routeRisk", GOOD)].

(** [INITIAL_DATA]; its [timestamp] is the time the module was loaded. *)
Definition INITIAL_DATA (loaded : string) : FormData :=
  list_to_map
    ([("timestamp", CStr loaded); ("truckNo", CStr ""); ("trailerNo", CStr "");
      ("inspectedBy", CStr ""); ("driverName", CStr ""); ("location", CStr "");
      ("odometer", CStr ""); ("jobCard", CStr ""); ("photoFront", CNull); ("photoLS", CNull);
      ("photoRS", CNull); ("photoBack", CNull); ("photoDamage", CNull)] ++
     map (fun '(f, s) => (f, CStr (status_value s))) general_defaults ++
     [("remarks", CStr ""); ("rate", CNum 5); ("inspectorSignature", CNull);
      ("driverSignature", CNull); ("aiAnalysis", CStr "")]).

(** [{...INITIAL_DATA, timestamp: new Date().toISOString(),
    inspectedBy: currentUser?.name || ''}] *)
Definition fresh_form (now : string) (cu : option User) (loaded : string) : FormData :=
  <["inspectedBy" := CStr (default "" (name <$> cu))]> (<["timestamp" := CStr now]> (INITIAL_DATA loaded)).

(** ** The inputs of the steps *)

Inductive Input :=
| IText (field : string)      (** an [Input] or [AutocompleteInput] *)
| IReadOnly (field : string)  (** an [AutocompleteInput] with [readOnly] *)
| IPhoto (field : string)     (** a [CameraCapture] *)
| ISignature (field : string) (** a [SignaturePad] *)
| IRate                       (** the five rating buttons *)
| IStatus (item : InspectionItemConfig). (** an item row's status buttons *)

#[export] Instance Input_eq_dec : EqDecision Input.
Proof. solve_decision. Defined.

(** [renderDetailsSection] *)
Definition details_inputs : list Input :=
  [IText "truckNo"; IText "trailerNo"; IText "jobCard"; IReadOnly "inspectedBy";
   IText "driverName"; IText "location"; IText "odometer"].

(** [renderPhotosSection] *)
Definition photos_inputs : list Input :=
  [IPhoto "photoFront"; IPhoto "photoLS"; IPhoto "photoRS"; IPhoto "photoBack"].

(** [renderSignaturesSection] *)
Definition signatures_inputs : list Input :=
  [IText "remarks"; IPhoto "photoDamage"; IRate; ISignature "inspectorSignature";
   ISignature "driverSignature"].

(** What step [k] of module [m] shows: each line of 1335-1355 renders when
    its condition holds; the summary has no input. *)
Definition section_inputs (m : ModuleId) (k : nat) : list Input :=
  match k with
  | 0 => details_inputs
  | 1 => photos_inputs
  | 5 => signatures_inputs
  | _ => []
  end ++ map IStatus (section_items m k).

(** The field an input's handler writes, if any. *)
Definition input_field (i : Input) : option string :=
  match i with
  | IText f | IPhoto f | ISignature f => Some f
  | IReadOnly _ => None
  | IRate => Some "rate"
  | IStatus item => Some (item_id item)
  end.

(** Every field the form's inputs write. *)
Definition form_written (m : ModuleId) : list string :=
  omap input_field (concat (map (section_inputs m) (seq 0 sections_length))).

(** ** Editing the form *)

(** What the user does on step [k]: type or pick a value, capture a
    photo or signature (a data URL), press a rating button, press an
    item's status button. *)
Inductive FormEvent :=
| EFill (k : nat) (i : Input) (v : string)
| ERate (k : nat) (n : Z)
| EPress (k : nat) (item : InspectionItemConfig) (st : InspectionStatus).

(** An event on an input the step shows runs its handler; the read-only
    input's handler returns without a change. *)
Definition form_step (m : ModuleId) (fd : FormData) (e : FormEvent) : FormData :=
  match e with
  | EFill k i v =>
      if bool_decide (i ∈ section_inputs m k) then
        match i with
        | IText f | IPhoto f | ISignature f => updateField f (CStr v) fd
        | _ => fd
        end
      else fd
  | ERate k n =>
      if bool_decide (IRate ∈ section_inputs m k) && bool_decide (n ∈ [1; 2; 3; 4; 5]%Z)
      then updateField "rate" (CNum n) fd else fd
  | EPress k item st =>
      if bool_decide (IStatus item ∈ section_inputs m k) then status_click item st fd else fd
  end.

Definition form_run (m : ModuleId) (es : list FormEvent) (fd : FormData) : FormData :=
  fold_left (form_step m) es fd.

(** ** Lemmas *)

(** Past the summary no step shows an input. *)
Lemma section_inputs_beyond m k : (sections_length <= k)%nat -> section_inputs m k = [].
Proof.
  unfold sections_length. simpl. intros Hk.
  do 7 (destruct k as [|k]; [lia|]). by destruct m.
Qed.

(** A field an input of any step writes is in [form_written]. *)
Lemma input_written m k i f : i ∈ section_inputs m k -> input_field i = Some f -> f ∈ form_written m.
Proof.
  intros Hi Hf. destruct (decide (k < sections_length)%nat) as [Hk|Hk].
  - unfold form_written. apply list_elem_of_omap. exists i. split; [|done].
    apply list_elem_of_In, in_concat. exists (section_inputs m k).
    split; [apply in_map, in_seq; lia|by apply list_elem_of_In].
  - rewrite section_inputs_beyond in Hi by lia. by apply not_elem_of_nil in Hi.
Qed.

(** An offered input's write leaves the fields no input writes. *)
Ltac write_other Hf Hi :=
  unfold status_click, updateField; rewrite lookup_insert_ne; [done|];
  intros Heq; subst; apply Hf; exact (input_written _ _ _ _ Hi eq_refl).

Lemma form_step_other m fd e f : f ∉ form_written m -> form_step m fd e !! f = fd !! f.
Proof.
  intros Hf. destruct e as [k i v|k n|k item st]; simpl.
  - case_bool_decide as Hi; [|done]. destruct i; try done; write_other Hf Hi.
  - destruct (bool_decide _ && _) eqn:E; [|done].
    apply andb_prop in E as [Hi _]. apply bool_decide_eq_true in Hi. write_other Hf Hi.
  - case_bool_decide as Hi; [|done]. write_other Hf Hi.
Qed.

Lemma form_run_other m es fd f : f ∉ form_written m -> form_run m es fd !! f = fd !! f.
Proof.
  intros Hf. unfold form_run. induction es as [|e es IH] in fd |- *; [done|].
  simpl. rewrite IH. by apply form_step_other.
Qed.

(** The columns every header list has and no input writes. *)
Lemma fixed_columns m :
  Forall (fun h => h ∈ snd (target_of m) /\ h ∉ form_written m)
         ["id"; "timestamp"; "inspectedBy"; "aiAnalysis"].
Proof. destruct m; apply (bool_decide_unpack _); vm_compute; reflexivity. Qed.

(** A column of the module's header list holds the form's value. *)
Lemma payload_at fd m rid h :
  h ∈ snd (target_of m) ->
  exists k, p_headers (build_payload fd m rid) !! k = Some h /\
            p_row (build_payload fd m rid) !! k = Some (row_value fd rid h).
Proof.
  intros Hh. destruct (build_payload_fields fd m rid) as (_ & -> & -> & _).
  apply list_elem_of_lookup in Hh as (k & Hk). exists k. by rewrite list_lookup_fmap, Hk.
Qed.

(** A field outside the module's header list does not reach the row. *)
Lemma payload_ignores fd m rid f v :
  f ∉ snd (target_of m) -> build_payload (<[f := v]> fd) m rid = build_payload fd m rid.
Proof.
  intros Hf. unfold build_payload. destruct (target_of m) as [sheet headers]. simpl in Hf.
  f_equal. apply map_ext_in. intros h Hh%list_elem_of_In. unfold row_value, form_get.
  rewrite lookup_insert_ne; [done|]. intros ->. by apply Hf.
Qed.

(** The job card is an input of the first step of every module. *)
Lemma job_card_input m : IText "jobCard" ∈ section_inputs m 0.
Proof. destruct m; apply (bool_decide_unpack _); vm_compute; reflexivity. Qed.

(** ** Properties *)

(** C27 (finding): the columns a submission fixes when the inspection
    starts.  Whatever is typed, captured or pressed on the steps of the
    form, the submitted row carries the record id, the time the
    inspection was started, the logged-in user's name as inspector (the
    "Inspected By" input is read-only) and an empty AI analysis:
    [analyzeInspection] is imported but never called, so the [aiAnalysis]
    column of every sheet stays empty. *)
Theorem submitted_fixed_columns m es now cu loaded rid h v :
  (h, v) ∈ [("id", CStr rid); ("timestamp", CStr now);
            ("inspectedBy", CStr (default "" (name <$> cu))); ("aiAnalysis", CStr "")] ->
  exists k, p_headers (build_payload (form_run m es (fresh_form now cu loaded)) m rid) !! k = Some h /\
            p_row (build_payload (form_run m es (fresh_form now cu loaded)) m rid) !! k = Some v.
Proof.
  intros Hhv. pose proof (fixed_columns m) as Hfix. rewrite Forall_forall in Hfix.
  assert (Hin : h ∈ ["id"; "timestamp"; "inspectedBy"; "aiAnalysis"]).
  { apply list_elem_of_In. apply list_elem_of_In, (in_map fst) in Hhv. exact Hhv. }
  destruct (Hfix h Hin) as [Hh Hw]. destruct (payload_at (form_run m es (fresh_form now cu loaded)) m rid h Hh) as (k & Hk1 & Hk2).
  exists k. split; [done|]. rewrite Hk2. f_equal. unfold row_value, form_get.
  rewrite form_run_other by done. unfold fresh_form.
  repeat (apply elem_of_cons in Hhv as [Hhv|Hhv]); [..|by apply not_elem_of_nil in Hhv];
    injection Hhv as -> ->; [done|..].
  - by rewrite lookup_insert_ne, lookup_insert_eq.
  - by rewrite lookup_insert_eq.
  - rewrite !lookup_insert_ne by discriminate. vm_compute. reflexivity.
Qed.

Definition inspector : User := mkUser "jphiri" "John Phiri" Inspector "Inspector".

Lemma submitted_fixed_columns_witness :
  ("inspectedBy", CStr "John Phiri") ∈
    [("id", CStr "r9"); ("timestamp", CStr "2025-03-01T08:00:00Z");
     ("inspectedBy", CStr (default "" (name <$> Some inspector))); ("aiAnalysis", CStr "")] /\
  exists k,
    p_headers (build_payload (form_run MAcid [EFill 0 (IReadOnly "inspectedBy") "Someone Else";
                                              EFill 0 (IText "truckNo") "ABC 123"]
                                (fresh_form "2025-03-01T08:00:00Z" (Some inspector) "t0")) MAcid "r9")
      !! k = Some "inspectedBy" /\
    p_row (build_payload (form_run MAcid [EFill 0 (IReadOnly "inspectedBy") "Someone Else";
                                          EFill 0 (IText "truckNo") "ABC 123"]
                            (fresh_form "2025-03-01T08:00:00Z" (Some inspector) "t0")) MAcid "r9")
      !! k = Some (CStr "John Phiri").
Proof.
  assert (H : ("inspectedBy", CStr "John Phiri") ∈
    [("id", CStr "r9"); ("timestamp", CStr "2025-03-01T08:00:00Z");
     ("inspectedBy", CStr (default "" (name <$> Some inspector))); ("aiAnalysis", CStr "")])
    by (apply (bool_decide_unpack _); vm_compute; reflexivity).
  split; [exact H|].
  exact (submitted_fixed_columns MAcid _ "2025-03-01T08:00:00Z" (Some inspector) "t0" "r9" _ _ H).
Defined.

(** The General sheet drops the job card.  The first step of every form
    asks for a job card, and the Petroleum, Petroleum V2 and Acid rows
    store it, but the General header list has no [jobCard] column, so the
    General payload is the same whatever job card was entered. *)
Theorem general_job_card_dropped fd v rid :
  build_payload (form_step MGeneral fd (EFill 0 (IText "jobCard") v)) MGeneral rid =
    build_payload fd MGeneral rid /\
  forall m, m ∈ [MPetroleum; MPetroleumV2; MAcid] ->
    exists k, p_headers (build_payload (form_step m fd (EFill 0 (IText "jobCard") v)) m rid) !! k = Some "jobCard" /\
              p_row (build_payload (form_step m fd (EFill 0 (IText "jobCard") v)) m rid) !! k = Some (CStr v).
Proof.
  cbn [form_step]. split.
  - rewrite bool_decide_eq_true_2 by apply job_card_input.
    apply payload_ignores. apply (bool_decide_unpack _). vm_compute. reflexivity.
  - intros m Hm. rewrite bool_decide_eq_true_2 by apply job_card_input.
    apply payload_carries_field; [|discriminate..].
    repeat (apply elem_of_cons in Hm as [->|Hm]); [..|by apply not_elem_of_nil in Hm];
      apply (bool_decide_unpack _); vm_compute; reflexivity.
Qed.
