(* ===== verification/Submission.v ===== *)
(** * The submission desk: the summary step's button and its timers

    App.tsx [handleGoogleSheetSubmit] (680-776) as the user meets it: the
    "Submit Inspection" button of the summary step (1045-1053), disabled
    while [submissionStatus] is not ['idle'], the status the handler sets
    ('offline_saved' when the record was queued, 'success' when it was
    sent) and the [setTimeout] callback that, two seconds later, calls
    [resetForm] and sets the status back to ['idle'].  Between the
    submission and the callback the rest of the App keeps working: the
    navigation ([Session.nav_step]) and the form's inputs
    ([InspectionForm.form_step] on the step shown).  The handler's
    guards, payload and queue are [Queue.Impl.handleGoogleSheetSubmit];
    the status 'submitting' only lasts while the handler awaits [fetch],
    during which the button is disabled as well, and is not a state of
    this model, whose handler runs to completion. *)

From S2P Require Import Prelude Session Queue Checklist InspectionForm.
Import Impl.

(** ** The desk *)

Inductive SubmissionStatus := SIdle | SSuccess | SOfflineSaved.

#[export] Instance SubmissionStatus_eq_dec : EqDecision SubmissionStatus.
Proof. solve_decision. Defined.

Record Desk := mkDesk {
  d_status : SubmissionStatus;
  d_form : FormData;
  d_nav : Nav;
  d_client : Client
}.

Inductive DeskEvent :=
| DSubmit (recordId : string) (net_ok : bool)  (* the Submit button *)
| DTimer                                      (* the setTimeout callback *)
| DNav (e : NavEvent)                         (* sidebar, Next/Back, new inspection, progress bar *)
| DForm (e : FormEvent).                      (* an input of the step shown *)

(** The step a form event acts on. *)
Definition event_section (e : FormEvent) : nat :=
  match e with EFill k _ _ | ERate k _ | EPress k _ _ => k end.

(** The field a form event may write. *)
Definition event_field (e : FormEvent) : option string :=
  match e with
  | EFill _ i _ => input_field i
  | ERate _ _ => Some "rate"
  | EPress _ item _ => Some (item_id item)
  end.

(** One event for the signed-in user [u]; [now] is the clock and
    [loaded] the time [INITIAL_DATA] was built.  The outcome is the
    handler's, when the button was pressed and enabled. *)
Definition desk_step (u : User) (now loaded : string) (d : Desk) (e : DeskEvent)
    : Desk * option SubmitOutcome :=
  let n := d_nav d in
  match e with
  | DSubmit rid net_ok =>
      if in_form n && Nat.eqb (current_section n) (sections_length - 1)
         && bool_decide (d_status d = SIdle) then
        let '(o, c', n') := handleGoogleSheetSubmit u n (d_form d) rid net_ok (d_client d) in
        match o with
        | Queued _ => (mkDesk SOfflineSaved (d_form d) n (c'), Some o)
        | Delivered _ => (mkDesk SSuccess (d_form d) n c', Some o)
        | _ => (mkDesk SIdle (d_form d) n' c', Some o)
        end
      else (d, None)
  | DTimer =>
      match d_status d with
      | SIdle => (d, None)
      | _ => (mkDesk SIdle (fresh_form now (Some u) loaded) (resetForm n) (d_client d), None)
      end
  | DNav e =>
      match e with
      | NReset => (d, None)
      | NStart _ => (mkDesk (d_status d) (fresh_form now (Some u) loaded) (nav_step u n e) (d_client d), None)
      | _ => (mkDesk (d_status d) (d_form d) (nav_step u n e) (d_client d), None)
      end
  | DForm fe =>
      if in_form n && Nat.eqb (event_section fe) (current_section n) then
        (mkDesk (d_status d) (form_step (active_module n) (d_form d) fe) n (d_client d), None)
      else (d, None)
  end.

Fixpoint desk_run (u : User) (now loaded : string) (d : Desk) (es : list DeskEvent) : Desk :=
  match es with
  | [] => d
  | e :: es' => desk_run u now loaded (fst (desk_step u now loaded d e)) es'
  end.

(** The payload an outcome reports accepted. *)
Definition accepted_by (o : option SubmitOutcome) : list Payload :=
  match o with Some (Queued p) | Some (Delivered p) => [p] | _ => [] end.

(** Whether an event may write the inspector's signature. *)
Definition writes_signature (e : DeskEvent) : bool :=
  match e with
  | DForm fe => bool_decide (event_field fe = Some "inspectorSignature")
  | _ => false
  end.

(** ** The summary card *)

(** "Submit to database (... Sheet)." (1034). *)
Definition destination_text (m : ModuleId) : string :=
  match m with
  | MPetroleum => "Petroleum"
  | MPetroleumV2 => "Petroleum_V2"
  | MAcid => "Acid"
  | _ => "General"
  end.

(** The button's text and [disabled] (1045-1053), and the offline
    warning (1037-1041). *)
Record SubmitButton := mkSubmitButton { btn_label : string; btn_disabled : bool }.

Definition submit_button (d : Desk) : SubmitButton :=
  mkSubmitButton (match d_status d with SOfflineSaved => "Saved Offline" | _ => "Submit Inspection" end)
                 (negb (bool_decide (d_status d = SIdle))).

Definition offline_warning (d : Desk) : bool := negb (online (d_client d)).

(** ** Lemmas *)

Lemma form_step_field m fd e f : event_field e <> Some f -> form_step m fd e !! f = fd !! f.
Proof.
  intros Hf. destruct e as [k i v|k n|k item st]; simpl in *.
  - case_bool_decide; [|done]. destruct i; simpl in *; try done;
      unfold updateField; rewrite lookup_insert_ne; congruence.
  - destruct (_ && _); [|done]. unfold updateField. rewrite lookup_insert_ne; congruence.
  - case_bool_decide; [|done]. unfold status_click, updateField. rewrite lookup_insert_ne; congruence.
Qed.

Lemma fresh_form_unsigned now u loaded :
  js_truthy (form_get (fresh_form now (Some u) loaded) "inspectorSignature") = false.
Proof. reflexivity. Qed.

(** What keeps a second record from going out: a pending reset, or a
    form without a truthy signature. *)
Definition locked (d : Desk) : Prop :=
  d_status d <> SIdle \/ js_truthy (form_get (d_form d) "inspectorSignature") = false.

Lemma submit_refused_unsigned u n fd rid net c :
  js_truthy (form_get fd "inspectorSignature") = false ->
  accepted_by (Some (fst (fst (handleGoogleSheetSubmit u n fd rid net c)))) = [] /\
  snd (fst (handleGoogleSheetSubmit u n fd rid net c)) = c.
Proof. intros Hs. unfold handleGoogleSheetSubmit. rewrite Hs. by destruct (can_submit u). Qed.

(** A locked desk accepts nothing and stays locked under any event that
    does not sign. *)
Lemma desk_step_locked u now loaded d e :
  locked d -> writes_signature e = false ->
  accepted_by (snd (desk_step u now loaded d e)) = [] /\ locked (fst (desk_step u now loaded d e)).
Proof.
  intros Hl Hw. destruct e as [rid net| |[]|fe]; simpl.
  - destruct (in_form _ && _ && _) eqn:E; [|done].
    apply andb_prop in E as [_ Hi%bool_decide_eq_true]. destruct Hl as [Hl|Hs]; [by exfalso|].
    pose proof (submit_refused_unsigned u (d_nav d) (d_form d) rid net (d_client d) Hs) as [Ha Hc].
    destruct (handleGoogleSheetSubmit _ _ _ _ _ _) as [[o c'] n'] eqn:Eh. simpl in *.
    destruct o; simpl in *; try discriminate; split; try done; right; done.
  - destruct (d_status d); split; try done; right; apply fresh_form_unsigned.
  - split; [done|exact Hl].
  - split; [done|exact Hl].
  - split; [done|exact Hl].
  - split; [done|]. destruct Hl as [Hl|Hl]; [left; exact Hl|right; apply fresh_form_unsigned].
  - split; [done|exact Hl].
  - split; [done|exact Hl].
  - destruct (in_form _ && _); [|done]. split; [done|]. destruct Hl as [Hl|Hs]; [left; exact Hl|right].
    simpl in Hw. apply bool_decide_eq_false in Hw. unfold form_get. simpl. by rewrite form_step_field.
Qed.

Lemma desk_run_locked u now loaded d es :
  locked d -> Forall (fun e => writes_signature e = false) es -> locked (desk_run u now loaded d es).
Proof.
  induction es as [|e es IH] in d |- *; intros Hl Hes; [done|]. apply Forall_cons in Hes as [He Hes].
  simpl. apply IH; [|done]. by apply desk_step_locked.
Qed.

(** An accepted submission leaves a reset pending. *)
Lemma accepted_pending u now loaded d rid net :
  accepted_by (snd (desk_step u now loaded d (DSubmit rid net))) <> [] ->
  d_status (fst (desk_step u now loaded d (DSubmit rid net))) <> SIdle.
Proof.
  simpl. destruct (_ && _ && _); [|done].
  destruct (handleGoogleSheetSubmit _ _ _ _ _ _) as [[o c'] n']. by destruct o.
Qed.

(** ** Properties *)

(** C36: one inspection, one record.  Once a submission is accepted (queued
    or sent), the button is disabled until the timer resets the form,
    and the reset form carries no signature; so whatever the user does
    next, short of signing again, a second press of the button sends
    nothing.  The timer puts the desk back to idle with a fresh form on
    the first step of the module's dashboard. *)
Theorem one_record_per_signature u now loaded d rid net es rid' net' :
  accepted_by (snd (desk_step u now loaded d (DSubmit rid net))) <> [] ->
  Forall (fun e => writes_signature e = false) es ->
  accepted_by (snd (desk_step u now loaded
     (desk_run u now loaded (fst (desk_step u now loaded d (DSubmit rid net))) es) (DSubmit rid' net'))) = [] /\
  let d' := fst (desk_step u now loaded (fst (desk_step u now loaded d (DSubmit rid net))) DTimer) in
  d_status d' = SIdle /\ d_form d' = fresh_form now (Some u) loaded /\ current_section (d_nav d') = 0%nat.
Proof.
  intros Ha Hes. pose proof (accepted_pending u now loaded d rid net Ha) as Hp. split.
  - apply desk_step_locked; [|done]. apply desk_run_locked; [by left|done].
  - destruct (desk_step u now loaded d (DSubmit rid net)) as [d1 o] eqn:E. simpl in *.
    destruct (d_status d1); [done| |]; simpl; split_and!; try done;
      unfold resetForm; by rewrite (proj2 (set_mode_of_active_nav _ _)).
Qed.

(** The summary names the tab the record goes to. *)
Lemma destination_is_target m : destination_text m = fst (target_of m).
Proof. by destruct m. Qed.

(** ** Instances *)

Definition signed_form : FormData := {[ "inspectorSignature" := CStr "data:image/png;base64,1" ]}.

Definition summary_desk : Desk :=
  mkDesk SIdle signed_form (mkNav MGeneral Form Dashboard Dashboard Dashboard 6)
         (mkClient [] [] false true "https://script.google.com/macros/s/x/exec" []).

Lemma one_record_per_signature_witness :
  accepted_by (snd (desk_step inspector_user "t1" "t0" summary_desk (DSubmit "r1" true))) <> [] /\
  Forall (fun e => writes_signature e = false) [DNav NBack; DNav NNext] /\
  accepted_by (snd (desk_step inspector_user "t1" "t0"
     (desk_run inspector_user "t1" "t0" (fst (desk_step inspector_user "t1" "t0" summary_desk (DSubmit "r1" true)))
        [DNav NBack; DNav NNext]) (DSubmit "r2" true))) = [].
Proof.
  assert (Ha : accepted_by (snd (desk_step inspector_user "t1" "t0" summary_desk (DSubmit "r1" true))) <> [])
    by (vm_compute; discriminate).
  assert (Hf : Forall (fun e => writes_signature e = false) [DNav NBack; DNav NNext])
    by (repeat constructor).
  split_and!; [exact Ha|exact Hf|].
  exact (proj1 (one_record_per_signature inspector_user "t1" "t0" summary_desk "r1" true _ "r2" true Ha Hf)).
Defined.
