(* ===== verification/Widgets.v ===== *)
(** * The form widgets: signature pad, status buttons, report viewer

    [Module SignaturePad]: SignaturePad.tsx, the canvas the inspector and
    the driver sign on.  Its state is the [isDrawing] flag, the current
    path of the 2D context (from [beginPath]), what the canvas shows, the
    existing signature whose image is loading and [isLoadedRef].  Mouse
    and touch handlers ([startDrawing], [draw], [stopDrawing], [clear],
    lines 49-105) and the mount effect (15-27) are the steps; each step
    may call [onSave], which App.tsx wires to [updateField] of the
    signature field (991-992).  What [toDataURL] returns for a picture is
    a parameter: only its [data:image/png;base64,] prefix is assumed.
    [getCoordinates] maps the pointer to a point of the 400 x 160
    bitmap, which the page stretches to the width the layout gives it.

    [StatusButton]: StatusButton.tsx's [isSelected], what a button shows
    and the four buttons of a checklist row (App.tsx 936-941).

    [Module Report]: ReportViewerModal.tsx, the file name of the
    downloaded PDF (line 24) and the [isGenerating] flag of the download
    button (11-50, 78). *)

From S2P Require Import Prelude Session Queue Checklist InspectionForm.

Module SignaturePad.

Definition Point : Type := Z * Z.

(** What has been painted on the canvas, in order: a loaded image or a
    stroked path. *)
Inductive Layer := LImage (src : string) | LPath (pts : list Point).

Record Pad := mkPad {
  isDrawing : bool;
  path : list Point;        (** the context's current path *)
  canvas : list Layer;      (** what the canvas shows *)
  loading : option string;  (** the existing signature's image, not loaded yet *)
  isLoaded : bool           (** [isLoadedRef.current] *)
}.

(** The mount effect: a truthy [existingSignature] starts loading. *)
Definition mount (existingSignature : option string) : Pad :=
  mkPad false [] []
        (match existingSignature with
         | Some s => if js_truthy (CStr s) then Some s else None
         | None => None
         end) false.

Inductive PadEvent :=
| PDown (x y : Z)   (** [onMouseDown] / [onTouchStart] *)
| PMove (x y : Z)   (** [onMouseMove] / [onTouchMove] *)
| PUp               (** [onMouseUp] / [onMouseLeave] / [onTouchEnd] *)
| PClear            (** the "Clear Signature" button *)
| PImageLoad.       (** [img.onload] of the mount effect *)

Section Steps.
Context (toDataURL : list Layer -> string).

(** One handler; the second component is the argument of [onSave]. *)
Definition pad_step (p : Pad) (e : PadEvent) : Pad * option string :=
  match e with
  | PDown x y => (mkPad true [(x, y)] (canvas p) (loading p) (isLoaded p), None)
  | PMove x y =>
      if isDrawing p then
        let pts := path p ++ [(x, y)] in
        (mkPad true pts (canvas p ++ [LPath pts]) (loading p) (isLoaded p), None)
      else (p, None)
  | PUp =>
      if isDrawing p
      then (mkPad false (path p) (canvas p) (loading p) (isLoaded p), Some (toDataURL (canvas p)))
      else (p, None)
  | PClear => (mkPad (isDrawing p) (path p) [] (loading p) false, Some "")
  | PImageLoad =>
      match loading p with
      | Some src => (mkPad (isDrawing p) (path p) (canvas p ++ [LImage src]) None true, None)
      | None => (p, None)
      end
  end.

(** The pad wired to a form field: [onSave={sig => updateField(field, sig)}]. *)
Fixpoint pad_run (field : string) (p : Pad) (fd : FormData) (es : list PadEvent) : Pad * FormData :=
  match es with
  | [] => (p, fd)
  | e :: es' =>
      let '(p', o) := pad_step p e in
      pad_run field p' (match o with Some s => updateField field (CStr s) fd | None => fd end) es'
  end.

End Steps.

(** ** Where a stroke lands *)

(** The pointer of a mouse event, or the first touch of a touch event. *)
Inductive Pointer := PMouse (clientX clientY : Z) | PTouch (touches : list (Z * Z)).

(** [canvas.getBoundingClientRect()]: where the canvas is drawn on the
    page and how wide it is drawn; the element is [w-full] of its
    container and [h-40] (160 CSS pixels), its bitmap 400 x 160. *)
Record Rect := mkRect { rect_left : Z; rect_top : Z; rect_width : Z }.

Definition canvas_width : Z := 400.

(** [getCoordinates] (lines 29-48): the pointer's offset from the
    rectangle, used as is as a point of the canvas bitmap.  A touch
    event without a touch reads [undefined] and gives [None] (NaN). *)
Definition getCoordinates (e : Pointer) (r : Rect) : option Point :=
  match e with
  | PMouse x y => Some (x - rect_left r, y - rect_top r)%Z
  | PTouch ((x, y) :: _) => Some (x - rect_left r, y - rect_top r)%Z
  | PTouch [] => None
  end.

(** Where a bitmap column is seen on the page, times [canvas_width]:
    the browser stretches the 400 columns over [rect_width] pixels. *)
Definition shown_x400 (r : Rect) (x : Z) : Z := (canvas_width * rect_left r + x * rect_width r)%Z.

(** Whether a bitmap column exists: strokes outside are not drawn. *)
Definition on_canvas (x : Z) : bool := (Z.leb 0 x && Z.ltb x canvas_width)%bool.

End SignaturePad.

(** ** Status buttons *)

(** [isSelected = status === current] *)
Definition isSelected (status : InspectionStatus) (current : Cell) : bool :=
  bool_decide (CStr (status_value status) = current).

(** The buttons of a checklist row, in order. *)
Definition row_buttons : list InspectionStatus := [GOOD; BAD; ATTENTION; NIL].

(** The buttons of an item's row that are highlighted. *)
Definition highlighted (item : InspectionItemConfig) (fd : FormData) : list InspectionStatus :=
  filter (fun s => isSelected s (form_get fd (item_id item)) = true) row_buttons.

(** What a status button shows (StatusButton.tsx 7-21): the filled
    colour when selected, the icon of its status and its label. *)
Inductive ButtonLook := Filled | Outlined.

#[export] Instance ButtonLook_eq_dec : EqDecision ButtonLook.
Proof. solve_decision. Defined.

Definition status_icon (st : InspectionStatus) : string :=
  match st with GOOD => "✓" | BAD => "✕" | ATTENTION => "!" | NIL => "Ø" end.

Record ButtonView := mkButtonView { bv_look : ButtonLook; bv_icon : string; bv_label : string }.

Definition status_button (label : string) (st : InspectionStatus) (current : Cell) : ButtonView :=
  mkButtonView (if isSelected st current then Filled else Outlined) (status_icon st) label.

(** ** The PDF download *)

Module Report.

Definition is_alnum (a : ascii) : bool :=
  let n := nat_of_ascii a in
  ((48 <=? n) && (n <=? 57)) || ((65 <=? n) && (n <=? 90)) || ((97 <=? n) && (n <=? 122)).

(** [title.replace(/[^a-zA-Z0-9]/g, '_')], character by character (the
    titles App.tsx passes are ASCII). *)
Definition sanitize (title : string) : string :=
  str_map (fun a => if is_alnum a then a else "_"%char) title.

(** [s.split('T')[0]] *)
Fixpoint before_T (s : string) : string :=
  match s with
  | EmptyString => EmptyString
  | String a s' => if Ascii.eqb a "T" then EmptyString else String a (before_T s')
  end.

(** The [filename] of [handleDownload]; [iso] is [new Date().toISOString()]. *)
Definition pdf_filename (title iso : string) : string :=
  sanitize title +:+ "_" +:+ before_T iso +:+ ".pdf".

(** The [title] App.tsx gives the modal (line 1103). *)
Definition report_title (m : ModuleId) : string :=
  match m with
  | MPetroleum => "Petroleum #1"
  | MPetroleumV2 => "Petroleum #2"
  | MAcid => "Acid Tanker"
  | _ => "General"
  end +:+ " Inspection Report".

(** [isGenerating], and whether an [html2pdf] promise is pending. *)
Record Modal := mkModal { isGenerating : bool; pdf_pending : bool }.

Inductive ModalEffect := ESavePdf (filename : string) | EPrint | EAlert.

Inductive ModalEvent :=
| MDownload (elementFound libLoaded : bool) (title iso : string)
| MSettled (ok : bool).

(** The download button is [disabled] while [isGenerating]; the element
    or the library may be missing; the promise resolves or rejects. *)
Definition modal_step (s : Modal) (e : ModalEvent) : Modal * list ModalEffect :=
  match e with
  | MDownload found lib title iso =>
      if isGenerating s then (s, [])
      else if negb found then (mkModal false (pdf_pending s), [])
      else if lib then (mkModal true true, [ESavePdf (pdf_filename title iso)])
      else (mkModal false (pdf_pending s), [EPrint])
  | MSettled ok =>
      if pdf_pending s then (mkModal false false, if ok then [] else [EAlert]) else (s, [])
  end.

Definition modal_run (s : Modal) (es : list ModalEvent) : Modal * list ModalEffect :=
  fold_left (fun '(s, fx) e => let '(s', fx') := modal_step s e in (s', fx ++ fx')) es (s, []).

End Report.

(** ** Lemmas *)

Import SignaturePad Impl.

Lemma pad_run_app toDataURL f p fd es1 es2 :
  pad_run toDataURL f p fd (es1 ++ es2) =
    let '(p', fd') := pad_run toDataURL f p fd es1 in pad_run toDataURL f p' fd' es2.
Proof.
  induction es1 as [|e es1 IH] in p, fd |- *; [done|]. simpl.
  destruct (pad_step toDataURL p e) as [p' o]. apply IH.
Qed.

(** The signature guard of [handleGoogleSheetSubmit], both ways. *)
Lemma submit_signed u nav fd rid net c :
  can_submit u = true -> js_truthy (form_get fd "inspectorSignature") = true -> script_url c <> "" ->
  accepted (OSubmit (fst (fst (handleGoogleSheetSubmit u nav fd rid net c)))) =
    [build_payload fd (active_module nav) rid].
Proof.
  intros Hu Hs Hc. apply String.eqb_neq in Hc. unfold handleGoogleSheetSubmit.
  rewrite Hu, Hs, Hc. simpl. by destruct (online c), net.
Qed.

Lemma submit_unsigned u nav fd rid net c :
  can_submit u = true -> js_truthy (form_get fd "inspectorSignature") = false ->
  fst (fst (handleGoogleSheetSubmit u nav fd rid net c)) = NeedSignature.
Proof. intros Hu Hs. unfold handleGoogleSheetSubmit. by rewrite Hu, Hs. Qed.

Lemma form_get_update f v fd : form_get (updateField f v fd) f = v.
Proof. unfold form_get, updateField. by rewrite lookup_insert_eq. Qed.

Section Pad.
Context (toDataURL : list Layer -> string).
Hypothesis data_url : forall ls, exists r, toDataURL ls = "data:image/png;base64," +:+ r.

Lemma data_url_truthy ls : js_truthy (CStr (toDataURL ls)) = true.
Proof. by destruct (data_url ls) as [r ->]. Qed.

(** "Clear Signature" empties the canvas and the field, whatever came
    before, and the form cannot be submitted until a stroke ends. *)
Theorem cleared_pad_blocks_submit u nav fd rid net c p es :
  can_submit u = true ->
  let '(p', fd') := pad_run toDataURL "inspectorSignature" p fd (es ++ [PClear]) in
  canvas p' = [] /\ form_get fd' "inspectorSignature" = CStr "" /\
  fst (fst (handleGoogleSheetSubmit u nav fd' rid net c)) = NeedSignature.
Proof.
  intros Hu. rewrite pad_run_app. destruct (pad_run _ _ p fd es) as [p1 fd1]. simpl.
  rewrite form_get_update. split_and!; [done|done|]. by apply submit_unsigned; [|rewrite form_get_update].
Qed.

(** A stroke saves the picture with its path. *)
Theorem stroke_saved p fd x y x' y' :
  let '(p', fd') := pad_run toDataURL "inspectorSignature" p fd [PDown x y; PMove x' y'; PUp] in
  canvas p' = canvas p ++ [LPath [(x, y); (x', y')]] /\
  form_get fd' "inspectorSignature" = CStr (toDataURL (canvas p ++ [LPath [(x, y); (x', y')]])).
Proof. simpl. by rewrite form_get_update. Qed.

End Pad.

(** The row of the pressed item highlights exactly the pressed status;
    the other rows keep theirs. *)
Theorem pressed_status_highlighted item st fd :
  highlighted item (status_click item st fd) = [st] /\
  forall j, item_id j <> item_id item -> highlighted j (status_click item st fd) = highlighted j fd.
Proof.
  unfold highlighted, status_click. split.
  - rewrite form_get_update. by destruct st.
  - intros j Hj. unfold form_get, updateField. by rewrite lookup_insert_ne by congruence.
Qed.

(** A new inspection highlights the preset status of every General item
    and none of the Petroleum, Petroleum V2 and Acid items, which are
    submitted as empty cells unless pressed. *)
Theorem fresh_checklist_presets now cu loaded :
  Forall (fun item => highlighted item (fresh_form now cu loaded) <> []) (items_of MGeneral) /\
  Forall (fun m => Forall (fun item => highlighted item (fresh_form now cu loaded) = [] /\
                                       row_value (fresh_form now cu loaded) "" (item_id item) = CStr "")
                          (items_of m))
         [MPetroleum; MPetroleumV2; MAcid].
Proof. apply (bool_decide_unpack _). vm_compute. exact I. Qed.

Import Report.

Lemma sanitize_safe s :
  String.length (sanitize s) = String.length s /\
  Forall (fun a => is_alnum a = true \/ a = "_"%char) (String.list_ascii_of_string (sanitize s)).
Proof.
  induction s as [|a s [IHl IHf]]; [done|]. unfold sanitize in *. simpl.
  split; [by rewrite IHl|]. constructor; [|done]. destruct (is_alnum a) eqn:E; [left|right]; done.
Qed.

Lemma before_T_date d rest :
  Forall (fun a => a <> "T"%char) (String.list_ascii_of_string d) -> before_T (d +:+ String "T" rest) = d.
Proof.
  induction d as [|a d IH]; [done|]. simpl. intros [Ha Hd]%Forall_cons.
  rewrite (proj2 (Ascii.eqb_neq a "T") Ha). by rewrite IH.
Qed.

(** The downloaded file is named after the title, with every character
    other than a letter or a digit replaced by [_], and the date part of
    the ISO time stamp. *)
Theorem pdf_filename_shape title d rest :
  Forall (fun a => a <> "T"%char) (String.list_ascii_of_string d) ->
  pdf_filename title (d +:+ String "T" rest) = sanitize title +:+ "_" +:+ d +:+ ".pdf" /\
  String.length (sanitize title) = String.length title /\
  Forall (fun a => is_alnum a = true \/ a = "_"%char) (String.list_ascii_of_string (sanitize title)).
Proof. intros Hd. unfold pdf_filename. rewrite before_T_date by done. split; [done|apply sanitize_safe]. Qed.

Lemma modal_step_inv s e :
  isGenerating s = pdf_pending s ->
  isGenerating (fst (modal_step s e)) = pdf_pending (fst (modal_step s e)).
Proof. destruct s as [[] []], e as [[] [] ? ?|[]]; simpl; congruence. Qed.

Lemma modal_fold_inv es s fx :
  isGenerating s = pdf_pending s ->
  let r := fold_left (fun '(s, fx) e => let '(s', fx') := modal_step s e in (s', fx ++ fx')) es (s, fx) in
  isGenerating (fst r) = pdf_pending (fst r).
Proof.
  induction es as [|e es IH] in s, fx |- *; [done|]. intros Hs. simpl.
  pose proof (modal_step_inv s e Hs) as He. destruct (modal_step s e) as [s' fx']. by apply IH.
Qed.

(** The spinner of the download button is on exactly while a PDF is being
    generated: the missing report element and the missing library turn it
    off at once (the latter falling back to printing), and the promise
    turns it off whether it resolves or rejects. *)
Theorem spinner_tracks_pdf es :
  isGenerating (fst (modal_run (mkModal false false) es)) =
    pdf_pending (fst (modal_run (mkModal false false) es)).
Proof. by apply modal_fold_inv. Qed.

(** ** Properties *)

Section Tap.
Context (toDataURL : list Layer -> string).
Hypothesis data_url : forall ls, exists r, toDataURL ls = "data:image/png;base64," +:+ r.

(** C34 (finding): a tap signs the inspection.  Pressing and releasing on
    the empty signature pad without moving paints nothing, yet
    [stopDrawing] saves [toDataURL()] of the blank canvas, a non-empty
    data URL: the "please sign" guard of [handleGoogleSheetSubmit] passes
    and the record is submitted with a blank signature. *)
Theorem tap_signs_inspection u nav fd rid net c x y :
  can_submit u = true -> script_url c <> "" ->
  let '(pad, fd') := pad_run toDataURL "inspectorSignature" (mount None) fd [PDown x y; PUp] in
  canvas pad = [] /\ form_get fd' "inspectorSignature" = CStr (toDataURL []) /\
  accepted (OSubmit (fst (fst (handleGoogleSheetSubmit u nav fd' rid net c)))) =
    [build_payload fd' (active_module nav) rid].
Proof.
  intros Hu Hc. cbn. rewrite form_get_update. split_and!; [done|done|].
  apply submit_signed; [done| |done]. rewrite form_get_update. apply data_url_truthy, data_url.
Qed.

End Tap.

(** A [toDataURL] of the right shape, for the example. *)
Definition png_of (ls : list Layer) : string := "data:image/png;base64," +:+ pretty (length ls).

Definition inspector_user : User := mkUser "insp" "Ina Spector" Inspector "".
(** The General form on its summary step. *)
Definition summary_nav : Nav := mkNav MGeneral Form Dashboard Dashboard Dashboard 6.
Definition connected : Client := mkClient [] [] false true "https://script.google.com/macros/s/x/exec" [].

Lemma tap_signs_inspection_witness :
  (forall ls, exists r, png_of ls = "data:image/png;base64," +:+ r) /\
  can_submit inspector_user = true /\ script_url connected <> "" /\
  let '(pad, fd') := pad_run png_of "inspectorSignature" (mount None) ∅ [PDown 10 10; PUp] in
  canvas pad = [] /\ form_get fd' "inspectorSignature" = CStr (png_of []) /\
  accepted (OSubmit (fst (fst (handleGoogleSheetSubmit inspector_user summary_nav fd' "r1" true connected)))) =
    [build_payload fd' (active_module summary_nav) "r1"].
Proof.
  assert (Hd : forall ls, exists r, png_of ls = "data:image/png;base64," +:+ r)
    by (intros ls; eexists; reflexivity).
  split; [exact Hd|]. split; [reflexivity|]. split; [discriminate|].
  exact (tap_signs_inspection png_of Hd inspector_user summary_nav ∅ "r1" true connected 10 10
           eq_refl ltac:(discriminate)).
Defined.

(** ** Where a stroke lands *)

(** A stroke is drawn under the pointer only when the layout draws the
    canvas exactly 400 pixels wide: [getCoordinates] does not scale the
    offset by [canvas.width / rect.width]. *)
Lemma stroke_under_pointer x y r p :
  SignaturePad.getCoordinates (SignaturePad.PMouse x y) r = Some p -> fst p <> 0%Z ->
  (SignaturePad.shown_x400 r (fst p) = SignaturePad.canvas_width * x <->
   SignaturePad.rect_width r = SignaturePad.canvas_width)%Z.
Proof.
  intros [= <-] Hx. simpl in *. unfold SignaturePad.shown_x400, SignaturePad.canvas_width in *.
  split; intros H; [|rewrite H; lia].
  apply (Z.mul_cancel_l _ _ (x - SignaturePad.rect_left r)); [done|]. lia.
Qed.

(** On a phone where the pad is 343 pixels wide, a pointer 300 pixels
    from its left edge paints bitmap column 300, seen 257 pixels from
    the edge; on a desktop where it is 600 wide, a pointer 450 pixels in
    paints nothing. *)
Example stroke_offset_on_scaled_pad :
  SignaturePad.getCoordinates (SignaturePad.PTouch [(316, 40)%Z]) (SignaturePad.mkRect 16 20 343) = Some (300, 20)%Z /\
  (SignaturePad.shown_x400 (SignaturePad.mkRect 16 20 343) 300 / SignaturePad.canvas_width = 16 + 257)%Z /\
  SignaturePad.getCoordinates (SignaturePad.PMouse 470 50) (SignaturePad.mkRect 20 30 600) = Some (450, 20)%Z /\
  SignaturePad.on_canvas 450 = false.
Proof. split_and!; reflexivity. Qed.

Lemma status_button_filled label st c : bv_look (status_button label st c) = Filled <-> isSelected st c = true.
Proof. unfold status_button. by destruct (isSelected st c). Qed.

(** The buttons drawn filled are the highlighted ones. *)
Lemma status_buttons_view item fd :
  filter (fun st => bv_look (status_button (status_value st) st (form_get fd (item_id item))) = Filled) row_buttons =
    highlighted item fd.
Proof. apply list_filter_iff. intros st. apply status_button_filled. Qed.
