(* ===== verification/ReportView.v ===== *)
(** * Viewing and printing a report

    App.tsx's report state and handlers: [selectedReportData] and
    [isReportModalOpen], [handleViewReport] (661-664), [handlePrint]
    (667-669), [handleQuickPrint] (672-678) with its half-second
    [setTimeout], the modal it opens (1099-1116: the title of the active
    module and the printable report of [selectedReportData || formData])
    and the hidden print-only copy (1118-1128) that [window.print]
    prints; the modal's own buttons are [Widgets.Report.modal_step],
    whose fallback without [html2pdf] prints as well.  The active module
    and the form are the App's at the moment of each event, passed with
    it. *)

From S2P Require Import Prelude Session Queue Widgets.
Import Report.

(** ** The state *)

(** The four printable report components. *)
Inductive Printable := PrGeneral | PrPetroleum | PrPetroleumV2 | PrAcid.

#[export] Instance Printable_eq_dec : EqDecision Printable.
Proof. solve_decision. Defined.

(** [activeModule === 'petroleum' ? ... : 'petroleum_v2' ? ... : 'acid'
    ? ... : General]. *)
Definition printable_of (m : ModuleId) : Printable :=
  match m with
  | MPetroleum => PrPetroleum
  | MPetroleumV2 => PrPetroleumV2
  | MAcid => PrAcid
  | _ => PrGeneral
  end.

Record RState := mkRState {
  rs_selected : option FormData;       (* [selectedReportData] *)
  rs_open : bool;                      (* [isReportModalOpen] *)
  rs_modal : Modal;                    (* the modal's [isGenerating] *)
  rs_print_timers : nat;               (* quick-print timers not yet fired *)
  rs_printed : list (Printable * FormData)  (* what [window.print] printed *)
}.

Inductive REvent :=
| RView (item : FormData)                          (* [onViewReport] / View Full Screen Preview *)
| RQuickPrint (item : FormData)                    (* [onPrint] of a dashboard *)
| RPrintTimer (m : ModuleId) (formData : FormData) (* the [setTimeout] of a quick print fires *)
| RPrint (m : ModuleId) (formData : FormData)      (* the modal's Print button *)
| RModal (e : ModalEvent) (m : ModuleId) (formData : FormData)  (* the modal's Download button *)
| RClose.                                          (* the modal's Close button *)

Definition rs_init : RState := mkRState None false (mkModal false false) 0 [].

(** The print-only copy: the printable of the active module, fed with
    [selectedReportData || formData]. *)
Definition print_copy (s : RState) (m : ModuleId) (formData : FormData) : Printable * FormData :=
  (printable_of m, default formData (rs_selected s)).

(** [window.print()] *)
Definition print_now (s : RState) (m : ModuleId) (formData : FormData) : RState :=
  mkRState (rs_selected s) (rs_open s) (rs_modal s) (rs_print_timers s)
           (rs_printed s ++ [print_copy s m formData]).

Definition is_print (f : ModalEffect) : bool := match f with EPrint => true | _ => false end.

Definition report_step (s : RState) (e : REvent) : RState :=
  match e with
  | RView item => mkRState (Some item) true (rs_modal s) (rs_print_timers s) (rs_printed s)
  | RQuickPrint item => mkRState (Some item) (rs_open s) (rs_modal s) (S (rs_print_timers s)) (rs_printed s)
  | RPrintTimer m fd =>
      match rs_print_timers s with
      | O => s
      | S k => print_now (mkRState (rs_selected s) (rs_open s) (rs_modal s) k (rs_printed s)) m fd
      end
  | RPrint m fd => if rs_open s then print_now s m fd else s
  | RModal me m fd =>
      if rs_open s then
        let '(md, fx) := modal_step (rs_modal s) me in
        let s' := mkRState (rs_selected s) (rs_open s) md (rs_print_timers s) (rs_printed s) in
        if existsb is_print fx then print_now s' m fd else s'
      else s
  | RClose => mkRState (rs_selected s) false (rs_modal s) (rs_print_timers s) (rs_printed s)
  end.

Definition report_run (s : RState) (es : list REvent) : RState := fold_left report_step es s.

(** ** What the modal shows *)

Record ModalView := mkModalView {
  mv_title : string;
  mv_download_label : string;
  mv_download_disabled : bool;
  mv_content : Printable * FormData
}.

(** The modal (ReportViewerModal.tsx 52-111 with App.tsx 1099-1116),
    shown while [isReportModalOpen]. *)
Definition modal_view (s : RState) (m : ModuleId) (formData : FormData) : option ModalView :=
  if rs_open s then
    Some (mkModalView (report_title m)
                      (if isGenerating (rs_modal s) then "Generating..." else "Download PDF")
                      (isGenerating (rs_modal s)) (print_copy s m formData))
  else None.

(** ** Properties *)

(** What the open modal shows is what its Print button, or its
    Download button falling back to print without [html2pdf], prints. *)
Lemma modal_prints_what_it_shows s m fd mv :
  modal_view s m fd = Some mv ->
  rs_printed (report_step s (RPrint m fd)) = rs_printed s ++ [mv_content mv] /\
  (isGenerating (rs_modal s) = false -> forall title iso,
     rs_printed (report_step s (RModal (MDownload true false title iso) m fd)) = rs_printed s ++ [mv_content mv]).
Proof.
  unfold modal_view. destruct (rs_open s) eqn:Ho; [|done]. intros [= <-]. simpl.
  rewrite Ho. split; [done|]. intros Hg title iso. unfold modal_step. rewrite Hg. done.
Qed.

(** A report opened from a dashboard shows, and prints, that record in
    the template of the active module, whatever the form holds. *)
Lemma viewed_record_printed s item m fd :
  let s' := report_run s [RView item; RPrint m fd] in
  modal_view s' m fd = Some (mkModalView (report_title m)
      (if isGenerating (rs_modal s) then "Generating..." else "Download PDF")
      (isGenerating (rs_modal s)) (printable_of m, item)) /\
  rs_printed s' = rs_printed s ++ [(printable_of m, item)].
Proof. done. Qed.

(** ** Instances *)

Definition record_a : FormData := {[ "truckNo" := CStr "AAA 111" ]}.
Definition record_b : FormData := {[ "truckNo" := CStr "BBB 222" ]}.

(** Two quick prints within half a second print the second record twice
    and never the first: each timer prints the selection of its own
    moment.  A quick print followed by a change of module prints the
    record on the new module's template. *)
Example quick_prints_share_selection :
  rs_printed (report_run rs_init [RQuickPrint record_a; RQuickPrint record_b;
                                  RPrintTimer MPetroleum ∅; RPrintTimer MPetroleum ∅]) =
    [(PrPetroleum, record_b); (PrPetroleum, record_b)] /\
  rs_printed (report_run rs_init [RQuickPrint record_a; RPrintTimer MAcid ∅]) = [(PrAcid, record_a)].
Proof. split; reflexivity. Qed.
