(* ===== verification/Views.v ===== *)
(** * The Sidebar

    [Module Sidebar]: Sidebar.tsx, the navigation menu.  Its items
    ([NavItem], lines 23-70, listed in 111-201) are the overview, the four
    inspection modules, four locked "Operations Suite" features and, for
    an administrator ([isAdmin], line 21), System Settings and User
    Management; a click selects the module through App.tsx's
    [onSelectModule] (1135-1141, [Session.select_module]) or opens the
    upgrade notice of a locked feature ([onLockedItemClick], 1142), and
    closes the menu.  The highlighted item, the close controls, the
    company name and the profile footer's initials and name; the
    rendered menu ([sidebar_view]): each item's look, the active bar and
    the lock icons, the backdrop, the logo and the role in the
    footer. *)

From S2P Require Import Prelude Session.

Module Sidebar.

(** The props of a [NavItem]. *)
Record NavItem := mkNavItem { nav_id : string; nav_label : string; nav_locked : bool }.

(** [isAdmin]: [user?.role && user.role.toLowerCase() === 'admin']. *)
Definition isAdmin (user : option User) : bool :=
  match user with
  | Some u => js_truthy (CStr (role_name (role u))) && String.eqb (to_lower (role_name (role u))) "admin"
  | None => false
  end.

(** The items in the order of the menu. *)
Definition nav_items (user : option User) : list NavItem :=
  [mkNavItem "overview" "Dashboard" false;
   mkNavItem "general" "General Inspection" false;
   mkNavItem "petroleum" "Petroleum Check #1" false;
   mkNavItem "petroleum_v2" "Petroleum Check #2" false;
   mkNavItem "acid" "Acid Tanker" false;
   mkNavItem "journey_plan" "Journey Management Plan" true;
   mkNavItem "driver_trip" "Driver Trip Report Card" true;
   mkNavItem "fuel_control" "Fuel Control Form" true;
   mkNavItem "gate_pass" "Advanced Gate Pass" true] ++
  (if isAdmin user
   then [mkNavItem "settings" "System Settings" false; mkNavItem "users" "User Management" false]
   else []).

(** The [activeModule] strings of the App component. *)
Definition module_of_id (id : string) : option ModuleId :=
  if String.eqb id "overview" then Some MOverview
  else if String.eqb id "general" then Some MGeneral
  else if String.eqb id "petroleum" then Some MPetroleum
  else if String.eqb id "petroleum_v2" then Some MPetroleumV2
  else if String.eqb id "acid" then Some MAcid
  else if String.eqb id "settings" then Some MSettings
  else if String.eqb id "users" then Some MUsers
  else None.

(** The part of the App component's state the menu changes. *)
Record MenuState := mkMenu { menu_nav : Nav; upgrade_feature : option string; sidebar_open : bool }.

(** A [NavItem]'s [onClick]: a locked item opens the upgrade notice,
    another selects its module; both close the menu. *)
Definition click (it : NavItem) (s : MenuState) : MenuState :=
  if nav_locked it then mkMenu (menu_nav s) (Some (nav_label it)) false
  else match module_of_id (nav_id it) with
       | Some m => mkMenu (select_module m (menu_nav s)) (upgrade_feature s) false
       | None => mkMenu (menu_nav s) (upgrade_feature s) false
       end.

(** The click followed by the route protection effect of App.tsx. *)
Definition click_protected (u : User) (it : NavItem) (s : MenuState) : MenuState :=
  let s' := click it s in mkMenu (route_protect u (menu_nav s')) (upgrade_feature s') (sidebar_open s').

(** The modules the menu lets a click select. *)
Definition offered (user : option User) : list ModuleId :=
  omap (fun it => if nav_locked it then None else module_of_id (nav_id it)) (nav_items user).

(** The [activeModule] string of a module. *)
Definition module_key (m : ModuleId) : string :=
  match m with
  | MOverview => "overview" | MGeneral => "general" | MPetroleum => "petroleum"
  | MPetroleumV2 => "petroleum_v2" | MAcid => "acid" | MSettings => "settings" | MUsers => "users"
  end.

(** [isActive = activeModule === id] (line 24): the highlighted item. *)
Definition isActive (m : ModuleId) (it : NavItem) : bool := String.eqb (module_key m) (nav_id it).

Definition active_items (user : option User) (m : ModuleId) : list NavItem :=
  filter (fun it => isActive m it = true) (nav_items user).

(** The backdrop and the close button: [onClose] (lines 78, 103). *)
Definition close_menu (s : MenuState) : MenuState := mkMenu (menu_nav s) (upgrade_feature s) false.

(** [settings.companyName || 'SafetyPro'] (line 96) *)
Definition brand_name (companyName : Cell) : string :=
  if js_truthy companyName then js_string companyName else "SafetyPro".

(** The profile footer: [user?.name ? user.name.substring(0, 2).toUpperCase() : 'OP']
    and [user?.name || 'User'] (lines 212, 216). *)
Definition avatar_initials (user : option User) : string :=
  match user with
  | Some u => if js_truthy (CStr (name u)) then to_upper (String.substring 0 2 (name u)) else "OP"
  | None => "OP"
  end.

Definition display_name (user : option User) : string :=
  match user with
  | Some u => if js_truthy (CStr (name u)) then name u else "User"
  | None => "User"
  end.

(** ** What the menu shows *)

(** The look of a [NavItem] (lines 36-42): the active item first, then
    a locked one, then the others. *)
Inductive ItemStyle := IActive | ILocked | IPlain.

#[export] Instance ItemStyle_eq_dec : EqDecision ItemStyle.
Proof. solve_decision. Defined.

Definition item_style (m : ModuleId) (it : NavItem) : ItemStyle :=
  if isActive m it then IActive else if nav_locked it then ILocked else IPlain.

(** A rendered [NavItem] (lines 26-68): its label and look, the cyan bar
    of the active item (45-47) and the lock icon of a locked one
    (58-60). *)
Record ItemView := mkItemView {
  iv_label : string;
  iv_style : ItemStyle;
  iv_indicator : bool;
  iv_lock : bool
}.

Definition item_view (m : ModuleId) (it : NavItem) : ItemView :=
  mkItemView (nav_label it) (item_style m it) (isActive m it) (nav_locked it).

(** [user?.role || 'User'] (line 219) *)
Definition display_role (user : option User) : string :=
  match user with
  | Some u => if js_truthy (CStr (role_name (role u))) then role_name (role u) else "User"
  | None => "User"
  end.

(** The whole menu (lines 72-248): the backdrop while open, the company
    logo (or its placeholder) and name, the items and the profile
    footer. *)
Record SidebarView := mkSidebarView {
  sv_backdrop : bool;
  sv_logo : option Cell;
  sv_brand : string;
  sv_items : list ItemView;
  sv_initials : string;
  sv_name : string;
  sv_role : string
}.

Definition sidebar_view (user : option User) (m : ModuleId) (isOpen : bool)
    (companyName companyLogo : Cell) : SidebarView :=
  mkSidebarView isOpen (if js_truthy companyLogo then Some companyLogo else None) (brand_name companyName)
                (map (item_view m) (nav_items user)) (avatar_initials user) (display_name user)
                (display_role user).

End Sidebar.


(** ** Lemmas *)

Lemma active_select m n : active_module (select_module m n) = m.
Proof. unfold select_module, set_mode_of_active. by destruct m. Qed.

(** Where a selection lands after route protection. *)
Lemma active_route_select u m n :
  active_module (route_protect u (select_module m n)) =
    if negb (is_admin u) && (bool_decide (m = MSettings) || bool_decide (m = MUsers))
    then MOverview else m.
Proof.
  unfold route_protect. rewrite !active_select.
  destruct (negb (is_admin u) && _); [done|apply active_select].
Qed.

(** The item of a module reads back as that module. *)
Lemma module_key_roundtrip m : Sidebar.module_of_id (Sidebar.module_key m) = Some m.
Proof. by destruct m. Qed.

Lemma str_map_length f s : String.length (str_map f s) = String.length s.
Proof. induction s as [|a s IH]; simpl; [done|by rewrite IH]. Qed.

Lemma substring_0_2_length s : String.length (String.substring 0 2 s) <= 2.
Proof. destruct s as [|a [|b [|c s]]]; simpl; lia. Qed.

(** The menu highlights exactly one item for every module it offers and
    none for another: the highlighted item is the one a click selected. *)
Theorem menu_highlights_active u m :
  (m ∈ Sidebar.offered (Some u) -> Sidebar.active_items (Some u) m <> [] /\
     length (Sidebar.active_items (Some u) m) = 1) /\
  (m ∉ Sidebar.offered (Some u) -> Sidebar.active_items (Some u) m = []).
Proof.
  destruct u as [un nm r pos]. destruct r, m; apply (bool_decide_unpack _); vm_compute; reflexivity.
Qed.

(** The avatar shows at most two characters. *)
Lemma avatar_initials_length u : String.length (Sidebar.avatar_initials u) <= 2.
Proof.
  destruct u as [u|]; simpl; [|lia]. case_match; [|simpl; lia].
  unfold to_upper. rewrite str_map_length. apply substring_0_2_length.
Qed.

(** ** Properties *)

(** C26: the menu offers exactly what route protection allows.  For
    every user and every module, a click in the Sidebar can select the
    module if and only if the route protection effect leaves the user on
    it after the selection: the administrators' menu adds Settings and
    Users, and no offered entry bounces back to the overview. *)
Theorem sidebar_offers_allowed_modules u m n :
  m ∈ Sidebar.offered (Some u) <-> active_module (route_protect u (select_module m n)) = m.
Proof.
  rewrite active_route_select. destruct u as [un nm r pos].
  destruct r, m; apply (bool_decide_unpack _); vm_compute; reflexivity.
Qed.

(** A locked feature is never drawn as the active item: no module's
    [activeModule] string is one of their ids. *)
Lemma locked_items_never_active user m it :
  it ∈ Sidebar.nav_items user -> Sidebar.nav_locked it = true -> Sidebar.item_style m it = Sidebar.ILocked.
Proof.
  intros Hin Hl. unfold Sidebar.item_style. rewrite Hl.
  unfold Sidebar.nav_items in Hin. apply elem_of_app in Hin as [Hin|Hin].
  - repeat (apply elem_of_cons in Hin as [->|Hin]; [by destruct m|]). by apply elem_of_nil in Hin.
  - destruct (Sidebar.isAdmin user); [|by apply elem_of_nil in Hin].
    repeat (apply elem_of_cons in Hin as [->|Hin]; [done|]). by apply elem_of_nil in Hin.
Qed.
