(* ===== verification/Clients.v ===== *)
(** * The clients of the user actions: login screen and user management

    LoginView.tsx [handleSubmit] (lines 33-96) and the handlers of
    UserManagementView.tsx ([fetchUsers] 47-65, [handleDelete] 67-88,
    [handleEdit] 90-101, [handleSubmit] 103-148), and the session changes
    of App.tsx ([handleLogin] 499-503, [handleLogout] 505-510).  Each POST
    is answered by the backend model ([Backend.doPost]) on the current
    spreadsheet, or fails when the network does ([net = false]: [fetch]
    or [response.json()] throws).  The session user is [Session.User]. *)

From S2P Require Import Prelude Session Queue Backend Records.

(** ** Responses as the client reads them *)

(** [result.status === 'success'] *)
Definition success (r : Resp) : bool := match r with RErr _ _ => false | _ => true end.

(** [result.message || dflt] *)
Definition message_or (r : Resp) (dflt : string) : string :=
  match r with RErr _ msg => if String.eqb msg "" then dflt else msg | _ => dflt end.

(** One POST: the backend's answer and its new spreadsheet, or a
    connection failure. *)
Definition post_json (store : Cell -> Cell) (now : string) (net : bool) (ss : Spreadsheet)
    (body : Body) : Spreadsheet * option Resp :=
  if net then let '(ss', r) := doPost store now ss body in (ss', Some r) else (ss, None).

(** ** Login screen *)

Record LState := mkLState {
  lv_username : string;
  lv_password : string;
  lv_registering : bool;
  lv_full_name : string;
  lv_position : string;
  lv_error : string;
  lv_show_config : bool
}.

Definition lv_set_error (e : string) (s : LState) : LState :=
  mkLState (lv_username s) (lv_password s) (lv_registering s) (lv_full_name s) (lv_position s) e
           (lv_show_config s).

(** The request of the form: registration of an [Admin] or login. *)
Definition login_request (s : LState) : Body :=
  if lv_registering s then
    mkBody (CStr "register_user") CUndef None None (CStr (lv_username s)) (CStr (lv_password s))
           (CStr (lv_full_name s)) (CStr "Admin") (CStr (lv_position s)) CUndef CUndef CUndef
           CUndef CUndef
  else
    mkBody (CStr "login") CUndef None None (CStr (lv_username s)) (CStr (lv_password s))
           CUndef CUndef CUndef CUndef CUndef CUndef CUndef CUndef.

(** [normalizedUser]: the role normalised, the position defaulted. *)
Definition session_user (u : UserRow) : User :=
  mkUser (js_string (ur_username u)) (js_string (ur_name u))
         (normalize_role (CStr (ur_role u)))
         (if js_truthy (ur_position u) then js_string (ur_position u) else "").

Definition CONNECTION_FAILED : string :=
  "Connection failed. Please check your internet or the Script URL.".

(** LoginView [handleSubmit]: the new spreadsheet, the screen state and
    the user passed to [onLogin], if any.  A success without a user object
    to a login makes [rawUser.role] throw, which the [catch] reports as a
    connection failure. *)
Definition lv_handleSubmit (store : Cell -> Cell) (now : string) (url : string) (net : bool)
    (ss : Spreadsheet) (s : LState) : Spreadsheet * LState * option User :=
  if String.eqb url "" then
    (ss, mkLState (lv_username s) (lv_password s) (lv_registering s) (lv_full_name s)
                  (lv_position s) "System Database URL is missing. Please configure it." true, None)
  else
    let s := lv_set_error "" s in
    match post_json store now net ss (login_request s) with
    | (ss', None) => (ss', lv_set_error CONNECTION_FAILED s, None)
    | (ss', Some r) =>
        if success r then
          if lv_registering s then
            (ss', mkLState (lv_username s) "" false "" ""
                           "Admin account created successfully! Please log in." (lv_show_config s),
             None)
          else match r with
               | RLogin u => (ss', s, Some (session_user u))
               | _ => (ss', lv_set_error CONNECTION_FAILED s, None)
               end
        else match r with
             | RErr "NO_USERS" _ =>
                 (ss', mkLState (lv_username s) (lv_password s) true (lv_full_name s) (lv_position s)
                                "Welcome! No users found in database. Please create the first Admin account."
                                (lv_show_config s), None)
             | _ => (ss', lv_set_error (message_or r "Authentication failed.") s, None)
             end
  end.

(** ** The session (App.tsx) *)

Record Session := mkSession { current_user : option User; ls_user : option User; nav : Nav }.

(** [handleLogin] *)
Definition app_handleLogin (u : User) (s : Session) : Session := mkSession (Some u) (Some u) (nav s).

(** [handleLogout]: back to the overview, the General module on its
    dashboard. *)
Definition app_handleLogout (s : Session) : Session :=
  let n := nav s in
  mkSession None None
            (mkNav MOverview Dashboard (petroleum_mode n) (petroleum_v2_mode n) (acid_mode n)
                   (current_section n)).

(** The state a start begins with (App.tsx 102, 128-132). *)
Definition initial_nav : Nav := mkNav MOverview Dashboard Dashboard Dashboard Dashboard 0.

(** The role normalisation of the mount effect (App.tsx 176-181), a copy
    of LoginView's applied to the stored user. *)
Definition restore_role (raw : Cell) : Role :=
  let r := if js_truthy raw then to_lower (trim (js_string raw)) else "" in
  if String.eqb r "admin" then Admin
  else if String.eqb r "operations" then Operations
  else if String.eqb r "maintenance" then Maintenance
  else if String.eqb r "other" then Other
  else Inspector.

(** [JSON.parse(localStorage.getItem('safetyCheck_user'))] with the role
    normalised again; the stored JSON holds the role's name. *)
Definition restore_user (u : User) : User :=
  mkUser (username u) (name u) (restore_role (CStr (role_name (role u)))) (position u).

(** A start of the client (the mount effect, App.tsx 170-185): React
    state is fresh, the session is read back from storage. *)
Definition app_restart (s : Session) : Session :=
  mkSession (option_map restore_user (ls_user s)) (ls_user s) initial_nav.

(** ** User management *)

Record UForm := mkUForm {
  f_name : string;
  f_username : string;
  f_password : string;
  f_role : string;
  f_position : string
}.

Definition empty_form : UForm := mkUForm "" "" "" "Inspector" "".

Inductive UMView := UList | UFormView.

Record UMState := mkUM {
  um_users : list UserRow;
  um_form : UForm;
  um_editing : bool;
  um_original : string;
  um_view : UMView
}.

Definition action_body (a : string) : Body :=
  mkBody (CStr a) CUndef None None CUndef CUndef CUndef CUndef CUndef CUndef CUndef CUndef CUndef
         CUndef.

(** [fetch(appScriptUrl, ...)] with an empty URL requests the page itself,
    whose body is not JSON: a connection failure. *)
Definition um_post (store : Cell -> Cell) (now url : string) (net : bool) (ss : Spreadsheet)
    (body : Body) : Spreadsheet * option Resp :=
  post_json store now (net && negb (String.eqb url "")) ss body.

(** [fetchUsers] *)
Definition fetchUsers (store : Cell -> Cell) (now url : string) (net : bool) (ss : Spreadsheet)
    (st : UMState) : Spreadsheet * UMState :=
  if String.eqb url "" then (ss, st)
  else match um_post store now url net ss (action_body "get_users") with
       | (ss', Some (RUsers us)) =>
           (ss', mkUM us (um_form st) (um_editing st) (um_original st) (um_view st))
       | (ss', _) => (ss', st)
       end.

(** [handleDelete]; [confirmed] is the answer to [window.confirm]; the
    row's [username] goes into the JSON body as the value it is. *)
Definition handleDelete (store : Cell -> Cell) (now url : string) (net : bool) (confirmed : bool)
    (username : Cell) (ss : Spreadsheet) (st : UMState) : Spreadsheet * UMState :=
  if negb confirmed then (ss, st)
  else
    let body := mkBody (CStr "delete_user") CUndef None None username CUndef CUndef CUndef
                       CUndef CUndef CUndef CUndef CUndef CUndef in
    match um_post store now url net ss body with
    | (ss', Some r) => if success r then fetchUsers store now url net ss' st else (ss', st)
    | (ss', None) => (ss', st)
    end.

(** [handleEdit] with a user of the list. *)
Definition handleEdit (u : UserRow) (st : UMState) : UMState :=
  mkUM (um_users st)
       (mkUForm (js_string (ur_name u)) (js_string (ur_username u)) "" (ur_role u)
                (if js_truthy (ur_position u) then js_string (ur_position u) else ""))
       true (js_string (ur_username u)) UFormView.

(** The request of the user form: [{ action, ...formData }] and, when
    editing, [originalUsername]. *)
Definition user_request (st : UMState) : Body :=
  let f := um_form st in
  mkBody (CStr (if um_editing st then "update_user" else "register_user")) CUndef None None
         (CStr (f_username f)) (CStr (f_password f)) (CStr (f_name f)) (CStr (f_role f))
         (CStr (f_position f)) (if um_editing st then CStr (um_original st) else CUndef)
         CUndef CUndef CUndef CUndef.

(** UserManagementView [handleSubmit] *)
Definition um_handleSubmit (store : Cell -> Cell) (now url : string) (net : bool)
    (ss : Spreadsheet) (st : UMState) : Spreadsheet * UMState :=
  let f := um_form st in
  if String.eqb (f_name f) "" || String.eqb (f_username f) "" then (ss, st)
  else if negb (um_editing st) && String.eqb (f_password f) "" then (ss, st)
  else match um_post store now url net ss (user_request st) with
       | (ss', Some r) =>
           if success r
           then fetchUsers store now url net ss' (mkUM (um_users st) empty_form false (um_original st) UList)
           else (ss', st)
       | (ss', None) => (ss', st)
       end.

(** What the user types between two submissions: the registration
    fields, and the password again after a registration cleared it. *)
Definition lv_with_registration (full pos : string) (s : LState) : LState :=
  mkLState (lv_username s) (lv_password s) (lv_registering s) full pos (lv_error s) (lv_show_config s).

Definition lv_with_password (p : string) (s : LState) : LState :=
  mkLState (lv_username s) p (lv_registering s) (lv_full_name s) (lv_position s) (lv_error s)
           (lv_show_config s).

(** ** Lemmas *)

Lemma doPost_login store now ss body :
  b_action body = CStr "login" -> doPost store now ss body = handleLogin store now ss body.
Proof. intros Ha. unfold doPost. by rewrite Ha. Qed.

Lemma doPost_register store now ss body :
  b_action body = CStr "register_user" ->
  doPost store now ss body = handleRegisterUser store now ss body.
Proof. intros Ha. unfold doPost. by rewrite Ha. Qed.

Lemma login_no_users store now ss body :
  ss !! "Users" = None ->
  handleLogin store now ss body = (ss, RErr "NO_USERS" "No users found in database.").
Proof. intros H. unfold handleLogin. by rewrite H. Qed.

(** On a workbook without [Users], a registration succeeds when the
    validation lists can be updated. *)
Lemma register_first store now ss body :
  ss !! "Users" = None -> validation_ok ss ->
  snd (handleRegisterUser store now ss body) = ROk "User created.".
Proof.
  intros H. apply (register_users_tab store now ss body). unfold ensure_sheet. by rewrite H.
Qed.

Lemma users_unique_none ss : ss !! "Users" = None -> users_unique ss.
Proof. intros H. unfold users_unique. by rewrite H. Qed.

(** The three outcomes of the login screen the first start goes
    through. *)
Lemma lv_submit_no_users store now url ss s :
  url <> "" -> ss !! "Users" = None -> lv_registering s = false ->
  lv_handleSubmit store now url true ss s =
    (ss, mkLState (lv_username s) (lv_password s) true (lv_full_name s) (lv_position s)
                  "Welcome! No users found in database. Please create the first Admin account."
                  (lv_show_config s), None).
Proof.
  intros Hu Hn Hr. apply String.eqb_neq in Hu. unfold lv_handleSubmit, post_json.
  rewrite Hu. unfold login_request. cbn [lv_set_error lv_registering]. rewrite Hr.
  rewrite doPost_login, login_no_users by done. reflexivity.
Qed.

Lemma lv_submit_registered store now url ss s :
  url <> "" -> lv_registering s = true ->
  snd (handleRegisterUser store now ss (login_request s)) = ROk "User created." ->
  lv_handleSubmit store now url true ss s =
    (fst (handleRegisterUser store now ss (login_request s)),
     mkLState (lv_username s) "" false "" "" "Admin account created successfully! Please log in."
              (lv_show_config s), None).
Proof.
  intros Hu Hr Hok. apply String.eqb_neq in Hu. unfold lv_handleSubmit, post_json.
  rewrite Hu. replace (login_request (lv_set_error "" s)) with (login_request s) by done.
  rewrite doPost_register by (unfold login_request; by rewrite Hr).
  destruct (handleRegisterUser store now ss (login_request s)) as [ss' r]. simpl in Hok |- *.
  subst r. simpl. by rewrite Hr.
Qed.

Lemma lv_submit_logged_in store now url ss s ss' u :
  url <> "" -> lv_registering s = false ->
  handleLogin store now ss (login_request s) = (ss', RLogin u) ->
  lv_handleSubmit store now url true ss s = (ss', lv_set_error "" s, Some (session_user u)).
Proof.
  intros Hu Hr Hl. apply String.eqb_neq in Hu. unfold lv_handleSubmit, post_json.
  rewrite Hu. replace (login_request (lv_set_error "" s)) with (login_request s) by done.
  rewrite doPost_login by (unfold login_request; by rewrite Hr). rewrite Hl. simpl. by rewrite Hr.
Qed.

Lemma restore_role_name r : restore_role (CStr (role_name r)) = r.
Proof. by destruct r. Qed.

(** C22: a session survives a restart.  The user a login response opens
    a session for has the role named by the response whatever its case
    and surrounding white space; once logged in, closing and reopening the
    client restores exactly that user, on the overview, and after a
    logout a restart finds no session. *)
Theorem session_survives_restart row s :
  role (session_user row) = normalize_role (CStr (to_lower (trim (ur_role row)))) /\
  current_user (app_restart (app_handleLogin (session_user row) s)) = Some (session_user row) /\
  active_module (nav (app_restart (app_handleLogin (session_user row) s))) = MOverview /\
  current_user (app_restart (app_handleLogout (app_handleLogin (session_user row) s))) = None.
Proof.
  split_and!; [|simpl; unfold restore_user; by rewrite restore_role_name; destruct (session_user row)
              |done|done].
  unfold session_user. simpl. rewrite !normalize_role_key, !role_key_str.
  autorewrite with juba_rw. reflexivity.
Qed.

(** A login from the screen hands [onLogin] a user exactly when the
    backend's login returns one, and then that user. *)
Lemma lv_submit_login store now url ss s :
  url <> "" -> lv_registering s = false ->
  (forall user, snd (lv_handleSubmit store now url true ss s) = Some user ->
     exists u, snd (handleLogin store now ss (login_request s)) = RLogin u /\ user = session_user u) /\
  (forall u, snd (handleLogin store now ss (login_request s)) = RLogin u ->
     snd (lv_handleSubmit store now url true ss s) = Some (session_user u)).
Proof.
  intros Hu Hr. apply String.eqb_neq in Hu. unfold lv_handleSubmit, post_json.
  rewrite Hu. replace (login_request (lv_set_error "" s)) with (login_request s) by done.
  rewrite doPost_login by (unfold login_request; by rewrite Hr).
  destruct (handleLogin store now ss (login_request s)) as [ss' r]. cbn [snd lv_registering lv_set_error].
  rewrite Hr. split.
  - intros user. destruct r; simpl; try (repeat case_match; discriminate).
    intros [= <-]. eauto.
  - intros u ->. reflexivity.
Qed.

(** C33 (finding): the first administrator.  On a workbook without a
    [Users] tab (and without an empty [Validation_Data] tab), a login
    attempt switches the screen to registration and submitting it creates
    an [Admin] account.  Logging in with the same name and password
    (typed again, since the form clears it) then opens a session exactly
    when the sheet keeps the name and the password as typed, and the
    session has the [Admin] role.  Sheets stores a password of digits as
    its number, so a first administrator who chose ["0000"] is locked out
    of the new installation ([first_admin_bootstrap_witness]). *)
Theorem first_admin_bootstrap store now url ss u p full pos :
  store (CStr "Admin") = CStr "Admin" -> url <> "" -> ss !! "Users" = None -> validation_ok ss ->
  p <> "" ->
  let r1 := lv_handleSubmit store now url true ss (mkLState u p false "" "" "" false) in
  snd r1 = None /\ lv_registering (snd (fst r1)) = true /\
  let r2 := lv_handleSubmit store now url true (fst (fst r1))
                            (lv_with_registration full pos (snd (fst r1))) in
  snd r2 = None /\ lv_registering (snd (fst r2)) = false /\
  let r3 := lv_handleSubmit store now url true (fst (fst r2)) (lv_with_password p (snd (fst r2))) in
  ((exists user, snd r3 = Some user) <->
     norm_name (store (CStr (norm_field (CStr u)))) = norm_field (CStr u) /\ js_string (store (CStr p)) = p) /\
  (forall user, snd r3 = Some user -> role user = Admin).
Proof.
  intros Hadm Hurl Hnone Hv Hp. cbv zeta.
  rewrite lv_submit_no_users by done. simpl. split; [done|]. split; [done|].
  set (s1 := lv_with_registration full pos _).
  assert (Hok : snd (handleRegisterUser store now ss (login_request s1)) = ROk "User created.")
    by (by apply register_first).
  rewrite lv_submit_registered; [|done|done|exact Hok]. simpl. split; [done|]. split; [done|].
  set (s3 := lv_with_password p _).
  destruct (lv_submit_login store now url (fst (handleRegisterUser store now ss (login_request s1))) s3
              Hurl eq_refl) as [Hsome Hlog].
  destruct (login_on_registered store now now ss (login_request s1) (login_request s3)
              (users_unique_none ss Hnone) Hok eq_refl) as [Hiff Hrole].
  cbv zeta in Hiff, Hrole.
  cbn [registered_row map cell_at lookup list_lookup default login_request lv_registering s1 s3
       lv_with_registration lv_with_password lv_username lv_password b_username b_password b_role
       js_truthy js_string] in Hiff, Hrole.
  apply String.eqb_neq in Hp as Hp'. rewrite Hp' in Hiff. simpl in Hiff.
  split.
  - split.
    + intros [user Hu]. apply Hsome in Hu as (uu & Hl & _). apply Hiff. eauto.
    + intros H. apply Hiff in H as [uu Hl]. eexists. by apply Hlog.
  - intros user Hu. apply Hsome in Hu as (uu & Hl & ->). apply Hrole in Hl as [_ Hr].
    unfold session_user. simpl. rewrite Hr.
    change (trim "Admin") with "Admin". unfold id. rewrite Hadm. reflexivity.
Qed.

Lemma doPost_delete store now ss body :
  b_action body = CStr "delete_user" -> doPost store now ss body = handleDeleteUser ss body.
Proof. intros Ha. unfold doPost. by rewrite Ha. Qed.

Lemma doPost_get_users store now ss :
  doPost store now ss (action_body "get_users") = (ss, handleGetUsers ss).
Proof. reflexivity. Qed.

(** When usernames are unique, a confirmed delete that the backend
    accepts leaves the refreshed user list without any user of that
    (normalised) name. *)
Theorem delete_removes_user store now url ss st name :
  users_unique ss -> users_rows_ok ss -> url <> "" ->
  snd (handleDeleteUser ss (delete_body name)) = ROk "User deleted." ->
  forall u, u ∈ um_users (snd (handleDelete store now url true true (CStr name) ss st)) ->
            norm_name (ur_username u) <> norm_field (CStr name).
Proof.
  intros Hu Hrows Hurl Hok.
  destruct (delete_user_gone ss (delete_body name) Hu Hrows Hok) as (us & Hget & Hgone).
  apply String.eqb_neq in Hurl.
  unfold handleDelete, um_post, post_json. rewrite Hurl. simpl.
  fold (delete_body name). rewrite doPost_delete by done.
  destruct (handleDeleteUser ss (delete_body name)) as [ss' r] eqn:Hd. simpl in Hok, Hget. subst r.
  simpl. unfold fetchUsers, um_post, post_json. rewrite Hurl. cbn [negb andb].
  rewrite doPost_get_users, Hget. simpl. apply Hgone.
Qed.

(** ** A rename, then a delete *)

Section UserScenario.

Definition um_listed : UMState :=
  mkUM [user_row_of (user_cells "alice" "pw1" "Alice" "Inspector");
        user_row_of (user_cells "bob" "pw2" "Bob" "Operations")] empty_form false "" UList.

Definition um_rename_alice : UMState :=
  let st := handleEdit (user_row_of (user_cells "alice" "pw1" "Alice" "Inspector")) um_listed in
  mkUM (um_users st) (mkUForm "Alice" "Bob" "" "Inspector" "") true (um_original st) UFormView.

(** A renamed user cannot be deleted away, on one workbook.  Editing
    [alice] in the user form and saving her as [Bob] succeeds although
    [bob] exists ([Backend.update_user_duplicates_username]); the list then shows two [bob]s, and deleting
    [bob] removes only the first row, so a [bob] is still listed. *)
Example renamed_duplicate_survives_delete :
  let '(ss1, st1) := um_handleSubmit store_id "t" script_url0 true ss_users um_rename_alice in
  map (fun u => ur_username u) (um_users st1) = [CStr "bob"; CStr "bob"] /\
  let '(ss2, st2) := handleDelete store_id "t" script_url0 true true (CStr "bob") ss1 st1 in
  map (fun u => ur_username u) (um_users st2) = [CStr "bob"].
Proof. vm_compute. split; reflexivity. Qed.

End UserScenario.

(** C39 (finding): an emptied [Validation_Data] tab turns a successful
    registration into an error.  On any workbook whose [Validation_Data]
    tab has no column, submitting the registration form with a full name
    and a name no user has appends the account to [Users]; then
    [updateValidationSingle] raises (a range of zero columns, outside any
    [try] of the user handlers), [doPost] answers the exception, and the
    screen shows it and stays on the registration form, although the
    account exists ([empty_validation_tab_scenario]: a retry is refused
    as a duplicate and a login opens the session). *)
Theorem register_with_empty_validation_tab store now url ss vd s :
  url <> "" -> lv_registering s = true ->
  ss !! "Validation_Data" = Some vd -> last_column vd = 0%nat -> trim (lv_full_name s) <> "" ->
  norm_field (CStr (lv_username s)) ∉ user_names (ensure_sheet store "Users" USERS_HEADER ss) ->
  let r1 := lv_handleSubmit store now url true ss s in
  snd r1 = None /\ lv_error (snd (fst r1)) = RANGE_ERROR /\ lv_registering (snd (fst r1)) = true /\
  fst (fst r1) !! "Users" =
    Some (ensure_sheet store "Users" USERS_HEADER ss ++ [registered_row store now (login_request s)]).
Proof.
  intros Hu Hr Hvd Hc Ht Hfree. cbv zeta. apply String.eqb_neq in Hu.
  assert (Hne : lv_full_name s <> "") by (intros He; apply Ht; by rewrite He).
  unfold lv_handleSubmit, post_json. rewrite Hu.
  replace (login_request (lv_set_error "" s)) with (login_request s) by done.
  rewrite doPost_register by (unfold login_request; by rewrite Hr).
  rewrite (register_empty_validation store now ss (login_request s) vd Hvd Hc).
  - simpl. rewrite Hr. cbn [message_or]. unfold RANGE_ERROR at 1. simpl.
    split_and!; [done|done|done|by rewrite lookup_insert_eq].
  - unfold login_request. rewrite Hr. simpl. apply String.eqb_neq in Hne. by rewrite Hne.
  - unfold login_request. rewrite Hr. exact Ht.
  - unfold login_request. rewrite Hr. exact Hfree.
Qed.

(** An emptied [Validation_Data] tab, on one workbook: a successful
    registration into an error.  On a workbook whose [Validation_Data]
    tab exists without a cell, registering the first administrator with a
    full name appends the account to [Users]; then [updateValidationSingle]
    raises (a range of zero columns, outside any [try] of the user
    handlers) and [doPost] answers an error.  The screen shows the
    exception and stays on the registration form, submitting it again is
    refused with "Username already exists.", and yet logging in with the
    account opens an [Admin] session. *)
Example empty_validation_tab_scenario :
  let ss := {["Validation_Data" := []]} : Spreadsheet in
  let s := mkLState "ann" "pw1" true "Ann Banda" "Manager" "" false in
  let r1 := lv_handleSubmit store_id "t" script_url0 true ss s in
  let r2 := lv_handleSubmit store_id "t" script_url0 true (fst (fst r1)) (snd (fst r1)) in
  let r3 := lv_handleSubmit store_id "t" script_url0 true (fst (fst r2))
                            (mkLState "ann" "pw1" false "" "" "" false) in
  snd r1 = None /\ lv_error (snd (fst r1)) = RANGE_ERROR /\ lv_registering (snd (fst r1)) = true /\
  lv_error (snd (fst r2)) = "Username already exists." /\
  exists u, snd r3 = Some u /\ role u = Admin.
Proof.
  cbv zeta. split_and!; [vm_compute; reflexivity..|].
  eexists. split; vm_compute; reflexivity.
Qed.

(** ** Instances *)

Section ClientWitnesses.

(** With Sheets' conversion of digit strings, a first administrator who
    chose the password ["0000"] registers but never logs in. *)
Lemma first_admin_bootstrap_witness :
  sheets_digits_store (CStr "Admin") = CStr "Admin" /\ script_url0 <> "" /\
  (∅ : Spreadsheet) !! "Users" = None /\ validation_ok ∅ /\ "0000" <> "" /\
  let r1 := lv_handleSubmit sheets_digits_store "t" script_url0 true ∅
                            (mkLState "Ann" "0000" false "" "" "" false) in
  let r2 := lv_handleSubmit sheets_digits_store "t" script_url0 true (fst (fst r1))
                            (lv_with_registration "Ann Banda" "Manager" (snd (fst r1))) in
  let r3 := lv_handleSubmit sheets_digits_store "t" script_url0 true (fst (fst r2))
                            (lv_with_password "0000" (snd (fst r2))) in
  ~ exists user, snd r3 = Some user.
Proof.
  assert (Hv : validation_ok ∅) by (intros vd H; vm_compute in H; discriminate H).
  assert (Ha : sheets_digits_store (CStr "Admin") = CStr "Admin") by reflexivity.
  assert (Hu : script_url0 <> "") by discriminate.
  assert (Hp : "0000" <> "") by discriminate.
  split_and!; [exact Ha|exact Hu|reflexivity|exact Hv|exact Hp|].
  cbv zeta. intros Hl.
  pose proof (first_admin_bootstrap sheets_digits_store "t" script_url0 ∅ "Ann" "0000" "Ann Banda" "Manager"
                Ha Hu eq_refl Hv Hp) as H.
  cbv zeta in H. destruct H as (_ & _ & _ & _ & Hiff & _).
  apply Hiff in Hl as [_ Hpw]. vm_compute in Hpw. discriminate.
Defined.

Lemma register_with_empty_validation_tab_witness :
  let ss := {["Validation_Data" := []]} : Spreadsheet in
  let s := mkLState "ann" "0457" true "Ann Banda" "Manager" "" false in
  let r1 := lv_handleSubmit sheets_digits_store "t" script_url0 true ss s in
  snd r1 = None /\ lv_error (snd (fst r1)) = RANGE_ERROR /\ lv_registering (snd (fst r1)) = true /\
  fst (fst r1) !! "Users" =
    Some (ensure_sheet sheets_digits_store "Users" USERS_HEADER ss ++
          [registered_row sheets_digits_store "t" (login_request s)]).
Proof.
  cbv zeta. apply (register_with_empty_validation_tab _ _ _ _ []).
  - discriminate.
  - reflexivity.
  - reflexivity.
  - reflexivity.
  - vm_compute. discriminate.
  - apply (bool_decide_unpack _). vm_compute. reflexivity.
Defined.

Lemma delete_removes_user_witness :
  users_unique ss_users /\ users_rows_ok ss_users /\ script_url0 <> "" /\
  snd (handleDeleteUser ss_users (delete_body "bob")) = ROk "User deleted." /\
  forall u, u ∈ um_users (snd (handleDelete store_id "t" script_url0 true true (CStr "bob") ss_users um_listed)) ->
            norm_name (ur_username u) <> norm_field (CStr "bob").
Proof.
  assert (Hu : users_unique ss_users) by (apply (bool_decide_unpack _); vm_compute; reflexivity).
  assert (Hr : users_rows_ok ss_users)
    by (unfold users_rows_ok; apply (bool_decide_unpack _); vm_compute; reflexivity).
  split; [exact Hu|]. split; [exact Hr|]. split; [discriminate|]. split; [vm_compute; reflexivity|].
  apply delete_removes_user; [exact Hu|exact Hr|discriminate|vm_compute; reflexivity].
Defined.

End ClientWitnesses.
