(* ===== verification/LoginScreen.v ===== *)
(** * The login screen as a whole, and where the script URL comes from

    App.tsx 147-151: the initial [appScriptUrl]
    ([Queue.initial_script_url]) is the built-in
    [PRE_CONFIGURED_SCRIPT_URL] (line 41) when it is not empty, else the
    URL stored under [safetyCheck_scriptUrl].  LoginView.tsx: the screen's
    inputs and buttons (lines 108-111, 138-247, 254-298) around [handleSubmit]
    ([Clients.lv_handleSubmit]): the username and password inputs, the
    registration inputs shown while registering, "Cancel Registration",
    the "System Configuration" toggle shown only while the URL is empty,
    the URL input of the configuration panel, the script modal, and the
    undocumented double-click on the logo that toggles the configuration
    panel whatever the URL (line 110).  A run of
    the screen is a sequence of these events; its outputs are the users
    [onLogin] receives. *)

From S2P Require Import Prelude Session Queue Backend Clients.

(** The screen: LoginView's state, App's [appScriptUrl] it edits, the
    script modal, and the workbook behind the URL. *)
Record Screen := mkScreen {
  sc_state : LState;
  sc_url : string;
  sc_script_modal : bool;
  sc_sheet : Spreadsheet
}.

(** Mounting LoginView: empty fields, [showConfig = !appScriptUrl]. *)
Definition mount_screen (url : string) (ss : Spreadsheet) : Screen :=
  mkScreen (mkLState "" "" false "" "" "" (String.eqb url "")) url false ss.

Inductive LEvent :=
| LUsername (v : string)
| LPassword (v : string)
| LFullName (v : string)
| LPosition (v : string)
| LCancelRegistration
| LToggleConfig
| LEditUrl (v : string)
| LOpenScript
| LCloseScript
| LLogoDoubleClick
| LSubmit (net : bool).

Definition with_state (s : LState) (sc : Screen) : Screen :=
  mkScreen s (sc_url sc) (sc_script_modal sc) (sc_sheet sc).

(** The logo's [onDoubleClick={() => setShowConfig(!showConfig)}]. *)
Definition logo_double_click (s : LState) : LState :=
  mkLState (lv_username s) (lv_password s) (lv_registering s) (lv_full_name s)
           (lv_position s) (lv_error s) (negb (lv_show_config s)).

(** The modal's close and Done buttons: [setShowScriptModal(false)]. *)
Definition close_script_modal (sc : Screen) : Screen :=
  mkScreen (sc_state sc) (sc_url sc) false (sc_sheet sc).

(** One event.  An input or button that is not rendered cannot be used:
    the registration inputs and "Cancel Registration" exist only while
    registering (138, 201), the toggle only while the URL is empty (214),
    the URL input and the script button only in the open panel (228),
    the modal's close and Done buttons only in the modal (256, 290); the
    logo is always there (110). *)
Definition screen_step (store : Cell -> Cell) (now : string) (sc : Screen) (e : LEvent)
    : Screen * option User :=
  let s := sc_state sc in
  match e with
  | LUsername v =>
      (with_state (mkLState v (lv_password s) (lv_registering s) (lv_full_name s) (lv_position s)
                            (lv_error s) (lv_show_config s)) sc, None)
  | LPassword v => (with_state (lv_with_password v s) sc, None)
  | LFullName v =>
      if lv_registering s then (with_state (lv_with_registration v (lv_position s) s) sc, None)
      else (sc, None)
  | LPosition v =>
      if lv_registering s then (with_state (lv_with_registration (lv_full_name s) v s) sc, None)
      else (sc, None)
  | LCancelRegistration =>
      if lv_registering s then
        (with_state (mkLState (lv_username s) (lv_password s) false (lv_full_name s) (lv_position s)
                              (lv_error s) (lv_show_config s)) sc, None)
      else (sc, None)
  | LToggleConfig =>
      if String.eqb (sc_url sc) "" then
        (with_state (mkLState (lv_username s) (lv_password s) (lv_registering s) (lv_full_name s)
                              (lv_position s) (lv_error s) (negb (lv_show_config s))) sc, None)
      else (sc, None)
  | LEditUrl v =>
      if lv_show_config s then (mkScreen s v (sc_script_modal sc) (sc_sheet sc), None) else (sc, None)
  | LOpenScript =>
      if lv_show_config s then (mkScreen s (sc_url sc) true (sc_sheet sc), None) else (sc, None)
  | LCloseScript => (close_script_modal sc, None)
  | LLogoDoubleClick => (with_state (logo_double_click s) sc, None)
  | LSubmit net =>
      let '(ss', s', ou) := lv_handleSubmit store now (sc_url sc) net (sc_sheet sc) s in
      (mkScreen s' (sc_url sc) (sc_script_modal sc) ss', ou)
  end.

(** A run: the final screen and the users passed to [onLogin]. *)
Fixpoint screen_run (store : Cell -> Cell) (now : string) (sc : Screen) (es : list LEvent)
    : Screen * list User :=
  match es with
  | [] => (sc, [])
  | e :: es' =>
      let '(sc', ou) := screen_step store now sc e in
      let '(sc'', us) := screen_run store now sc' es' in
      (sc'', option_list ou ++ us)
  end.

(** ** What the screen shows *)

Inductive BannerTone := BGreen | BRed.

#[export] Instance BannerTone_eq_dec : EqDecision BannerTone.
Proof. solve_decision. Defined.

(** The message box (131-136): shown for a non-empty [error], green when
    the text contains "Welcome" or "success", red otherwise. *)
Definition banner (error : string) : option (string * BannerTone) :=
  if String.eqb error "" then None
  else Some (error, if str_contains "Welcome" error || str_contains "success" error then BGreen else BRed).

(** The copy button of the script modal (98-102, 284-289): [isCopying]
    and the two-second timers not yet fired. *)
Record ScriptCopy := mkScriptCopy { copying : bool; copy_timers : nat }.

Definition copyScript (c : ScriptCopy) : ScriptCopy := mkScriptCopy true (S (copy_timers c)).

Definition copy_timer_fires (c : ScriptCopy) : ScriptCopy :=
  match copy_timers c with O => c | S k => mkScriptCopy false k end.

Record LoginView := mkLoginView {
  lw_logo : option Cell;                     (* the logo, or its placeholder icon *)
  lw_brand : string;                         (* [settings.companyName || 'SafetyCheck Pro'] *)
  lw_banner : option (string * BannerTone);
  lw_registration_inputs : bool;             (* Full Name, Position, Cancel Registration *)
  lw_config_panel : bool;                    (* the System Configuration panel *)
  lw_script_modal : option string            (* the modal and its copy button's text *)
}.

(** The screen (104-305) for the settings [companyName] and
    [companyLogo] App.tsx passes. *)
Definition login_view (companyName companyLogo : Cell) (sc : Screen) (c : ScriptCopy) : LoginView :=
  let s := sc_state sc in
  mkLoginView (if js_truthy companyLogo then Some companyLogo else None)
              (if js_truthy companyName then js_string companyName else "SafetyCheck Pro")
              (banner (lv_error s)) (lv_registering s) (lv_show_config s)
              (if sc_script_modal sc then Some (if copying c then "Copied!" else "Copy Code") else None).

(** ** Lemmas *)

(** With a URL, a submission leaves the configuration panel as it was. *)
Lemma lv_submit_show_config store now url net ss s :
  url <> "" -> lv_show_config (snd (fst (lv_handleSubmit store now url net ss s))) = lv_show_config s.
Proof.
  intros Hu. apply String.eqb_neq in Hu. unfold lv_handleSubmit. rewrite Hu.
  destruct (post_json _ _ _ _ _) as [ss' [r|]]; [|done].
  repeat case_match; done.
Qed.

(** Without a network no one is logged in. *)
Lemma lv_submit_offline store now url ss s : snd (lv_handleSubmit store now url false ss s) = None.
Proof. unfold lv_handleSubmit. by case_match. Qed.

Definition url_locked (url0 : string) (sc : Screen) : Prop :=
  sc_url sc = url0 /\ lv_show_config (sc_state sc) = false.

Lemma screen_step_locked store now url0 sc e :
  url0 <> "" -> e <> LLogoDoubleClick -> url_locked url0 sc -> url_locked url0 (fst (screen_step store now sc e)).
Proof.
  destruct sc as [s url modal ss]. intros Hu Hd [Hurl Hcfg]; simpl in *; subst url.
  unfold url_locked. destruct e; simpl; rewrite ?Hcfg; try done; try by destruct Hd.
  - by destruct (lv_registering s).
  - by destruct (lv_registering s).
  - by destruct (lv_registering s).
  - by rewrite (proj2 (String.eqb_neq _ _) Hu).
  - pose proof (lv_submit_show_config store now url0 net ss s Hu) as Hs.
    destruct (lv_handleSubmit _ _ _ _ _ _) as [[ss' s'] ou]. simpl in *. by rewrite Hs.
Qed.

Lemma screen_run_locked store now url0 sc es :
  url0 <> "" -> Forall (fun e => e <> LLogoDoubleClick) es ->
  url_locked url0 sc -> url_locked url0 (fst (screen_run store now sc es)).
Proof.
  intros Hu. induction es as [|e es IH] in sc |- *; intros Hes Hl; [done|]. simpl.
  apply Forall_cons in Hes as [Hd Hes].
  pose proof (screen_step_locked store now url0 sc e Hu Hd Hl) as Hl'.
  destruct (screen_step _ _ sc e) as [sc' ou]. specialize (IH sc' Hes Hl').
  destruct (screen_run _ _ sc' es) as [sc'' us]. exact IH.
Qed.

(** Only a submission that reaches the backend logs a user in. *)
Lemma screen_step_offline store now sc e :
  (forall net, e = LSubmit net -> net = false) -> snd (screen_step store now sc e) = None.
Proof.
  intros He. destruct e; simpl; repeat case_match; try done.
  rewrite (He net eq_refl) in *. match goal with H : lv_handleSubmit _ _ _ _ _ _ = _ |- _ =>
    pose proof (lv_submit_offline store now (sc_url sc) (sc_sheet sc) (sc_state sc)) as Ho;
    rewrite H in Ho end. done.
Qed.

Lemma screen_run_offline store now sc es :
  Forall (fun e => forall net, e = LSubmit net -> net = false) es -> snd (screen_run store now sc es) = [].
Proof.
  induction es as [|e es IH] in sc |- *; [done|]. intros [He Hes]%Forall_cons. simpl.
  pose proof (screen_step_offline store now sc e He) as H0.
  destruct (screen_step _ _ sc e) as [sc' ou]. specialize (IH sc' Hes).
  destruct (screen_run _ _ sc' es) as [sc'' us]. simpl in *. by subst.
Qed.

(** ** Properties *)

(** C24 (finding): the script URL is fixed on the login screen except
    through a hidden gesture.  [appScriptUrl] starts as the built-in URL
    whatever URL was stored, so the login screen mounts with its
    configuration panel closed and its toggle hidden; no sequence of
    inputs, clicks and submissions that avoids double-clicking the logo
    changes the URL or opens the panel, and with the built-in backend
    unreachable nobody logs in.  Double-clicking the logo, which nothing
    on the screen announces but its tooltip, opens the panel, where any
    URL can be typed. *)
Theorem login_url_fixed store now stored ss es :
  initial_script_url stored = PRE_CONFIGURED_SCRIPT_URL /\
  (Forall (fun e => e <> LLogoDoubleClick) es ->
   sc_url (fst (screen_run store now (mount_screen (initial_script_url stored) ss) es)) =
     PRE_CONFIGURED_SCRIPT_URL /\
   lv_show_config (sc_state (fst (screen_run store now (mount_screen (initial_script_url stored) ss) es)))
     = false /\
   (Forall (fun e => forall net, e = LSubmit net -> net = false) es ->
    snd (screen_run store now (mount_screen (initial_script_url stored) ss) es) = [])) /\
  (forall url, sc_url (fst (screen_run store now (mount_screen (initial_script_url stored) ss)
                             [LLogoDoubleClick; LEditUrl url])) = url).
Proof.
  assert (Hi : initial_script_url stored = PRE_CONFIGURED_SCRIPT_URL) by reflexivity.
  assert (Hne : PRE_CONFIGURED_SCRIPT_URL <> "") by discriminate.
  rewrite Hi. split; [done|]. split; [|done].
  intros Hes.
  destruct (screen_run_locked store now _ (mount_screen PRE_CONFIGURED_SCRIPT_URL ss) es Hne Hes)
    as [Hu Hc]; [split; reflexivity|].
  split_and!; [done|done|]. apply screen_run_offline.
Qed.

(** The message box is green for the two messages that report success
    (an account created, an empty user table) and red for every message
    the backend or the connection can produce. *)
Lemma banner_tones :
  Forall (fun m => option_map snd (banner m) = Some BGreen)
    ["Admin account created successfully! Please log in.";
     "Welcome! No users found in database. Please create the first Admin account."] /\
  Forall (fun m => option_map snd (banner m) = Some BRed)
    ["System Database URL is missing. Please configure it."; "Authentication failed.";
     "Connection failed. Please check your internet or the Script URL.";
     "No users found in database."; "Invalid username or password."; "Username already exists.";
     "Database not found."; "User not found."; RANGE_ERROR].
Proof. split; repeat constructor. Qed.

(** "Copied!" reverts once every pending timer has fired. *)
Lemma script_copy_reverts c :
  (copying c = true -> copy_timers c <> 0%nat) ->
  copying (Nat.iter (copy_timers c) copy_timer_fires c) = false.
Proof.
  remember (copy_timers c) as n eqn:Hn. revert c Hn.
  induction n as [|k IH]; intros c Hn Hc.
  - simpl. destruct (copying c); [by exfalso; apply Hc|done].
  - rewrite Nat.iter_succ_r. apply IH; unfold copy_timer_fires; rewrite <- Hn; done.
Qed.

