(* ===== verification/Sharing.v ===== *)
(** * The user table and the credential share links

    UserManagementView.tsx: the administrator gate of the page ([isAdmin],
    lines 161-166), the table of the users [fetchUsers] loaded, whose
    action buttons are shown for every user but the signed-in one (lines
    334-358), and the two share buttons' handlers [handleShareWhatsApp]
    and [handleShareEmail] (149-158).  Both put the password of the user
    object into the link; those objects are the rows [get_users] returns
    ([Backend.handleGetUsers], constants.ts 463-494), password included.

    [encodeURIComponent] is the JavaScript built-in, written out on the
    UTF-8 bytes of a string (a Rocq [string] is read as those bytes); its
    decoder is a proof device showing that the link determines the text. *)

From S2P Require Import Prelude Session Backend Records Clients.

(** ** [encodeURIComponent] *)

(** The characters [encodeURIComponent] keeps: [A-Z a-z 0-9 - _ . ! ~ * ' ( )]. *)
Definition uri_unreserved (a : ascii) : bool :=
  let n := nat_of_ascii a in
  ((48 <=? n) && (n <=? 57)) || ((65 <=? n) && (n <=? 90)) || ((97 <=? n) && (n <=? 122)) ||
  existsb (Ascii.eqb a) ["-"; "_"; "."; "!"; "~"; "*"; "'"; "("; ")"]%char.

(** An upper-case hexadecimal digit. *)
Definition hex_digit (k : nat) : ascii := ascii_of_nat (if k <? 10 then 48 + k else 55 + k).

(** Every other byte becomes [%XY]. *)
Fixpoint encodeURIComponent (s : string) : string :=
  match s with
  | EmptyString => EmptyString
  | String a s' =>
      if uri_unreserved a then String a (encodeURIComponent s')
      else String "%" (String (hex_digit (nat_of_ascii a / 16))
                        (String (hex_digit (nat_of_ascii a mod 16)) (encodeURIComponent s')))
  end.

Definition hex_val (a : ascii) : option nat :=
  let n := nat_of_ascii a in
  if (48 <=? n) && (n <=? 57) then Some (n - 48)
  else if (65 <=? n) && (n <=? 70) then Some (n - 55)
  else if (97 <=? n) && (n <=? 102) then Some (n - 87)
  else None.

(** [decodeURIComponent], [None] where it throws a [URIError]. *)
Fixpoint decodeURIComponent (s : string) : option string :=
  match s with
  | EmptyString => Some EmptyString
  | String a s' =>
      if Ascii.eqb a "%" then
        match s' with
        | String h (String l s'') =>
            match hex_val h, hex_val l, decodeURIComponent s'' with
            | Some x, Some y, Some r => Some (String (ascii_of_nat (16 * x + y)) r)
            | _, _, _ => None
            end
        | _ => None
        end
      else option_map (String a) (decodeURIComponent s')
  end.

(** ** The share links *)

(** A line feed, the [\n] of the template literals. *)
Definition LF : string := String (ascii_of_nat 10) EmptyString.

(** [${x || d}] *)
Definition or_default (c : Cell) (d : string) : string := if js_truthy c then js_string c else d.

(** The text of [handleShareWhatsApp]. *)
Definition whatsapp_text (u : UserRow) (href : string) : string :=
  "*SafetyCheck Pro User Details*" +:+ LF +:+ LF +:+
  "Name: " +:+ js_string (ur_name u) +:+ LF +:+
  "Role: " +:+ ur_role u +:+ LF +:+
  "Position: " +:+ or_default (ur_position u) "N/A" +:+ LF +:+ LF +:+
  "*Login Credentials*" +:+ LF +:+
  "Username: " +:+ js_string (ur_username u) +:+ LF +:+
  "Password: " +:+ or_default (ur_password u) "****" +:+ LF +:+ LF +:+
  "Login at: " +:+ href.

(** [handleShareWhatsApp]: the page [window.open] is given. *)
Definition handleShareWhatsApp (u : UserRow) (href : string) : string :=
  "https://wa.me/?text=" +:+ encodeURIComponent (whatsapp_text u href).

Definition email_subject (u : UserRow) : string := "Account Details: " +:+ js_string (ur_name u).

Definition email_body (u : UserRow) (href : string) : string :=
  "Hello " +:+ js_string (ur_name u) +:+ "," +:+ LF +:+ LF +:+
  "Here are your account details for SafetyCheck Pro:" +:+ LF +:+ LF +:+
  "Name: " +:+ js_string (ur_name u) +:+ LF +:+
  "Role: " +:+ ur_role u +:+ LF +:+
  "Position: " +:+ or_default (ur_position u) "N/A" +:+ LF +:+ LF +:+
  "Login Credentials:" +:+ LF +:+
  "Username: " +:+ js_string (ur_username u) +:+ LF +:+
  "Password: " +:+ or_default (ur_password u) "****" +:+ LF +:+ LF +:+
  "Access the system here: " +:+ href.

(** [handleShareEmail]: the [mailto:] address [window.location.href] is set to. *)
Definition handleShareEmail (u : UserRow) (href : string) : string :=
  "mailto:?subject=" +:+ encodeURIComponent (email_subject u) +:+
  "&body=" +:+ encodeURIComponent (email_body u href).

(** ** The page *)

(** What the component renders. *)
Inductive UMPage :=
| PDenied
| PForm (editing : bool)
| PList (rows : list (UserRow * bool)).

(** [currentUser.role && currentUser.role.toLowerCase() === 'admin'] *)
Definition um_isAdmin (cu : User) : bool :=
  js_truthy (CStr (role_name (role cu))) && String.eqb (to_lower (role_name (role cu))) "admin".

(** [u.username !== currentUser.username]: the share, edit and delete
    buttons of a row. *)
Definition actions_shown (cu : User) (u : UserRow) : bool :=
  negb (bool_decide (ur_username u = CStr (username cu))).

(** The render: the access notice, the form, or the table with each row's
    buttons. *)
Definition um_render (cu : User) (st : UMState) : UMPage :=
  if negb (um_isAdmin cu) then PDenied
  else match um_view st with
       | UFormView => PForm (um_editing st)
       | UList => PList (map (fun u => (u, actions_shown cu u)) (um_users st))
       end.

(** ** Lemmas *)

Lemma hex_val_digit k : k < 16 -> hex_val (hex_digit k) = Some k.
Proof. intros Hk. do 16 (destruct k as [|k]; [reflexivity|]). lia. Qed.

Lemma unreserved_not_percent a : uri_unreserved a = true -> Ascii.eqb a "%" = false.
Proof. intros H. apply Ascii.eqb_neq. intros ->. by vm_compute in H. Qed.

(** [decodeURIComponent] undoes [encodeURIComponent]: whoever follows a
    share link reads the text it was built from. *)
Lemma decode_encode s : decodeURIComponent (encodeURIComponent s) = Some s.
Proof.
  induction s as [|a s IH]; [done|]. cbn [encodeURIComponent].
  destruct (uri_unreserved a) eqn:Hu; cbn [decodeURIComponent].
  - by rewrite unreserved_not_percent, IH.
  - assert (Hn := nat_ascii_bounded a).
    rewrite (hex_val_digit (nat_of_ascii a / 16)) by (apply Nat.Div0.div_lt_upper_bound; lia).
    rewrite (hex_val_digit (nat_of_ascii a mod 16)) by (apply Nat.mod_upper_bound; lia).
    rewrite IH. cbn -[Nat.mul Nat.div Nat.modulo]. by rewrite <- Nat.div_mod_eq, ascii_nat_embedding.
Qed.

Lemma encode_inj s1 s2 : encodeURIComponent s1 = encodeURIComponent s2 -> s1 = s2.
Proof.
  intros H. assert (Some s1 = Some s2) as [= ->]; [|done].
  by rewrite <- !decode_encode, H.
Qed.

Lemma str_prefix_app p s : str_prefix p (p +:+ s) = true.
Proof. induction p as [|a p IH]; [done|]. simpl. by rewrite Ascii.eqb_refl. Qed.

Lemma str_contains_prefix n s : str_prefix n s = true -> str_contains n s = true.
Proof. destruct s; simpl; by intros ->. Qed.

Lemma str_contains_here n s : str_contains n (n +:+ s) = true.
Proof. apply str_contains_prefix, str_prefix_app. Qed.

Lemma str_contains_app_r n a b : str_contains n b = true -> str_contains n (a +:+ b) = true.
Proof.
  intros H. induction a as [|c a IH]; [done|]. simpl. rewrite IH. apply orb_true_r.
Qed.

Lemma str_app_assoc a b c : (a +:+ b) +:+ c = a +:+ b +:+ c.
Proof. induction a as [|x a IH]; [done|]. exact (f_equal (String x) IH). Qed.

Lemma str_contains_here2 n m s : str_contains (n +:+ m) (n +:+ m +:+ s) = true.
Proof. rewrite <- str_app_assoc. apply str_contains_here. Qed.

(** [s.includes(n +:+ m)] on a text built by [+:+]: skip the pieces
    before [n]. *)
Ltac contains_piece :=
  repeat first [ apply str_contains_here2 | apply str_contains_app_r ].

Lemma or_default_truthy c d : js_truthy c = true -> or_default c d = js_string c.
Proof. unfold or_default. by intros ->. Qed.

(** Both share texts carry the password of a user object that has one. *)
Lemma share_texts_password u href p :
  ur_password u = CStr p -> p <> "" ->
  str_contains ("Password: " +:+ p) (whatsapp_text u href) = true /\
  str_contains ("Password: " +:+ p) (email_body u href) = true.
Proof.
  intros Hp Hne. assert (Ht : js_truthy (ur_password u) = true)
    by (rewrite Hp; cbn; by apply negb_true_iff, String.eqb_neq).
  unfold whatsapp_text, email_body. rewrite (or_default_truthy _ _ Ht), Hp. cbn [js_string].
  split; contains_piece.
Qed.

(** [doPost] answers [get_users] to any request, whatever else it holds. *)
Lemma doPost_get_users_any store now ss body :
  b_action body = CStr "get_users" -> doPost store now ss body = (ss, handleGetUsers ss).
Proof. intros Ha. unfold doPost. by rewrite Ha. Qed.

(** A row of [Users] below the header with a username is listed. *)
Lemma get_users_lists ss sh r :
  ss !! "Users" = Some sh -> r ∈ drop 1 (values sh) -> js_truthy (cell_at r 0) = true ->
  exists us, handleGetUsers ss = RUsers us /\ user_row_of r ∈ us.
Proof.
  intros Hs Hr Ht. unfold handleGetUsers. rewrite Hs. eexists. split; [done|].
  apply list_elem_of_In, in_map, list_elem_of_In, list_elem_of_filter. split; [by rewrite Ht|done].
Qed.

Lemma fetchUsers_get_users store now url ss st us :
  url <> "" -> handleGetUsers ss = RUsers us ->
  fetchUsers store now url true ss st = (ss, mkUM us (um_form st) (um_editing st) (um_original st) (um_view st)).
Proof.
  intros Hu Hg. apply String.eqb_neq in Hu. unfold fetchUsers, um_post, post_json. rewrite Hu.
  cbn [negb andb]. by rewrite doPost_get_users, Hg.
Qed.

(** ** Properties *)

(** C29 (finding): the user table hands every password out.  [get_users]
    is answered to any request that names the action, and lists each user
    row with its stored password; an administrator's table built from that
    list offers the share buttons on every other user's row, and both share
    links carry ["Password: "] followed by the password, percent-encoded
    in a way [decode_encode] undoes. *)
Theorem shared_link_discloses_password store now url href ss sh r p cu st :
  url <> "" -> um_isAdmin cu = true -> um_view st = UList ->
  ss !! "Users" = Some sh -> r ∈ drop 1 (values sh) -> js_truthy (cell_at r 0) = true ->
  cell_at r 0 <> CStr (username cu) -> cell_at r 1 = CStr p -> p <> "" ->
  exists us,
    (forall body, b_action body = CStr "get_users" -> doPost store now ss body = (ss, RUsers us)) /\
    um_render cu (snd (fetchUsers store now url true ss st)) =
      PList (map (fun u => (u, actions_shown cu u)) us) /\
    (user_row_of r, true) ∈ map (fun u => (u, actions_shown cu u)) us /\
    exists t b,
      handleShareWhatsApp (user_row_of r) href = "https://wa.me/?text=" +:+ encodeURIComponent t /\
      handleShareEmail (user_row_of r) href =
        "mailto:?subject=" +:+ encodeURIComponent (email_subject (user_row_of r)) +:+
        "&body=" +:+ encodeURIComponent b /\
      str_contains ("Password: " +:+ p) t = true /\ str_contains ("Password: " +:+ p) b = true.
Proof.
  intros Hurl Hadm Hview Hs Hr Ht Hself Hp Hne.
  destruct (get_users_lists ss sh r Hs Hr Ht) as (us & Hg & Hin).
  exists us. split; [intros body Ha; by rewrite doPost_get_users_any, Hg|].
  rewrite (fetchUsers_get_users store now url ss st us Hurl Hg). unfold um_render. cbn [snd um_view].
  rewrite Hadm, Hview. split; [done|]. split.
  - apply list_elem_of_In, in_map_iff. exists (user_row_of r).
    split; [|by apply list_elem_of_In]. unfold actions_shown. by rewrite bool_decide_eq_false_2.
  - destruct (share_texts_password (user_row_of r) href p Hp Hne) as [Hw He].
    by exists (whatsapp_text (user_row_of r) href), (email_body (user_row_of r) href).
Qed.

Definition admin_user : User := mkUser "admin" "Admin One" Admin "Manager".

Lemma shared_link_discloses_password_witness :
  script_url0 <> "" /\ um_isAdmin admin_user = true /\ um_view um_listed = UList /\
  ss_users !! "Users" = Some [USERS_HEADER; user_cells "alice" "pw1" "Alice" "Inspector";
                              user_cells "bob" "pw2" "Bob" "Operations"] /\
  user_cells "bob" "pw2" "Bob" "Operations" ∈
    drop 1 (values [USERS_HEADER; user_cells "alice" "pw1" "Alice" "Inspector";
                    user_cells "bob" "pw2" "Bob" "Operations"]) /\
  js_truthy (cell_at (user_cells "bob" "pw2" "Bob" "Operations") 0) = true /\
  cell_at (user_cells "bob" "pw2" "Bob" "Operations") 0 <> CStr (username admin_user) /\
  cell_at (user_cells "bob" "pw2" "Bob" "Operations") 1 = CStr "pw2" /\ "pw2" <> "" /\
  exists us,
    (forall body, b_action body = CStr "get_users" -> doPost store_id "t" ss_users body = (ss_users, RUsers us)) /\
    um_render admin_user (snd (fetchUsers store_id "t" script_url0 true ss_users um_listed)) =
      PList (map (fun u => (u, actions_shown admin_user u)) us) /\
    (user_row_of (user_cells "bob" "pw2" "Bob" "Operations"), true) ∈
      map (fun u => (u, actions_shown admin_user u)) us /\
    exists t b,
      handleShareWhatsApp (user_row_of (user_cells "bob" "pw2" "Bob" "Operations")) "https://juba.example/" =
        "https://wa.me/?text=" +:+ encodeURIComponent t /\
      handleShareEmail (user_row_of (user_cells "bob" "pw2" "Bob" "Operations")) "https://juba.example/" =
        "mailto:?subject=" +:+
          encodeURIComponent (email_subject (user_row_of (user_cells "bob" "pw2" "Bob" "Operations"))) +:+
        "&body=" +:+ encodeURIComponent b /\
      str_contains ("Password: " +:+ "pw2") t = true /\ str_contains ("Password: " +:+ "pw2") b = true.
Proof.
  assert (Hr : user_cells "bob" "pw2" "Bob" "Operations" ∈
    drop 1 (values [USERS_HEADER; user_cells "alice" "pw1" "Alice" "Inspector";
                    user_cells "bob" "pw2" "Bob" "Operations"]))
    by (apply (bool_decide_unpack _); vm_compute; reflexivity).
  assert (Hself : cell_at (user_cells "bob" "pw2" "Bob" "Operations") 0 <> CStr (username admin_user))
    by (vm_compute; discriminate).
  split; [discriminate|]. split; [reflexivity|]. split; [reflexivity|]. split; [reflexivity|].
  split; [exact Hr|]. split; [reflexivity|]. split; [exact Hself|]. split; [reflexivity|].
  split; [discriminate|].
  exact (shared_link_discloses_password store_id "t" script_url0 "https://juba.example/" ss_users _ _ "pw2"
           admin_user um_listed ltac:(discriminate) eq_refl eq_refl eq_refl Hr eq_refl Hself eq_refl
           ltac:(discriminate)).
Defined.
