(* ===== verification/UserPage.v ===== *)
(** * The user management page as a state machine

    UserManagementView.tsx as the administrator uses it: the mount
    effect's [fetchUsers] (lines 43-45), the list view's Refresh, Add
    User, Edit and Delete buttons (299-399), the form view's inputs, role
    select, Back to List and Cancel buttons and its submission (171-294),
    each handler as [Clients] models it ([fetchUsers], [handleEdit],
    [handleDelete], [um_handleSubmit]) against the backend.  A button or
    input that the current view does not render cannot be used: the
    form's inputs exist only in the form view, the table's buttons only
    in the list view and only on the rows [Sharing.actions_shown]
    allows, and a non-admin gets the access notice and nothing else.
    The form's labels (title, password requirement, role description,
    submit button) and the table's cells are the render of the two
    views. *)

From S2P Require Import Prelude Session Backend Clients Sharing.

(** ** Events *)

(** The [<option>]s of the role select. *)
Definition ROLE_OPTIONS : list string := ["Inspector"; "Operations"; "Maintenance"; "Other"; "Admin"].

Inductive UMEvent :=
| UMName (v : string)          (* Full Name: setFormData({...formData, name: v}) *)
| UMPosition (v : string)      (* Position *)
| UMRole (v : string)          (* System Role select *)
| UMUsername (v : string)      (* Username input *)
| UMPassword (v : string)      (* Password input *)
| UMBackToList                 (* "Back to List": setViewMode('list') *)
| UMCancel                     (* "Cancel": setViewMode('list') *)
| UMSubmit                     (* the form's onSubmit: handleSubmit *)
| UMRefresh                    (* "Refresh": fetchUsers *)
| UMAddUser                    (* "Add User" *)
| UMEditRow (i : nat)          (* a row's Edit button: handleEdit(u) *)
| UMDeleteRow (i : nat) (confirmed : bool).  (* a row's Delete button: handleDelete(u.username) *)

Definition set_form (f : UForm) (st : UMState) : UMState :=
  mkUM (um_users st) f (um_editing st) (um_original st) (um_view st).

Definition set_view (v : UMView) (st : UMState) : UMState :=
  mkUM (um_users st) (um_form st) (um_editing st) (um_original st) v.

(** The state [useState] starts from. *)
Definition um_initial : UMState := mkUM [] empty_form false "" UList.

(** Mounting the page: [useEffect(() => { fetchUsers(); }, [])]. *)
Definition um_mount (store : Cell -> Cell) (now url : string) (net : bool) (ss : Spreadsheet)
    : Spreadsheet * UMState :=
  fetchUsers store now url net ss um_initial.

(** One event, for the signed-in user [cu]. *)
Definition um_step (store : Cell -> Cell) (now url : string) (net : bool) (cu : User)
    (s : Spreadsheet * UMState) (e : UMEvent) : Spreadsheet * UMState :=
  let '(ss, st) := s in
  let f := um_form st in
  if negb (um_isAdmin cu) then s
  else match um_view st, e with
  | UFormView, UMName v => (ss, set_form (mkUForm v (f_username f) (f_password f) (f_role f) (f_position f)) st)
  | UFormView, UMPosition v => (ss, set_form (mkUForm (f_name f) (f_username f) (f_password f) (f_role f) v) st)
  | UFormView, UMRole v =>
      if bool_decide (v ∈ ROLE_OPTIONS)
      then (ss, set_form (mkUForm (f_name f) (f_username f) (f_password f) v (f_position f)) st)
      else s
  | UFormView, UMUsername v => (ss, set_form (mkUForm (f_name f) v (f_password f) (f_role f) (f_position f)) st)
  | UFormView, UMPassword v => (ss, set_form (mkUForm (f_name f) (f_username f) v (f_role f) (f_position f)) st)
  | UFormView, (UMBackToList | UMCancel) => (ss, set_view UList st)
  | UFormView, UMSubmit => um_handleSubmit store now url net ss st
  | UList, UMRefresh => fetchUsers store now url net ss st
  | UList, UMAddUser => (ss, mkUM (um_users st) empty_form false (um_original st) UFormView)
  | UList, UMEditRow i =>
      match um_users st !! i with
      | Some u => if actions_shown cu u then (ss, handleEdit u st) else s
      | None => s
      end
  | UList, UMDeleteRow i confirmed =>
      match um_users st !! i with
      | Some u =>
          if actions_shown cu u
          then handleDelete store now url net confirmed (ur_username u) ss st
          else s
      | None => s
      end
  | _, _ => s
  end.

Definition um_run (store : Cell -> Cell) (now url : string) (net : bool) (cu : User)
    (s : Spreadsheet * UMState) (es : list UMEvent) : Spreadsheet * UMState :=
  fold_left (um_step store now url net cu) es s.

(** ** The two views *)

(** The form view's texts: its title, whether the password is
    [required], the password's placeholder, the role description and the
    submit button (while no submission is in flight). *)
Record FormTexts := mkFormTexts {
  ft_title : string;
  ft_password_required : bool;
  ft_password_placeholder : string;
  ft_role_note : string;
  ft_submit : string
}.

Definition form_texts (st : UMState) : FormTexts :=
  let ed := um_editing st in
  mkFormTexts (if ed then "Edit User Details" else "Create New User") (negb ed)
    (if ed then "Leave blank to keep current" else "••••")
    (if String.eqb (f_role (um_form st)) "Admin" then "Admin: Full system access (Settings, Users, Deletion)."
     else if String.eqb (f_role (um_form st)) "Inspector" then "Inspector: Can create and submit new inspections."
     else "View Only: Can access dashboards and reports.")
    (if ed then "Update User" else "Create User").

(** The role badge's colour class of a row (346-350). *)
Definition role_badge (role : string) : string :=
  if String.eqb role "Admin" then "bg-purple-100 text-purple-700"
  else if String.eqb role "Operations" then "bg-blue-100 text-blue-700"
  else if String.eqb role "Maintenance" then "bg-orange-100 text-orange-700"
  else "bg-green-100 text-green-700".

(** The "Last Login" cell: the date, or "Never" for a falsy value; the
    date's text is [toLocaleDateString], not modelled. *)
Definition last_login_shown (c : Cell) : bool := js_truthy c.

(** The table's body: the empty row's text, or one row per user with its
    badge and whether its action buttons are shown. *)
Inductive TableBody := TEmpty (text : string) | TRows (rows : list (UserRow * string * bool)).

Definition table_body (cu : User) (isLoading : bool) (users : list UserRow) : TableBody :=
  match users with
  | [] => TEmpty (if isLoading then "Loading users..." else "No users found.")
  | _ => TRows (map (fun u => (u, role_badge (ur_role u), actions_shown cu u)) users)
  end.

(** ** The invariant *)

(** While the form edits a user, that user is a row of the table whose
    action buttons are shown, and [originalUsername] is its username. *)
Definition um_inv (cu : User) (st : UMState) : Prop :=
  um_view st = UFormView -> um_editing st = true ->
  exists u, u ∈ um_users st /\ actions_shown cu u = true /\ um_original st = js_string (ur_username u).

(** ** Lemmas *)

Lemma um_inv_list cu st : um_view st = UList -> um_inv cu st.
Proof. intros Hv Hf. rewrite Hv in Hf. discriminate. Qed.

Lemma fetchUsers_view store now url net ss st :
  um_view (snd (fetchUsers store now url net ss st)) = um_view st.
Proof. unfold fetchUsers. repeat case_match; done. Qed.

Lemma fetchUsers_list_inv store now url net ss st cu :
  um_view st = UList -> um_inv cu (snd (fetchUsers store now url net ss st)).
Proof. intros Hv. apply um_inv_list. by rewrite fetchUsers_view. Qed.

Lemma handleDelete_inv store now url net conf name ss st cu :
  um_view st = UList -> um_inv cu (snd (handleDelete store now url net conf name ss st)).
Proof.
  intros Hv. unfold handleDelete. destruct conf; simpl; [|by apply um_inv_list].
  destruct (um_post _ _ _ _ _ _) as [ss' [r|]]; [|by apply um_inv_list].
  destruct (success r); [by apply fetchUsers_list_inv|by apply um_inv_list].
Qed.

Lemma um_handleSubmit_inv store now url net ss st cu :
  um_inv cu st -> um_inv cu (snd (um_handleSubmit store now url net ss st)).
Proof.
  intros Hi. unfold um_handleSubmit. repeat case_match; try done.
  simplify_eq/=. by apply fetchUsers_list_inv.
Qed.

Lemma um_step_inv store now url net cu s e :
  um_inv cu (snd s) -> um_inv cu (snd (um_step store now url net cu s e)).
Proof.
  destruct s as [ss st]. simpl. intros Hi. unfold um_step.
  destruct (negb (um_isAdmin cu)); [done|].
  destruct (um_view st) eqn:Hv, e; simpl; try done;
    try by apply um_inv_list.
  - by apply fetchUsers_list_inv.
  - destruct (um_users st !! i) as [u|] eqn:Hu; [|done]. destruct (actions_shown cu u) eqn:Ha; [|done].
    intros _ _. exists u. split_and!; [by eapply list_elem_of_lookup_2|done|done].
  - destruct (um_users st !! i) as [u|]; [|done]. destruct (actions_shown cu u); [|done].
    by apply handleDelete_inv.
  - case_bool_decide; [|done]. exact Hi.
  - by apply um_handleSubmit_inv.
Qed.

Lemma um_run_inv store now url net cu s es :
  um_inv cu (snd s) -> um_inv cu (snd (um_run store now url net cu s es)).
Proof.
  unfold um_run. revert s. induction es as [|e es IH]; intros s Hi; [done|]. simpl.
  apply IH, um_step_inv, Hi.
Qed.

(** The request the form sends when it edits. *)
Lemma user_request_editing st :
  um_editing st = true ->
  b_action (user_request st) = CStr "update_user" /\ b_original (user_request st) = CStr (um_original st).
Proof. intros He. unfold user_request. by rewrite He. Qed.

(** ** Properties *)

(** What the administrator's form submits.  After the page's mount and
    any sequence of inputs, clicks and submissions, a form that edits
    sends [update_user] with an [originalUsername] that is the username
    of a user of the table other than the signed-in administrator (the
    Edit button is hidden on the administrator's own row), and its
    button reads "Update User"; a form that creates sends
    [register_user] without [originalUsername] under "Create User".
    A non-administrator's inputs change nothing. *)
Theorem form_submits_listed_user store now url net cu ss es :
  let s := um_run store now url net cu (um_mount store now url net ss) es in
  (um_view (snd s) = UFormView -> um_editing (snd s) = true ->
     exists u, u ∈ um_users (snd s) /\ ur_username u <> CStr (username cu) /\
       b_action (user_request (snd s)) = CStr "update_user" /\
       b_original (user_request (snd s)) = CStr (js_string (ur_username u)) /\
       ft_submit (form_texts (snd s)) = "Update User") /\
  (um_view (snd s) = UFormView -> um_editing (snd s) = false ->
     b_action (user_request (snd s)) = CStr "register_user" /\
     b_original (user_request (snd s)) = CUndef /\ ft_submit (form_texts (snd s)) = "Create User") /\
  (um_isAdmin cu = false -> s = um_mount store now url net ss).
Proof.
  intros s.
  assert (Hm : um_inv cu (snd (um_mount store now url net ss))).
  { apply um_inv_list. unfold um_mount. by rewrite fetchUsers_view. }
  pose proof (um_run_inv store now url net cu _ es Hm) as Hi. fold s in Hi.
  split_and!.
  - intros Hv He. destruct (Hi Hv He) as (u & Hu & Ha & Ho). exists u.
    destruct (user_request_editing (snd s) He) as [H1 H2].
    unfold actions_shown in Ha. apply negb_true_iff, bool_decide_eq_false in Ha.
    unfold form_texts. rewrite He, H1, H2, Ho. done.
  - intros _ He. unfold user_request, form_texts. by rewrite He.
  - intros Ha. unfold s, um_run. clear Hi s. generalize (um_mount store now url net ss).
    induction es as [|e es IH]; intros s0; [done|]. simpl.
    replace (um_step store now url net cu s0 e) with s0 by (unfold um_step; destruct s0; by rewrite Ha).
    apply IH.
Qed.

(** Listing [alice] and [bob] as [admin], editing [bob] and renaming him:
    the form updates [bob]. *)
Example edit_bob_updates_bob :
  let s := um_run store_id "t" "https://script.google.com/macros/s/x/exec" true
             (mkUser "admin" "Admin One" Admin "Manager") (um_mount store_id "t"
             "https://script.google.com/macros/s/x/exec" true ss_users) [UMEditRow 1; UMName "Robert"] in
  um_view (snd s) = UFormView /\ b_action (user_request (snd s)) = CStr "update_user" /\
  b_original (user_request (snd s)) = CStr "bob" /\ b_name (user_request (snd s)) = CStr "Robert".
Proof. vm_compute. split_and!; reflexivity. Qed.
