(* ===== verification/Overview.v ===== *)
(** * The overview dashboard and the column layouts of the records

    OverviewDashboard.tsx [fetchAllData] (lines 35-91): the four
    inspection tabs of the GET snapshot read with header lists of their
    own (lines 53-56), merged, counted and sorted for the recent
    activity; the pass rate [Math.round((passed / total) * 100)] on
    binary64 numbers ([Float64]); the widths of the "Inspection
    Breakdown" bars (as exact rationals, where the browser computes in
    floating point) and the quick actions.  The dashboard, the alert derivation ([Alerts]), the
    validation learning of the backend ([Backend.validation_columns]) and
    the history ([Records]) all read record columns by position; the
    schema theorem checks their positions against the headers the
    submission writes ([Queue.target_of]). *)

From Stdlib Require Import QArith.
From S2P Require Import Prelude Float64 Session Queue Alerts Backend Records.

(** ** The dashboard *)

(** The header lists of the dashboard ("simplified for stats
    extraction"). *)
Definition GENERAL_STAT_HEADERS : list string :=
  ["id"; "timestamp"; "truckNo"; "trailerNo"; "inspectedBy"; "driverName"; "location"; "odometer";
   "rate"; "remarks"].

Definition OTHER_STAT_HEADERS : list string :=
  ["id"; "timestamp"; "truckNo"; "trailerNo"; "jobCard"; "location"; "odometer"; "inspectedBy";
   "driverName"; "rate"; "remarks"].

Definition stat_headers (sheet : string) : list string :=
  if String.eqb sheet "General" then GENERAL_STAT_HEADERS else OTHER_STAT_HEADERS.

(** [headers.forEach((h, i) => { item[h] = row[i]; })]: no [null] here,
    a missing cell stays [undefined]. *)
Fixpoint fields_from (i : nat) (headers : list string) (row : list Cell) (it : Item) : Item :=
  match headers with
  | [] => it
  | h :: hs => fields_from (S i) hs row (<[h := cell_at row i]> it)
  end.

(** [processSheet(json[sheet], headers)] *)
Definition processSheet (v : option JVal) (headers : list string) : list Item :=
  match v with
  | Some (JRows rows) =>
      if Nat.leb (length rows) 1 then [] else map (fun r => fields_from 0 headers r ∅) (drop 1 rows)
  | _ => []
  end.

(** An inspection of the merged list: the record and its [type]. *)
Record Inspection := mkInspection { insp_item : Item; insp_type : string }.

Definition field (it : Item) (h : string) : Cell := default CUndef (it !! h).

Record Stats := mkStats {
  total_inspections : nat;
  pass_rate : option Z;
  active_vehicles : nat;
  critical_issues : nat;
  by_general : nat;
  by_petroleum : nat;
  by_acid : nat;
  recent_activity : list Inspection
}.

(** [Number(i.rate) >= 4] and [Number(i.rate) <= 2]; NaN fails both. *)
Definition passed (i : Inspection) : bool :=
  match js_number (field (insp_item i) "rate") with Some r => Z.leb 4 r | None => false end.

Definition critical (i : Inspection) : bool :=
  match js_number (field (insp_item i) "rate") with Some r => Z.leb r 2 | None => false end.

(** [new Set(cells).size] *)
Fixpoint distinct_cells (acc cs : list Cell) : list Cell :=
  match cs with
  | [] => acc
  | c :: cs' => distinct_cells (if bool_decide (c ∈ acc) then acc else acc ++ [c]) cs'
  end.

(** [fetchAllData] on a parsed snapshot; [date_ms] is [new Date(x).getTime()]. *)
Definition fetchAllData (date_ms : Cell -> option Z) (json : Snapshot) : Stats :=
  let tag t l := map (fun it => mkInspection it t) l in
  let g := processSheet (json !! "General") GENERAL_STAT_HEADERS in
  let p := processSheet (json !! "Petroleum") OTHER_STAT_HEADERS in
  let p2 := processSheet (json !! "Petroleum_V2") OTHER_STAT_HEADERS in
  let a := processSheet (json !! "Acid") OTHER_STAT_HEADERS in
  let all := tag "General" g ++ tag "Petroleum" p ++ tag "Petroleum V2" p2 ++ tag "Acid" a in
  let total := length all in
  let npassed := length (filter passed all) in
  mkStats total
          (if Nat.ltb 0 total then Binary64.math_round (ratio_percent npassed total) else Some 0%Z)
          (length (distinct_cells [] (map (fun i => field (insp_item i) "truckNo") all)))
          (length (filter critical all))
          (length g) (length p + length p2) (length a)
          (take 10 (sort_desc date_ms (fun i => field (insp_item i) "timestamp") all)).

(** The dashboard's state: [setStats] after a fetch; a failed fetch or
    parse leaves the previous statistics. *)
Definition overview_refresh (date_ms : Cell -> option Z) (resp : option Snapshot)
    (st : option Stats) : option Stats :=
  match resp with Some json => Some (fetchAllData date_ms json) | None => st end.

(** The width of a bar of the "Inspection Breakdown" (lines 185-206):
    [(n || 0) / (stats.totalInspections || 1) * 100] percent, as an exact
    rational. *)
Definition bar_width (n total : nat) : Q :=
  inject_Z (Z.of_nat n) / inject_Z (Z.of_nat (if Nat.eqb total 0 then 1%nat else total)) * 100.

Definition breakdown (s : Stats) : list Q :=
  [bar_width (by_general s) (total_inspections s); bar_width (by_petroleum s) (total_inspections s);
   bar_width (by_acid s) (total_inspections s)].

(** The "Quick Actions" (lines 216-219): [onNavigate(module)], which
    App.tsx (1246-1251) handles as the Sidebar selection. *)
Definition quick_actions : list ModuleId := [MGeneral; MPetroleum; MPetroleumV2; MAcid].

(** What each validation list holds, as a field of the inspection form. *)
Definition validation_field (list_name : string) : option string :=
  if String.eqb list_name "Truck_Reg_No" then Some "truckNo"
  else if String.eqb list_name "Trailer_Reg_No" then Some "trailerNo"
  else if String.eqb list_name "Driver_Name" then Some "driverName"
  else if String.eqb list_name "Inspector_Name" then Some "inspectedBy"
  else if String.eqb list_name "Location" then Some "location"
  else None.

(** ** Lemmas *)

Lemma distinct_cells_length acc cs :
  (length (distinct_cells acc cs) <= length acc + length cs)%nat.
Proof.
  induction cs as [|c cs IH] in acc |- *; simpl; [lia|].
  case_bool_decide; rewrite IH; [lia|]. rewrite length_app. simpl. lia.
Qed.

Lemma filter_disjoint_length {A} (p q : A -> bool) l :
  (forall x, p x = true -> q x = false) ->
  (length (filter p l) + length (filter q l) <= length l)%nat.
Proof.
  intros Hpq. induction l as [|x l IH]; [done|]. rewrite !filter_cons.
  destruct (p x) eqn:Hp; [rewrite (Hpq x Hp)|]; repeat case_decide; simpl in *; try contradiction; lia.
Qed.

Lemma passed_not_critical i : passed i = true -> critical i = false.
Proof.
  unfold passed, critical. destruct (js_number _) as [r|]; [|done].
  intros ?%Z.leb_le. apply Z.leb_gt. lia.
Qed.

Lemma sort_desc_length {A} date_ms (ts : A -> Cell) l : length (sort_desc date_ms ts l) = length l.
Proof. apply Permutation_length, sort_desc_perm. Qed.

(** ** Properties *)

(** The dashboard's figures are consistent: the per-type counts add
    up to the total, the vehicles and the critical and passed inspections
    are at most the total (no inspection is both), and the recent activity is the ten newest (or all). *)
(** The per-type counts add up to the total. *)
Lemma stats_by_type_sum date_ms json :
  let s := fetchAllData date_ms json in
  (by_general s + by_petroleum s + by_acid s = total_inspections s)%nat.
Proof. cbv zeta. unfold fetchAllData. simpl. rewrite !length_app, !length_map. lia. Qed.

Lemma bar_width_range n t : (n <= t)%nat -> (0 <= bar_width n t <= 100)%Q.
Proof.
  intros Hn. unfold bar_width. destruct (Nat.eqb_spec t 0) as [->|Ht].
  - assert (n = 0%nat) as -> by lia. simpl. split; discriminate.
  - assert (Hq : (0 < inject_Z (Z.of_nat t))%Q) by (change 0%Q with (inject_Z 0); rewrite <- Zlt_Qlt; lia).
    assert (Hle : (inject_Z (Z.of_nat n) <= inject_Z (Z.of_nat t))%Q) by (rewrite <- Zle_Qle; lia).
    assert (H0 : (0 <= inject_Z (Z.of_nat n))%Q) by (change 0%Q with (inject_Z 0); rewrite <- Zle_Qle; lia).
    split.
    + apply Qmult_le_0_compat; [|discriminate]. apply Qle_shift_div_l; [done|]. by rewrite Qmult_0_l.
    + rewrite <- (Qmult_1_l 100%Q) at 2. apply Qmult_le_compat_r; [|discriminate].
      apply Qle_shift_div_r; [done|]. by rewrite Qmult_1_l.
Qed.

Theorem overview_stats_consistent date_ms json :
  let s := fetchAllData date_ms json in
  (by_general s + by_petroleum s + by_acid s = total_inspections s)%nat /\
  (active_vehicles s <= total_inspections s)%nat /\
  (critical_issues s <= total_inspections s)%nat /\
  length (recent_activity s) = Nat.min 10 (total_inspections s).
Proof.
  cbv zeta. unfold fetchAllData. cbn [total_inspections by_general by_petroleum by_acid
    active_vehicles critical_issues pass_rate recent_activity].
  set (all := map _ _ ++ _).
  assert (Hall : length all = (length (processSheet (json !! "General") GENERAL_STAT_HEADERS) +
    (length (processSheet (json !! "Petroleum") OTHER_STAT_HEADERS) +
     length (processSheet (json !! "Petroleum_V2") OTHER_STAT_HEADERS)) +
     length (processSheet (json !! "Acid") OTHER_STAT_HEADERS))%nat).
  { unfold all. rewrite !length_app, !length_map. lia. }
  pose proof (filter_disjoint_length passed critical all passed_not_critical) as Hpc.
  split_and!.
  - lia.
  - pose proof (distinct_cells_length [] (map (fun i => field (insp_item i) "truckNo") all)).
    rewrite length_map in *. simpl in *. lia.
  - lia.
  - by rewrite length_take, sort_desc_length.
Qed.

(** The three bars of the "Inspection Breakdown" are percentages that
    fill the whole width together when there is an inspection, and are
    empty otherwise. *)
Theorem breakdown_bars_fill date_ms json :
  let s := fetchAllData date_ms json in
  Forall (fun w => 0 <= w <= 100)%Q (breakdown s) /\
  ((0 < total_inspections s)%nat -> (fold_right Qplus 0 (breakdown s) == 100)%Q) /\
  (total_inspections s = 0%nat -> Forall (fun w => w == 0)%Q (breakdown s)).
Proof.
  pose proof (stats_by_type_sum date_ms json) as Hs. cbv zeta in *.
  set (st := fetchAllData date_ms json) in *. unfold breakdown.
  destruct st as [t pr av cr g p a ra]; simpl in *. split_and!.
  - repeat constructor; apply bar_width_range; lia.
  - intros Ht. unfold bar_width. destruct (Nat.eqb_spec t 0) as [|_]; [lia|]. subst t.
    assert (Hne : ~ (inject_Z (Z.of_nat (g + p + a)) == 0)%Q).
    { change 0%Q with (inject_Z 0). rewrite inject_Z_injective. lia. }
    rewrite !Nat2Z.inj_add, !inject_Z_plus in *. field. exact Hne.
  - intros Ht. assert (g = 0 /\ p = 0 /\ a = 0)%nat as (-> & -> & ->) by lia.
    repeat constructor.
Qed.

(** Which view an inspection module shows: its dashboard or its form. *)
Definition module_mode (m : ModuleId) (n : Nav) : ViewMode :=
  match m with
  | MGeneral => general_mode n | MPetroleum => petroleum_mode n
  | MPetroleumV2 => petroleum_v2_mode n | MAcid => acid_mode n
  | _ => Dashboard
  end.

(** Every quick action opens its module, for every user, on the module's
    dashboard: the card says "Start a new inspection based on vehicle
    type", but no form is started. *)
Theorem quick_actions_open_dashboards u n m :
  m ∈ quick_actions ->
  active_module (route_protect u (select_module m n)) = m /\
  module_mode m (route_protect u (select_module m n)) = Dashboard.
Proof.
  unfold quick_actions. intros Hm.
  repeat (apply elem_of_cons in Hm as [->|Hm]); [..|by apply not_elem_of_nil in Hm];
    unfold route_protect; simpl; rewrite ?andb_false_r; split; reflexivity.
Qed.

(** C37: every reader of a record finds its columns where the submission
    writes them.  For each inspection module, in the header list of
    [handleGoogleSheetSubmit]: the alert derivation's timestamp, truck
    and rating columns are [timestamp], [truckNo] and [rate]; each column
    [updateValidationData] learns from is the form field of its
    validation list; and the dashboard's header list is a prefix. *)
Theorem record_columns_agree m :
  let '(sheet, headers) := target_of m in
  headers !! 1%nat = Some "timestamp" /\ headers !! 2%nat = Some "truckNo" /\
  headers !! rate_index sheet = Some "rate" /\
  Forall (fun hc => headers !! hc.2 = validation_field hc.1) (validation_columns sheet) /\
  stat_headers sheet `prefix_of` headers.
Proof. destruct m; apply (bool_decide_unpack _); vm_compute; reflexivity. Qed.
