(* ===== verification/Stats.v ===== *)
(** * The statistics of the module dashboards

    App.tsx 632-638, the [stats] memo the four module dashboards show
    (PetroleumDashboard.tsx 81-85: "Total" and "Compliance"):
    [total] is the length of the history list and [passRate] is
    [((goodInspections / total) * 100).toFixed(0)], a division and a
    multiplication of JavaScript numbers ([Float64.ratio_percent]) and
    [toFixed(0)].  The overview dashboard computes the same product and
    shows it through [Math.round] ([Overview.fetchAllData]); the two
    dashboards agree, and both differ from the exact rounding of
    [100 * good / total] where the product falls just below a half. *)

From S2P Require Import Prelude Float64 Session Queue Backend Records Overview.

(** ** The memo *)

(** [Number(i.rate) >= 4]; NaN fails. *)
Definition good_inspection (it : Item) : bool :=
  match js_number (field it "rate") with Some r => Z.leb 4 r | None => false end.

(** [((goodInspections / total) * 100).toFixed(0)] *)
Definition passRate (good total : nat) : option Z :=
  Binary64.toFixed0 (ratio_percent good total).

Record DashStats := mkDashStats {
  ds_total : nat;
  ds_avgRate : Z;
  ds_passRate : option Z
}.

(** The memo: the number [0] for an empty list, else the figures of the
    list (the pass rate is then the string [toFixed] prints, here the
    integer it shows). *)
Definition stats (historyList : list Item) : DashStats :=
  if Nat.eqb (length historyList) 0 then mkDashStats 0 0 (Some 0%Z)
  else
    let total := length historyList in
    let good := length (filter good_inspection historyList) in
    mkDashStats total 0 (passRate good total).

(** The ratios, out of at most 201, at which the floating-point
    percentage falls just below an exact half (e.g. [23/40*100] is
    [57.49999999999999]), and no others. *)
Definition half_down_cases : list (nat * nat) :=
  [(23, 40); (46, 80); (69, 120); (92, 160); (29, 200); (57, 200); (113, 200); (115, 200)]%nat.

(** What the table below checks at one ratio: the shown rate is the
    exact percentage rounded half up, one less at the cases above, between 0 and 100
    and within half a point of [100 * good / total]. *)
Definition rate_checks (good total : nat) : bool :=
  match passRate good total with
  | Some r =>
      Z.eqb r (if bool_decide ((good, total) ∈ half_down_cases)
               then exact_percent good total - 1 else exact_percent good total) &&
      Z.leb 0 r && Z.leb r 100 &&
      Z.leb (Z.abs (2 * (100 * Z.of_nat good - r * Z.of_nat total))) (Z.of_nat total)
  | None => false
  end.

(** ** Lemmas *)

(** Every ratio with a total from 1 to 201, checked by evaluation. *)
Lemma rate_table :
  forallb (fun t => forallb (fun g => rate_checks g t) (seq 0 (S t))) (seq 1 201) = true.
Proof. vm_compute. reflexivity. Qed.

Lemma rate_checks_at good total :
  (0 < total <= 201)%nat -> (good <= total)%nat -> rate_checks good total = true.
Proof.
  intros Ht Hg. pose proof rate_table as H.
  rewrite forallb_forall in H. specialize (H total).
  rewrite forallb_forall in H. apply H.
  - apply in_seq. lia.
  - apply in_seq. lia.
Qed.

Lemma good_le_total h : (length (filter good_inspection h) <= length h)%nat.
Proof. apply length_filter. Qed.

(** A fetched history has at most 201 items: the rows of the tab's window
    after its header. *)
Lemma fetched_history_length url m ss h :
  url <> "" -> (length (history (fetchHistory url true m (Some (doGet ss)) h)) <= 201)%nat.
Proof.
  intros Hu. unfold fetchHistory. apply String.eqb_neq in Hu. rewrite Hu. simpl.
  destruct (target_sheet_plain m) as (H1 & H2 & H3).
  destruct (target_of m) as [sheet headers]. simpl in *.
  unfold doGet. rewrite map_lookup_imap. destruct (ss !! sheet) as [sh|]; simpl; [|lia].
  rewrite sheet_view_rows by done. destruct (rows_view_is_rows sh) as [rs Hv]. rewrite Hv.
  apply rows_view_length in Hv. unfold history_of.
  destruct (Nat.ltb 1 (length rs)); simpl; [|lia].
  rewrite length_reverse, length_map, length_drop. lia.
Qed.

Lemma rate_checks_spec good total :
  rate_checks good total = true ->
  exists r, passRate good total = Some r /\
    r = (if bool_decide ((good, total) ∈ half_down_cases)
         then exact_percent good total - 1 else exact_percent good total)%Z /\
    (0 <= r <= 100)%Z /\
    (Z.abs (2 * (100 * Z.of_nat good - r * Z.of_nat total)) <= Z.of_nat total)%Z.
Proof.
  unfold rate_checks. destruct (passRate good total) as [r|]; [|done].
  intros (((He & H0)%andb_prop & H100)%andb_prop & Hh)%andb_prop.
  apply Z.eqb_eq in He. apply Z.leb_le in H0, H100, Hh. eauto with lia.
Qed.

(** ** Properties *)

(** C13 (finding): the percentage both kinds of dashboard show.  For any
    history of at most 201 inspections (what a fetch can return),
    [((good / total) * 100).toFixed(0)] (the module dashboards) and
    [Math.round((good / total) * 100)] (the overview) show the same
    figure: [100 * good / total] rounded half up, except at the eight
    ratios of [half_down_cases], exact halves such as 23 of 40 (57.5%)
    that the binary64 product puts just below the half, where both show
    one point less. *)
Theorem pass_rate_rounding good total :
  (0 < total <= 201)%nat -> (good <= total)%nat ->
  let v := (if bool_decide ((good, total) ∈ half_down_cases)
            then exact_percent good total - 1 else exact_percent good total)%Z in
  passRate good total = Some v /\ Binary64.math_round (ratio_percent good total) = Some v.
Proof.
  intros Ht Hg v. destruct (rate_checks_spec good total (rate_checks_at good total Ht Hg))
    as (r & Hr & Hv & _). subst v. rewrite <- Hv. split; [exact Hr|].
  by rewrite <- toFixed0_math_round by apply ratio_percent_nonneg.
Qed.

(** C16: the figures the module dashboards show after a fetch.  Whatever
    the workbook holds, the dashboard of a module shows as "Total" the
    number of fetched inspections and as "Compliance" a percentage
    between 0 and 100 that is within half a point of the exact share of
    inspections rated 4 or more. *)
Theorem dashboard_pass_rate_bounds url m ss h :
  url <> "" ->
  let hl := history (fetchHistory url true m (Some (doGet ss)) h) in
  ds_total (stats hl) = length hl /\
  exists r, ds_passRate (stats hl) = Some r /\ (0 <= r <= 100)%Z /\
    (Z.abs (2 * (100 * Z.of_nat (length (filter good_inspection hl)) - r * Z.of_nat (length hl)))
       <= Z.of_nat (length hl))%Z.
Proof.
  intros Hu hl. pose proof (fetched_history_length url m ss h Hu) as Hlen. fold hl in Hlen.
  unfold stats. destruct (Nat.eqb_spec (length hl) 0) as [H0|H0].
  - rewrite H0. split; [done|]. exists 0%Z. split_and!; [done|lia|lia|].
    pose proof (good_le_total hl). rewrite H0 in *. replace (length (filter _ _)) with 0%nat by lia.
    simpl. lia.
  - split; [done|]. pose proof (good_le_total hl).
    destruct (rate_checks_spec _ _ (rate_checks_at (length (filter good_inspection hl)) (length hl)
                                     ltac:(lia) ltac:(lia))) as (r & Hr & _ & Hb & Hh).
    exists r. simpl. by rewrite Hr.
Qed.

(** ** The same workbook on the two dashboards *)

(** A Petroleum record with rating [r]. *)
Definition rated_row (r : Z) : list Cell :=
  map (fun h => if String.eqb h "rate" then CNum r else CStr "x") PETROLEUM_HEADERS.

(** 40 Petroleum inspections, 23 of them rated 4. *)
Definition workbook_23_of_40 : Spreadsheet :=
  {["Petroleum" := map CStr PETROLEUM_HEADERS :: replicate 23 (rated_row 4) ++ replicate 17 (rated_row 3)]}.

(** The Petroleum dashboard and the overview both show 57% for these
    records, whose exact share is 57.5%. *)
Example compliance_half_down h date_ms :
  ds_passRate (stats (history (fetchHistory "u" true MPetroleum (Some (doGet workbook_23_of_40)) h)))
    = Some 57%Z /\
  Overview.pass_rate (fetchAllData date_ms (doGet workbook_23_of_40)) = Some 57%Z /\
  exact_percent 23 40 = 58%Z.
Proof. split_and!; vm_compute; reflexivity. Qed.

(** ** Instances *)

Lemma pass_rate_rounding_witness :
  (0 < 40 <= 201)%nat /\ (23 <= 40)%nat /\ passRate 23 40 = Some 57%Z.
Proof.
  split; [lia|split; [lia|]]. rewrite (proj1 (pass_rate_rounding 23 40 ltac:(lia) ltac:(lia))).
  reflexivity.
Defined.

Lemma dashboard_pass_rate_bounds_witness :
  "u" <> "" /\
  let hl := history (fetchHistory "u" true MPetroleum (Some (doGet workbook_23_of_40)) h0) in
  ds_total (stats hl) = length hl /\
  exists r, ds_passRate (stats hl) = Some r /\ (0 <= r <= 100)%Z /\
    (Z.abs (2 * (100 * Z.of_nat (length (filter good_inspection hl)) - r * Z.of_nat (length hl)))
       <= Z.of_nat (length hl))%Z.
Proof. split; [discriminate|]. apply (dashboard_pass_rate_bounds "u" MPetroleum); discriminate. Defined.
