(* ===== verification/OverviewView.v ===== *)
(** * The overview dashboard as it loads and renders

    OverviewDashboard.tsx beyond the figures of [Overview.fetchAllData]:
    the [stats] and [isLoading] state (25-26), the fetches the mount
    effect (28-33) and the refresh button (130) start, each answered
    after its own [await] and ending in [setStats] (74-83) or the
    [catch], and [setIsLoading(false)] in [finally] (84-90); and the
    page it renders (136-277): the loading line, the four KPI cards and
    the recent activity table with its type badges and rating colours.
    Calls in flight are an explicit list, each with the response it
    will get, so the order in which they complete is a choice of the
    run. *)

From S2P Require Import Prelude Float64 Alerts Backend Records Overview Stats.

Section OverviewView.

(** [new Date(x).getTime()], as [Overview.fetchAllData] takes it. *)
Variable date_ms : Cell -> option Z.

(** ** Loading *)

Record ODash := mkODash {
  od_stats : option Stats;                (* [stats] *)
  od_loading : bool;                      (* [isLoading] *)
  od_inflight : list (option Snapshot)    (* fetches awaited, with the snapshot each will read *)
}.

Inductive OEvent :=
| OStart (resp : option Snapshot)   (* [fetchAllData()]: mount effect or refresh button *)
| ODone (k : nat).                  (* the [k]-th call in flight completes *)

Definition odash_init : ODash := mkODash None false [].

(** [fetchAllData] up to its [await]: [setIsLoading(true)]. *)
Definition fetch_start (resp : option Snapshot) (d : ODash) : ODash :=
  mkODash (od_stats d) true (od_inflight d ++ [resp]).

(** The rest of one call: [setStats] with its figures, or the [catch]
    keeping the old ones, then [setIsLoading(false)]. *)
Definition fetch_done (k : nat) (d : ODash) : ODash :=
  match od_inflight d !! k with
  | Some resp => mkODash (overview_refresh date_ms resp (od_stats d)) false (delete k (od_inflight d))
  | None => d
  end.

Definition odash_step (d : ODash) (e : OEvent) : ODash :=
  match e with
  | OStart resp => fetch_start resp d
  | ODone k => fetch_done k d
  end.

Definition odash_run (d : ODash) (es : list OEvent) : ODash := fold_left odash_step es d.

(** The mount effect: a fetch when the script URL is not empty. *)
Definition odash_mount (url : string) (resp : option Snapshot) : ODash :=
  if String.eqb url "" then odash_init else fetch_start resp odash_init.

(** ** What the page shows *)

Record Card := mkCard { card_title : string; card_value : string }.

(** The KPI cards (141-169): [stats?.x || 0], the safety score with a
    [%]; a pass rate that is NaN shows as [0]. *)
Definition kpi_cards (st : option Stats) : list Card :=
  let n f := match st with Some s => f s | None => 0%nat end in
  let score := match st with Some s => default 0%Z (pass_rate s) | None => 0%Z end in
  [mkCard "Total Inspections" (pretty (n total_inspections));
   mkCard "Safety Score" (pretty score +:+ "%");
   mkCard "Active Vehicles" (pretty (n active_vehicles));
   mkCard "Critical Failures" (pretty (n critical_issues))].

Inductive Tone := Green | Red | Amber | Blue | Purple | Orange.

#[export] Instance Tone_eq_dec : EqDecision Tone.
Proof. solve_decision. Defined.

(** The colour of a rating (262): green from 4, red up to 2, amber
    otherwise, NaN included. *)
Definition rate_tone (i : Inspection) : Tone :=
  match js_number (field (insp_item i) "rate") with
  | Some r => if Z.leb 4 r then Green else if Z.leb r 2 then Red else Amber
  | None => Amber
  end.

(** The type badge (248-253): blue for General, purple for Acid, orange
    for the others. *)
Definition type_tone (t : string) : Tone :=
  if String.eqb t "General" then Blue else if String.eqb t "Acid" then Purple else Orange.

Record ActivityRow := mkActivityRow {
  ar_type : string;
  ar_type_tone : Tone;
  ar_vehicle : Cell;
  ar_inspector : Cell;
  ar_rate : string;
  ar_rate_tone : Tone
}.

(** One row of the recent activity table (246-266); the date column is
    [toLocaleString] of the timestamp and not modelled. *)
Definition activity_row (i : Inspection) : ActivityRow :=
  mkActivityRow (insp_type i) (type_tone (insp_type i)) (field (insp_item i) "truckNo")
                (field (insp_item i) "inspectedBy") (js_string (field (insp_item i) "rate") +:+ "/5")
                (rate_tone i).

Inductive OView :=
| OLoadingView
| OBody (cards : list Card) (rows : list ActivityRow) (no_activity : bool).

(** The page (136-277): the loading line while loading without figures,
    otherwise the cards and the table, whose "No recent activity found."
    row needs figures with an empty list ([undefined === 0] is false). *)
Definition overview_view (d : ODash) : OView :=
  if od_loading d && bool_decide (od_stats d = None) then OLoadingView
  else
    let recent := match od_stats d with Some s => recent_activity s | None => [] end in
    OBody (kpi_cards (od_stats d)) (map activity_row recent)
          (match od_stats d with Some s => bool_decide (recent_activity s = []) | None => false end).

(** ** Lemmas *)

Lemma rate_tone_green i : rate_tone i = Green <-> passed i = true.
Proof.
  unfold rate_tone, passed. destruct (js_number _) as [r|]; [|done].
  destruct (Z.leb 4 r), (Z.leb r 2); done.
Qed.

Lemma rate_tone_red i : rate_tone i = Red <-> critical i = true.
Proof.
  unfold rate_tone, critical. destruct (js_number _) as [r|]; [|done].
  destruct (Z.leb 4 r) eqn:E4, (Z.leb r 2) eqn:E2; try done.
  apply Z.leb_le in E4, E2. lia.
Qed.

(** The table colours a rating green exactly when the dashboard counts
    it as passed, red exactly when it counts it as critical. *)
Lemma activity_tones_counted l :
  length (filter (fun r => bool_decide (ar_rate_tone r = Green)) (map activity_row l)) =
    length (filter passed l) /\
  length (filter (fun r => bool_decide (ar_rate_tone r = Red)) (map activity_row l)) =
    length (filter critical l).
Proof.
  induction l as [|i l [IHg IHr]]; [done|]. rewrite map_cons, !filter_cons. cbn [ar_rate_tone activity_row].
  rewrite (bool_decide_ext _ _ (rate_tone_green i)), (bool_decide_ext _ _ (rate_tone_red i)).
  split; [destruct (passed i)|destruct (critical i)]; simpl; lia.
Qed.

Lemma refresh_keeps_some resp st : st <> None -> overview_refresh date_ms resp st <> None.
Proof. by destruct resp. Qed.

Lemma odash_step_keeps_figures d e : od_stats d <> None -> od_stats (odash_step d e) <> None.
Proof.
  destruct e as [resp|k]; simpl; [done|]. unfold fetch_done.
  destruct (_ !! k); simpl; [apply refresh_keeps_some|done].
Qed.

End OverviewView.

(** ** Properties *)

(** Once the dashboard has figures, no completion order of the fetches
    in flight, and no failed fetch, blanks it again: the figures stay
    and the "Loading Analytics..." line is never shown. *)
Theorem figures_never_blank date_ms d es :
  od_stats d <> None ->
  od_stats (odash_run date_ms d es) <> None /\ overview_view (odash_run date_ms d es) <> OLoadingView.
Proof.
  intros Hd. assert (Hs : od_stats (odash_run date_ms d es) <> None).
  { unfold odash_run. induction es as [|e es IH] in d, Hd |- *; [done|].
    simpl. apply IH, odash_step_keeps_figures, Hd. }
  split; [exact Hs|]. unfold overview_view. by rewrite bool_decide_eq_false_2, andb_false_r.
Qed.

(** The fetch of the mount effect, once answered, shows the figures of
    [fetchAllData] on the cards and the ten newest inspections in the
    table. *)
Lemma mount_fetch_shows_figures date_ms url json :
  url <> "" ->
  let d := odash_run date_ms (odash_mount url (Some json)) [ODone 0] in
  let s := fetchAllData date_ms json in
  od_stats d = Some s /\ od_loading d = false /\ od_inflight d = [] /\
  overview_view d =
    OBody (kpi_cards (Some s)) (map activity_row (recent_activity s)) (bool_decide (recent_activity s = [])).
Proof.
  intros Hu. apply String.eqb_neq in Hu. unfold odash_mount. rewrite Hu. done.
Qed.

(** ** Instances *)

(** Two fetches in flight, the first started before 40 inspections
    were recorded and answered last: its older snapshot replaces the
    newer figures, and the loading flag was already cleared while it was
    still awaited. *)
Example stale_fetch_wins :
  let dm := fun _ : Cell => @None Z in
  let d1 := odash_run dm odash_init [OStart (Some (doGet ∅)); OStart (Some (doGet workbook_23_of_40)); ODone 1] in
  let d2 := odash_step dm d1 (ODone 0) in
  option_map total_inspections (od_stats d1) = Some 40%nat /\ od_loading d1 = false /\
  length (od_inflight d1) = 1%nat /\
  option_map total_inspections (od_stats d2) = Some 0%nat.
Proof. vm_compute. split_and!; reflexivity. Qed.

Lemma figures_never_blank_witness :
  let dm := fun _ : Cell => @None Z in
  let d := odash_run dm (odash_mount "u" (Some (doGet workbook_23_of_40))) [ODone 0] in
  od_stats d <> None /\
  overview_view (odash_run dm d [OStart None; ODone 0]) <> OLoadingView.
Proof.
  cbv zeta. assert (H : od_stats (odash_run (fun _ : Cell => @None Z)
    (odash_mount "u" (Some (doGet workbook_23_of_40))) [ODone 0]) <> None) by (vm_compute; discriminate).
  split; [exact H|]. exact (proj2 (figures_never_blank _ _ [OStart None; ODone 0] H)).
Defined.
