(* ===== verification/PetroleumView.v ===== *)
(** * The Petroleum dashboard (src/src/views/PetroleumDashboard.tsx)

    [Module Petroleum]: the list of petroleum inspections with its search
    box ([displayList], lines 18-33), the [canCreate] gate of its "Start
    New Inspection" button (line 47), the result line of the share links
    (35, 41) and the render (49-180): the header's buttons and the
    "Total" and "Compliance" cards fed by App.tsx's [stats] memo
    ([Stats.stats]), the "Last 10" badge, the list's loading, empty and
    row states, and its footer.  The history items are [Records.Item]s as
    [fetchHistory] builds them from the snapshot.  The result the share
    links state for a record is set against the alert [Alerts.classify]
    raises for the same rating. *)

From S2P Require Import Prelude Session Queue Records Alerts Stats.

Module Petroleum.

(** [x && x.toLowerCase().includes(q)]: a truthy value that is not a
    string has no [toLowerCase], and the call throws ([None]). *)
Definition field_matches (c : Cell) (q : string) : option bool :=
  if js_truthy c then match c with CStr s => Some (str_contains q (to_lower s)) | _ => None end
  else Some false.

(** The three tests joined by [||], which stops at the first [true]. *)
Definition item_matches (q : string) (it : Item) : option bool :=
  match field_matches (default CUndef (it !! "truckNo")) q with
  | Some false =>
      match field_matches (default CUndef (it !! "driverName")) q with
      | Some false => field_matches (default CUndef (it !! "inspectedBy")) q
      | r => r
      end
  | r => r
  end.

(** [list.filter(p)] with a [p] that may throw. *)
Fixpoint filter_throwing {A} (p : A -> option bool) (l : list A) : option (list A) :=
  match l with
  | [] => Some []
  | x :: l' =>
      match p x, filter_throwing p l' with
      | Some b, Some r => Some (if b then x :: r else r)
      | _, _ => None
      end
  end.

(** [displayList]: the matches of a non-blank search, the first ten
    records otherwise; [None] when the [useMemo] throws. *)
Definition displayList (searchTerm : string) (historyList : list Item) : option (list Item) :=
  if negb (String.eqb (trim searchTerm) "")
  then filter_throwing (item_matches (to_lower searchTerm)) historyList
  else Some (take 10 historyList).

(** [canCreate = userRole === 'Admin' || userRole === 'Inspector']. *)
Definition canCreate (userRole : option string) : bool :=
  match userRole with
  | Some r => String.eqb r "Admin" || String.eqb r "Inspector"
  | None => false
  end.

(** The result line of a record's share links: [handleShareWhatsApp]
    (line 35) tells passed, warning and critical apart, [handleShareEmail]
    (line 41) passed and the rest; NaN fails every comparison. *)
Inductive ShareResult := SPassed | SWarning | SCriticalFail.

Definition whatsapp_status (rate : Cell) : ShareResult :=
  match js_number rate with
  | Some r => if Z.leb 4 r then SPassed else if Z.eqb r 3 then SWarning else SCriticalFail
  | None => SCriticalFail
  end.

Definition email_status (rate : Cell) : string :=
  match js_number rate with
  | Some r => if Z.leb 4 r then "PASSED" else "ATTENTION REQUIRED"
  | None => "ATTENTION REQUIRED"
  end.


(** ** The render *)

(** The round badge of a row (127-131): the colour [Number(item.rate)]
    selects and the rating it shows. *)
Definition rate_badge (rate : Cell) : string :=
  match js_number rate with
  | Some r => if Z.leb 4 r then "bg-gray-400" else if Z.eqb r 3 then "bg-gray-400" else "bg-gray-500"
  | None => "bg-gray-500"
  end.

(** A row (124-168): the badge, the rating, the truck, the inspector,
    and the record its View, WhatsApp and e-mail buttons act on. *)
Record RowView := mkRowView {
  rv_badge : string; rv_rate : Cell; rv_truck : Cell; rv_inspector : Cell; rv_item : Item
}.

Definition field_of (it : Item) (k : string) : Cell := default CUndef (it !! k).

Definition row_view (it : Item) : RowView :=
  mkRowView (rate_badge (field_of it "rate")) (field_of it "rate") (field_of it "truckNo")
            (field_of it "inspectedBy") it.

(** The list's body (115-171): loading, the empty message with its hint,
    or the rows. *)
Inductive ListBody := LLoading | LEmpty (hint : string) | LRows (rows : list RowView).

Definition list_body (isLoading : bool) (searchTerm : string) (userRole : option string)
    (dl : list Item) : ListBody :=
  if isLoading then LLoading
  else match dl with
       | [] =>
           LEmpty (if negb (String.eqb searchTerm "") then "Try a different search term."
                   else if canCreate userRole then "Submit a new inspection to see it here."
                   else "Ask an inspector to submit reports.")
       | _ => LRows (map row_view dl)
       end.

(** The dashboard as rendered. *)
Record DashView := mkDashView {
  dv_start_button : bool;        (* {canCreate && <button>Start New Inspection} *)
  dv_total : nat;                (* {stats.total} *)
  dv_compliance : option Z;      (* {stats.passRate}% *)
  dv_last10_badge : bool;        (* {!searchTerm && <span>Last 10</span>} *)
  dv_body : ListBody;
  dv_footer : option string      (* {displayList.length > 0 && ...} *)
}.

(** The component's render; [None] when [useMemo] throws and nothing is
    rendered. *)
Definition render (stats : DashStats) (isLoading : bool) (historyList : list Item)
    (userRole : option string) (searchTerm : string) : option DashView :=
  match displayList searchTerm historyList with
  | None => None
  | Some dl =>
      Some (mkDashView (canCreate userRole) (ds_total stats) (ds_passRate stats)
              (String.eqb searchTerm "")
              (list_body isLoading searchTerm userRole dl)
              (match dl with
               | [] => None
               | _ => Some (if negb (String.eqb searchTerm "") then "Showing matching results"
                            else "Showing last 10 records")
               end))
  end.

End Petroleum.

(** ** Lemmas *)

Lemma filter_throwing_None {A} (p : A -> option bool) l x :
  x ∈ l -> p x = None -> Petroleum.filter_throwing p l = None.
Proof.
  induction l as [|y l IH]; [by intros ?%not_elem_of_nil|].
  intros [->|Hx]%elem_of_cons Hp; simpl; [by rewrite Hp|].
  rewrite (IH Hx Hp). by destruct (p y).
Qed.

(** ** Properties *)

(** C21 (finding): searching the Petroleum dashboard crashes on a numeric
    truck number.  The search calls [item.truckNo.toLowerCase()] on every
    history record whose truck cell is truthy; the sheet keeps a
    registration typed as digits as a number, which has no
    [toLowerCase], so any non-blank search throws inside [useMemo] and
    the dashboard cannot render, whatever is searched. *)
Theorem search_throws_on_numeric_truck q hist it :
  trim q <> "" -> it ∈ hist -> js_truthy (default CUndef (it !! "truckNo")) = true ->
  (forall s, it !! "truckNo" <> Some (CStr s)) ->
  Petroleum.displayList q hist = None.
Proof.
  intros Hq Hin Ht Hs. unfold Petroleum.displayList.
  rewrite (proj2 (String.eqb_neq _ _) Hq). simpl.
  apply (filter_throwing_None _ _ it Hin). unfold Petroleum.item_matches, Petroleum.field_matches.
  rewrite Ht. destruct (it !! "truckNo") as [c|]; [|done].
  destruct c; try done. by destruct (Hs s).
Qed.

Definition numeric_truck_record : Item :=
  {[ "truckNo" := CNum 4521; "driverName" := CStr "Driver One"; "inspectedBy" := CStr "Insp One" ]}.

Definition string_truck_record : Item :=
  {[ "truckNo" := CStr "KDA 123A"; "driverName" := CStr "Driver Two"; "inspectedBy" := CStr "Insp Two" ]}.

Lemma search_throws_on_numeric_truck_witness :
  trim "kda" <> "" /\ numeric_truck_record ∈ [string_truck_record; numeric_truck_record] /\
  js_truthy (default CUndef (numeric_truck_record !! "truckNo")) = true /\
  (forall s, numeric_truck_record !! "truckNo" <> Some (CStr s)) /\
  Petroleum.displayList "kda" [string_truck_record; numeric_truck_record] = None.
Proof.
  assert (Hq : trim "kda" <> "") by (vm_compute; discriminate).
  assert (Hin : numeric_truck_record ∈ [string_truck_record; numeric_truck_record])
    by (apply elem_of_cons; right; apply elem_of_cons; left; reflexivity).
  assert (Hs : forall s, numeric_truck_record !! "truckNo" <> Some (CStr s))
    by (intros s; vm_compute; discriminate).
  split_and!; [exact Hq|exact Hin|reflexivity|exact Hs|].
  exact (search_throws_on_numeric_truck "kda" _ _ Hq Hin eq_refl Hs).
Defined.

(** What a shared Petroleum record says and the alert its rating raises
    agree on every rating the sheet can hold as a number: a warning is
    shared exactly when the rating raises a warning, a pass only when it
    raises none, and a critical fail when it raises a critical alert or,
    for a rating [Number] cannot read, no alert at all. *)
Theorem share_status_matches_alerts c :
  (Petroleum.whatsapp_status c = Petroleum.SWarning <-> classify (js_number c) = Some Warning) /\
  (Petroleum.whatsapp_status c = Petroleum.SPassed -> classify (js_number c) = None) /\
  (Petroleum.whatsapp_status c = Petroleum.SCriticalFail <->
     classify (js_number c) = Some Critical \/ js_number c = None) /\
  (Petroleum.email_status c = "PASSED" <-> Petroleum.whatsapp_status c = Petroleum.SPassed).
Proof.
  unfold Petroleum.whatsapp_status, Petroleum.email_status, classify.
  destruct (js_number c) as [r|]; [|naive_solver].
  destruct (Z.leb 4 r) eqn:E4, (Z.leb r 2) eqn:E2, (Z.eqb r 3) eqn:E3;
    rewrite ?Z.leb_le, ?Z.leb_gt, ?Z.eqb_eq, ?Z.eqb_neq in *;
    split_and!; intros; try split; intros; try discriminate; try naive_solver; lia.
Qed.

(** Without a real search the dashboard lists the ten newest records
    under cards counting the whole history; the "Last 10" badge and the
    footer only look at whether the box is empty, so a search box holding
    only spaces hides the badge and labels the unfiltered ten
    "Showing matching results". *)
Theorem blank_search_labels hist role q :
  trim q = "" ->
  exists v, Petroleum.render (stats hist) false hist role q = Some v /\
    Petroleum.dv_total v = length hist /\
    Petroleum.dv_last10_badge v = bool_decide (q = "") /\
    (hist <> [] ->
       Petroleum.dv_body v = Petroleum.LRows (map Petroleum.row_view (take 10 hist)) /\
       Petroleum.dv_footer v =
         Some (if bool_decide (q = "") then "Showing last 10 records" else "Showing matching results")).
Proof.
  intros Hq. unfold Petroleum.render, Petroleum.displayList. rewrite Hq. simpl.
  eexists. split; [reflexivity|]. simpl. split.
  - unfold stats. by destruct (Nat.eqb_spec (length hist) 0) as [->|].
  - split; [by destruct (String.eqb_spec q ""); case_bool_decide|].
    intros Hne. destruct hist as [|it hist]; [done|]. simpl.
    by destruct (String.eqb_spec q ""); case_bool_decide.
Qed.

(** Twelve records and a search box holding a space: ten unfiltered rows
    under "Showing matching results", no "Last 10" badge. *)
Example space_search_shows_last_ten :
  match Petroleum.render (stats (replicate 12 string_truck_record)) false
          (replicate 12 string_truck_record) (Some "Inspector") " " with
  | Some v =>
      Petroleum.dv_last10_badge v = false /\
      Petroleum.dv_footer v = Some "Showing matching results" /\
      (match Petroleum.dv_body v with Petroleum.LRows rows => length rows = 10%nat | _ => False end)
  | None => False
  end.
Proof. vm_compute. split_and!; reflexivity. Qed.
