(* ===== verification/Shell.v ===== *)
(** * The App component's layout: header, progress bar, main area, footer

    App.tsx 1148-1390, the part of the App component's render that
    composes the others: the header's title (1155-1162), the "Pending
    Sync" indicator and its dot (1166-1186) that run
    [syncOfflineQueue] by hand, the badge with the current section's
    label (1197-1202), the progress bar of the form with its clickable
    steps (1218-1249), the page the main area shows for the navigation
    state (1253-1355) and the footer's Back and Next buttons (1358-1386).
    Navigation is [Session]'s: the progress bar's click is
    [Session.jump_to_section], the footer's buttons [handle_back] and
    [handle_next].  The sync is [Queue]'s. *)

From S2P Require Import Prelude Session Queue.
Import Impl.

(** ** Header *)

(** The [h1] of the header. *)
Definition header_title (m : ModuleId) : string :=
  match m with
  | MOverview => "Executive Dashboard"
  | MPetroleum => "Petroleum Check #1"
  | MPetroleumV2 => "Petroleum Check #2"
  | MAcid => "Acid Tanker Check"
  | MSettings => "System Settings"
  | MUsers => "User Management"
  | MGeneral => "SafetyCheck"
  end.

(** The offline sync indicator: its text, its tooltip and [disabled]. *)
Record SyncButton := mkSyncButton { sb_label : string; sb_title : string; sb_disabled : bool }.

(** [{offlineQueue.length > 0 && <button ...>}]; the small dot of narrow
    screens (1183-1185) has the same condition, handler and
    [disabled]. *)
Definition sync_indicator (c : Client) : option SyncButton :=
  match mem_queue c with
  | [] => None
  | q =>
      Some (mkSyncButton
              (if is_syncing c then "Syncing..." else "Pending Sync (" +:+ pretty (length q) +:+ ")")
              (pretty (length q) +:+ " records pending upload. Click to Sync Now.")
              (is_syncing c))
  end.

(** A click on the indicator: nothing when it is not rendered or
    disabled, else [onClick={syncOfflineQueue}]. *)
Definition click_sync (net : nat -> bool) (c : Client) : option nat * Client :=
  match sync_indicator c with
  | Some b => if sb_disabled b then (None, c) else trigger_sync ManualButton net c
  | None => (None, c)
  end.

(** [SECTIONS[currentSection].label] while the form is shown; [None]
    where the lookup is [undefined] and reading [.label] throws. *)
Definition section_badge (n : Nav) : option (option string) :=
  if in_form n then Some (sec_label <$> SECTIONS !! current_section n) else None.

(** ** Progress bar *)

(** A step of the bar: its title, [isActive], [isCompleted], the number
    it shows ([None]: the check mark of a completed step) and the
    connector after it ([None] after the last step, else whether it is
    green). *)
Record StepView := mkStepView {
  sv_title : string;
  sv_active : bool;
  sv_completed : bool;
  sv_number : option nat;
  sv_connector : option bool
}.

Definition step_view (cur idx : nat) (s : FormSection) : StepView :=
  mkStepView (sec_title s) (Nat.eqb idx cur) (Nat.ltb idx cur)
             (if Nat.ltb idx cur then None else Some (S idx))
             (if Nat.ltb idx (sections_length - 1) then Some (Nat.ltb idx cur) else None).

(** [SECTIONS.map((section, idx) => ...)], rendered with the form. *)
Definition progress_bar (n : Nav) : list StepView :=
  if in_form n then imap (step_view (current_section n)) SECTIONS else [].

(** ** Main area *)

Inductive Page :=
| POverview | PSettings | PUsers
| PDashboard (m : ModuleId)
| PForm (m : ModuleId) (section : nat).

(** The conditional blocks of [<main>], in order.  The form's block
    renders the current section of the active module ([PForm]; which
    inputs and checklist items it holds is [InspectionForm] and
    [Checklist]); [currentSection] past the last section renders an
    empty form. *)
Definition main_pages (n : Nav) : list Page :=
  let m := active_module n in
  (if bool_decide (m = MOverview) then [POverview] else []) ++
  (if bool_decide (m = MSettings) then [PSettings] else []) ++
  (if bool_decide (m = MUsers) then [PUsers] else []) ++
  (if bool_decide (m = MGeneral) && bool_decide (general_mode n = Dashboard)
   then [PDashboard MGeneral] else []) ++
  (if bool_decide (m = MPetroleum) && bool_decide (petroleum_mode n = Dashboard)
   then [PDashboard MPetroleum] else []) ++
  (if bool_decide (m = MPetroleumV2) && bool_decide (petroleum_v2_mode n = Dashboard)
   then [PDashboard MPetroleumV2] else []) ++
  (if bool_decide (m = MAcid) && bool_decide (acid_mode n = Dashboard)
   then [PDashboard MAcid] else []) ++
  (if in_form n && Nat.ltb (current_section n) sections_length
   then [PForm m (current_section n)] else []).

(** ** Footer *)

(** The Back button's text and whether "Next Section" is shown (else
    "Review & Submit above"). *)
Record Footer := mkFooter { back_label : string; next_shown : bool }.

Definition footer (n : Nav) : option Footer :=
  if in_form n then
    Some (mkFooter (if Nat.eqb (current_section n) 0 then "Back to Dashboard" else "Back")
                   (Nat.ltb (current_section n) (sections_length - 1)))
  else None.

(** ** Lemmas *)

(** A manual sync from a quiescent, online client whose network accepts
    every request delivers the whole queue, in order, and empties it. *)
Lemma manual_sync_drains net c :
  quiescent c -> online c = true -> (forall k, net k = true) ->
  let '(r, c') := trigger_sync ManualButton net c in
  r = (if bool_decide (ls_queue c = []) then None else Some (length (ls_queue c))) /\
  ls_queue c' = [] /\ mem_queue c' = [] /\ remote c' = remote c ++ ls_queue c.
Proof.
  intros [Hm Hs] Ho Hn. cbn -[sync_loop]. rewrite Hs. unfold syncOfflineQueue.
  destruct (ls_queue c) as [|item rest] eqn:Hl.
  - simpl. by rewrite Hm, Hl, app_nil_r.
  - rewrite (sync_loop_correct net 0 (item :: rest)) by (simpl; congruence).
    rewrite first_failure_all by (intros i; unfold transport; simpl; by rewrite Ho, Hn).
    simpl. rewrite drop_ge, firstn_all by (simpl; lia). done.
Qed.

Lemma sync_indicator_none c : sync_indicator c = None <-> mem_queue c = [].
Proof. unfold sync_indicator. by destruct (mem_queue c). Qed.

(** With a section in range the main area shows exactly one page. *)
Lemma main_pages_one n : (current_section n < sections_length)%nat -> length (main_pages n) = 1%nat.
Proof.
  intros H. unfold main_pages. rewrite (proj2 (Nat.ltb_lt _ _) H).
  destruct n as [m g p p2 a k]; simpl. destruct m, g, p, p2, a; reflexivity.
Qed.

Lemma progress_bar_lookup n idx sv :
  in_form n = true -> progress_bar n !! idx = Some sv ->
  (idx < sections_length)%nat /\ sv_active sv = Nat.eqb idx (current_section n) /\
  sv_completed sv = Nat.ltb idx (current_section n).
Proof.
  intros Hf. unfold progress_bar. rewrite Hf, list_lookup_imap.
  destruct (SECTIONS !! idx) as [s|] eqn:E; [|done]. intros [= <-].
  split; [by eapply lookup_lt_Some|done].
Qed.

(** While the form is shown with a section in range: the badge, the
    bar's length and its active and completed steps. *)
Lemma layout_in_form n :
  (current_section n < sections_length)%nat -> in_form n = true ->
  (exists s, SECTIONS !! current_section n = Some s /\ section_badge n = Some (Some (sec_label s))) /\
  length (progress_bar n) = sections_length /\
  (forall idx sv, progress_bar n !! idx = Some sv ->
     (sv_active sv = true <-> idx = current_section n) /\
     (sv_completed sv = true <-> (idx < current_section n)%nat)).
Proof.
  intros Hk Hf. split_and!.
  - destruct (lookup_lt_is_Some_2 SECTIONS (current_section n) Hk) as [s Hs].
    exists s. unfold section_badge. by rewrite Hf, Hs.
  - unfold progress_bar. by rewrite Hf, length_imap.
  - intros idx sv Hl. destruct (progress_bar_lookup n idx sv Hf Hl) as (_ & -> & ->).
    by rewrite Nat.eqb_eq, Nat.ltb_lt.
Qed.

Lemma layout_outside_form n :
  in_form n = false -> progress_bar n = [] /\ section_badge n = None /\ footer n = None.
Proof. intros Hf. unfold progress_bar, section_badge, footer. by rewrite Hf. Qed.

Lemma admin_pages_hidden n :
  active_module n <> MSettings -> active_module n <> MUsers ->
  (PSettings ∉ main_pages n) /\ (PUsers ∉ main_pages n).
Proof.
  intros H1 H2. unfold main_pages.
  rewrite (bool_decide_eq_false_2 _ H1), (bool_decide_eq_false_2 _ H2).
  simpl. split; repeat case_match; set_solver.
Qed.

(** ** Properties *)

(** C25: the manual flush of the header.  While a sync runs the indicator is
    disabled and a click does nothing.  Between handlers it is shown
    exactly when records are queued, reads "Pending Sync (n)" with [n]
    the number queued, and a click while online with a network that
    accepts every request delivers the whole queue in order, reports
    how many were sent and removes the indicator. *)
Theorem sync_indicator_flush net c :
  (is_syncing c = true -> click_sync net c = (None, c)) /\
  (quiescent c ->
   (sync_indicator c = None <-> ls_queue c = []) /\
   (forall b, sync_indicator c = Some b ->
      sb_label b = "Pending Sync (" +:+ pretty (length (ls_queue c)) +:+ ")" /\ sb_disabled b = false) /\
   (online c = true -> (forall k, net k = true) ->
    let '(r, c') := click_sync net c in
    sync_indicator c' = None /\ remote c' = remote c ++ ls_queue c /\
    r = (if bool_decide (ls_queue c = []) then None else Some (length (ls_queue c))))).
Proof.
  split.
  - intros Hs. unfold click_sync, sync_indicator. rewrite Hs. by destruct (mem_queue c).
  - intros Hq. pose proof Hq as [Hm Hs]. rewrite sync_indicator_none, Hm. split; [done|]. split.
    + intros b. unfold sync_indicator. rewrite Hm, Hs. destruct (ls_queue c); [done|].
      intros [= <-]. done.
    + intros Ho Hn. unfold click_sync.
      pose proof (manual_sync_drains net c Hq Ho Hn) as Hd.
      destruct (sync_indicator c) as [b|] eqn:Hi.
      * assert (Hb : sb_disabled b = false).
        { revert Hi. unfold sync_indicator. rewrite Hs. destruct (mem_queue c); [done|]. by intros [= <-]. }
        rewrite Hb. destruct (trigger_sync ManualButton net c) as [r c'].
        destruct Hd as (Hr & _ & Hm' & Hrem). by rewrite sync_indicator_none.
      * apply sync_indicator_none in Hi. rewrite Hm in Hi. rewrite Hi, app_nil_r.
        split_and!; [by apply sync_indicator_none; rewrite Hm| done | done].
Qed.

(** C23: the layout follows the navigation.  After any sequence of sidebar
    selections, Next/Back presses, new-inspection buttons, form resets
    and progress-bar clicks from a valid state, the main area shows
    exactly one page, never Settings or Users for a non-admin; while the
    form is shown the header's badge reads the current section's label
    (the lookup [SECTIONS[currentSection]] never fails), the progress
    bar has one step per section, the current one active and exactly
    those before it completed; otherwise neither the bar, the badge nor
    the footer is shown. *)
Theorem layout_follows_navigation u es n :
  nav_ok u n ->
  let n' := nav_run u es n in
  length (main_pages n') = 1%nat /\
  (in_form n' = true ->
     (exists s, SECTIONS !! current_section n' = Some s /\ section_badge n' = Some (Some (sec_label s))) /\
     length (progress_bar n') = sections_length /\
     (forall idx sv, progress_bar n' !! idx = Some sv ->
        (sv_active sv = true <-> idx = current_section n') /\
        (sv_completed sv = true <-> (idx < current_section n')%nat))) /\
  (in_form n' = false -> progress_bar n' = [] /\ section_badge n' = None /\ footer n' = None) /\
  (is_admin u = false -> (PSettings ∉ main_pages n') /\ (PUsers ∉ main_pages n')).
Proof.
  intros Hok n'. destruct (nav_run_inv u es n Hok) as [Hk Hadm]. fold n' in Hk, Hadm.
  split_and!; [by apply main_pages_one|by apply layout_in_form|apply layout_outside_form|].
  intros Ha. destruct (Hadm Ha). by apply admin_pages_hidden.
Qed.

(** ** Instances *)

Lemma sync_indicator_flush_witness :
  quiescent three_queued /\ online three_queued = true /\
  sync_indicator three_queued =
    Some (mkSyncButton "Pending Sync (3)" "3 records pending upload. Click to Sync Now." false) /\
  (let '(r, c') := click_sync (fun _ => true) three_queued in
   sync_indicator c' = None /\ remote c' = remote three_queued ++ ls_queue three_queued /\
   r = (if bool_decide (ls_queue three_queued = []) then None
        else Some (length (ls_queue three_queued)))).
Proof.
  split_and!; [split; reflexivity|reflexivity|reflexivity|].
  apply (sync_indicator_flush (fun _ => true) three_queued); [split; reflexivity|reflexivity|done].
Defined.

Definition jump_run : list NavEvent := [NStart MPetroleum; NSelect MPetroleum; NStart MPetroleum; NJump 6; NBack].

Lemma layout_follows_navigation_witness :
  nav_ok inspector_user nav_start /\
  current_section (nav_run inspector_user jump_run nav_start) = 5%nat /\
  length (main_pages (nav_run inspector_user jump_run nav_start)) = 1%nat.
Proof.
  split; [split; [unfold sections_length; simpl; lia|intros _; split; discriminate]|].
  split; [reflexivity|].
  apply (layout_follows_navigation inspector_user jump_run nav_start).
  split; [unfold sections_length; simpl; lia|intros _; split; discriminate].
Defined.
